(** * QuadGNSS-Sim: the signal-synthesis engine and its orchestrator

    A shallow embedding of the code generators, the providers, the NCO and
    the orchestrator of QuadGNSS-Sim, and the properties of its
    specification checked against them.

    Conventions of the embedding.
    - C++ [int], [unsigned int], [int16_t] and [int32_t] values are [Z];
      conversions that can lose bits are written out with [wrap].
    - C++ [double] and [float] values are idealised as real numbers [R];
      [M_PI] is [PI]; [static_cast] from a floating value to an integer is
      truncation toward zero.
    - A function that can throw [QuadGNSSException] returns [error + A].
    - Mutated objects are passed in and returned (state passing). *)

From Stdlib Require Import String.
From Stdlib Require Import ZArith List Bool Lia.
From Stdlib Require Import Reals Lra.
Import ListNotations.

Open Scope Z_scope.

(* ================================================================== *)
(** * Part I: the embedding                                            *)
(* ================================================================== *)

(** ** Fixed-width integers *)

Module FixedWidth.

(** Two's-complement reduction of [x] to [w] bits: the value a
    conversion to a signed [w]-bit integer keeps. *)
Definition wrap (w : Z) (x : Z) : Z :=
  (x + 2 ^ (w - 1)) mod 2 ^ w - 2 ^ (w - 1).

(** [static_cast<int16_t>(x)] of an integer. *)
Definition int16_cast (x : Z) : Z := wrap 16 x.

(** The value of an [int32_t] expression. *)
Definition int32 (x : Z) : Z := wrap 32 x.

Definition INT16_MAX : Z := 32767.
Definition INT16_MIN : Z := -32768.

(** [std::max(-32768, std::min(32767, x))]. *)
Definition clamp16 (x : Z) : Z := Z.max INT16_MIN (Z.min INT16_MAX x).

(** The range of an [int16_t]. *)
Definition in_int16 (x : Z) : Prop := INT16_MIN <= x <= INT16_MAX.

(** A [std::complex<int16_t>] or [std::complex<int32_t>]: (real, imag). *)
Definition cplx : Type := (Z * Z)%type.

Definition sample_in_int16 (s : cplx) : Prop :=
  in_int16 (fst s) /\ in_int16 (snd s).

End FixedWidth.
Import FixedWidth.

(** ** Code generators *)

Module Lfsr.

(** [(x >> k) & 1]. *)
Definition bit (x k : Z) : Z := Z.land (Z.shiftr x k) 1.

(** [((feedback & 1) << top) | (reg >> 1)]: the register shifted one place
    to the right with the feedback bit entering at position [top]. *)
Definition shift_in (top feedback reg : Z) : Z :=
  Z.lor (Z.shiftl (Z.land feedback 1) top) (Z.shiftr reg 1).

(** The register after [n] chip advances. *)
Definition run (advance : Z -> Z) (n : nat) (reg : Z) : Z :=
  Nat.iter n advance reg.

End Lfsr.
Import Lfsr.

(** *** GPS L1 C/A (cdma_providers.cpp, class GpsL1Provider) *)

Module Gps.

(** [struct GPSCodeState]. *)
Record GPSCodeState : Type := mkGPSCodeState {
  g1_register : Z;
  g2_register : Z;
  chip_count : Z
}.

(** [GPSCodeState()]: both registers all ones. *)
Definition GPSCodeState_default : GPSCodeState :=
  mkGPSCodeState 0x3FF 0x3FF 0.

(** [gps_tap_delays[37][2]]. *)
Definition gps_tap_delays : list (Z * Z) :=
  [(2, 6);  (3, 7);  (4, 8);  (5, 9);  (1, 9);  (2, 10); (1, 8);  (2, 9);
   (3, 10); (2, 3);  (3, 4);  (5, 6);  (6, 7);  (7, 8);  (8, 9);  (9, 10);
   (1, 4);  (2, 5);  (3, 6);  (4, 7);  (5, 8);  (6, 9);  (1, 3);  (4, 6);
   (5, 7);  (6, 8);  (7, 9);  (8, 10); (1, 6);  (2, 7);  (3, 8);  (4, 9);
   (5, 10); (4, 10); (1, 7);  (2, 8);  (4, 10)].

(** [gps_tap_delays[prn-1][1]]. *)
Definition tap_delay (prn : Z) : Z :=
  snd (nth (Z.to_nat (prn - 1)) gps_tap_delays (0, 0)).

(** G1 feedback: [((g1 >> 2) & 1) ^ ((g1 >> 9) & 1)]. *)
Definition g1_feedback (g1 : Z) : Z := Z.lxor (bit g1 2) (bit g1 9).

(** G2 feedback: bits 2, 9, 8, 6, 3, 1 and 0 XORed, in the order of the
    source. *)
Definition g2_feedback (g2 : Z) : Z :=
  Z.lxor (Z.lxor (Z.lxor (Z.lxor (Z.lxor (Z.lxor
    (bit g2 2) (bit g2 9)) (bit g2 8)) (bit g2 6)) (bit g2 3)) (bit g2 1))
    (bit g2 0).

Definition g1_advance (g1 : Z) : Z := shift_in 9 (g1_feedback g1) g1.
Definition g2_advance (g2 : Z) : Z := shift_in 9 (g2_feedback g2) g2.

(** The code state created for a satellite on first use: G2 is advanced
    [tap_delay] times when the PRN is in 1..37. *)
Definition initial_code_state (prn : Z) : GPSCodeState :=
  if (1 <=? prn) && (prn <=? 37)
  then mkGPSCodeState 0x3FF
         (run g2_advance (Z.to_nat (tap_delay prn)) 0x3FF) 0
  else GPSCodeState_default.

(** The Gold chip read from a state: G1's bit 9 XOR bit 9 of G2 advanced
    [tap_delay] more times. *)
Definition gold_chip (prn : Z) (st : GPSCodeState) : Z :=
  let g1_chip := bit (g1_register st) 9 in
  let g2_delayed := run g2_advance (Z.to_nat (tap_delay prn)) (g2_register st) in
  let g2_delayed_chip := bit g2_delayed 9 in
  Z.lxor g1_chip g2_delayed_chip.

(** The body of [if (chip_index != state.chip_count)]: the chip emitted and
    the state with both registers advanced. *)
Definition next_chip (prn chip_index : Z) (st : GPSCodeState)
  : Z * GPSCodeState :=
  (gold_chip prn st,
   mkGPSCodeState (g1_advance (g1_register st))
                  (g2_advance (g2_register st))
                  chip_index).

(** The state after [n] chip advances (the chip index it records is left
    out: it does not enter the registers). *)
Definition registers_after (prn : Z) (n : nat) : Z * Z :=
  let st := initial_code_state prn in
  (run g1_advance n (g1_register st), run g2_advance n (g2_register st)).

(** The [n]-th chip the generator of [prn] emits (0 or 1). *)
Definition chip_sequence (prn : Z) (n : nat) : Z :=
  let r := registers_after prn n in
  gold_chip prn (mkGPSCodeState (fst r) (snd r) 0).

(** [(code_phase_chips == 1) ? 1 : -1]. *)
Definition chip_value (chip : Z) : Z := if chip =? 1 then 1 else -1.

(** Number of +1 chips minus number of -1 chips among chips
    [start .. start + len - 1]. *)
Definition balance (prn : Z) (start len : nat) : Z :=
  fold_left Z.add
    (map (fun n => chip_value (chip_sequence prn n)) (seq start len)) 0.

End Gps.

(** *** Galileo E1 OS (cdma_providers.cpp, class GalileoE1Provider) *)

Module Galileo.

(** [struct GalileoCodeState]. *)
Record GalileoCodeState : Type := mkGalileoCodeState {
  primary_lfsr : Z;
  secondary_lfsr : Z;
  primary_chip_count : Z;
  secondary_chip_count : Z;
  boc_phase : Z
}.

Definition GalileoCodeState_default : GalileoCodeState :=
  mkGalileoCodeState 0xFFF 0x1F 0 0 0.

(** [0x800 + ((prn * 13) & 0xFFF)], then masked with [0xFFF]. *)
Definition primary_seed (prn : Z) : Z :=
  Z.land (0x800 + Z.land (prn * 13) 0xFFF) 0xFFF.

(** [0x10 + ((prn * 3) & 0x1F)], then masked with [0x1F]. *)
Definition secondary_seed (prn : Z) : Z :=
  Z.land (0x10 + Z.land (prn * 3) 0x1F) 0x1F.

Definition initial_code_state (prn : Z) : GalileoCodeState :=
  mkGalileoCodeState (primary_seed prn) (secondary_seed prn) 0 0 0.

(** Primary feedback: bits 0, 2, 3, 5, 6, 9, 10 and 11. *)
Definition primary_feedback (r : Z) : Z :=
  Z.lxor (Z.lxor (Z.lxor (Z.lxor (Z.lxor (Z.lxor (Z.lxor
    (bit r 0) (bit r 2)) (bit r 3)) (bit r 5)) (bit r 6)) (bit r 9))
    (bit r 10)) (bit r 11).

(** Secondary feedback: bits 2 and 4. *)
Definition secondary_feedback (r : Z) : Z := Z.lxor (bit r 2) (bit r 4).

Definition primary_advance (r : Z) : Z := shift_in 11 (primary_feedback r) r.
Definition secondary_advance (r : Z) : Z := shift_in 4 (secondary_feedback r) r.

(** The body of [if (primary_chip_index != state.primary_chip_count)]. *)
Definition next_chip (primary_chip_index secondary_chip_index : Z)
    (st : GalileoCodeState) : Z * GalileoCodeState :=
  let primary_chip := bit (primary_lfsr st) 11 in
  let secondary_chip := bit (secondary_lfsr st) 4 in
  (Z.lxor primary_chip secondary_chip,
   mkGalileoCodeState (primary_advance (primary_lfsr st))
                      (secondary_advance (secondary_lfsr st))
                      primary_chip_index secondary_chip_index
                      (boc_phase st)).

(** The two registers of satellite [prn] after [n] chip advances. *)
Definition registers_after (prn : Z) (n : nat) : Z * Z :=
  (run primary_advance n (primary_seed prn),
   run secondary_advance n (secondary_seed prn)).

End Galileo.

(** *** BeiDou B1I (cdma_providers.cpp, class BeidouB1Provider) *)

Module Beidou.

(** [struct BeidouCodeState]. *)
Record BeidouCodeState : Type := mkBeidouCodeState {
  lfsr1_register : Z;
  lfsr2_register : Z;
  chip_count : Z
}.

Definition BeidouCodeState_default : BeidouCodeState :=
  mkBeidouCodeState 0x7FF 0x7FF 0.

(** [0x400 + (prn & 0x3FF)], then masked with [0x7FF]. *)
Definition seed1 (prn : Z) : Z := Z.land (0x400 + Z.land prn 0x3FF) 0x7FF.

(** [0x600 + ((prn * 7) & 0x3FF)], then masked with [0x7FF]. *)
Definition seed2 (prn : Z) : Z :=
  Z.land (0x600 + Z.land (prn * 7) 0x3FF) 0x7FF.

Definition initial_code_state (prn : Z) : BeidouCodeState :=
  mkBeidouCodeState (seed1 prn) (seed2 prn) 0.

(** LFSR1 feedback: bits 2, 5, 8, 9 and 10. *)
Definition lfsr1_feedback (r : Z) : Z :=
  Z.lxor (Z.lxor (Z.lxor (Z.lxor
    (bit r 2) (bit r 5)) (bit r 8)) (bit r 9)) (bit r 10).

(** LFSR2 feedback: bits 3, 4, 7, 8, 9 and 10. *)
Definition lfsr2_feedback (r : Z) : Z :=
  Z.lxor (Z.lxor (Z.lxor (Z.lxor (Z.lxor
    (bit r 3) (bit r 4)) (bit r 7)) (bit r 8)) (bit r 9)) (bit r 10).

Definition lfsr1_advance (r : Z) : Z := shift_in 10 (lfsr1_feedback r) r.
Definition lfsr2_advance (r : Z) : Z := shift_in 10 (lfsr2_feedback r) r.

(** [~c & 1] of a chip. *)
Definition not1 (c : Z) : Z := Z.land (Z.lnot c) 1.

(** The [switch (sat.prn % 4)] that combines the two chips; the remainder
    of C++ is [Z.rem]. *)
Definition css_chip (prn lfsr1_chip lfsr2_chip : Z) : Z :=
  match Z.rem prn 4 with
  | 0 => Z.lxor lfsr1_chip lfsr2_chip
  | 1 => Z.land lfsr1_chip (not1 lfsr2_chip)
  | 2 => Z.lxor (not1 lfsr1_chip) lfsr2_chip
  | 3 => lfsr1_chip
  | _ => Z.lxor lfsr1_chip lfsr2_chip
  end.

(** The body of [if (chip_index != state.chip_count)]. *)
Definition next_chip (prn chip_index : Z) (st : BeidouCodeState)
  : Z * BeidouCodeState :=
  let lfsr1_chip := bit (lfsr1_register st) 10 in
  let lfsr2_chip := bit (lfsr2_register st) 10 in
  (css_chip prn lfsr1_chip lfsr2_chip,
   mkBeidouCodeState (lfsr1_advance (lfsr1_register st))
                     (lfsr2_advance (lfsr2_register st))
                     chip_index).

Definition registers_after (prn : Z) (n : nat) : Z * Z :=
  (run lfsr1_advance n (seed1 prn), run lfsr2_advance n (seed2 prn)).

End Beidou.

(** *** GLONASS C/A code (constellation/glonass.c) *)

Module GlonassCode.

Definition GLONASS_CA_CODE_LENGTH : Z := 511.

(** [int state = 0b111111111]. *)
Definition initial_state : Z := 0x1FF.

(** [((state >> 8) ^ (state >> 7)) & 1]. *)
Definition feedback (state : Z) : Z :=
  Z.land (Z.lxor (Z.shiftr state 8) (Z.shiftr state 7)) 1.

(** [(state >> 1) | (feedback << 8)]. *)
Definition advance (state : Z) : Z :=
  Z.lor (Z.shiftr state 1) (Z.shiftl (feedback state) 8).

(** [code[i] = (state & 1) ? -1 : 1]. *)
Definition chip_of (state : Z) : Z :=
  if Z.land state 1 =? 0 then 1 else -1.

(** The loop of [generate_glonass_code]: [n] chips from [state] on. *)
Fixpoint chips_from (n : nat) (state : Z) : list Z :=
  match n with
  | O => []
  | S k => chip_of state :: chips_from k (advance state)
  end.

(** [generate_glonass_code(prn, code, length)]: the array [code] after
    the call. Nothing is written for a PRN outside 1..24 or a length
    other than 511. *)
Definition generate_glonass_code (prn : Z) (code : list Z) (length : Z)
  : list Z :=
  if (prn <? 1) || (24 <? prn) || negb (length =? GLONASS_CA_CODE_LENGTH)
  then code
  else chips_from (Z.to_nat GLONASS_CA_CODE_LENGTH) initial_state
       ++ skipn (Z.to_nat GLONASS_CA_CODE_LENGTH) code.

(** The chip an unbounded run of the same register emits at step [n]. *)
Definition chip_stream (n : nat) : Z := chip_of (run advance n initial_state).

End GlonassCode.

(** ** Floating-point values as reals *)

Module Real.

Local Open Scope R_scope.

(** [x < y] and [x <= y] as the booleans the source branches on. *)
Definition Rltb (x y : R) : bool := if Rlt_dec x y then true else false.
Definition Rleb (x y : R) : bool := if Rle_dec x y then true else false.

(** Conversion of a floating value to an integer type: the fractional
    part is discarded. C++ defines it only when the result fits the
    target type, which is the case wherever the code below converts. *)
Definition trunc (x : R) : Z :=
  if Rle_dec 0 x then Int_part x else (- Int_part (- x))%Z.

(** [fmod(x, y)]: [x] minus [y] times the truncated quotient. *)
Definition fmod (x y : R) : R := x - IZR (trunc (x / y)) * y.

(** [static_cast<int16_t>(x)] of a floating value. *)
Definition to_int16 (x : R) : Z := int16_cast (trunc x).

End Real.
Import Real.

(** ** Shared types (quad_gnss_interface.h) *)

Module Types.

Local Open Scope R_scope.

Inductive ConstellationType : Type :=
| GPS | GLONASS | GALILEO | BEIDOU | NONE.

Definition ConstellationType_eqb (a b : ConstellationType) : bool :=
  match a, b with
  | GPS, GPS | GLONASS, GLONASS | GALILEO, GALILEO
  | BEIDOU, BEIDOU | NONE, NONE => true
  | _, _ => false
  end.

Definition DEFAULT_SAMPLING_RATE : R := 60000000.
Definition DEFAULT_CENTER_FREQ : R := 1582000000.

(** [struct GlobalConfig], the fields the engine reads. *)
Record GlobalConfig : Type := mkGlobalConfig {
  sampling_rate_hz : R;
  center_frequency_hz : R;
  active_constellations : list ConstellationType
}.

(** [GlobalConfig()]. *)
Definition GlobalConfig_default : GlobalConfig :=
  mkGlobalConfig DEFAULT_SAMPLING_RATE DEFAULT_CENTER_FREQ
                 [GPS; GLONASS; GALILEO; BEIDOU].

(** [struct EphemerisData], the fields the providers read. *)
Record EphemerisData : Type := mkEphemerisData {
  eph_prn : Z;
  sqrt_a : R; e : R; i0 : R; omega0 : R; omega : R; m0 : R;
  delta_n : R; omega_dot : R; idot : R;
  cuc : R; cus : R; crc : R; crs : R; cic : R; cis : R;
  toe : R;
  is_valid : bool
}.

(** [EphemerisData()]. *)
Definition EphemerisData_default : EphemerisData :=
  mkEphemerisData (-1) 0 0 0 0 0 0 0 0 0 0 0 0 0 0 0 0 false.

(** [class QuadGNSSException]; the prefix the constructor adds to the
    message is left out. *)
Inductive error : Type :=
| QuadGNSSException (message : string).

Definition result (A : Type) : Type := (error + A)%type.

(** A parsed navigation file: [std::map<int, EphemerisData>], the
    result of the RINEX reader for a path, or its exception. *)
Definition ephemeris_map : Type := list (Z * EphemerisData).
Definition rinex_reader : Type := string -> result ephemeris_map.

(** [m.find(prn)]. *)
Fixpoint find_ephemeris (prn : Z) (m : ephemeris_map) : option EphemerisData :=
  match m with
  | [] => None
  | (k, v) :: rest => if k =? prn then Some v else find_ephemeris prn rest
  end.

End Types.
Import Types.

(** ** The NCO (cdma_providers.cpp, class DigitalNCO) *)

Module NCO.

Local Open Scope R_scope.

Definition LUT_SIZE : Z := 16384.

Record DigitalNCO : Type := mkDigitalNCO {
  sample_rate_hz_ : R;
  frequency_hz_ : R;
  phase_ : R;
  phase_increment_ : R
}.

(** [lookup_table_[i]], filled by the constructor: the point of the unit
    circle at angle [2 * pi * i / LUT_SIZE]. *)
Definition lookup_table_ (i : Z) : R * R :=
  let angle := 2 * PI * IZR i / IZR LUT_SIZE in
  (cos angle, sin angle).

(** [DigitalNCO(sample_rate_hz)]. *)
Definition create (sample_rate_hz : R) : DigitalNCO :=
  mkDigitalNCO sample_rate_hz 0 0 0.

Definition set_frequency (nco : DigitalNCO) (frequency_hz : R) : DigitalNCO :=
  mkDigitalNCO (sample_rate_hz_ nco) frequency_hz (phase_ nco)
               (2 * PI * frequency_hz / sample_rate_hz_ nco).

Definition reset_phase (nco : DigitalNCO) : DigitalNCO :=
  mkDigitalNCO (sample_rate_hz_ nco) (frequency_hz_ nco) 0
               (phase_increment_ nco).

(** [static_cast<size_t>(phase_ * LUT_SIZE / (2.0 * M_PI)) % LUT_SIZE]. *)
Definition table_index (phase : R) : Z :=
  (trunc (phase * IZR LUT_SIZE / (2 * PI)) mod LUT_SIZE)%Z.

(** [phase_ += phase_increment_; if (phase_ >= 2pi) phase_ -= 2pi]. *)
Definition advance_phase (phase increment : R) : R :=
  let p := phase + increment in
  if Rle_dec (2 * PI) p then p - 2 * PI else p.

(** One iteration of the loop of [generate_samples]: the carrier sample
    written and the oscillator afterwards. *)
Definition generate_sample (nco : DigitalNCO) : (R * R) * DigitalNCO :=
  (lookup_table_ (table_index (phase_ nco)),
   mkDigitalNCO (sample_rate_hz_ nco) (frequency_hz_ nco)
                (advance_phase (phase_ nco) (phase_increment_ nco))
                (phase_increment_ nco)).

(** [generate_samples(buffer, count)]. *)
Fixpoint generate_samples (nco : DigitalNCO) (count : nat)
  : list (R * R) * DigitalNCO :=
  match count with
  | O => ([], nco)
  | S k =>
      let '(c, nco1) := generate_sample nco in
      let '(cs, nco2) := generate_samples nco1 k in
      (c :: cs, nco2)
  end.

(** The body of the loop of [mix_signal]: the complex product of a sample
    and a carrier value, halved and converted back. *)
Definition mix_sample (input : cplx) (carrier : R * R) : cplx :=
  let re := IZR (fst input) in
  let im := IZR (snd input) in
  let mixed_real := re * fst carrier - im * snd carrier in
  let mixed_imag := re * snd carrier + im * fst carrier in
  (to_int16 (mixed_real * (1 / 2)), to_int16 (mixed_imag * (1 / 2))).

(** [mix_signal(input, output, count)]. *)
Definition mix_signal (nco : DigitalNCO) (input : list cplx) (count : nat)
  : list cplx * DigitalNCO :=
  let '(carrier, nco') := generate_samples nco count in
  (map (fun i => mix_sample (nth i input (0%Z, 0%Z)) (nth i carrier (0, 0)))
       (seq 0 count),
   nco').

(** The phase after each of the first [count] samples. *)
Fixpoint phases (nco : DigitalNCO) (count : nat) : list R :=
  match count with
  | O => []
  | S k => let nco1 := snd (generate_sample nco) in
           phase_ nco1 :: phases nco1 k
  end.

End NCO.


(** ** The provider interface (class ISatelliteConstellation) *)

(** The virtual methods the orchestrator calls. [generate_chunk] receives
    the caller's buffer and returns it filled; a method that mutates the
    provider returns the provider. *)
Class ISatelliteConstellation (P : Type) : Type := {
  generate_chunk : P -> list cplx -> Z -> R -> result (P * list cplx);
  load_ephemeris : P -> string -> result P;
  set_frequency_offset : P -> R -> P;
  get_constellation_type : P -> ConstellationType;
  get_carrier_frequency : P -> R;
  configure : P -> GlobalConfig -> P;
  is_ready : P -> bool
}.

(** ** Buffers *)

Module Buffer.

(** [l[i] = v]; the source never writes past the end of a buffer. *)
Fixpoint update {A : Type} (i : nat) (v : A) (l : list A) : list A :=
  match l, i with
  | [], _ => []
  | _ :: t, O => v :: t
  | h :: t, S j => h :: update j v t
  end.

(** [std::fill(buffer, buffer + n, complex(0, 0))]. *)
Definition fill_zero (n : nat) (buffer : list cplx) : list cplx :=
  repeat (0, 0) n ++ skipn n buffer.

(** [std::copy(src.begin(), src.end(), buffer)]. *)
Definition copy_into (src buffer : list cplx) : list cplx :=
  src ++ skipn (length src) buffer.

(** [v.resize(n)] of a vector of samples: kept elements stay, new ones
    are zero. *)
Definition resize (n : nat) (v : list cplx) : list cplx :=
  firstn n v ++ repeat (0, 0) (n - length v).

(** The overflow-protected addition of the CDMA providers: the sum of
    the buffer entry and the sample is formed in [int32_t], clamped to
    the range of [int16_t] and stored. *)
Definition accumulate (entry sample : cplx) : cplx :=
  let new_i := int32 (int32 (fst entry) + int32 (fst sample)) in
  let new_q := int32 (int32 (snd entry) + int32 (snd sample)) in
  (int16_cast (clamp16 new_i), int16_cast (clamp16 new_q)).

End Buffer.
Import Buffer.

(** ** The CDMA providers (cdma_providers.cpp) *)

Module Cdma.

Local Open Scope R_scope.

(** [struct SatelliteConfig]. [code_phase_chips] is a [double] in the
    source that only ever holds 0.0 or a chip (0 or 1). *)
Record SatelliteConfig : Type := mkSatelliteConfig {
  prn : Z;
  doppler_hz : R;
  power_dbm : R;
  code_phase_chips : Z;
  carrier_phase_rad : R;
  is_active : bool;
  ephemeris : EphemerisData
}.

(** The members of [CDMAProviderBase] together with the two maps each
    derived class adds ([code_states_] and [ephemeris_data_]). *)
Record Provider (CodeState : Type) : Type := mkProvider {
  constellation_type_ : ConstellationType;
  carrier_frequency_hz_ : R;
  frequency_offset_hz_ : R;
  configured_ : bool;
  ephemeris_loaded_ : bool;
  nco_ : NCO.DigitalNCO;
  config_ : GlobalConfig;
  active_satellites_ : list SatelliteConfig;
  code_states_ : list (Z * CodeState);
  ephemeris_data_ : ephemeris_map
}.

Arguments mkProvider {CodeState}.
Arguments constellation_type_ {CodeState}.
Arguments carrier_frequency_hz_ {CodeState}.
Arguments frequency_offset_hz_ {CodeState}.
Arguments configured_ {CodeState}.
Arguments ephemeris_loaded_ {CodeState}.
Arguments nco_ {CodeState}.
Arguments config_ {CodeState}.
Arguments active_satellites_ {CodeState}.
Arguments code_states_ {CodeState}.
Arguments ephemeris_data_ {CodeState}.

(** [code_states_.find(prn)] and [code_states_[prn] = st]. *)
Fixpoint find_code {CodeState : Type} (prn : Z) (m : list (Z * CodeState))
  : option CodeState :=
  match m with
  | [] => None
  | (k, v) :: rest => if (k =? prn)%Z then Some v else find_code prn rest
  end.

Fixpoint set_code {CodeState : Type} (prn : Z) (st : CodeState)
    (m : list (Z * CodeState)) : list (Z * CodeState) :=
  match m with
  | [] => [(prn, st)]
  | (k, v) :: rest =>
      if (k =? prn)%Z then (k, st) :: rest else (k, v) :: set_code prn st rest
  end.

(** What a derived class adds to the base: its constants, the satellites
    [initialize_default_satellites] creates, the reader its
    [load_ephemeris] calls, and the work [generate_chunk] does for one
    active satellite (from the creation of its code state to the update
    of its carrier phase). *)
Record Variant (CodeState : Type) : Type := mkVariant {
  v_type : ConstellationType;
  v_carrier : R;
  v_satellites : nat;
  v_active : Z;
  v_power_dbm : R;
  v_not_ready : string;
  v_load_failed : string;
  v_reader : rinex_reader;
  v_satellite :
    GlobalConfig -> Z -> R ->
    SatelliteConfig -> list (Z * CodeState) -> list cplx ->
    SatelliteConfig * list (Z * CodeState) * list cplx
}.

Arguments v_type {CodeState}.
Arguments v_carrier {CodeState}.
Arguments v_satellites {CodeState}.
Arguments v_active {CodeState}.
Arguments v_power_dbm {CodeState}.
Arguments v_not_ready {CodeState}.
Arguments v_load_failed {CodeState}.
Arguments v_reader {CodeState}.
Arguments v_satellite {CodeState}.

Section Base.

Context {CodeState : Type}.
Variable V : Variant CodeState.

(** The constructor of the derived class through
    [CDMAProviderBase(type, carrier_freq_hz)]. *)
Definition create : Provider CodeState :=
  mkProvider (v_type V) (v_carrier V) 0 false false
             (NCO.create DEFAULT_SAMPLING_RATE) GlobalConfig_default
             [] [] [].

(** [initialize_default_satellites()]: PRNs 1 to [v_satellites], the
    first [v_active] of them active. *)
Definition initialize_default_satellites : list SatelliteConfig :=
  map (fun k => let p := Z.of_nat k in
                mkSatelliteConfig p 0 (v_power_dbm V) 0 0 (p <=? v_active V)%Z
                                  EphemerisData_default)
      (seq 1 (v_satellites V)).

Definition cdma_configure (p : Provider CodeState) (config : GlobalConfig)
  : Provider CodeState :=
  mkProvider (constellation_type_ p) (carrier_frequency_hz_ p)
             (frequency_offset_hz_ p) true (ephemeris_loaded_ p)
             (nco_ p) config initialize_default_satellites
             (code_states_ p) (ephemeris_data_ p).

Definition cdma_is_ready (p : Provider CodeState) : bool :=
  configured_ p && ephemeris_loaded_ p
  && negb (match active_satellites_ p with [] => true | _ => false end).

Definition cdma_set_frequency_offset (p : Provider CodeState) (offset_hz : R)
  : Provider CodeState :=
  mkProvider (constellation_type_ p) (carrier_frequency_hz_ p)
             offset_hz (configured_ p) (ephemeris_loaded_ p)
             (NCO.set_frequency (nco_ p) offset_hz) (config_ p)
             (active_satellites_ p) (code_states_ p) (ephemeris_data_ p).

(** The loop of [load_ephemeris] over the satellites: a satellite whose
    PRN is in the parsed map gets that record. *)
Definition attach_ephemeris (data : ephemeris_map) (sat : SatelliteConfig)
  : SatelliteConfig :=
  match find_ephemeris (prn sat) data with
  | Some eph =>
      mkSatelliteConfig (prn sat) (doppler_hz sat) (power_dbm sat)
                        (code_phase_chips sat) (carrier_phase_rad sat)
                        (is_active sat) eph
  | None => sat
  end.

(** [load_ephemeris(file_path)]: an exception of the reader is thrown
    again with the provider's prefix and leaves the provider as it
    was. *)
Definition cdma_load_ephemeris (p : Provider CodeState) (file_path : string)
  : result (Provider CodeState) :=
  match v_reader V file_path with
  | inl (QuadGNSSException what) =>
      inl (QuadGNSSException (v_load_failed V ++ what))
  | inr data =>
      inr (mkProvider (constellation_type_ p) (carrier_frequency_hz_ p)
             (frequency_offset_hz_ p) (configured_ p) true
             (nco_ p) (config_ p)
             (map (attach_ephemeris data) (active_satellites_ p))
             (code_states_ p) data)
  end.

(** The loop [for (auto& sat : active_satellites_)] of
    [generate_chunk]: inactive satellites are skipped. *)
Fixpoint for_each_satellite (sample_count : Z) (time_now : R)
    (config : GlobalConfig) (sats : list SatelliteConfig)
    (codes : list (Z * CodeState)) (buffer : list cplx)
  : list SatelliteConfig * list (Z * CodeState) * list cplx :=
  match sats with
  | [] => ([], codes, buffer)
  | sat :: rest =>
      let '(sat1, codes1, buffer1) :=
        if is_active sat
        then v_satellite V config sample_count time_now sat codes buffer
        else (sat, codes, buffer) in
      let '(rest2, codes2, buffer2) :=
        for_each_satellite sample_count time_now config rest codes1 buffer1 in
      (sat1 :: rest2, codes2, buffer2)
  end.

(** The end of [generate_chunk]: the owned NCO mixes the buffer only
    when the offset is larger than 1 Hz in absolute value. *)
Definition final_mix (frequency_offset_hz : R) (nco : NCO.DigitalNCO)
    (buffer : list cplx) (sample_count : Z) : list cplx * NCO.DigitalNCO :=
  if Rltb 1 (Rabs frequency_offset_hz)
  then let '(mixed_signal, nco1) :=
         NCO.mix_signal nco buffer (Z.to_nat sample_count) in
       (copy_into mixed_signal buffer, nco1)
  else (buffer, nco).

(** [generate_chunk(buffer, sample_count, time_now)]. *)
Definition cdma_generate_chunk (p : Provider CodeState) (buffer : list cplx)
    (sample_count : Z) (time_now : R)
  : result (Provider CodeState * list cplx) :=
  if negb (cdma_is_ready p)
  then inl (QuadGNSSException (v_not_ready V))
  else
    let buffer0 := fill_zero (Z.to_nat sample_count) buffer in
    let '(sats, codes, buffer1) :=
      for_each_satellite sample_count time_now (config_ p)
        (active_satellites_ p) (code_states_ p) buffer0 in
    let '(buffer2, nco1) :=
      final_mix (frequency_offset_hz_ p) (nco_ p) buffer1 sample_count in
    inr (mkProvider (constellation_type_ p) (carrier_frequency_hz_ p)
           (frequency_offset_hz_ p) (configured_ p) (ephemeris_loaded_ p)
           nco1 (config_ p) sats codes (ephemeris_data_ p),
         buffer2).

#[export] Instance cdma_constellation
  : ISatelliteConstellation (Provider CodeState) := {
  generate_chunk := cdma_generate_chunk;
  load_ephemeris := cdma_load_ephemeris;
  set_frequency_offset := cdma_set_frequency_offset;
  get_constellation_type := constellation_type_;
  get_carrier_frequency := carrier_frequency_hz_;
  configure := cdma_configure;
  is_ready := cdma_is_ready
}.

End Base.

(** *** What each derived class does for one satellite *)

(** [sat] with the three fields [generate_chunk] writes. *)
Definition with_signal_state (sat : SatelliteConfig)
    (doppler : R) (chips : Z) (phase : R) : SatelliteConfig :=
  mkSatelliteConfig (prn sat) doppler (power_dbm sat) chips phase
                    (is_active sat) (ephemeris sat).

(** [time_now + static_cast<double>(i) / config_.sampling_rate_hz]. *)
Definition sample_time (config : GlobalConfig) (time_now : R) (i : nat) : R :=
  time_now + INR i / sampling_rate_hz config.

(** [2 pi (carrier_freq + doppler) time + carrier_phase_rad], the argument
    of the carrier cosine. *)
Definition carrier_argument (carrier_freq doppler time phase : R) : R :=
  2 * PI * (carrier_freq + doppler) * time + phase.

(** The carrier phase stored after a chunk: the phase before plus one
    chunk's worth, reduced by [fmod]. The sampling rate divides: the
    definition is the code's for a rate that is not zero; at a rate of 0
    the code keeps no number as the phase. *)
Definition next_carrier_phase (config : GlobalConfig)
    (carrier_freq doppler phase : R) (sample_count : Z) : R :=
  fmod (phase + 2 * PI * (carrier_freq + doppler) * IZR sample_count
                / sampling_rate_hz config)
       (2 * PI).

(** [SatellitePosition], of which the providers use the Doppler. *)
Record SatellitePosition : Type := mkSatellitePosition {
  pos_x : R; pos_y : R; pos_z : R; pos_range : R; pos_doppler : R
}.

(** [calculate_satellite_position(eph, time_sec)]. The cube of the
    semi-major axis and [1 - e] divide, and the root of
    [(1 + e) / (1 - e)] is taken: the definition is the code's for
    [sqrt_a <> 0] and [-1 <= e < 1]; elsewhere the code returns no
    numbers. *)
Definition calculate_satellite_position (eph : EphemerisData) (time_sec : R)
  : SatellitePosition :=
  if negb (is_valid eph) then mkSatellitePosition 0 0 0 0 0 else
  let mu := 398600500000000 in
  let omega_e := 7.2921151467e-5 in
  let dt := time_sec - toe eph in
  let a := sqrt_a eph * sqrt_a eph in
  let n0 := sqrt (mu / (a * a * a)) in
  let n := n0 + delta_n eph in
  let M := m0 eph + n * dt in
  let E := Nat.iter 10 (fun E => M + e eph * sin E) M in
  let nu := 2 * atan (sqrt ((1 + e eph) / (1 - e eph)) * tan (E / 2)) in
  let r := a * (1 - e eph * cos E) in
  let u := nu + cuc eph * cos (2 * nu) + cus eph * sin (2 * nu) in
  let r_corr := r + crc eph * cos (2 * nu) + crs eph * sin (2 * nu) in
  let i_corr := i0 eph + idot eph * dt + cic eph * cos (2 * nu)
                + cis eph * sin (2 * nu) in
  let omega_corr := omega0 eph + (omega_dot eph - omega_e) * dt in
  let x := r_corr * (cos u * cos omega_corr
                     - sin u * cos i_corr * sin omega_corr) in
  let y := r_corr * (cos u * sin omega_corr
                     + sin u * cos i_corr * cos omega_corr) in
  let z := r_corr * sin u * sin i_corr in
  let range := sqrt (x * x + y * y + z * z) in
  let v_rel := sqrt (mu / (a * a * a)) * sqrt_a eph * e eph * sin nu in
  mkSatellitePosition x y z range (- v_rel * 1575420000 / 299792458).

End Cdma.


(** The two entry points of the RINEX reader. *)
Record RinexParser : Type := mkRinexParser {
  parse_gps_rinex2 : string -> result ephemeris_map;
  parse_rinex3 : string -> ConstellationType -> result ephemeris_map
}.

(** *** GPS L1 C/A provider *)

Module GpsL1Provider.

Import Cdma.
Local Open Scope R_scope.

Definition chip_rate : R := 1023000.
Definition carrier_freq : R := 1575420000.

(** One iteration of the sample loop: the chip kept on the satellite,
    the code state and the buffer, before and after sample [i]. *)
Definition sample_step (config : GlobalConfig) (time_now : R) (prn : Z)
    (doppler phase : R) (acc : Z * Gps.GPSCodeState * list cplx) (i : nat)
  : Z * Gps.GPSCodeState * list cplx :=
  let '(chips, state, buffer) := acc in
  let time := sample_time config time_now i in
  let chip_position := time * chip_rate in
  let chip_index := Z.rem (trunc chip_position) 1023 in
  let '(chips1, state1) :=
    if (chip_index =? Gps.chip_count state)%Z
    then (chips, state)
    else Gps.next_chip prn chip_index state in
  let chip_value := Gps.chip_value chips1 in
  let carrier := cos (carrier_argument carrier_freq doppler time phase) in
  let signal_value := IZR chip_value * carrier * 1000 in
  let sample := (to_int16 signal_value, 0%Z) in
  (chips1, state1,
   update i (accumulate (nth i buffer (0%Z, 0%Z)) sample) buffer).

(** The body of the satellite loop for one active satellite. *)
Definition satellite (config : GlobalConfig) (sample_count : Z) (time_now : R)
    (sat : SatelliteConfig) (codes : list (Z * Gps.GPSCodeState))
    (buffer : list cplx)
  : SatelliteConfig * list (Z * Gps.GPSCodeState) * list cplx :=
  let codes1 :=
    match find_code (prn sat) codes with
    | Some _ => codes
    | None => set_code (prn sat) (Gps.initial_code_state (prn sat)) codes
    end in
  let state :=
    match find_code (prn sat) codes1 with
    | Some st => st
    | None => Gps.GPSCodeState_default
    end in
  let doppler :=
    if is_valid (ephemeris sat)
    then pos_doppler (calculate_satellite_position (ephemeris sat) time_now)
    else doppler_hz sat in
  let '(chips, state1, buffer1) :=
    fold_left (sample_step config time_now (prn sat) doppler
                           (carrier_phase_rad sat))
              (seq 0 (Z.to_nat sample_count))
              (code_phase_chips sat, state, buffer) in
  (with_signal_state sat doppler chips
     (next_carrier_phase config carrier_freq doppler
                         (carrier_phase_rad sat) sample_count),
   set_code (prn sat) state1 codes1,
   buffer1).

Definition variant (rinex : RinexParser) : Variant Gps.GPSCodeState :=
  mkVariant _ GPS 1575420000 32 8 (-130)
    "GPS L1 Provider not ready for signal generation"
    "Failed to load GPS ephemeris: "
    (parse_gps_rinex2 rinex)
    satellite.

End GpsL1Provider.

(** *** Galileo E1 OS provider *)

Module GalileoE1Provider.

Import Cdma.
Local Open Scope R_scope.

Definition chip_rate : R := 1023000.
Definition carrier_freq : R := 1575420000.
Definition boc_subcarrier_rate : R := 1023000.

Definition sample_step (config : GlobalConfig) (time_now : R)
    (doppler phase : R) (acc : Z * Galileo.GalileoCodeState * list cplx)
    (i : nat) : Z * Galileo.GalileoCodeState * list cplx :=
  let '(chips, state, buffer) := acc in
  let time := sample_time config time_now i in
  let chip_position := time * chip_rate in
  let primary_chip_index := Z.rem (trunc chip_position) 4092 in
  let secondary_chip_index := Z.rem (Z.quot primary_chip_index 4092) 25 in
  let '(chips1, state1) :=
    if (primary_chip_index =? Galileo.primary_chip_count state)%Z
    then (chips, state)
    else Galileo.next_chip primary_chip_index secondary_chip_index state in
  let chip_value := Gps.chip_value chips1 in
  let boc_phase :=
    2 * PI * boc_subcarrier_rate * time + IZR (Galileo.boc_phase state1) in
  let boc_subcarrier := cos boc_phase in
  let boc_modulated_chip :=
    (chip_value * (if Rltb 0 boc_subcarrier then 1 else -1))%Z in
  let carrier := cos (carrier_argument carrier_freq doppler time phase) in
  let signal_value := IZR boc_modulated_chip * carrier * 800 in
  let sample := (to_int16 signal_value, 0%Z) in
  (chips1, state1,
   update i (accumulate (nth i buffer (0%Z, 0%Z)) sample) buffer).

(** The BOC phase is an [int] in the source: each assignment truncates. *)
Definition next_boc_phase (config : GlobalConfig) (boc_phase : Z)
    (sample_count : Z) : Z :=
  let advanced :=
    trunc (IZR boc_phase
           + 2 * PI * boc_subcarrier_rate * IZR sample_count
             / sampling_rate_hz config) in
  trunc (fmod (IZR advanced) (2 * PI)).

Definition satellite (config : GlobalConfig) (sample_count : Z) (time_now : R)
    (sat : SatelliteConfig) (codes : list (Z * Galileo.GalileoCodeState))
    (buffer : list cplx)
  : SatelliteConfig * list (Z * Galileo.GalileoCodeState) * list cplx :=
  let codes1 :=
    match find_code (prn sat) codes with
    | Some _ => codes
    | None => set_code (prn sat) (Galileo.initial_code_state (prn sat)) codes
    end in
  let state :=
    match find_code (prn sat) codes1 with
    | Some st => st
    | None => Galileo.GalileoCodeState_default
    end in
  let '(chips, state1, buffer1) :=
    fold_left (sample_step config time_now (doppler_hz sat)
                           (carrier_phase_rad sat))
              (seq 0 (Z.to_nat sample_count))
              (code_phase_chips sat, state, buffer) in
  let state2 :=
    Galileo.mkGalileoCodeState
      (Galileo.primary_lfsr state1) (Galileo.secondary_lfsr state1)
      (Galileo.primary_chip_count state1) (Galileo.secondary_chip_count state1)
      (next_boc_phase config (Galileo.boc_phase state1) sample_count) in
  (with_signal_state sat (doppler_hz sat) chips
     (next_carrier_phase config carrier_freq (doppler_hz sat)
                         (carrier_phase_rad sat) sample_count),
   set_code (prn sat) state2 codes1,
   buffer1).

Definition variant (rinex : RinexParser) : Variant Galileo.GalileoCodeState :=
  mkVariant _ GALILEO 1575420000 36 6 (-127)
    "Galileo E1 Provider not ready for signal generation"
    "Failed to load Galileo ephemeris: "
    (fun path => parse_rinex3 rinex path GALILEO)
    satellite.

End GalileoE1Provider.

(** *** BeiDou B1I provider *)

Module BeidouB1Provider.

Import Cdma.
Local Open Scope R_scope.

Definition chip_rate : R := 2046000.
Definition carrier_freq : R := 1561098000.

Definition sample_step (config : GlobalConfig) (time_now : R) (prn : Z)
    (doppler phase : R) (acc : Z * Beidou.BeidouCodeState * list cplx)
    (i : nat) : Z * Beidou.BeidouCodeState * list cplx :=
  let '(chips, state, buffer) := acc in
  let time := sample_time config time_now i in
  let chip_position := time * chip_rate in
  let chip_index := Z.rem (trunc chip_position) 2046 in
  let '(chips1, state1) :=
    if (chip_index =? Beidou.chip_count state)%Z
    then (chips, state)
    else Beidou.next_chip prn chip_index state in
  let chip_value := Gps.chip_value chips1 in
  let carrier := cos (carrier_argument carrier_freq doppler time phase) in
  let signal_value := IZR chip_value * carrier * 900 in
  let sample := (to_int16 signal_value, 0%Z) in
  (chips1, state1,
   update i (accumulate (nth i buffer (0%Z, 0%Z)) sample) buffer).

Definition satellite (config : GlobalConfig) (sample_count : Z) (time_now : R)
    (sat : SatelliteConfig) (codes : list (Z * Beidou.BeidouCodeState))
    (buffer : list cplx)
  : SatelliteConfig * list (Z * Beidou.BeidouCodeState) * list cplx :=
  let codes1 :=
    match find_code (prn sat) codes with
    | Some _ => codes
    | None => set_code (prn sat) (Beidou.initial_code_state (prn sat)) codes
    end in
  let state :=
    match find_code (prn sat) codes1 with
    | Some st => st
    | None => Beidou.BeidouCodeState_default
    end in
  let '(chips, state1, buffer1) :=
    fold_left (sample_step config time_now (prn sat) (doppler_hz sat)
                           (carrier_phase_rad sat))
              (seq 0 (Z.to_nat sample_count))
              (code_phase_chips sat, state, buffer) in
  (with_signal_state sat (doppler_hz sat) chips
     (next_carrier_phase config carrier_freq (doppler_hz sat)
                         (carrier_phase_rad sat) sample_count),
   set_code (prn sat) state1 codes1,
   buffer1).

Definition variant (rinex : RinexParser) : Variant Beidou.BeidouCodeState :=
  mkVariant _ BEIDOU 1561098000 37 5 (-133)
    "Beidou B1 Provider not ready for signal generation"
    "Failed to load BeiDou ephemeris: "
    (fun path => parse_rinex3 rinex path BEIDOU)
    satellite.

End BeidouB1Provider.


(** ** The GLONASS FDMA provider (glonass_provider.cpp) *)

Module Glonass.

Local Open Scope R_scope.

(** [struct GlonassChannel]. *)
Record GlonassChannel : Type := mkGlonassChannel {
  prn : Z;
  channel_number : Z;
  frequency_hz : R;
  delta_f_hz : R;
  power_dbm : R;
  doppler_hz : R;
  phase_rad : R;
  is_active : bool
}.

(** [GlonassChannel()]. *)
Definition GlonassChannel_default : GlonassChannel :=
  mkGlonassChannel (-1) 0 1602000000 0 (-130) 0 0 false.

Definition PHASE_TABLE_SIZE : Z := 8192.

(** [class GlonassChannelGenerator]. *)
Record GlonassChannelGenerator : Type := mkGenerator {
  channel_number_ : Z;
  frequency_hz_ : R;
  sample_rate_hz_ : R;
  delta_f_hz_ : R;
  phase_increment_ : R;
  current_phase_ : R
}.

Definition create_generator (sample_rate_hz : R) : GlonassChannelGenerator :=
  mkGenerator 0 1602000000 sample_rate_hz 0 0 0.

(** [phase_table_[i]]. *)
Definition phase_table_ (i : Z) : R * R :=
  let angle := 2 * PI * IZR i / IZR PHASE_TABLE_SIZE in
  (cos angle, sin angle).

(** [GlonassChannelGenerator::configure]: the channel frequency is
    [base_frequency + channel_number * 0.5625e6]. *)
Definition configure_generator (g : GlonassChannelGenerator)
    (channel_number : Z) (base_frequency power_dbm : R)
  : GlonassChannelGenerator :=
  let frequency_hz := base_frequency + IZR channel_number * 562500 in
  mkGenerator channel_number frequency_hz (sample_rate_hz_ g)
              (frequency_hz - base_frequency)
              (2 * PI * frequency_hz / sample_rate_hz_ g)
              (current_phase_ g).

Definition chip_rate : R := 511000.

(** The base BPSK signal of [generate_signal] at a time: the sign of
    [cos(2 pi chip_rate time)] scaled to 1000. *)
Definition bpsk_signal (time : R) : Z :=
  let chip_phase := 2 * PI * chip_rate * time in
  if Rltb 0 (cos chip_phase) then 1000%Z else (-1000)%Z.

(** The rotation [generate_signal] applies at a time: the entry of the
    phase table for [2 pi delta_f time + current_phase]. *)
Definition rotation_index (g : GlonassChannelGenerator) (time : R) : Z :=
  let rotation_phase := 2 * PI * delta_f_hz_ g * time + current_phase_ g in
  (trunc (rotation_phase * IZR PHASE_TABLE_SIZE / (2 * PI))
   mod PHASE_TABLE_SIZE)%Z.

(** Sample [i] of [generate_signal]. *)
Definition signal_sample (g : GlonassChannelGenerator) (time_start : R)
    (i : nat) : cplx :=
  let sample_time := 1 / sample_rate_hz_ g in
  let time := time_start + INR i * sample_time in
  let bpsk := IZR (bpsk_signal time) in
  let rotation := phase_table_ (rotation_index g time) in
  let mixed_real := bpsk * fst rotation - 0 * snd rotation in
  let mixed_imag := bpsk * snd rotation + 0 * fst rotation in
  (to_int16 (mixed_real * (7 / 10)), to_int16 (mixed_imag * (7 / 10))).

(** [generate_signal(output, sample_count, time_start)]. *)
Definition generate_signal (g : GlonassChannelGenerator) (output : list cplx)
    (sample_count : Z) (time_start : R)
  : GlonassChannelGenerator * list cplx :=
  let n := Z.to_nat sample_count in
  let sample_time := 1 / sample_rate_hz_ g in
  let phase :=
    current_phase_ g + 2 * PI * delta_f_hz_ g * IZR sample_count * sample_time in
  (mkGenerator (channel_number_ g) (frequency_hz_ g) (sample_rate_hz_ g)
               (delta_f_hz_ g) (phase_increment_ g)
               (if Rle_dec (2 * PI) phase then phase - 2 * PI else phase),
   map (signal_sample g time_start) (seq 0 n) ++ skipn n output).

(** [class GlonassL1Provider]. *)
Record GlonassL1Provider : Type := mkGlonassL1Provider {
  constellation_type_ : ConstellationType;
  carrier_frequency_hz_ : R;
  center_frequency_hz_ : R;
  configured_ : bool;
  ephemeris_loaded_ : bool;
  channels_ : list GlonassChannel;
  channel_generators_ : list GlonassChannelGenerator;
  satellite_buffers_ : list (list cplx);
  config_ : GlobalConfig
}.

(** The channels the constructor creates: k = -7 .. 6. *)
Definition initial_channels : list GlonassChannel :=
  map (fun index =>
         let k := (Z.of_nat index - 7)%Z in
         mkGlonassChannel (k + 8) k (1602000000 + IZR k * 562500)
                          0 (-130) 0 0 false)
      (seq 0 14).

(** [GlonassL1Provider()]. *)
Definition create : GlonassL1Provider :=
  mkGlonassL1Provider GLONASS 1602000000 1582000000 false false
    initial_channels
    (repeat (create_generator DEFAULT_SAMPLING_RATE) 14)
    [] GlobalConfig_default.

(** The summation of [avx2_sum_channels] at sample [i]: the sums are
    [int32_t]; each is converted to [int16_t] first and the result of the
    conversion is then compared with the bounds. *)
Definition sum_sample (satellite_buffers : list (list cplx)) (i : nat) : cplx :=
  let sum_real :=
    fold_left (fun s buffer => int32 (s + fst (nth i buffer (0, 0))))%Z
              satellite_buffers 0%Z in
  let sum_imag :=
    fold_left (fun s buffer => int32 (s + snd (nth i buffer (0, 0))))%Z
              satellite_buffers 0%Z in
  let MAX_VAL := 32767%Z in
  let MIN_VAL := (-32768)%Z in
  (Z.max MIN_VAL (Z.min MAX_VAL (int16_cast sum_real)),
   Z.max MIN_VAL (Z.min MAX_VAL (int16_cast sum_imag))).

(** [avx2_sum_channels(output, sample_count)]. *)
Definition avx2_sum_channels (satellite_buffers : list (list cplx))
    (output : list cplx) (sample_count : Z) : list cplx :=
  match satellite_buffers with
  | [] => output
  | _ =>
      let n := Z.to_nat sample_count in
      map (sum_sample satellite_buffers) (seq 0 n) ++ skipn n output
  end.

(** [apply_doppler_shift]: each sample rotated by the Doppler phase at
    its time. *)
Definition apply_doppler_shift (config : GlobalConfig) (buffer : list cplx)
    (sample_count : Z) (doppler_hz time_start : R) : list cplx :=
  let sample_rate := sampling_rate_hz config in
  let n := Z.to_nat sample_count in
  map (fun i =>
         let time := time_start + INR i / sample_rate in
         let doppler_phase := 2 * PI * doppler_hz * time in
         let s := nth i buffer (0%Z, 0%Z) in
         let re := IZR (fst s) in
         let im := IZR (snd s) in
         (to_int16 (re * cos doppler_phase - im * sin doppler_phase),
          to_int16 (re * sin doppler_phase + im * cos doppler_phase)))
      (seq 0 n)
  ++ skipn n buffer.

(** [apply_master_lo_offset]: nothing below 1 Hz of overall offset. *)
Definition apply_master_lo_offset (p : GlonassL1Provider) (buffer : list cplx)
    (sample_count : Z) : list cplx :=
  let overall_offset :=
    center_frequency_hz_ p - center_frequency_hz (config_ p) in
  if Rltb (Rabs overall_offset) 1 then buffer else
  let sample_rate := sampling_rate_hz (config_ p) in
  let phase_increment := 2 * PI * overall_offset / sample_rate in
  let n := Z.to_nat sample_count in
  map (fun i =>
         let phase := phase_increment * INR i in
         let s := nth i buffer (0%Z, 0%Z) in
         let re := IZR (fst s) in
         let im := IZR (snd s) in
         (to_int16 (re * cos phase - im * sin phase),
          to_int16 (re * sin phase + im * cos phase)))
      (seq 0 n)
  ++ skipn n buffer.

(** The loop of [generate_chunk] over the 14 channels: the generator of
    an active channel is configured and fills the channel's buffer. The
    number of active channels is returned with the generators and the
    buffers. *)
Fixpoint for_each_channel (p : GlonassL1Provider) (sample_count : Z)
    (time_now : R) (channels : list GlonassChannel)
    (generators : list GlonassChannelGenerator) (buffers : list (list cplx))
  : list GlonassChannelGenerator * list (list cplx) * Z :=
  match channels, generators, buffers with
  | ch :: channels', g :: generators', b :: buffers' =>
      let '(g1, b1, active) :=
        if is_active ch
        then
          let g0 := configure_generator g (channel_number ch)
                      (carrier_frequency_hz_ p) (power_dbm ch) in
          let '(g1, b1) := generate_signal g0 b sample_count time_now in
          let b2 :=
            if Rltb 1 (Rabs (doppler_hz ch))
            then apply_doppler_shift (config_ p) b1 sample_count
                                     (doppler_hz ch) time_now
            else b1 in
          (g1, b2, 1%Z)
        else (g, b, 0%Z) in
      let '(gs, bs, count) :=
        for_each_channel p sample_count time_now channels' generators' buffers' in
      (g1 :: gs, b1 :: bs, (active + count)%Z)
  | _, _, _ => (generators, buffers, 0%Z)
  end.

Definition glonass_is_ready (p : GlonassL1Provider) : bool :=
  configured_ p && ephemeris_loaded_ p && existsb is_active (channels_ p).

(** [satellite_buffers_.resize(14)] followed by the resize of each
    buffer to [sample_count]. *)
Definition resize_buffers (sample_count : Z) (buffers : list (list cplx))
  : list (list cplx) :=
  map (resize (Z.to_nat sample_count))
      (firstn 14 buffers ++ repeat [] (14 - length buffers)).

(** [generate_chunk(buffer, sample_count, time_now)]. *)
Definition glonass_generate_chunk (p : GlonassL1Provider) (buffer : list cplx)
    (sample_count : Z) (time_now : R)
  : result (GlonassL1Provider * list cplx) :=
  if negb (glonass_is_ready p)
  then inl (QuadGNSSException
              "GLONASS L1 Provider not ready for signal generation")
  else
    let buffer0 := fill_zero (Z.to_nat sample_count) buffer in
    let buffers0 := resize_buffers sample_count (satellite_buffers_ p) in
    let '(generators, buffers, active_channels) :=
      for_each_channel p sample_count time_now (channels_ p)
                       (channel_generators_ p) buffers0 in
    let p1 :=
      mkGlonassL1Provider (constellation_type_ p) (carrier_frequency_hz_ p)
        (center_frequency_hz_ p) (configured_ p) (ephemeris_loaded_ p)
        (channels_ p) generators buffers (config_ p) in
    if (active_channels =? 0)%Z then inr (p1, buffer0)
    else
      let summed := avx2_sum_channels buffers buffer0 sample_count in
      inr (p1, apply_master_lo_offset p1 summed sample_count).

(** [activate_default_channels()]: the first eight channels. *)
Definition activate_default_channels (channels : list GlonassChannel)
  : list GlonassChannel :=
  map (fun ic : nat * GlonassChannel =>
         let (i, ch) := ic in
         if (i <? 8)%nat
         then mkGlonassChannel (Z.of_nat i + 1) (channel_number ch)
                (frequency_hz ch) (delta_f_hz ch) (-128) (doppler_hz ch)
                (phase_rad ch) true
         else ch)
      (combine (seq 0 (length channels)) channels).

(** [load_ephemeris(file_path)]: no file is read. *)
Definition glonass_load_ephemeris (p : GlonassL1Provider) (file_path : string)
  : result GlonassL1Provider :=
  inr (mkGlonassL1Provider (constellation_type_ p) (carrier_frequency_hz_ p)
         (center_frequency_hz_ p) (configured_ p) true
         (activate_default_channels (channels_ p))
         (channel_generators_ p) (satellite_buffers_ p) (config_ p)).

Definition glonass_set_frequency_offset (p : GlonassL1Provider) (offset_hz : R)
  : GlonassL1Provider :=
  mkGlonassL1Provider (constellation_type_ p) (carrier_frequency_hz_ p)
    (carrier_frequency_hz_ p + offset_hz) (configured_ p)
    (ephemeris_loaded_ p) (channels_ p) (channel_generators_ p)
    (satellite_buffers_ p) (config_ p).

Definition glonass_configure (p : GlonassL1Provider) (config : GlobalConfig)
  : GlonassL1Provider :=
  mkGlonassL1Provider (constellation_type_ p) (carrier_frequency_hz_ p)
    (center_frequency_hz_ p) true (ephemeris_loaded_ p) (channels_ p)
    (map (fun _ => create_generator (sampling_rate_hz config))
         (channel_generators_ p))
    (satellite_buffers_ p) config.

#[export] Instance glonass_constellation
  : ISatelliteConstellation GlonassL1Provider := {
  generate_chunk := glonass_generate_chunk;
  load_ephemeris := glonass_load_ephemeris;
  set_frequency_offset := glonass_set_frequency_offset;
  get_constellation_type := constellation_type_;
  get_carrier_frequency := carrier_frequency_hz_;
  configure := glonass_configure;
  is_ready := glonass_is_ready
}.

End Glonass.


(** ** The four providers behind one interface *)

(** The orchestrator holds providers of different classes through pointers
    to the interface; here the classes are the cases of a sum and the
    virtual call is a match. *)
Module Providers.

Inductive AnyProvider : Type :=
| GpsP (p : Cdma.Provider Gps.GPSCodeState)
| GalileoP (p : Cdma.Provider Galileo.GalileoCodeState)
| BeidouP (p : Cdma.Provider Beidou.BeidouCodeState)
| GlonassP (p : Glonass.GlonassL1Provider).

Section Dispatch.

Variable rinex : RinexParser.

Let gps := GpsL1Provider.variant rinex.
Let galileo := GalileoE1Provider.variant rinex.
Let beidou := BeidouB1Provider.variant rinex.

(** [ConstellationFactory::create_constellation(type)], the union of
    the CDMA factory and the GLONASS factory. *)
Definition create_constellation (type : ConstellationType)
  : result AnyProvider :=
  match type with
  | GPS => inr (GpsP (Cdma.create gps))
  | GALILEO => inr (GalileoP (Cdma.create galileo))
  | BEIDOU => inr (BeidouP (Cdma.create beidou))
  | GLONASS => inr (GlonassP Glonass.create)
  | NONE => inl (QuadGNSSException "Unsupported constellation type")
  end.

Definition lift {A B : Type} (f : A -> B) (r : result A) : result B :=
  match r with
  | inl err => inl err
  | inr a => inr (f a)
  end.

Definition lift_chunk {A B : Type} (f : A -> B)
    (r : result (A * list cplx)) : result (B * list cplx) :=
  lift (fun pb => (f (fst pb), snd pb)) r.

#[export] Instance any_constellation : ISatelliteConstellation AnyProvider := {
  generate_chunk p buffer sample_count time_now :=
    match p with
    | GpsP q => lift_chunk GpsP
        (Cdma.cdma_generate_chunk gps q buffer sample_count time_now)
    | GalileoP q => lift_chunk GalileoP
        (Cdma.cdma_generate_chunk galileo q buffer sample_count time_now)
    | BeidouP q => lift_chunk BeidouP
        (Cdma.cdma_generate_chunk beidou q buffer sample_count time_now)
    | GlonassP q => lift_chunk GlonassP
        (Glonass.glonass_generate_chunk q buffer sample_count time_now)
    end;
  load_ephemeris p file_path :=
    match p with
    | GpsP q => lift GpsP (Cdma.cdma_load_ephemeris gps q file_path)
    | GalileoP q => lift GalileoP (Cdma.cdma_load_ephemeris galileo q file_path)
    | BeidouP q => lift BeidouP (Cdma.cdma_load_ephemeris beidou q file_path)
    | GlonassP q => lift GlonassP (Glonass.glonass_load_ephemeris q file_path)
    end;
  set_frequency_offset p offset_hz :=
    match p with
    | GpsP q => GpsP (Cdma.cdma_set_frequency_offset q offset_hz)
    | GalileoP q => GalileoP (Cdma.cdma_set_frequency_offset q offset_hz)
    | BeidouP q => BeidouP (Cdma.cdma_set_frequency_offset q offset_hz)
    | GlonassP q => GlonassP (Glonass.glonass_set_frequency_offset q offset_hz)
    end;
  get_constellation_type p :=
    match p with
    | GpsP q => Cdma.constellation_type_ q
    | GalileoP q => Cdma.constellation_type_ q
    | BeidouP q => Cdma.constellation_type_ q
    | GlonassP q => Glonass.constellation_type_ q
    end;
  get_carrier_frequency p :=
    match p with
    | GpsP q => Cdma.carrier_frequency_hz_ q
    | GalileoP q => Cdma.carrier_frequency_hz_ q
    | BeidouP q => Cdma.carrier_frequency_hz_ q
    | GlonassP q => Glonass.carrier_frequency_hz_ q
    end;
  configure p config :=
    match p with
    | GpsP q => GpsP (Cdma.cdma_configure gps q config)
    | GalileoP q => GalileoP (Cdma.cdma_configure galileo q config)
    | BeidouP q => BeidouP (Cdma.cdma_configure beidou q config)
    | GlonassP q => GlonassP (Glonass.glonass_configure q config)
    end;
  is_ready p :=
    match p with
    | GpsP q => Cdma.cdma_is_ready q
    | GalileoP q => Cdma.cdma_is_ready q
    | BeidouP q => Cdma.cdma_is_ready q
    | GlonassP q => Glonass.glonass_is_ready q
    end
}.

End Dispatch.

(** The three conditions of readiness, read from the provider's state. *)
Definition configured (p : AnyProvider) : bool :=
  match p with
  | GpsP q => Cdma.configured_ q
  | GalileoP q => Cdma.configured_ q
  | BeidouP q => Cdma.configured_ q
  | GlonassP q => Glonass.configured_ q
  end.

Definition ephemeris_loaded (p : AnyProvider) : bool :=
  match p with
  | GpsP q => Cdma.ephemeris_loaded_ q
  | GalileoP q => Cdma.ephemeris_loaded_ q
  | BeidouP q => Cdma.ephemeris_loaded_ q
  | GlonassP q => Glonass.ephemeris_loaded_ q
  end.

(** At least one satellite whose active flag is set. *)
Definition has_active_satellite (p : AnyProvider) : bool :=
  match p with
  | GpsP q => existsb Cdma.is_active (Cdma.active_satellites_ q)
  | GalileoP q => existsb Cdma.is_active (Cdma.active_satellites_ q)
  | BeidouP q => existsb Cdma.is_active (Cdma.active_satellites_ q)
  | GlonassP q => existsb Glonass.is_active (Glonass.channels_ q)
  end.

(** The offset a provider holds after [set_frequency_offset]: the CDMA
    providers store it; the GLONASS provider stores the carrier plus the
    offset. *)
Definition frequency_offset (p : AnyProvider) : R :=
  match p with
  | GpsP q => Cdma.frequency_offset_hz_ q
  | GalileoP q => Cdma.frequency_offset_hz_ q
  | BeidouP q => Cdma.frequency_offset_hz_ q
  | GlonassP q =>
      (Glonass.center_frequency_hz_ q - Glonass.carrier_frequency_hz_ q)%R
  end.

(** The calls a client makes on a provider. *)
Inductive call : Type :=
| Configure (config : GlobalConfig)
| LoadEphemeris (file_path : string)
| SetFrequencyOffset (offset_hz : R)
| GenerateChunk (buffer : list cplx) (sample_count : Z) (time_now : R).

(** The provider after a call; a call that throws leaves it as it was. *)
Definition after_call {P : Type} `{ISatelliteConstellation P}
    (p : P) (c : call) : P :=
  match c with
  | Configure config => configure p config
  | LoadEphemeris file_path =>
      match load_ephemeris p file_path with
      | inl _ => p
      | inr p' => p'
      end
  | SetFrequencyOffset offset_hz => set_frequency_offset p offset_hz
  | GenerateChunk buffer sample_count time_now =>
      match generate_chunk p buffer sample_count time_now with
      | inl _ => p
      | inr (p', _) => p'
      end
  end.

Definition after_calls {P : Type} `{ISatelliteConstellation P}
    (p : P) (calls : list call) : P :=
  fold_left after_call calls p.

End Providers.

(** ** The orchestrator (quad_gnss_test.cpp, class SignalOrchestrator) *)

Module Orchestrator.

Local Open Scope R_scope.

Section WithProviders.

Context {P : Type} `{ISatelliteConstellation P}.

Record SignalOrchestrator : Type := mkSignalOrchestrator {
  constellations_ : list P;
  config_ : GlobalConfig;
  initialized_ : bool
}.

(** [SignalOrchestrator(config)]. *)
Definition create (config : GlobalConfig) : SignalOrchestrator :=
  mkSignalOrchestrator [] config false.

(** [add_constellation(constellation)]; [None] is the null pointer. *)
Definition add_constellation (o : SignalOrchestrator) (constellation : option P)
  : result SignalOrchestrator :=
  match constellation with
  | None => inl (QuadGNSSException "Cannot add null constellation")
  | Some c =>
      inr (mkSignalOrchestrator (constellations_ o ++ [c]) (config_ o)
                                (initialized_ o))
  end.

Definition validate_configuration (config : GlobalConfig) : bool :=
  Rltb 0 (sampling_rate_hz config)
  && Rltb 0 (center_frequency_hz config)
  && negb (match active_constellations config with [] => true | _ => false end).

(** The first loop of [calculate_frequency_offsets]: the smallest of 0
    and the differences carrier minus centre. *)
Definition min_offset (center_freq : R) (constellations : list P) : R :=
  fold_left (fun m c => Rmin m (get_carrier_frequency c - center_freq))
            constellations 0.

(** [calculate_frequency_offsets()]. *)
Definition calculate_frequency_offsets (config : GlobalConfig)
    (constellations : list P) : list P :=
  let center_freq := center_frequency_hz config in
  let min_off := min_offset center_freq constellations in
  map (fun c =>
         let carrier_freq := get_carrier_frequency c in
         let offset := carrier_freq - center_freq - min_off in
         set_frequency_offset c offset)
      constellations.

(** The loop of [initialize] over the providers. An exception of
    [load_ephemeris] ends it: the providers before are done, the others
    untouched. *)
Fixpoint load_and_configure (config : GlobalConfig)
    (ephemeris_file_paths : ConstellationType -> option string)
    (constellations : list P) : list P * option error :=
  match constellations with
  | [] => ([], None)
  | c :: rest =>
      let loaded :=
        match ephemeris_file_paths (get_constellation_type c) with
        | Some path => load_ephemeris c path
        | None => inr c
        end in
      match loaded with
      | inl err => (c :: rest, Some err)
      | inr c1 =>
          let c2 := configure c1 config in
          let '(rest', err) :=
            load_and_configure config ephemeris_file_paths rest in
          (c2 :: rest', err)
      end
  end.

(** [initialize(ephemeris_file_paths)]: the orchestrator afterwards and
    the exception thrown, if any. *)
Definition initialize (o : SignalOrchestrator)
    (ephemeris_file_paths : ConstellationType -> option string)
  : SignalOrchestrator * option error :=
  if negb (validate_configuration (config_ o))
  then (o, Some (QuadGNSSException "Invalid configuration"))
  else
    let cs1 := calculate_frequency_offsets (config_ o) (constellations_ o) in
    let '(cs2, err) :=
      load_and_configure (config_ o) ephemeris_file_paths cs1 in
    match err with
    | Some ex => (mkSignalOrchestrator cs2 (config_ o) (initialized_ o), Some ex)
    | None => (mkSignalOrchestrator cs2 (config_ o) true, None)
    end.

(** [accumulator[i] += complex<int32_t>(signal[i])] for [i] below
    [n]. *)
Definition add_to_accumulator (n : nat) (accumulator signal : list cplx)
  : list cplx :=
  map (fun i =>
         let a := nth i accumulator (0%Z, 0%Z) in
         let s := nth i signal (0%Z, 0%Z) in
         (int32 (fst a + fst s), int32 (snd a + snd s)))
      (seq 0 n).

(** The loop of [mix_all_signals] over the providers: each ready one
    fills a fresh buffer that is added to the accumulator. *)
Fixpoint accumulate_constellations (sample_count : Z) (time_now : R)
    (constellations : list P) (accumulator : list cplx)
  : list P * result (list cplx) :=
  match constellations with
  | [] => ([], inr accumulator)
  | c :: rest =>
      if is_ready c
      then
        let n := Z.to_nat sample_count in
        match generate_chunk c (repeat (0%Z, 0%Z) n) sample_count time_now with
        | inl err => (c :: rest, inl err)
        | inr (c1, constellation_signal) =>
            let '(rest', r) :=
              accumulate_constellations sample_count time_now rest
                (add_to_accumulator n accumulator constellation_signal) in
            (c1 :: rest', r)
        end
      else
        let '(rest', r) :=
          accumulate_constellations sample_count time_now rest accumulator in
        (c :: rest', r)
  end.

(** [prevent_overflow(accumulator, sample_count)]. *)
Definition prevent_overflow (accumulator : list cplx) (sample_count : Z)
  : list cplx :=
  let n := Z.to_nat sample_count in
  map (fun a => (clamp16 (fst a), clamp16 (snd a))) (firstn n accumulator)
  ++ skipn n accumulator.

(** The last loop of [mix_all_signals]: the accumulator converted to
    [int16_t] and written to the caller's buffer. *)
Definition write_output (accumulator buffer : list cplx) (sample_count : Z)
  : list cplx :=
  let n := Z.to_nat sample_count in
  map (fun a => (int16_cast (fst a), int16_cast (snd a)))
      (firstn n accumulator)
  ++ skipn n buffer.

(** [mix_all_signals(buffer, sample_count, time_now)]; [None] is the
    null buffer. The result is the orchestrator, the caller's buffer
    and the exception thrown, if any. *)
Definition mix_all_signals (o : SignalOrchestrator)
    (buffer : option (list cplx)) (sample_count : Z) (time_now : R)
  : SignalOrchestrator * option (list cplx) * option error :=
  let invalid :=
    QuadGNSSException
      "SignalOrchestrator not properly initialized or invalid parameters" in
  match buffer with
  | None => (o, buffer, Some invalid)
  | Some out =>
      if negb (initialized_ o) || (sample_count <=? 0)%Z
      then (o, buffer, Some invalid)
      else
        let accumulator := repeat (0%Z, 0%Z) (Z.to_nat sample_count) in
        let '(cs, r) :=
          accumulate_constellations sample_count time_now
            (constellations_ o) accumulator in
        let o1 := mkSignalOrchestrator cs (config_ o) (initialized_ o) in
        match r with
        | inl err => (o1, buffer, Some err)
        | inr acc =>
            (o1,
             Some (write_output (prevent_overflow acc sample_count)
                                out sample_count),
             None)
        end
  end.

Definition orchestrator_is_ready (o : SignalOrchestrator) : bool :=
  initialized_ o && forallb is_ready (constellations_ o).

End WithProviders.

Arguments SignalOrchestrator P : clear implicits.

End Orchestrator.


(** ** Scenarios *)

(** Concrete inputs: a reader, file paths and configurations. *)
Module Scenario.

(** A reader for which every file opens and holds no record. *)
Definition empty_files : RinexParser :=
  mkRinexParser (fun _ => inr []) (fun _ _ => inr []).

(** An ephemeris record as the reader marks it ([is_valid = true]), with
    the orbit of the specification's first scenario. *)
Definition sample_ephemeris (prn : Z) : EphemerisData :=
  mkEphemerisData prn 5153.6 0.005 0 0 0 0 0 0 0 0 0 0 0 0 0 0 true.

(** A reader whose GPS file holds a record for PRN 1. *)
Definition one_gps_record : RinexParser :=
  mkRinexParser (fun _ => inr [(1, sample_ephemeris 1)]) (fun _ _ => inr []).

Definition no_paths : ConstellationType -> option string := fun _ => None.

Definition gps_path : ConstellationType -> option string :=
  fun type => match type with GPS => Some "gps.nav"%string | _ => None end.

(** The four providers of the factory, in the order GPS, Galileo, BeiDou,
    GLONASS. *)
Definition four_providers (rinex : RinexParser) : list Providers.AnyProvider :=
  [Providers.GpsP (Cdma.create (GpsL1Provider.variant rinex));
   Providers.GalileoP (Cdma.create (GalileoE1Provider.variant rinex));
   Providers.BeidouP (Cdma.create (BeidouB1Provider.variant rinex));
   Providers.GlonassP Glonass.create].

(** An orchestrator with the default configuration (60 MHz, centre
    1582 MHz) and the GPS provider only. *)
Definition gps_only : Orchestrator.SignalOrchestrator Providers.AnyProvider :=
  Orchestrator.mkSignalOrchestrator
    [Providers.GpsP (Cdma.create (GpsL1Provider.variant one_gps_record))]
    GlobalConfig_default false.

(** An orchestrator centred on the BeiDou carrier with the four
    providers. *)
Definition centred_on_beidou
  : Orchestrator.SignalOrchestrator Providers.AnyProvider :=
  Orchestrator.mkSignalOrchestrator
    (four_providers empty_files)
    (mkGlobalConfig 60000000 1561098000 [GPS; GLONASS; GALILEO; BEIDOU])
    false.

End Scenario.


(** ** Observations on a provider *)

Module Observation.

(** The PRNs of the satellites of a CDMA provider that hold a valid
    ephemeris record. *)
Definition valid_prns (sats : list Cdma.SatelliteConfig) : list Z :=
  map Cdma.prn
      (filter (fun sat => is_valid (Cdma.ephemeris sat)) sats).

Definition valid_ephemeris_prns (p : Providers.AnyProvider) : list Z :=
  match p with
  | Providers.GpsP q => valid_prns (Cdma.active_satellites_ q)
  | Providers.GalileoP q => valid_prns (Cdma.active_satellites_ q)
  | Providers.BeidouP q => valid_prns (Cdma.active_satellites_ q)
  | Providers.GlonassP _ => []
  end.

(** The chunk a call of [generate_chunk] returned, if it returned. *)
Definition chunk_of {P : Type} (r : result (P * list cplx))
  : option (list cplx) :=
  match r with
  | inl _ => None
  | inr (_, chunk) => Some chunk
  end.

End Observation.


(** ** Readiness *)

Module Readiness.

(** The message of the exception [generate_chunk] throws when the provider
    is not ready. *)
Definition not_ready_message (p : Providers.AnyProvider) : string :=
  match p with
  | Providers.GpsP _ => "GPS L1 Provider not ready for signal generation"
  | Providers.GalileoP _ => "Galileo E1 Provider not ready for signal generation"
  | Providers.BeidouP _ => "Beidou B1 Provider not ready for signal generation"
  | Providers.GlonassP _ => "GLONASS L1 Provider not ready for signal generation"
  end.

(** [v.empty()] of a vector. *)
Definition is_empty {A : Type} (l : list A) : bool :=
  match l with [] => true | _ => false end.

(** The satellites of a CDMA provider are either none (before
    [configure]) or include an active one. *)
Definition cdma_satellites_ok {CodeState : Type} (p : Cdma.Provider CodeState)
  : Prop :=
  existsb Cdma.is_active (Cdma.active_satellites_ p)
  = negb (is_empty (Cdma.active_satellites_ p)).

Definition satellites_ok (p : Providers.AnyProvider) : Prop :=
  match p with
  | Providers.GpsP q => cdma_satellites_ok q
  | Providers.GalileoP q => cdma_satellites_ok q
  | Providers.BeidouP q => cdma_satellites_ok q
  | Providers.GlonassP _ => True
  end.

End Readiness.


(** ** Consecutive chunks *)

Module ChunkBoundary.

Local Open Scope R_scope.

(** [generate_chunk(N, t0)] followed by [generate_chunk(N, t0 + N / fs)] on
    the provider the first call left, the two outputs concatenated. *)
Definition two_chunks {P : Type} `{ISatelliteConstellation P}
    (p : P) (n : Z) (t0 fs : R) : option (list cplx) :=
  let blank := repeat (0%Z, 0%Z) (Z.to_nat n) in
  match generate_chunk p blank n t0 with
  | inl _ => None
  | inr (p1, chunk1) =>
      match generate_chunk p1 blank n (t0 + IZR n / fs) with
      | inl _ => None
      | inr (_, chunk2) => Some (chunk1 ++ chunk2)
      end
  end.

(** A single [generate_chunk(2N, t0)] on the same provider. *)
Definition one_chunk {P : Type} `{ISatelliteConstellation P}
    (p : P) (n : Z) (t0 : R) : option (list cplx) :=
  Observation.chunk_of
    (generate_chunk p (repeat (0%Z, 0%Z) (Z.to_nat (2 * n))) (2 * n) t0).

(** A sample rate of twice the GPS carrier: the carrier advances half a
    turn per sample. *)
Definition half_turn_config : GlobalConfig :=
  mkGlobalConfig 3150840000 1582000000 [GPS].

(** The GPS provider of the factory, configured and then loaded from a
    file without records: ready, eight satellites active. *)
Definition ready_gps : Providers.AnyProvider :=
  @Providers.after_calls _ (Providers.any_constellation Scenario.empty_files)
    (Providers.GpsP (Cdma.create (GpsL1Provider.variant Scenario.empty_files)))
    [Providers.Configure half_turn_config;
     Providers.LoadEphemeris "gps.nav"].

(** The sample a GPS satellite contributes at index [i] while its chip
    stays the initial 0.0. *)
Definition gps_first_chip_sample (config : GlobalConfig)
    (time_now doppler phase : R) (i : nat) : cplx :=
  (to_int16
     (IZR (Gps.chip_value 0)
      * cos (Cdma.carrier_argument GpsL1Provider.carrier_freq doppler
               (Cdma.sample_time config time_now i) phase)
      * 1000),
   0%Z).

(** The samples [S 0 .. S (n-1)] added to a buffer with the provider's
    overflow protection. *)
Definition add_samples (S : nat -> cplx) (n : nat) (buffer : list cplx)
  : list cplx :=
  fold_left (fun b i => update i (accumulate (nth i b (0%Z, 0%Z)) (S i)) b)
            (seq 0 n) buffer.

(** An active satellite without valid ephemeris that still holds its
    initial chip, with the given Doppler and carrier phase. *)
Definition quiet_satellite (doppler phase : R) (sat : Cdma.SatelliteConfig)
  : Prop :=
  Cdma.is_active sat = true ->
  is_valid (Cdma.ephemeris sat) = false
  /\ Cdma.code_phase_chips sat = 0%Z
  /\ Cdma.doppler_hz sat = doppler
  /\ Cdma.carrier_phase_rad sat = phase.

(** Code states that have not left chip index 0. *)
Definition quiet_codes (codes : list (Z * Gps.GPSCodeState)) : Prop :=
  forall prn st, Cdma.find_code prn codes = Some st -> Gps.chip_count st = 0%Z.

(** All samples of a chunk fall into chip index 0. *)
Definition within_first_chip (config : GlobalConfig) (time_now : R) (n : nat)
  : Prop :=
  forall i : nat, (i < n)%nat ->
    Z.rem (trunc (Cdma.sample_time config time_now i * GpsL1Provider.chip_rate))
          1023 = 0%Z.

Definition active_count (sats : list Cdma.SatelliteConfig) : nat :=
  length (filter Cdma.is_active sats).

(** A ready GPS provider with offset 0 whose [k] active satellites are
    quiet. *)
Definition quiet_provider (config : GlobalConfig) (doppler phase : R) (k : nat)
    (q : Cdma.Provider Gps.GPSCodeState) : Prop :=
  Cdma.cdma_is_ready q = true
  /\ Cdma.config_ q = config
  /\ Cdma.frequency_offset_hz_ q = 0
  /\ Forall (quiet_satellite doppler phase) (Cdma.active_satellites_ q)
  /\ active_count (Cdma.active_satellites_ q) = k
  /\ quiet_codes (Cdma.code_states_ q).

(** The same comparison through the orchestrator:
    [mix_all_signals(N, t0)] followed by [mix_all_signals(N, t0 + N / fs)]
    against one [mix_all_signals(2N, t0)]. *)
Definition two_mixes {P : Type} `{ISatelliteConstellation P}
    (o : Orchestrator.SignalOrchestrator P) (n : Z) (t0 fs : R)
  : option (list cplx) :=
  let blank : list cplx := repeat (0%Z, 0%Z) (Z.to_nat n) in
  match Orchestrator.mix_all_signals o (Some blank) n t0 with
  | (o1, Some chunk1, None) =>
      match Orchestrator.mix_all_signals o1 (Some blank) n (t0 + IZR n / fs) with
      | (_, Some chunk2, None) => Some (chunk1 ++ chunk2)
      | _ => None
      end
  | _ => None
  end.

Definition one_mix {P : Type} `{ISatelliteConstellation P}
    (o : Orchestrator.SignalOrchestrator P) (n : Z) (t0 : R)
  : option (list cplx) :=
  let blank : list cplx := repeat (0%Z, 0%Z) (Z.to_nat (2 * n)) in
  match Orchestrator.mix_all_signals o (Some blank) (2 * n) t0 with
  | (_, Some chunk, None) => Some chunk
  | _ => None
  end.

(** An orchestrator with the GPS provider alone, initialised with the path
    of a GPS file without records. *)
Definition gps_orchestrator
  : Orchestrator.SignalOrchestrator Providers.AnyProvider :=
  fst (@Orchestrator.initialize _
         (Providers.any_constellation Scenario.empty_files)
         (Orchestrator.mkSignalOrchestrator
            [Providers.GpsP
               (Cdma.create (GpsL1Provider.variant Scenario.empty_files))]
            half_turn_config false)
         Scenario.gps_path).

End ChunkBoundary.


(** ** Checking a register invariant over all register values *)

Module RegisterCheck.

(** All values of a [w]-bit register. *)
Definition registers (w : nat) : list Z := map Z.of_nat (seq 0 (2 ^ w)).

(** [inv] is kept by one advance, from every [w]-bit register value, and
    the advance stays within [w] bits. *)
Definition preserved (w : nat) (advance : Z -> Z) (inv : Z -> bool) : bool :=
  forallb (fun r =>
             implb (inv r)
                   (inv (advance r) && (0 <=? advance r)
                    && (advance r <? Z.of_nat (2 ^ w))))
          (registers w).

(** The bits from position [k] up are not all zero. *)
Definition top_bits_set (k : Z) (r : Z) : bool := negb (Z.shiftr r k =? 0).

End RegisterCheck.


(** ** Client scenarios *)

Module Client.

(** An initialised orchestrator with the four providers and the default
    configuration. *)
Definition initialised
  : Orchestrator.SignalOrchestrator Providers.AnyProvider :=
  Orchestrator.mkSignalOrchestrator
    (Scenario.four_providers Scenario.empty_files) GlobalConfig_default true.

(** Configure, load, generate a chunk of four samples at time 0. *)
Definition usual_calls : list Providers.call :=
  [Providers.Configure GlobalConfig_default;
   Providers.LoadEphemeris "gps.nav";
   Providers.GenerateChunk (repeat (0, 0) 4) 4 0%R].

End Client.

(** ** Satellite lists ([struct SatelliteInfo], [get_active_satellites]) *)

Module Satellites.

Local Open Scope R_scope.

(** [struct SatelliteInfo]. *)
Record SatelliteInfo : Type := mkSatelliteInfo {
  info_prn : Z;
  info_constellation : ConstellationType;
  info_frequency_hz : R;
  info_power_dbm : R;
  info_doppler_hz : R;
  info_is_active : bool;
  info_ephemeris : EphemerisData
}.

(** [SatelliteInfo()]. *)
Definition SatelliteInfo_default : SatelliteInfo :=
  mkSatelliteInfo (-1) NONE 0 (-100) 0 false EphemerisData_default.

(** [SatelliteInfo(p, c, freq)]. *)
Definition SatelliteInfo_at (p : Z) (c : ConstellationType) (freq : R)
  : SatelliteInfo :=
  mkSatelliteInfo p c freq (-130) 0 true EphemerisData_default.

(** [CDMAProviderBase::get_active_satellites()]: one default-constructed
    entry per active satellite with six of its fields assigned; the
    ephemeris of the entry is not assigned. *)
Definition cdma_get_active_satellites {CodeState : Type}
    (p : Cdma.Provider CodeState) : list SatelliteInfo :=
  map (fun sat =>
         mkSatelliteInfo (Cdma.prn sat) (Cdma.constellation_type_ p)
           (Cdma.carrier_frequency_hz_ p + Cdma.frequency_offset_hz_ p)
           (Cdma.power_dbm sat) (Cdma.doppler_hz sat) (Cdma.is_active sat)
           (info_ephemeris SatelliteInfo_default))
      (filter Cdma.is_active (Cdma.active_satellites_ p)).

(** [GlonassL1Provider::get_active_satellites()]: the frequency of an
    entry is the frequency of its channel. *)
Definition glonass_get_active_satellites (p : Glonass.GlonassL1Provider)
  : list SatelliteInfo :=
  map (fun channel =>
         mkSatelliteInfo (Glonass.prn channel) (Glonass.constellation_type_ p)
           (Glonass.frequency_hz channel)
           (Glonass.power_dbm channel) (Glonass.doppler_hz channel)
           (Glonass.is_active channel)
           (info_ephemeris SatelliteInfo_default))
      (filter Glonass.is_active (Glonass.channels_ p)).

(** The virtual call on one of the four providers. *)
Definition get_active_satellites (p : Providers.AnyProvider)
  : list SatelliteInfo :=
  match p with
  | Providers.GpsP q => cdma_get_active_satellites q
  | Providers.GalileoP q => cdma_get_active_satellites q
  | Providers.BeidouP q => cdma_get_active_satellites q
  | Providers.GlonassP q => glonass_get_active_satellites q
  end.




Section Queries.

Context {P : Type} `{ISatelliteConstellation P}.

Variable active_satellites : P -> list SatelliteInfo.

(** [SignalOrchestrator::get_constellation_count()]. *)
Definition get_constellation_count (o : Orchestrator.SignalOrchestrator P)
  : nat :=
  length (Orchestrator.constellations_ o).

(** [SignalOrchestrator::get_all_satellites()]: the satellites of the
    providers that are ready, in the order of the providers. *)
Definition get_all_satellites (o : Orchestrator.SignalOrchestrator P)
  : list SatelliteInfo :=
  flat_map (fun c => if is_ready c then active_satellites c else [])
           (Orchestrator.constellations_ o).

End Queries.

End Satellites.

(** ** The constellation of the interface test (quad_gnss_test.cpp) *)

Module TestConstellation.

Local Open Scope R_scope.

(** [class TestConstellation]. *)
Record TestConstellation : Type := mkTestConstellation {
  type_ : ConstellationType;
  carrier_freq_ : R;
  frequency_offset_ : R;
  ready_ : bool
}.

(** [TestConstellation(type, freq)]. *)
Definition create (type : ConstellationType) (freq : R) : TestConstellation :=
  mkTestConstellation type freq 0 false.

(** [generate_chunk]: the phase is computed from [time_now] in every
    iteration; there is no check of readiness. *)
Definition test_generate_chunk (c : TestConstellation) (buffer : list cplx)
    (sample_count : Z) (time_now : R)
  : result (TestConstellation * list cplx) :=
  let n := Z.to_nat sample_count in
  inr (c,
       map (fun _ : nat =>
              let phase := 2 * PI * frequency_offset_ c * time_now in
              (to_int16 (1000 * cos phase), to_int16 (1000 * sin phase)))
           (seq 0 n)
       ++ skipn n buffer).

(** [load_ephemeris(file_path)]. *)
Definition test_load_ephemeris (c : TestConstellation) (file_path : string)
  : result TestConstellation :=
  if (String.length file_path =? 0)%nat
  then inl (QuadGNSSException "Empty ephemeris file path")
  else inr (mkTestConstellation (type_ c) (carrier_freq_ c)
                                (frequency_offset_ c) true).

Definition test_set_frequency_offset (c : TestConstellation) (offset_hz : R)
  : TestConstellation :=
  mkTestConstellation (type_ c) (carrier_freq_ c) offset_hz (ready_ c).

(** [configure(config)] does nothing. *)
Definition test_configure (c : TestConstellation) (config : GlobalConfig)
  : TestConstellation := c.

(** [get_active_satellites()]: PRNs 1 and 2 once ready. *)
Definition test_get_active_satellites (c : TestConstellation)
  : list Satellites.SatelliteInfo :=
  if ready_ c
  then [Satellites.SatelliteInfo_at 1 (type_ c) (carrier_freq_ c);
        Satellites.SatelliteInfo_at 2 (type_ c) (carrier_freq_ c)]
  else [].

#[export] Instance test_constellation
  : ISatelliteConstellation TestConstellation := {
  generate_chunk := test_generate_chunk;
  load_ephemeris := test_load_ephemeris;
  set_frequency_offset := test_set_frequency_offset;
  get_constellation_type := type_;
  get_carrier_frequency := carrier_freq_;
  configure := test_configure;
  is_ready := ready_
}.

End TestConstellation.

(** ** The factories (class ConstellationFactory) *)

(** Each of the three translation units defines [create_constellation]
    for the providers it holds. *)
Module Factory.

Local Open Scope R_scope.

(** quad_gnss_test.cpp. *)
Definition test_create_constellation (type : ConstellationType)
  : result TestConstellation.TestConstellation :=
  match type with
  | GPS => inr (TestConstellation.create type 1575420000)
  | GLONASS => inr (TestConstellation.create type 1602000000)
  | GALILEO => inr (TestConstellation.create type 1575420000)
  | BEIDOU => inr (TestConstellation.create type 1561098000)
  | NONE => inl (QuadGNSSException "Unsupported constellation type")
  end.

(** cdma_providers.cpp. *)
Definition cdma_create_constellation (rinex : RinexParser)
    (type : ConstellationType) : result Providers.AnyProvider :=
  match type with
  | GPS => inr (Providers.GpsP (Cdma.create (GpsL1Provider.variant rinex)))
  | GALILEO =>
      inr (Providers.GalileoP (Cdma.create (GalileoE1Provider.variant rinex)))
  | BEIDOU =>
      inr (Providers.BeidouP (Cdma.create (BeidouB1Provider.variant rinex)))
  | GLONASS =>
      inl (QuadGNSSException
             "GLONASS implementation pending - use FDMA approach")
  | NONE => inl (QuadGNSSException "Unsupported constellation type")
  end.

(** glonass_provider.cpp. *)
Definition glonass_create_constellation (type : ConstellationType)
  : result Providers.AnyProvider :=
  match type with
  | GPS =>
      inl (QuadGNSSException
             "GPS implementation available in cdma_providers.cpp")
  | GALILEO =>
      inl (QuadGNSSException
             "Galileo implementation available in cdma_providers.cpp")
  | BEIDOU =>
      inl (QuadGNSSException
             "BeiDou implementation available in cdma_providers.cpp")
  | GLONASS => inr (Providers.GlonassP Glonass.create)
  | NONE => inl (QuadGNSSException "Unsupported constellation type")
  end.

(** [get_constellation_frequency(type)], the same in the three units. *)
Definition get_constellation_frequency (type : ConstellationType) : result R :=
  match type with
  | GPS | GALILEO => inr 1575420000
  | GLONASS => inr 1602000000
  | BEIDOU => inr 1561098000
  | NONE => inl (QuadGNSSException "Unsupported constellation type")
  end.

(** [get_constellation_name(type)]. *)
Definition get_constellation_name (type : ConstellationType) : string :=
  match type with
  | GPS => "GPS"
  | GLONASS => "GLONASS"
  | GALILEO => "Galileo"
  | BEIDOU => "BeiDou"
  | NONE => "Unknown"
  end.

End Factory.

(** ** The shape of a chunk *)

Module ChunkShape.

Local Open Scope R_scope.

(** The samples [S a] to [S (a + n - 1)] added to a buffer with the
    providers' overflow protection, each at its own index: what the sample
    loop of a CDMA provider does to the buffer for one satellite. *)
Definition written (S : nat -> cplx) (a n : nat) (buffer : list cplx)
  : list cplx :=
  fold_left (fun b i => update i (accumulate (nth i b (0%Z, 0%Z)) (S i)) b)
            (seq a n) buffer.

(** Both components of a sample are at most [bound] in absolute value. *)
Definition within (bound : Z) (s : cplx) : Prop :=
  (- bound <= fst s <= bound)%Z /\ (- bound <= snd s <= bound)%Z.

(** An in-phase sample of at most [scale]: what one satellite of a CDMA
    provider adds at an index. *)
Definition in_phase (scale : Z) (s : cplx) : Prop :=
  (- scale <= fst s <= scale)%Z /\ snd s = 0%Z.

(** The first [n] entries of a buffer are in-phase samples of at most
    [bound]. *)
Definition first_in_phase (n : nat) (bound : Z) (b : list cplx) : Prop :=
  forall i : nat, (i < n)%nat -> (i < length b)%nat ->
    in_phase bound (nth i b (0%Z, 0%Z)).

(** The number of satellites whose active flag is set. *)
Definition active_satellites (sats : list Cdma.SatelliteConfig) : Z :=
  Z.of_nat (length (filter Cdma.is_active sats)).

(** The largest amplitude a provider can put into a sample: the scale
    factor of its sample loop (1000, 800, 900) times the number of active
    satellites for the CDMA providers; for the GLONASS provider fourteen
    channels of at most 700 each, turned by the master offset. *)
Definition peak (p : Providers.AnyProvider) : Z :=
  match p with
  | Providers.GpsP q => 1000 * active_satellites (Cdma.active_satellites_ q)
  | Providers.GalileoP q => 800 * active_satellites (Cdma.active_satellites_ q)
  | Providers.BeidouP q => 900 * active_satellites (Cdma.active_satellites_ q)
  | Providers.GlonassP _ => 13860
  end.

(** What the GLONASS provider keeps between chunks: no channel has a
    Doppler above 1 Hz (none is ever set) and the channel buffers hold
    samples of at most 700. Nothing is asked of a CDMA provider. *)
Definition settled (p : Providers.AnyProvider) : Prop :=
  match p with
  | Providers.GlonassP q =>
      Forall (fun ch => Rabs (Glonass.doppler_hz ch) <= 1) (Glonass.channels_ q)
      /\ Forall (Forall (within 700)) (Glonass.satellite_buffers_ q)
  | _ => True
  end.

(** The peak of a provider with its default satellites: eight GPS
    satellites of 1000, six Galileo satellites of 800, five BeiDou
    satellites of 900, the GLONASS bound. *)
Definition full_peak (p : Providers.AnyProvider) : Z :=
  match p with
  | Providers.GpsP _ => 8000
  | Providers.GalileoP _ => 4800
  | Providers.BeidouP _ => 4500
  | Providers.GlonassP _ => 13860
  end.

(** A call of [generate_chunk] whose buffer holds the samples asked
    for. *)
Definition in_bounds (c : Providers.call) : Prop :=
  match c with
  | Providers.GenerateChunk buffer sample_count _ =>
      (0 <= sample_count)%Z /\ (Z.to_nat sample_count <= length buffer)%nat
  | _ => True
  end.

(** A provider of one of the three CDMA classes. *)
Definition is_cdma (p : Providers.AnyProvider) : bool :=
  match p with
  | Providers.GlonassP _ => false
  | _ => true
  end.

(** The sum of the peaks of a list of providers. *)
Definition total_peak (cs : list Providers.AnyProvider) : Z :=
  fold_right (fun c total => (peak c + total)%Z) 0%Z cs.

(** The four providers of the factory, each configured and loaded from a
    file without records, and an initialised orchestrator that holds
    them. *)
Definition ready_providers : list Providers.AnyProvider :=
  map (fun p =>
         @Providers.after_calls _
           (Providers.any_constellation Scenario.empty_files) p
           [Providers.Configure GlobalConfig_default;
            Providers.LoadEphemeris "nav"])
      (Scenario.four_providers Scenario.empty_files).

Definition ready_orchestrator
  : Orchestrator.SignalOrchestrator Providers.AnyProvider :=
  Orchestrator.mkSignalOrchestrator ready_providers GlobalConfig_default true.

End ChunkShape.

(** ** The RINEX reader (rinex_parser.cpp) *)

Module Rinex.

Import Ascii.

Local Open Scope R_scope.

(** A [std::string] of file text: the list of its characters. Sizes and
    positions are [size_t] values, taken as [Z]; strings are shorter than
    [npos]. *)
Definition text : Type := list ascii.

Definition SIZE_MAX : Z := (2 ^ 64 - 1)%Z.

(** [std::string::npos]. *)
Definition npos : Z := SIZE_MAX.

(** The conversion of an [int] argument to [size_t]. *)
Definition to_size_t (x : Z) : Z := (x mod 2 ^ 64)%Z.

(** [str.size()]. *)
Definition size (str : text) : Z := Z.of_nat (length str).

(** [str[i]]; the character after the last is the null character. *)
Definition char_at (str : text) (i : nat) : ascii := nth i str zero.

(** The characters [pos, pos + len) of [str], as far as it goes: the
    value of [str.substr(pos, len)] when [pos <= str.size()]. *)
Definition substr_at (str : text) (pos len : Z) : text :=
  firstn (Z.to_nat len) (skipn (Z.to_nat pos) str).

(** [str.substr(pos, len)]; [None] is [std::out_of_range], thrown when
    [pos > str.size()]. *)
Definition substr (str : text) (pos len : Z) : option text :=
  if (size str <? pos)%Z then None else Some (substr_at str pos len).

(** [str.find_first_not_of(c)]. *)
Fixpoint find_first_not_of (c : ascii) (str : text) : Z :=
  match str with
  | [] => npos
  | a :: rest =>
      if Ascii.eqb a c
      then let found := find_first_not_of c rest in
           if (found =? npos)%Z then npos else (found + 1)%Z
      else 0%Z
  end.

(** [str.find_last_not_of(c)]. *)
Fixpoint find_last_not_of (c : ascii) (str : text) : Z :=
  match str with
  | [] => npos
  | a :: rest =>
      let found := find_last_not_of c rest in
      if (found =? npos)%Z
      then if Ascii.eqb a c then npos else 0%Z
      else (found + 1)%Z
  end.

(** [RINEXParser::trim(str)]; [first] is a position of [str], so that
    [substr] does not throw. *)
Definition trim (str : text) : text :=
  let first := find_first_not_of " " str in
  if (first =? npos)%Z then [] else
  let last := find_last_not_of " " str in
  substr_at str first (to_size_t (last - first + 1)).

(** The loop of [split_line] from position [i] on, with [chunk_size]
    positive; it runs at most [fuel] times. *)
Fixpoint split_from (fuel : nat) (line : text) (i chunk_size : Z)
  : list text :=
  match fuel with
  | O => []
  | S fuel' =>
      if (i <? size line)%Z
      then substr_at line i chunk_size
           :: split_from fuel' line (i + chunk_size) chunk_size
      else []
  end.

(** [RINEXParser::split_line(line, chunk_size)]. The position is a
    [size_t]: with a negative [chunk_size] the first chunk is the rest of
    the line and the position then passes the end; with [chunk_size] zero
    and a line that is not empty the loop does not end ([None]). With a
    positive [chunk_size] the loop runs at most [line.length()] times. *)
Definition split_line (line : text) (chunk_size : Z) : option (list text) :=
  if (0 <? chunk_size)%Z
  then Some (split_from (length line) line 0 chunk_size)
  else if (size line =? 0)%Z then Some []
  else if (chunk_size =? 0)%Z then None
  else Some [substr_at line 0 (to_size_t chunk_size)].

(** [isspace(c)] in the C locale. *)
Definition isspace (c : ascii) : bool :=
  let n := nat_of_ascii c in
  (n =? 32)%nat || ((9 <=? n)%nat && (n <=? 13)%nat).

(** The value of a decimal digit. *)
Definition digit_value (c : ascii) : option Z :=
  let n := nat_of_ascii c in
  if (48 <=? n)%nat && (n <=? 57)%nat then Some (Z.of_nat n - 48)%Z else None.

Fixpoint skip_spaces (str : text) : text :=
  match str with
  | c :: rest => if isspace c then skip_spaces rest else str
  | [] => []
  end.

(** The digits at the start of [str] read in base 10 after [value],
    and whether there was one. *)
Fixpoint read_digits (value : Z) (seen : bool) (str : text) : Z * bool :=
  match str with
  | c :: rest =>
      match digit_value c with
      | Some d => read_digits (10 * value + d)%Z true rest
      | None => (value, seen)
      end
  | [] => (value, seen)
  end.

(** [std::stoi(str)]: white space, a sign, decimal digits; [None] is
    [std::invalid_argument] (no digit) or [std::out_of_range] (not an
    [int]). *)
Definition stoi (str : text) : option Z :=
  let str1 := skip_spaces str in
  let '(negative, str2) :=
    match str1 with
    | c :: rest =>
        if Ascii.eqb c "-" then (true, rest)
        else if Ascii.eqb c "+" then (false, rest)
        else (false, str1)
    | [] => (false, str1)
    end in
  let '(value, seen) := read_digits 0 false str2 in
  if negb seen then None else
  let v := if negative then (- value)%Z else value in
  if ((- 2 ^ 31 <=? v) && (v <=? 2 ^ 31 - 1))%Z then Some v else None.

(** [RINEXParser::parse_int(str, pos, len)]: every exception is caught. *)
Definition parse_int (str : text) (pos len : Z) : Z :=
  match substr str (to_size_t pos) (to_size_t len) with
  | None => 0%Z
  | Some sub =>
      match stoi (trim sub) with
      | Some v => v
      | None => 0%Z
      end
  end.

(** A character from ['1'] to ['9']. *)
Definition is_1_to_9 (c : ascii) : bool :=
  let n := nat_of_ascii c in (49 <=? n)%nat && (n <=? 57)%nat.

(** [RINEXParser::is_gps_satellite(sat_id)]. *)
Definition is_gps_satellite (sat_id : text) : bool :=
  let trimmed := trim sat_id in
  if (length trimmed =? 1)%nat && is_1_to_9 (char_at trimmed 0)
  then true
  else (2 <=? length sat_id)%nat && Ascii.eqb (char_at sat_id 0) "G"
       && is_1_to_9 (char_at sat_id 1).

(** [RINEXParser::is_galileo_satellite(sat_id)]. *)
Definition is_galileo_satellite (sat_id : text) : bool :=
  (2 <=? length sat_id)%nat && Ascii.eqb (char_at sat_id 0) "E"
  && is_1_to_9 (char_at sat_id 1).

(** [RINEXParser::is_beidou_satellite(sat_id)]. *)
Definition is_beidou_satellite (sat_id : text) : bool :=
  (2 <=? length sat_id)%nat && Ascii.eqb (char_at sat_id 0) "C"
  && is_1_to_9 (char_at sat_id 1).

Fixpoint starts_with (needle str : text) : bool :=
  match needle, str with
  | [], _ => true
  | a :: needle', b :: str' => Ascii.eqb a b && starts_with needle' str'
  | _ :: _, [] => false
  end.

(** [str.find(needle) != std::string::npos]. *)
Fixpoint contains (needle str : text) : bool :=
  starts_with needle str
  || match str with
     | [] => false
     | _ :: rest => contains needle rest
     end.

Definition END_OF_HEADER : text := list_ascii_of_string "END OF HEADER".

(** [struct EphemerisData] with the members the record [EphemerisData]
    leaves out. *)
Record EphemerisRecord : Type := mkEphemerisRecord {
  orbit : EphemerisData;
  constellation : ConstellationType;
  clock_bias : R;
  clock_drift : R;
  clock_drift_rate : R;
  toc : R;
  iodc : R;
  iode : R;
  week_number : R
}.

(** [EphemerisData()]. *)
Definition EphemerisRecord_default : EphemerisRecord :=
  mkEphemerisRecord EphemerisData_default NONE 0 0 0 0 0 0 0.

(** A [std::map<int, EphemerisData>]: the entries in the order of their
    keys. *)
Definition record_map : Type := list (Z * EphemerisRecord).

(** [m[key] = value]. *)
Fixpoint map_assign (key : Z) (value : EphemerisRecord) (m : record_map)
  : record_map :=
  match m with
  | [] => [(key, value)]
  | (k, v) :: rest =>
      if (key <? k)%Z then (key, value) :: m
      else if (key =? k)%Z then (k, value) :: rest
      else (k, v) :: map_assign key value rest
  end.

(** [m.find(key)]. *)
Fixpoint map_find (key : Z) (m : record_map) : option EphemerisRecord :=
  match m with
  | [] => None
  | (k, v) :: rest => if (k =? key)%Z then Some v else map_find key rest
  end.

(** What the providers keep of a parsed map. *)
Definition to_ephemeris_map (m : record_map) : ephemeris_map :=
  map (fun kv => (fst kv, orbit (snd kv))) m.

(** What a parser call does: it returns a map, throws a
    [QuadGNSSException], or lets the [std::out_of_range] of [substr]
    escape. *)
Inductive outcome : Type :=
| Returned (ephemeris_data : record_map)
| Thrown (exception : error)
| OutOfRange.

Section Parser.

(** [std::stod] on the text of a number; [None] is an exception. *)
Variable stod : text -> option R.

(** The files that can be opened, each as the lines [std::getline]
    reads. *)
Variable files : string -> option (list text).

(** [RINEXParser::parse_dbl(str, pos, len)]; [None] is the
    [std::out_of_range] of [substr], which is outside the [try]. *)
Definition parse_dbl (str : text) (pos len : Z) : option R :=
  match substr str (to_size_t pos) (to_size_t len) with
  | None => None
  | Some sub =>
      let replaced :=
        map (fun c : ascii =>
               if Ascii.eqb c "D" || Ascii.eqb c "d" then "E"%char else c)
            sub in
      match stod (trim replaced) with
      | Some value => Some value
      | None => Some 0
      end
  end.

(** The assignments to [current_eph] for each line of a record. *)
Definition set_orbit (eph : EphemerisRecord) (orbit' : EphemerisData)
  : EphemerisRecord :=
  mkEphemerisRecord orbit' (constellation eph) (clock_bias eph)
    (clock_drift eph) (clock_drift_rate eph) (toc eph) (iodc eph) (iode eph)
    (week_number eph).

(** [prn], [constellation], [iodc], [toc], [clock_drift_rate]. *)
Definition first_line_rinex2 (eph : EphemerisRecord) (prn : Z)
    (iodc' toc' clock_drift_rate' : R) : EphemerisRecord :=
  let o := orbit eph in
  mkEphemerisRecord
    (mkEphemerisData prn (sqrt_a o) (e o) (i0 o) (omega0 o) (omega o) (m0 o)
       (delta_n o) (omega_dot o) (idot o) (cuc o) (cus o) (crc o) (crs o)
       (cic o) (cis o) (toe o) (is_valid o))
    GPS (clock_bias eph) (clock_drift eph) clock_drift_rate' toc' iodc'
    (iode eph) (week_number eph).

(** [prn], [constellation], [week_number], [toc], [clock_drift_rate]. *)
Definition first_line_rinex3 (eph : EphemerisRecord) (prn : Z)
    (type : ConstellationType) (week_number' toc' clock_drift_rate' : R)
  : EphemerisRecord :=
  let o := orbit eph in
  mkEphemerisRecord
    (mkEphemerisData prn (sqrt_a o) (e o) (i0 o) (omega0 o) (omega o) (m0 o)
       (delta_n o) (omega_dot o) (idot o) (cuc o) (cus o) (crc o) (crs o)
       (cic o) (cis o) (toe o) (is_valid o))
    type (clock_bias eph) (clock_drift eph) clock_drift_rate' toc' (iodc eph)
    (iode eph) week_number'.

(** [clock_drift], [clock_bias], [iode], [crs]. *)
Definition continuation_1 (eph : EphemerisRecord) (a b c d : R)
  : EphemerisRecord :=
  let o := orbit eph in
  mkEphemerisRecord
    (mkEphemerisData (eph_prn o) (sqrt_a o) (e o) (i0 o) (omega0 o) (omega o)
       (m0 o) (delta_n o) (omega_dot o) (idot o) (cuc o) (cus o) (crc o) d
       (cic o) (cis o) (toe o) (is_valid o))
    (constellation eph) b a (clock_drift_rate eph) (toc eph) (iodc eph) c
    (week_number eph).

(** [delta_n], [m0], [cuc], [e]. *)
Definition continuation_2 (eph : EphemerisRecord) (a b c d : R)
  : EphemerisRecord :=
  let o := orbit eph in
  set_orbit eph
    (mkEphemerisData (eph_prn o) (sqrt_a o) d (i0 o) (omega0 o) (omega o)
       b a (omega_dot o) (idot o) c (cus o) (crc o) (crs o)
       (cic o) (cis o) (toe o) (is_valid o)).

(** [cus], [sqrt_a], [toe], [cic]. *)
Definition continuation_3 (eph : EphemerisRecord) (a b c d : R)
  : EphemerisRecord :=
  let o := orbit eph in
  set_orbit eph
    (mkEphemerisData (eph_prn o) b (e o) (i0 o) (omega0 o) (omega o)
       (m0 o) (delta_n o) (omega_dot o) (idot o) (cuc o) a (crc o) (crs o)
       d (cis o) c (is_valid o)).

(** [omega0], [cis], [i0], [crc]. *)
Definition continuation_4 (eph : EphemerisRecord) (a b c d : R)
  : EphemerisRecord :=
  let o := orbit eph in
  set_orbit eph
    (mkEphemerisData (eph_prn o) (sqrt_a o) (e o) c a (omega o)
       (m0 o) (delta_n o) (omega_dot o) (idot o) (cuc o) (cus o) d (crs o)
       (cic o) b (toe o) (is_valid o)).

(** [omega], [omega_dot], [idot] and [is_valid = true]. *)
Definition continuation_5 (eph : EphemerisRecord) (a b c : R)
  : EphemerisRecord :=
  let o := orbit eph in
  set_orbit eph
    (mkEphemerisData (eph_prn o) (sqrt_a o) (e o) (i0 o) (omega0 o) a
       (m0 o) (delta_n o) b c (cuc o) (cus o) (crc o) (crs o)
       (cic o) (cis o) (toe o) true).

(** The variables of a parser while it reads. [continuation] is 0 at the
    [std::getline] of the [while] loop and k at the k-th [std::getline]
    inside its body, which reads the k-th continuation line of the record
    that started; [prn] is the local variable of that record. When a
    [std::getline] fails the others fail as well and the map is returned
    as it is. *)
Record ParserState : Type := mkParserState {
  in_ephemeris_section : bool;
  continuation : nat;
  prn : Z;
  current_eph : EphemerisRecord;
  ephemeris_data : record_map
}.

Definition initial_state : ParserState :=
  mkParserState false 0 0 EphemerisRecord_default [].

(** The four numbers of a continuation line. *)
Definition four_numbers (line : text) : option (R * R * R * R) :=
  match parse_dbl line 0 19 with
  | None => None
  | Some a =>
      match parse_dbl line 19 19 with
      | None => None
      | Some b =>
          match parse_dbl line 38 19 with
          | None => None
          | Some c =>
              match parse_dbl line 57 19 with
              | None => None
              | Some d => Some (a, b, c, d)
              end
          end
      end
  end.

(** The three numbers of the first line of a record and of the last
    continuation line read. *)
Definition three_numbers (line : text) (p1 p2 p3 : Z) : option (R * R * R) :=
  match parse_dbl line p1 19 with
  | None => None
  | Some a =>
      match parse_dbl line p2 19 with
      | None => None
      | Some b =>
          match parse_dbl line p3 19 with
          | None => None
          | Some c => Some (a, b, c)
          end
      end
  end.

(** One of the [if (std::getline(file, line) && line.length() > 68)]
    inside the loop body, once the line is read. *)
Definition read_continuation (st : ParserState) (line : text)
  : option ParserState :=
  let next k eph data :=
    mkParserState (in_ephemeris_section st) k (prn st) eph data in
  let eph := current_eph st in
  let data := ephemeris_data st in
  let long := (68 <? size line)%Z in
  match continuation st with
  | 1%nat =>
      if long then
        match four_numbers line with
        | None => None
        | Some (a, b, c, d) => Some (next 2%nat (continuation_1 eph a b c d) data)
        end
      else Some (next 2%nat eph data)
  | 2%nat =>
      if long then
        match four_numbers line with
        | None => None
        | Some (a, b, c, d) => Some (next 3%nat (continuation_2 eph a b c d) data)
        end
      else Some (next 3%nat eph data)
  | 3%nat =>
      if long then
        match four_numbers line with
        | None => None
        | Some (a, b, c, d) => Some (next 4%nat (continuation_3 eph a b c d) data)
        end
      else Some (next 4%nat eph data)
  | 4%nat =>
      if long then
        match four_numbers line with
        | None => None
        | Some (a, b, c, d) => Some (next 5%nat (continuation_4 eph a b c d) data)
        end
      else Some (next 5%nat eph data)
  | _ =>
      if long then
        match three_numbers line 0 19 38 with
        | None => None
        | Some (a, b, c) =>
            let eph' := continuation_5 eph a b c in
            Some (next 0%nat eph' (map_assign (prn st) eph' data))
        end
      else Some (next 0%nat eph data)
  end.

(** A line read by the [std::getline] of the [while] loop of
    [parse_gps_rinex2]. *)
Definition gps_rinex2_line (st : ParserState) (line : text)
  : option ParserState :=
  if contains END_OF_HEADER line
  then Some (mkParserState true 0 (prn st) (current_eph st)
                           (ephemeris_data st))
  else if negb (in_ephemeris_section st) then Some st
  else
    let sat_id := trim (substr_at line 0 3) in
    if (22 <? size line)%Z && is_gps_satellite sat_id
    then
      let prn' := parse_int line 3 2 in
      if (68 <? size line)%Z
      then
        match three_numbers line 22 41 60 with
        | None => None
        | Some (a, b, c) =>
            Some (mkParserState true 1 prn'
                    (first_line_rinex2 (current_eph st) prn' a b c)
                    (ephemeris_data st))
        end
      else Some st
    else Some st.

(** The [switch] of [parse_rinex3]. *)
Definition is_target_satellite (type : ConstellationType) (sat_id : text)
  : bool :=
  match type with
  | GALILEO => is_galileo_satellite sat_id
  | BEIDOU => is_beidou_satellite sat_id
  | GLONASS => Ascii.eqb (char_at sat_id 0) "R"
  | _ => false
  end.

(** A line read by the [std::getline] of the [while] loop of
    [parse_rinex3]. *)
Definition rinex3_line (type : ConstellationType) (st : ParserState)
    (line : text) : option ParserState :=
  if contains END_OF_HEADER line
  then Some (mkParserState true 0 (prn st) (current_eph st)
                           (ephemeris_data st))
  else if negb (in_ephemeris_section st) then Some st
  else
    let sat_id := substr_at line 0 2 in
    if is_target_satellite type sat_id && (22 <? size line)%Z
    then
      let prn' := parse_int line 1 2 in
      if (68 <? size line)%Z
      then
        match three_numbers line 22 41 60 with
        | None => None
        | Some (a, b, c) =>
            Some (mkParserState true 1 prn'
                    (first_line_rinex3 (current_eph st) prn' type a b c)
                    (ephemeris_data st))
        end
      else Some st
    else Some st.

(** A line of the file: at the [while] loop or inside its body. *)
Definition read_line (at_loop : ParserState -> text -> option ParserState)
    (st : ParserState) (line : text) : option ParserState :=
  match continuation st with
  | O => at_loop st line
  | _ => read_continuation st line
  end.

(** The lines of the file, one [std::getline] after the other until
    one fails. *)
Fixpoint read_lines (at_loop : ParserState -> text -> option ParserState)
    (lines : list text) (st : ParserState) : option ParserState :=
  match lines with
  | [] => Some st
  | line :: rest =>
      match read_line at_loop st line with
      | None => None
      | Some st' => read_lines at_loop rest st'
      end
  end.

Definition parse_file (at_loop : ParserState -> text -> option ParserState)
    (lines : list text) : outcome :=
  match read_lines at_loop lines initial_state with
  | None => OutOfRange
  | Some st => Returned (ephemeris_data st)
  end.

(** [RINEXParser::parse_gps_rinex2(filename)]. *)
Definition parse_gps_rinex2 (filename : string) : outcome :=
  match files filename with
  | None => Thrown (QuadGNSSException ("Cannot open RINEX file: " ++ filename))
  | Some lines => parse_file gps_rinex2_line lines
  end.

(** [RINEXParser::parse_rinex3(filename, constellation)]. *)
Definition parse_rinex3 (filename : string) (type : ConstellationType)
  : outcome :=
  match files filename with
  | None =>
      Thrown (QuadGNSSException ("Cannot open RINEX 3 file: " ++ filename))
  | Some lines => parse_file (rinex3_line type) lines
  end.

End Parser.

(** *** What a parsed map holds *)

(** The first line of a record for [parse_gps_rinex2]: longer than 68
    characters, with columns 0 to 2 passing [is_gps_satellite]. *)
Definition starts_gps_record (line : text) : bool :=
  (68 <? size line)%Z && is_gps_satellite (trim (substr_at line 0 3)).

(** The first line of a record for [parse_rinex3]. *)
Definition starts_rinex3_record (type : ConstellationType) (line : text)
  : bool :=
  (68 <? size line)%Z && is_target_satellite type (substr_at line 0 2).

(** Keys in ascending order, none twice. *)
Fixpoint ascending (keys : list Z) : Prop :=
  match keys with
  | a :: (b :: _) as rest => (a < b)%Z /\ ascending rest
  | _ => True
  end.

(** An entry as a parser stores it: valid, of the parser's type, its
    [prn] member equal to its key, the key read at column [column] of a
    line of the file that starts a record. *)
Definition stored_entry (type : ConstellationType) (starts : text -> bool)
    (column : Z) (lines : list text) (entry : Z * EphemerisRecord) : Prop :=
  is_valid (orbit (snd entry)) = true
  /\ eph_prn (orbit (snd entry)) = fst entry
  /\ constellation (snd entry) = type
  /\ exists line : text,
       In line lines /\ starts line = true
       /\ fst entry = parse_int line column 2.

End Rinex.
(** *** Files for the reader *)

Module RinexFiles.

Import Rinex.

Local Open Scope string_scope.

(** The header of a GPS navigation file. *)
Definition gps_header : list text :=
  map list_ascii_of_string
    ["     2.11           N: GPS NAV DATA                         RINEX VERSION / TYPE";
     "                                                            END OF HEADER"].

(** The records of satellites 1 and 2 in a GPS navigation file of the year 24,
    each with five continuation lines. *)
Definition gps_1_and_2 : list text :=
  map list_ascii_of_string
    [" 1 24  1  1  0  0  0.0 1.000000000000D-04 2.000000000000D-12 0.000000000000D+00";
     "    1.100000000000D+01 2.100000000000D+01 3.100000000000D+01 4.100000000000D+01";
     "    1.200000000000D+01 2.200000000000D+01 3.200000000000D+01 4.200000000000D+01";
     "    1.300000000000D+01 2.300000000000D+01 3.300000000000D+01 4.300000000000D+01";
     "    1.400000000000D+01 2.400000000000D+01 3.400000000000D+01 4.400000000000D+01";
     "    1.500000000000D+01 2.500000000000D+01 3.500000000000D+01 4.500000000000D+01";
     " 2 24  1  1  0  0  0.0 1.000000000000D-04 2.000000000000D-12 0.000000000000D+00";
     "    1.100000000000D+01 2.100000000000D+01 3.100000000000D+01 4.100000000000D+01";
     "    1.200000000000D+01 2.200000000000D+01 3.200000000000D+01 4.200000000000D+01";
     "    1.300000000000D+01 2.300000000000D+01 3.300000000000D+01 4.300000000000D+01";
     "    1.400000000000D+01 2.400000000000D+01 3.400000000000D+01 4.400000000000D+01";
     "    1.500000000000D+01 2.500000000000D+01 3.500000000000D+01 4.500000000000D+01"].

(** The same for satellites 12 and 31. *)
Definition gps_12_and_31 : list text :=
  map list_ascii_of_string
    ["12 24  1  1  0  0  0.0 1.000000000000D-04 2.000000000000D-12 0.000000000000D+00";
     "    1.100000000000D+01 2.100000000000D+01 3.100000000000D+01 4.100000000000D+01";
     "    1.200000000000D+01 2.200000000000D+01 3.200000000000D+01 4.200000000000D+01";
     "    1.300000000000D+01 2.300000000000D+01 3.300000000000D+01 4.300000000000D+01";
     "    1.400000000000D+01 2.400000000000D+01 3.400000000000D+01 4.400000000000D+01";
     "    1.500000000000D+01 2.500000000000D+01 3.500000000000D+01 4.500000000000D+01";
     "31 24  1  1  0  0  0.0 1.000000000000D-04 2.000000000000D-12 0.000000000000D+00";
     "    1.100000000000D+01 2.100000000000D+01 3.100000000000D+01 4.100000000000D+01";
     "    1.200000000000D+01 2.200000000000D+01 3.200000000000D+01 4.200000000000D+01";
     "    1.300000000000D+01 2.300000000000D+01 3.300000000000D+01 4.300000000000D+01";
     "    1.400000000000D+01 2.400000000000D+01 3.400000000000D+01 4.400000000000D+01";
     "    1.500000000000D+01 2.500000000000D+01 3.500000000000D+01 4.500000000000D+01"].

(** A Galileo navigation file with a record of satellite E01. *)
Definition galileo_e01 : list text :=
  map list_ascii_of_string
    ["     3.03           N: GNSS NAV DATA    E: GALILEO          RINEX VERSION / TYPE";
     "                                                            END OF HEADER";
     "E01 2024 01 01 00 00 00 1.000000000000D-04 2.000000000000D-12 0.000000000000D+00";
     "     1.100000000000D+01 2.100000000000D+01 3.100000000000D+01 4.100000000000D+01";
     "     1.200000000000D+01 2.200000000000D+01 3.200000000000D+01 4.200000000000D+01";
     "     1.300000000000D+01 2.300000000000D+01 3.300000000000D+01 4.300000000000D+01";
     "     1.400000000000D+01 2.400000000000D+01 3.400000000000D+01 4.400000000000D+01";
     "     1.500000000000D+01 2.500000000000D+01 3.500000000000D+01 4.500000000000D+01"].

(** [std::stod] that reads no number: every field is 0.0. *)
Definition no_number : text -> option R := fun _ => None.

(** A directory in which every name opens the same file. *)
Definition only (lines : list text) : string -> option (list text) :=
  fun _ => Some lines.

(** A directory with the file [whole] and the file [cut]. *)
Definition two_files (whole cut : list text) : string -> option (list text) :=
  fun name => if String.eqb name "whole" then Some whole else Some cut.

End RinexFiles.

(** ** The history of a provider *)

(** What has been done to a provider, read from the calls made on it and
    not from its flags. *)
Module History.

(** A call of [configure]. It returns for every configuration. *)
Definition is_configure (c : Providers.call) : bool :=
  match c with
  | Providers.Configure _ => true
  | _ => false
  end.

(** Whether the reader of a provider reads the file of a path:
    [load_ephemeris] of the GPS provider calls [parse_gps_rinex2], of the
    Galileo and the BeiDou provider [parse_rinex3] with the provider's
    constellation, and throws when the reader throws; the GLONASS provider
    opens no file. *)
Definition file_is_read (rinex : RinexParser) (p : Providers.AnyProvider)
    (file_path : string) : bool :=
  match p with
  | Providers.GpsP _ =>
      match parse_gps_rinex2 rinex file_path with
      | inr _ => true
      | inl _ => false
      end
  | Providers.GalileoP _ =>
      match parse_rinex3 rinex file_path GALILEO with
      | inr _ => true
      | inl _ => false
      end
  | Providers.BeidouP _ =>
      match parse_rinex3 rinex file_path BEIDOU with
      | inr _ => true
      | inl _ => false
      end
  | Providers.GlonassP _ => true
  end.

(** A call of [load_ephemeris] that returns: the ephemeris is loaded by
    it. A call that throws loads nothing. *)
Definition is_load (rinex : RinexParser) (p : Providers.AnyProvider)
    (c : Providers.call) : bool :=
  match c with
  | Providers.LoadEphemeris file_path => file_is_read rinex p file_path
  | _ => false
  end.

(** The provider has been configured: [configure] is among the calls. *)
Definition has_been_configured (calls : list Providers.call) : bool :=
  existsb is_configure calls.

(** The ephemeris has been loaded: a [load_ephemeris] that returned is
    among the calls. *)
Definition ephemeris_has_been_loaded (rinex : RinexParser)
    (p : Providers.AnyProvider) (calls : list Providers.call) : bool :=
  existsb (is_load rinex p) calls.

(** What the state of a provider keeps of its history besides the two
    flags: the satellite vector of a CDMA provider is empty exactly as
    long as [configure] was not called; the channels of the GLONASS
    provider are those of the constructor until [load_ephemeris] activates
    the first eight. *)
Definition recorded (p : Providers.AnyProvider) : Prop :=
  match p with
  | Providers.GpsP q =>
      Readiness.is_empty (Cdma.active_satellites_ q) = negb (Cdma.configured_ q)
  | Providers.GalileoP q =>
      Readiness.is_empty (Cdma.active_satellites_ q) = negb (Cdma.configured_ q)
  | Providers.BeidouP q =>
      Readiness.is_empty (Cdma.active_satellites_ q) = negb (Cdma.configured_ q)
  | Providers.GlonassP q =>
      Glonass.channels_ q
      = if Glonass.ephemeris_loaded_ q
        then Glonass.activate_default_channels Glonass.initial_channels
        else Glonass.initial_channels
  end.

End History.

(** ** Saturating sums *)

(** The sums of the engine as integers without a width, and their
    saturating conversion to [int16_t]: what the summations of the code
    are compared with. *)
Module Saturation.




End Saturation.

(* ================================================================== *)
(** * Part II: properties                                              *)
(* ================================================================== *)

(** ** Iterated register maps *)

Lemma run_add (f : Z -> Z) (m n : nat) (x : Z) :
  run f (m + n) x = run f m (run f n x).
Proof. unfold run. apply Nat.iter_add. Qed.

(** A register that comes back to an earlier value after [p] more steps
    repeats with period [p] from there on. *)
Lemma run_eventually_periodic (f : Z -> Z) (x : Z) (mu p : nat) :
  run f (mu + p) x = run f mu x ->
  forall n, run f (n + mu + p) x = run f (n + mu) x.
Proof.
  intros Hloop n.
  replace (n + mu + p)%nat with (n + (mu + p))%nat by lia.
  rewrite (run_add f n (mu + p)), (run_add f n mu).
  now rewrite Hloop.
Qed.

Lemma run_fixed_point (f : Z -> Z) (x : Z) :
  f x = x -> forall n, run f n x = x.
Proof.
  intros Hfix n. unfold run.
  induction n as [|n IH]; simpl; [reflexivity | now rewrite IH].
Qed.


(** ** The GPS Gold-code generator *)

(** With the feedback taps of the source, the all-ones G2 register maps to
    itself. *)
Lemma gps_g2_all_ones_is_fixed : Gps.g2_advance 0x3FF = 0x3FF.
Proof. reflexivity. Qed.

Lemma gps_initial_code_state_g2 (prn : Z) :
  Gps.g2_register (Gps.initial_code_state prn) = 0x3FF.
Proof.
  unfold Gps.initial_code_state.
  destruct ((1 <=? prn) && (prn <=? 37)); simpl; [|reflexivity].
  apply run_fixed_point, gps_g2_all_ones_is_fixed.
Qed.

Lemma gps_initial_code_state_g1 (prn : Z) :
  Gps.g1_register (Gps.initial_code_state prn) = 0x3FF.
Proof.
  unfold Gps.initial_code_state.
  now destruct ((1 <=? prn) && (prn <=? 37)).
Qed.

(** Every PRN emits G1's top bit complemented: the delayed G2 chip is the
    constant 1. *)
Lemma gps_chip_sequence_is_g1 (prn : Z) (n : nat) :
  Gps.chip_sequence prn n = Z.lxor (bit (run Gps.g1_advance n 0x3FF) 9) 1.
Proof.
  unfold Gps.chip_sequence, Gps.registers_after, Gps.gold_chip.
  cbn [fst snd Gps.g1_register Gps.g2_register].
  rewrite gps_initial_code_state_g1, gps_initial_code_state_g2.
  now rewrite !(run_fixed_point _ _ gps_g2_all_ones_is_fixed).
Qed.

Lemma gps_g1_loop : run Gps.g1_advance (2 + 63) 0x3FF = run Gps.g1_advance 2 0x3FF.
Proof. vm_compute. reflexivity. Qed.

(** C3 (evaluation of the code). The chip sequence of the GPS generator
    does not have period 1023: for every PRN it repeats every 63 chips from
    its third chip on, chip 1023 of PRN 1 differs from chip 0, and over the
    first 1023 chips of PRN 1 the +1 chips outnumber the -1 chips by 175. *)
Theorem gps_gold_code_period_is_63 :
  (forall (prn : Z) (n : nat),
      Gps.chip_sequence prn (n + 2 + 63) = Gps.chip_sequence prn (n + 2))
  /\ Gps.chip_sequence 1 1023 <> Gps.chip_sequence 1 0
  /\ Gps.balance 1 0 1023 = 175.
Proof.
  split; [|split].
  - intros prn n. rewrite !gps_chip_sequence_is_g1.
    now rewrite (run_eventually_periodic _ _ _ _ gps_g1_loop).
  - vm_compute. discriminate.
  - vm_compute. reflexivity.
Qed.

(** The 63 is exact: no shorter shift leaves chips 2..127 of PRN 1 in
    place. *)
Lemma gps_gold_code_no_shorter_period :
  forallb (fun p =>
    existsb (fun n => negb (Gps.chip_sequence 1 (n + p) =? Gps.chip_sequence 1 n))
            (seq 2 63))
    (seq 1 62) = true.
Proof. vm_compute. reflexivity. Qed.

(** ** The GLONASS code generator *)

Lemma glonass_register_loop :
  run GlonassCode.advance (7 + 3) GlonassCode.initial_state
  = run GlonassCode.advance 7 GlonassCode.initial_state.
Proof. vm_compute. reflexivity. Qed.

(** The register of [generate_glonass_code] is not a maximal-length
    register: started from all ones it is not back at all ones after 511
    steps, the code it writes is nine -1 chips followed by the three chips
    1, -1, -1 repeated to the end of the array, and the chips of the array
    sum to -175 where an m-sequence sums to -1 or 1. *)
Lemma glonass_register_is_not_maximal :
  run GlonassCode.advance 511 GlonassCode.initial_state <> GlonassCode.initial_state
  /\ (forall n : nat,
        GlonassCode.chip_stream (n + 9 + 3) = GlonassCode.chip_stream (n + 9))
  /\ GlonassCode.generate_glonass_code 1 (repeat 0 511) 511
     = repeat (-1) 9
       ++ concat (repeat [1; -1; -1] 167) ++ [1]
  /\ fold_left Z.add
       (GlonassCode.generate_glonass_code 1 (repeat 0 511) 511) 0 = -175.
Proof.
  split; [|split; [|split]].
  - vm_compute. discriminate.
  - intros n. unfold GlonassCode.chip_stream.
    replace (n + 9 + 3)%nat with ((n + 2) + 7 + 3)%nat by lia.
    replace (n + 9)%nat with ((n + 2) + 7)%nat by lia.
    now rewrite (run_eventually_periodic _ _ _ _ glonass_register_loop).
  - vm_compute. reflexivity.
  - vm_compute. reflexivity.
Qed.

(** The code does not depend on the satellite: every PRN in 1..24 gets the
    array of PRN 1. *)
Lemma glonass_code_same_for_all_satellites (prn : Z) (code : list Z) :
  1 <= prn <= 24 ->
  GlonassCode.generate_glonass_code prn code 511
  = GlonassCode.generate_glonass_code 1 code 511.
Proof.
  intros Hprn. unfold GlonassCode.generate_glonass_code.
  replace (prn <? 1) with false by (symmetry; apply Z.ltb_ge; lia).
  replace (24 <? prn) with false by (symmetry; apply Z.ltb_ge; lia).
  reflexivity.
Qed.

(** ** Registers that never empty, and the one that does *)

Lemma preserved_step (w : nat) (advance : Z -> Z) (inv : Z -> bool) (r : Z) :
  RegisterCheck.preserved w advance inv = true ->
  0 <= r < Z.of_nat (2 ^ w) -> inv r = true ->
  inv (advance r) = true /\ 0 <= advance r < Z.of_nat (2 ^ w).
Proof.
  unfold RegisterCheck.preserved, RegisterCheck.registers.
  intros Hall Hr Hinv. rewrite forallb_forall in Hall.
  assert (Hin : In r (map Z.of_nat (seq 0 (2 ^ w)))).
  { apply in_map_iff. exists (Z.to_nat r). split; [lia|].
    apply in_seq. lia. }
  specialize (Hall r Hin). rewrite Hinv in Hall. cbn [implb] in Hall.
  apply andb_true_iff in Hall. destruct Hall as [Hall Hlt].
  apply andb_true_iff in Hall. destruct Hall as [Hi Hge].
  apply Z.leb_le in Hge. apply Z.ltb_lt in Hlt. auto.
Qed.

(** An invariant checked on all register values holds after any number of
    advances. *)
Lemma preserved_run (w : nat) (advance : Z -> Z) (inv : Z -> bool) (r : Z) :
  RegisterCheck.preserved w advance inv = true ->
  0 <= r < Z.of_nat (2 ^ w) -> inv r = true ->
  forall n : nat,
    inv (run advance n r) = true /\ 0 <= run advance n r < Z.of_nat (2 ^ w).
Proof.
  intros Hall Hr Hinv n. unfold run.
  induction n as [|n [IHi IHr]]; [now split|].
  cbn [Nat.iter nat_rect]. now apply (preserved_step w advance inv).
Qed.

Lemma top_bits_set_nonzero (k r : Z) :
  RegisterCheck.top_bits_set k r = true -> r <> 0.
Proof.
  unfold RegisterCheck.top_bits_set. intros Hset ->.
  now rewrite Z.shiftr_0_l in Hset.
Qed.

(** The registers of the other generators are never all zero: both GPS
    registers for every PRN, the Galileo primary register for PRNs 1..36,
    the Galileo secondary register for PRNs 1..5, both BeiDou registers for
    PRNs 1..37 and the GLONASS register. *)
Lemma other_registers_never_zero (n : nat) :
  (forall prn : Z,
      fst (Gps.registers_after prn n) <> 0
      /\ snd (Gps.registers_after prn n) <> 0)
  /\ (forall prn : Z, 1 <= prn <= 36 ->
        fst (Galileo.registers_after prn n) <> 0)
  /\ (forall prn : Z, 1 <= prn <= 5 ->
        snd (Galileo.registers_after prn n) <> 0)
  /\ (forall prn : Z, 1 <= prn <= 37 ->
        fst (Beidou.registers_after prn n) <> 0
        /\ snd (Beidou.registers_after prn n) <> 0)
  /\ run GlonassCode.advance n GlonassCode.initial_state <> 0.
Proof.
  assert (Hcases : forall (lo hi prn : Z) (Q : Z -> Prop),
            lo <= prn <= hi ->
            Forall Q (map (fun k => lo + Z.of_nat k) (seq 0 (Z.to_nat (hi - lo + 1)))) ->
            Q prn).
  { intros lo hi prn Q Hprn Hall. rewrite Forall_forall in Hall. apply Hall.
    apply in_map_iff. exists (Z.to_nat (prn - lo)). split; [lia|].
    apply in_seq. lia. }
  split; [|split; [|split; [|split]]].
  - intros prn. unfold Gps.registers_after. cbn [fst snd].
    rewrite gps_initial_code_state_g1, gps_initial_code_state_g2. split.
    + apply (top_bits_set_nonzero 2).
      apply (preserved_run 10 Gps.g1_advance (RegisterCheck.top_bits_set 2));
        [vm_compute; reflexivity | cbn; lia | reflexivity].
    + rewrite (run_fixed_point _ _ gps_g2_all_ones_is_fixed). discriminate.
  - intros prn Hprn. unfold Galileo.registers_after. cbn [fst].
    apply (top_bits_set_nonzero 0).
    apply (preserved_run 12 Galileo.primary_advance (RegisterCheck.top_bits_set 0));
      [vm_compute; reflexivity | |].
    + apply (Hcases 1 36 prn
               (fun p => 0 <= Galileo.primary_seed p < Z.of_nat (2 ^ 12)) Hprn).
      cbn. repeat constructor; cbn; lia.
    + apply (Hcases 1 36 prn
               (fun p => RegisterCheck.top_bits_set 0 (Galileo.primary_seed p) = true)
               Hprn).
      cbn. repeat constructor.
  - intros prn Hprn. unfold Galileo.registers_after. cbn [snd].
    apply (top_bits_set_nonzero 2).
    apply (preserved_run 5 Galileo.secondary_advance (RegisterCheck.top_bits_set 2));
      [vm_compute; reflexivity | |].
    + apply (Hcases 1 5 prn
               (fun p => 0 <= Galileo.secondary_seed p < Z.of_nat (2 ^ 5)) Hprn).
      cbn. repeat constructor; cbn; lia.
    + apply (Hcases 1 5 prn
               (fun p => RegisterCheck.top_bits_set 2 (Galileo.secondary_seed p) = true)
               Hprn).
      cbn. repeat constructor.
  - intros prn Hprn. unfold Beidou.registers_after. cbn [fst snd]. split.
    + apply (top_bits_set_nonzero 2).
      apply (preserved_run 11 Beidou.lfsr1_advance (RegisterCheck.top_bits_set 2));
        [vm_compute; reflexivity | |].
      * apply (Hcases 1 37 prn
                 (fun p => 0 <= Beidou.seed1 p < Z.of_nat (2 ^ 11)) Hprn).
        cbn. repeat constructor; cbn; lia.
      * apply (Hcases 1 37 prn
                 (fun p => RegisterCheck.top_bits_set 2 (Beidou.seed1 p) = true)
                 Hprn).
        cbn. repeat constructor.
    + apply (top_bits_set_nonzero 3).
      apply (preserved_run 11 Beidou.lfsr2_advance (RegisterCheck.top_bits_set 3));
        [vm_compute; reflexivity | |].
      * apply (Hcases 1 37 prn
                 (fun p => 0 <= Beidou.seed2 p < Z.of_nat (2 ^ 11)) Hprn).
        cbn. repeat constructor; cbn; lia.
      * apply (Hcases 1 37 prn
                 (fun p => RegisterCheck.top_bits_set 3 (Beidou.seed2 p) = true)
                 Hprn).
        cbn. repeat constructor.
  - apply (top_bits_set_nonzero 7).
    apply (preserved_run 9 GlonassCode.advance (RegisterCheck.top_bits_set 7));
      [vm_compute; reflexivity
      | unfold GlonassCode.initial_state; cbn; lia
      | reflexivity].
Qed.


(** C8 (evaluation of the code). The secondary register of Galileo PRN 6,
    one of the satellites active by default, is seeded with 2, is 1 after
    the first chip advance and 0 after the second, and stays 0. *)
Theorem galileo_secondary_register_reaches_zero :
  Galileo.secondary_lfsr (Galileo.initial_code_state 6) = 2
  /\ Galileo.secondary_lfsr
       (snd (Galileo.next_chip 2 0
          (snd (Galileo.next_chip 1 0 (Galileo.initial_code_state 6))))) = 0
  /\ forall n : nat, snd (Galileo.registers_after 6 (n + 2)) = 0.
Proof.
  split; [|split]; try reflexivity.
  intros n. unfold Galileo.registers_after. cbn [snd].
  rewrite run_add.
  apply run_fixed_point. reflexivity.
Qed.

(** ** Saturation *)

Lemma clamp16_in_int16 (x : Z) : in_int16 (clamp16 x).
Proof. unfold in_int16, clamp16, INT16_MIN, INT16_MAX. lia. Qed.

Lemma clamp16_id (x : Z) : in_int16 x -> clamp16 x = x.
Proof. unfold in_int16, clamp16, INT16_MIN, INT16_MAX. lia. Qed.

Lemma int16_cast_in_int16 (x : Z) : in_int16 (int16_cast x).
Proof.
  unfold in_int16, int16_cast, wrap, INT16_MIN, INT16_MAX.
  change (2 ^ (16 - 1)) with 32768. change (2 ^ 16) with 65536.
  pose proof (Z.mod_pos_bound (x + 32768) 65536 eq_refl). lia.
Qed.

Lemma int16_cast_id (x : Z) : in_int16 x -> int16_cast x = x.
Proof.
  unfold in_int16, int16_cast, wrap, INT16_MIN, INT16_MAX.
  change (2 ^ (16 - 1)) with 32768. change (2 ^ 16) with 65536.
  intros Hx. rewrite Z.mod_small by lia. lia.
Qed.

Lemma int32_id (x : Z) : - 2 ^ 31 <= x < 2 ^ 31 -> int32 x = x.
Proof.
  unfold int32, wrap. change (32 - 1) with 31.
  change (2 ^ 32) with (2 * 2 ^ 31).
  intros Hx. rewrite Z.mod_small by lia. lia.
Qed.


(** What the orchestrator writes is in the range of [int16_t], whatever the
    accumulator holds. *)
Lemma write_output_in_int16 (acc buffer : list cplx) (sample_count : Z) :
  length acc = Z.to_nat sample_count ->
  Forall sample_in_int16
    (firstn (Z.to_nat sample_count)
       (Orchestrator.write_output
          (Orchestrator.prevent_overflow acc sample_count) buffer sample_count)).
Proof.
  intros Hlen. unfold Orchestrator.write_output, Orchestrator.prevent_overflow.
  rewrite <- Hlen, firstn_all, skipn_all, app_nil_r.
  set (clamped := map (fun a : Z * Z => (clamp16 (fst a), clamp16 (snd a))) acc).
  assert (Hc : length clamped = length acc) by apply length_map.
  rewrite <- Hc, firstn_all.
  set (cast := map _ clamped).
  assert (Hk : length cast = length clamped) by apply length_map.
  rewrite <- Hk, firstn_app, firstn_all, Nat.sub_diag, firstn_O, app_nil_r.
  apply Forall_forall. intros s Hs.
  apply in_map_iff in Hs. destruct Hs as [a [<- _]].
  split; apply int16_cast_in_int16.
Qed.

(** It is also saturated: an accumulator entry beyond the range of
    [int16_t] is written as the nearest bound. *)
Lemma write_output_saturates (a : cplx) (buffer : list cplx) :
  Orchestrator.write_output (Orchestrator.prevent_overflow [a] 1) buffer 1
  = (clamp16 (fst a), clamp16 (snd a)) :: skipn 1 buffer.
Proof.
  unfold Orchestrator.write_output, Orchestrator.prevent_overflow.
  change (Z.to_nat 1) with 1%nat.
  cbn [firstn skipn map app fst snd].
  now rewrite !int16_cast_id by apply clamp16_in_int16.
Qed.

Lemma add_to_accumulator_length (n : nat) (acc signal : list cplx) :
  length (Orchestrator.add_to_accumulator n acc signal) = n.
Proof. unfold Orchestrator.add_to_accumulator. now rewrite length_map, length_seq. Qed.

Section OrchestratorFacts.

Context {P : Type} `{ISatelliteConstellation P}.

Lemma accumulate_constellations_length (sample_count : Z) (time_now : R)
    (cs : list P) :
  forall (acc acc' : list cplx) (cs' : list P),
    length acc = Z.to_nat sample_count ->
    Orchestrator.accumulate_constellations sample_count time_now cs acc
    = (cs', inr acc') ->
    length acc' = Z.to_nat sample_count.
Proof.
  induction cs as [|c rest IH]; intros acc acc' cs' Hlen Hrun; simpl in Hrun.
  - now inversion Hrun; subst.
  - destruct (is_ready c).
    + destruct (generate_chunk c _ sample_count time_now) as [err|[c1 sig]];
        [discriminate|].
      destruct (Orchestrator.accumulate_constellations _ _ rest _)
        as [rest' r] eqn:Hrest.
      inversion Hrun; subst.
      eapply IH; [|exact Hrest]. apply add_to_accumulator_length.
    + destruct (Orchestrator.accumulate_constellations _ _ rest _)
        as [rest' r] eqn:Hrest.
      inversion Hrun; subst. eapply IH; eassumption.
Qed.

(** Every sample of a chunk the orchestrator produces is in the range of
    [int16_t], for any list of providers. *)
Lemma mix_all_signals_in_int16 (o o' : Orchestrator.SignalOrchestrator P)
    (buffer : option (list cplx)) (out : list cplx)
    (sample_count : Z) (time_now : R) :
  Orchestrator.mix_all_signals o buffer sample_count time_now
  = (o', Some out, None) ->
  Forall sample_in_int16 (firstn (Z.to_nat sample_count) out).
Proof.
  unfold Orchestrator.mix_all_signals.
  destruct buffer as [b|]; [|discriminate].
  destruct (negb _ || _); [discriminate|].
  destruct (Orchestrator.accumulate_constellations _ _ _ _) as [cs r] eqn:Hacc.
  destruct r as [err|acc]; [discriminate|].
  intros Heq. inversion Heq; subst.
  apply write_output_in_int16.
  eapply accumulate_constellations_length; [|exact Hacc].
  apply repeat_length.
Qed.

Lemma mix_all_signals_guard (o : Orchestrator.SignalOrchestrator P)
    (buffer : option (list cplx)) (sample_count : Z) (time_now : R) :
  buffer = None \/ sample_count <= 0 ->
  exists err,
    Orchestrator.mix_all_signals o buffer sample_count time_now
    = (o, buffer, Some err).
Proof.
  intros Hbad. unfold Orchestrator.mix_all_signals.
  destruct buffer as [out|]; [|eexists; reflexivity].
  destruct Hbad as [Hnull | Hcount]; [discriminate|].
  replace (sample_count <=? 0) with true by (symmetry; now apply Z.leb_le).
  rewrite orb_true_r. eexists; reflexivity.
Qed.

(** A call that returns without an exception had a buffer and a positive
    sample count, and an initialised orchestrator. *)
Lemma mix_all_signals_success (o o' : Orchestrator.SignalOrchestrator P)
    (buffer buffer' : option (list cplx)) (sample_count : Z) (time_now : R) :
  Orchestrator.mix_all_signals o buffer sample_count time_now
  = (o', buffer', None) ->
  buffer <> None /\ 0 < sample_count
  /\ Orchestrator.initialized_ o = true.
Proof.
  unfold Orchestrator.mix_all_signals.
  destruct buffer as [out|]; [|discriminate].
  destruct (Orchestrator.initialized_ o); simpl; [|discriminate].
  destruct (sample_count <=? 0) eqn:Hn; [discriminate|].
  intros _. apply Z.leb_gt in Hn. repeat split; [discriminate | lia].
Qed.

End OrchestratorFacts.

(** C10. When the buffer is null or the sample count is not positive,
    [mix_all_signals] throws, whatever the state of the orchestrator (so
    also when it is initialised and every provider is ready), and leaves the
    orchestrator and the caller's buffer as they were: no chunk is
    produced. A chunk is therefore produced only for a buffer that is not
    null and a positive sample count. *)
Theorem mix_all_signals_rejects_null_buffer_and_non_positive_count
    (P : Type) (I : ISatelliteConstellation P)
    (o : Orchestrator.SignalOrchestrator P)
    (buffer : option (list cplx)) (sample_count : Z) (time_now : R) :
  buffer = None \/ sample_count <= 0 ->
  (exists err,
     Orchestrator.mix_all_signals o buffer sample_count time_now
     = (o, buffer, Some err))
  /\ (forall o' buffer',
        Orchestrator.mix_all_signals o buffer sample_count time_now
        <> (o', buffer', None)).
Proof.
  intros Hbad. split.
  - now apply mix_all_signals_guard.
  - intros o' buffer' Hok.
    destruct (mix_all_signals_success _ _ _ _ _ _ Hok) as [Hb [Hn _]].
    destruct Hbad as [Hnull | Hcount]; [contradiction | lia].
Qed.

(** The sample written by the summation of the GLONASS provider is an
    [int16_t], whatever the channel buffers hold. *)
Lemma glonass_sum_sample_in_int16 (buffers : list (list cplx)) (i : nat) :
  sample_in_int16 (Glonass.sum_sample buffers i).
Proof.
  unfold Glonass.sum_sample, sample_in_int16. cbn [fst snd].
  split.
  - pose proof (int16_cast_in_int16
      (fold_left (fun s buffer => int32 (s + fst (nth i buffer (0, 0)))) buffers 0)) as Hc.
    unfold in_int16, INT16_MIN, INT16_MAX in *. lia.
  - pose proof (int16_cast_in_int16
      (fold_left (fun s buffer => int32 (s + snd (nth i buffer (0, 0)))) buffers 0)) as Hc.
    unfold in_int16, INT16_MIN, INT16_MAX in *. lia.
Qed.

(** ** Reals: comparisons and truncation *)

Section RealFacts.

Local Open Scope R_scope.

Lemma Rltb_true (x y : R) : x < y -> Rltb x y = true.
Proof. intros Hlt. unfold Rltb. now destruct (Rlt_dec x y). Qed.

Lemma Rltb_false (x y : R) : y <= x -> Rltb x y = false.
Proof. intros Hle. unfold Rltb. destruct (Rlt_dec x y); [lra | reflexivity]. Qed.

Lemma Int_part_unique (x : R) (z : Z) :
  IZR z <= x < IZR z + 1 -> Int_part x = z.
Proof. intros Hx. symmetry. apply Int_part_spec. lra. Qed.

Lemma trunc_nonneg (x : R) (z : Z) :
  0 <= x -> IZR z <= x < IZR z + 1 -> trunc x = z.
Proof.
  intros Hpos Hx. unfold trunc.
  destruct (Rle_dec 0 x); [|contradiction]. now apply Int_part_unique.
Qed.

Lemma trunc_IZR (z : Z) : trunc (IZR z) = z.
Proof.
  unfold trunc. destruct (Rle_dec 0 (IZR z)) as [Hpos | Hneg].
  - apply Int_part_unique. lra.
  - rewrite <- opp_IZR.
    rewrite (Int_part_unique (IZR (- z)) (- z)) by lra. lia.
Qed.

Lemma to_int16_IZR (z : Z) : in_int16 z -> to_int16 (IZR z) = z.
Proof. intros Hz. unfold to_int16. rewrite trunc_IZR. now apply int16_cast_id. Qed.

End RealFacts.

(** ** The NCO *)

Section NcoFacts.

Local Open Scope R_scope.

(** One step keeps the phase in [0, 2 pi) when the increment is between 0
    and 2 pi, that is for a frequency between 0 and the sample rate. *)
Lemma nco_advance_phase_in_range (phase increment : R) :
  0 <= phase < 2 * PI -> 0 <= increment <= 2 * PI ->
  0 <= NCO.advance_phase phase increment < 2 * PI.
Proof.
  intros Hp Hi. unfold NCO.advance_phase.
  destruct (Rle_dec (2 * PI) (phase + increment)); lra.
Qed.

Lemma nco_phases_in_range (count : nat) :
  forall nco : NCO.DigitalNCO,
    0 <= NCO.phase_ nco < 2 * PI ->
    0 <= NCO.phase_increment_ nco <= 2 * PI ->
    Forall (fun phase => 0 <= phase < 2 * PI) (NCO.phases nco count).
Proof.
  induction count as [|k IH]; intros nco Hp Hi; simpl; constructor.
  - now apply nco_advance_phase_in_range.
  - apply IH; simpl; [now apply nco_advance_phase_in_range | exact Hi].
Qed.

(** The sample emitted is the table entry at the floor of
    [phase * LUT_SIZE / (2 pi)] modulo [LUT_SIZE], for a phase that is not
    negative. *)
Lemma nco_sample_is_table_entry (nco : NCO.DigitalNCO) :
  0 <= NCO.phase_ nco ->
  fst (NCO.generate_sample nco)
  = NCO.lookup_table_
      ((Int_part (NCO.phase_ nco * IZR NCO.LUT_SIZE / (2 * PI)))
         mod NCO.LUT_SIZE)%Z.
Proof.
  intros Hp. unfold NCO.generate_sample, NCO.table_index, trunc. cbn [fst].
  destruct (Rle_dec 0 (NCO.phase_ nco * IZR NCO.LUT_SIZE / (2 * PI)))
    as [_ | Hneg]; [reflexivity|].
  exfalso. apply Hneg.
  pose proof PI_RGT_0 as Hpi.
  apply Rmult_le_pos.
  - apply Rmult_le_pos; [exact Hp|]. unfold NCO.LUT_SIZE. lra.
  - left. apply Rinv_0_lt_compat. lra.
Qed.

(** C9 (evaluation of the code). With the offset -6.58 MHz of the
    repository's own mixing test on the 60 MHz oscillator of a provider,
    the phase after the first generated sample is negative, and it moves
    further from the interval with every sample: the wrap handles only
    phases that reach 2 pi. *)
Theorem nco_phase_negative_for_negative_frequency :
  let nco := NCO.set_frequency (NCO.create 60000000) (-6580000) in
  NCO.phase_ (snd (NCO.generate_samples nco 1)) = - (2 * PI * 6580000 / 60000000)
  /\ NCO.phase_ (snd (NCO.generate_samples nco 1)) < 0
  /\ NCO.phase_ (snd (NCO.generate_samples nco 2))
     < NCO.phase_ (snd (NCO.generate_samples nco 1)).
Proof.
  pose proof PI_RGT_0 as Hpi.
  cbn -[PI Rle_dec]. unfold NCO.advance_phase.
  repeat match goal with
         | |- context [Rle_dec ?a ?b] => destruct (Rle_dec a b); try lra
         end.
Qed.

End NcoFacts.

(** ** Frequency offsets *)

Section OffsetFacts.

Local Open Scope R_scope.

Variable rinex : RinexParser.

Local Abbreviation any := (Providers.any_constellation rinex).

Lemma any_set_frequency_offset (p : Providers.AnyProvider) (offset_hz : R) :
  Providers.frequency_offset (@set_frequency_offset _ any p offset_hz) = offset_hz
  /\ @get_carrier_frequency _ any (@set_frequency_offset _ any p offset_hz)
     = @get_carrier_frequency _ any p.
Proof. destruct p; cbn; split; try reflexivity. lra. Qed.

Lemma any_configure_keeps_offset (p : Providers.AnyProvider) (config : GlobalConfig) :
  Providers.frequency_offset (@configure _ any p config)
  = Providers.frequency_offset p
  /\ @get_carrier_frequency _ any (@configure _ any p config)
     = @get_carrier_frequency _ any p.
Proof. destruct p; cbn; split; reflexivity. Qed.

Lemma any_load_ephemeris_keeps_offset (p p' : Providers.AnyProvider)
    (file_path : string) :
  @load_ephemeris _ any p file_path = inr p' ->
  Providers.frequency_offset p' = Providers.frequency_offset p
  /\ @get_carrier_frequency _ any p' = @get_carrier_frequency _ any p.
Proof.
  destruct p as [q|q|q|q]; cbn; unfold Providers.lift, Cdma.cdma_load_ephemeris;
    cbn.
  1: destruct (parse_gps_rinex2 rinex file_path) as [[what]|data].
  3: destruct (parse_rinex3 rinex file_path GALILEO) as [[what]|data].
  5: destruct (parse_rinex3 rinex file_path BEIDOU) as [[what]|data].
  all: intros Heq; inversion Heq; subst; cbn; split; reflexivity.
Qed.

Lemma load_and_configure_cons {P : Type} {I : ISatelliteConstellation P}
    (config : GlobalConfig) (paths : ConstellationType -> option string)
    (c : P) (rest : list P) :
  Orchestrator.load_and_configure config paths (c :: rest)
  = match
      match paths (get_constellation_type c) with
      | Some path => load_ephemeris c path
      | None => inr c
      end
    with
    | inl err => (c :: rest, Some err)
    | inr c1 =>
        (configure c1 config
           :: fst (Orchestrator.load_and_configure config paths rest),
         snd (Orchestrator.load_and_configure config paths rest))
    end.
Proof.
  cbn [Orchestrator.load_and_configure].
  destruct (paths (get_constellation_type c)) as [path|].
  - destruct (load_ephemeris c path); [reflexivity|].
    now destruct (Orchestrator.load_and_configure config paths rest).
  - now destruct (Orchestrator.load_and_configure config paths rest).
Qed.

Lemma load_and_configure_keeps_offsets (config : GlobalConfig)
    (paths : ConstellationType -> option string)
    (cs : list Providers.AnyProvider) :
  Forall2
    (fun p p' =>
       Providers.frequency_offset p' = Providers.frequency_offset p
       /\ @get_carrier_frequency _ any p' = @get_carrier_frequency _ any p)
    cs
    (fst (@Orchestrator.load_and_configure _ any config paths cs)).
Proof.
  induction cs as [|c rest IH]; [constructor|].
  rewrite load_and_configure_cons.
  destruct (paths (@get_constellation_type _ any c)) as [path|].
  - destruct (@load_ephemeris _ any c path) as [err|c1] eqn:Hload.
    + cbn [fst]. clear IH Hload.
      induction (c :: rest); constructor; [split; reflexivity | assumption].
    + cbn [fst]. constructor; [|exact IH].
      destruct (any_load_ephemeris_keeps_offset _ _ _ Hload) as [Ho Hc].
      destruct (any_configure_keeps_offset c1 config) as [Ho' Hc'].
      split; congruence.
  - cbn [fst]. constructor; [|exact IH].
    apply any_configure_keeps_offset.
Qed.

Lemma calculate_frequency_offsets_sets (config : GlobalConfig) (m : R)
    (cs : list Providers.AnyProvider) :
  Forall2
    (fun p p' =>
       Providers.frequency_offset p'
       = @get_carrier_frequency _ any p - center_frequency_hz config - m
       /\ @get_carrier_frequency _ any p' = @get_carrier_frequency _ any p)
    cs
    (map (fun c =>
            @set_frequency_offset _ any c
              (@get_carrier_frequency _ any c - center_frequency_hz config - m))
         cs).
Proof.
  induction cs as [|c rest IH]; simpl; constructor; [|exact IH].
  apply any_set_frequency_offset.
Qed.

Lemma min_offset_from (center_freq : R) (cs : list Providers.AnyProvider) :
  forall m0 : R,
    fold_left (fun m c => Rmin m (@get_carrier_frequency _ any c - center_freq))
              cs m0 <= m0.
Proof.
  induction cs as [|c rest IH]; intros m0; cbn [fold_left]; [lra|].
  eapply Rle_trans; [apply IH | apply Rmin_l].
Qed.

Lemma min_offset_not_positive (center_freq : R) (cs : list Providers.AnyProvider) :
  @Orchestrator.min_offset _ any center_freq cs <= 0.
Proof. apply min_offset_from. Qed.

Lemma min_offset_zero (center_freq : R) (cs : list Providers.AnyProvider) :
  (forall p, In p cs -> center_freq <= @get_carrier_frequency _ any p) ->
  @Orchestrator.min_offset _ any center_freq cs = 0.
Proof.
  unfold Orchestrator.min_offset.
  induction cs as [|c rest IH]; intros Hall; cbn [fold_left]; [reflexivity|].
  rewrite Rmin_left by (specialize (Hall c (or_introl eq_refl)); lra).
  apply IH. intros p Hin. apply Hall. now right.
Qed.

(** The final mix of a CDMA provider happens exactly when the offset
    exceeds 1 Hz in absolute value. *)
Lemma final_mix_threshold (offset_hz : R) (nco : NCO.DigitalNCO)
    (buffer : list cplx) (sample_count : Z) :
  (Rabs offset_hz <= 1 ->
   Cdma.final_mix offset_hz nco buffer sample_count = (buffer, nco))
  /\ (1 < Rabs offset_hz ->
      Cdma.final_mix offset_hz nco buffer sample_count
      = (copy_into (fst (NCO.mix_signal nco buffer (Z.to_nat sample_count)))
                   buffer,
         snd (NCO.mix_signal nco buffer (Z.to_nat sample_count)))).
Proof.
  unfold Cdma.final_mix. split; intros Hoff.
  - now rewrite Rltb_false.
  - rewrite Rltb_true by exact Hoff.
    now destruct (NCO.mix_signal nco buffer (Z.to_nat sample_count)).
Qed.

(** With an offset of at most 1 Hz, [generate_chunk] of a ready CDMA
    provider returns the accumulated buffer as it is and leaves the NCO
    untouched. *)
Lemma cdma_generate_chunk_without_mix {CodeState : Type}
    (V : Cdma.Variant CodeState) (p p' : Cdma.Provider CodeState)
    (buffer out : list cplx) (sample_count : Z) (time_now : R) :
  Rabs (Cdma.frequency_offset_hz_ p) <= 1 ->
  Cdma.cdma_generate_chunk V p buffer sample_count time_now = inr (p', out) ->
  Cdma.nco_ p' = Cdma.nco_ p
  /\ out = snd (Cdma.for_each_satellite V sample_count time_now (Cdma.config_ p)
                  (Cdma.active_satellites_ p) (Cdma.code_states_ p)
                  (fill_zero (Z.to_nat sample_count) buffer)).
Proof.
  intros Hoff. unfold Cdma.cdma_generate_chunk.
  destruct (negb (Cdma.cdma_is_ready p)); [discriminate|].
  destruct (Cdma.for_each_satellite _ _ _ _ _ _ _) as [[sats codes] buffer1].
  rewrite (proj1 (final_mix_threshold _ _ _ _) Hoff).
  intros Heq. inversion Heq; subst. now split.
Qed.

End OffsetFacts.

(** ** Initialisation of the orchestrator *)

Section InitializeFacts.

Local Open Scope R_scope.

Context {P : Type} {I : ISatelliteConstellation P}.

(** A successful [initialize] validated the configuration, set the
    offsets first and then went through the providers. *)
Lemma initialize_success (o : Orchestrator.SignalOrchestrator P)
    (paths : ConstellationType -> option string) :
  snd (Orchestrator.initialize o paths) = None ->
  Orchestrator.validate_configuration (Orchestrator.config_ o) = true
  /\ fst (Orchestrator.initialize o paths)
     = Orchestrator.mkSignalOrchestrator
         (fst (Orchestrator.load_and_configure (Orchestrator.config_ o) paths
                 (Orchestrator.calculate_frequency_offsets
                    (Orchestrator.config_ o) (Orchestrator.constellations_ o))))
         (Orchestrator.config_ o) true.
Proof.
  unfold Orchestrator.initialize.
  destruct (Orchestrator.validate_configuration (Orchestrator.config_ o));
    cbn [negb]; [|discriminate].
  destruct (Orchestrator.load_and_configure _ _ _) as [cs2 [ex|]];
    cbn [fst snd]; [discriminate|].
  intros _. split; reflexivity.
Qed.

(** The configuration check: sample rate and centre frequency positive,
    at least one active constellation. *)
Lemma validate_configuration_spec (config : GlobalConfig) :
  Orchestrator.validate_configuration config = true
  <-> 0 < sampling_rate_hz config /\ 0 < center_frequency_hz config
      /\ active_constellations config <> [].
Proof.
  unfold Orchestrator.validate_configuration, Rltb.
  destruct (Rlt_dec 0 (sampling_rate_hz config));
    destruct (Rlt_dec 0 (center_frequency_hz config));
    destruct (active_constellations config); cbn;
    intuition (try discriminate; try congruence).
Qed.

(** An invalid configuration makes [initialize] throw before any provider
    is touched. *)
Lemma initialize_invalid_configuration (o : Orchestrator.SignalOrchestrator P)
    (paths : ConstellationType -> option string) :
  Orchestrator.validate_configuration (Orchestrator.config_ o) = false ->
  Orchestrator.initialize o paths
  = (o, Some (QuadGNSSException "Invalid configuration")).
Proof. intros Hbad. unfold Orchestrator.initialize. now rewrite Hbad. Qed.

Lemma load_and_configure_no_paths (config : GlobalConfig) (cs : list P) :
  snd (Orchestrator.load_and_configure config (fun _ => None) cs) = None.
Proof.
  induction cs as [|c rest IH]; [reflexivity|].
  rewrite load_and_configure_cons. exact IH.
Qed.

Lemma initialize_no_paths (o : Orchestrator.SignalOrchestrator P) :
  Orchestrator.validate_configuration (Orchestrator.config_ o) = true ->
  snd (Orchestrator.initialize o (fun _ => None)) = None.
Proof.
  intros Hok. unfold Orchestrator.initialize. rewrite Hok. cbn [negb].
  pose proof (load_and_configure_no_paths (Orchestrator.config_ o)
                (Orchestrator.calculate_frequency_offsets
                   (Orchestrator.config_ o) (Orchestrator.constellations_ o)))
    as Hnone.
  destruct (Orchestrator.load_and_configure _ _ _) as [cs2 err].
  cbn [snd] in Hnone. now subst err.
Qed.

End InitializeFacts.

Lemma Forall2_compose {A : Type} (R1 R2 R3 : A -> A -> Prop) :
  (forall x y z, R1 x y -> R2 y z -> R3 x z) ->
  forall l1 l2 l3, Forall2 R1 l1 l2 -> Forall2 R2 l2 l3 -> Forall2 R3 l1 l3.
Proof.
  intros Hstep l1 l2 l3 H12. revert l3.
  induction H12 as [|x y l1 l2 Hxy _ IH]; intros l3 H23; inversion H23; subst;
    constructor; eauto.
Qed.

Section AllocationFacts.

Local Open Scope R_scope.

Variable rinex : RinexParser.

Local Abbreviation any := (Providers.any_constellation rinex).

(** After a successful [initialize] every provider holds its carrier minus
    the centre minus the common [min_offset]. *)
Lemma initialize_offsets (o : Orchestrator.SignalOrchestrator Providers.AnyProvider)
    (paths : ConstellationType -> option string) :
  snd (@Orchestrator.initialize _ any o paths) = None ->
  Forall2
    (fun p p' =>
       Providers.frequency_offset p'
       = @get_carrier_frequency _ any p
         - center_frequency_hz (Orchestrator.config_ o)
         - @Orchestrator.min_offset _ any
             (center_frequency_hz (Orchestrator.config_ o))
             (Orchestrator.constellations_ o))
    (Orchestrator.constellations_ o)
    (Orchestrator.constellations_ (fst (@Orchestrator.initialize _ any o paths))).
Proof.
  intros Hok. destruct (initialize_success o paths Hok) as [_ ->].
  cbn [Orchestrator.constellations_].
  eapply Forall2_compose;
    [| apply calculate_frequency_offsets_sets
     | apply load_and_configure_keeps_offsets].
  cbn beta. intros x y z [Hxy _] [Hyz _]. congruence.
Qed.

End AllocationFacts.

Section AllocationClaim.

Local Open Scope R_scope.

Lemma gps_only_initialises :
  snd (@Orchestrator.initialize _
         (Providers.any_constellation Scenario.one_gps_record)
         Scenario.gps_only Scenario.no_paths) = None.
Proof.
  apply (@initialize_no_paths _
           (Providers.any_constellation Scenario.one_gps_record)).
  apply validate_configuration_spec. cbn.
  unfold DEFAULT_SAMPLING_RATE, DEFAULT_CENTER_FREQ.
  repeat split; try lra. discriminate.
Qed.

(** C5 (counterexample). With the default centre of 1582 MHz and the GPS
    provider alone, initialisation succeeds and the offset of the provider
    is not its carrier minus the centre (which is -6.58 MHz). *)
Lemma gps_offset_is_not_carrier_minus_centre :
  snd (@Orchestrator.initialize _
         (Providers.any_constellation Scenario.one_gps_record)
         Scenario.gps_only Scenario.no_paths) = None
  /\ ~ Forall
         (fun p' =>
            Providers.frequency_offset p'
            = @get_carrier_frequency _
                (Providers.any_constellation Scenario.one_gps_record) p'
              - center_frequency_hz (Orchestrator.config_ Scenario.gps_only))
         (Orchestrator.constellations_
            (fst (@Orchestrator.initialize _
                    (Providers.any_constellation Scenario.one_gps_record)
                    Scenario.gps_only Scenario.no_paths))).
Proof.
  split; [exact gps_only_initialises|].
  destruct (initialize_success _ _ gps_only_initialises) as [_ Hfst].
  rewrite Hfst. clear Hfst. intros Hclaim.
  cbn in Hclaim. inversion Hclaim as [|? ? Hp' _]; subst. clear Hclaim.
  unfold Providers.frequency_offset, Cdma.cdma_configure,
    Cdma.cdma_set_frequency_offset, Cdma.create in Hp'.
  cbn in Hp'. unfold DEFAULT_CENTER_FREQ, Rmin in Hp'.
  destruct (Rle_dec 0 (1575420000 - 1582000000)); lra.
Qed.

End AllocationClaim.

Section AllocationTheorem.

Local Open Scope R_scope.

(** C5 (amended). After a successful initialisation of the orchestrator
    every provider's frequency offset equals its carrier frequency minus
    the centre frequency minus [min_offset], the smallest of 0 and the
    differences carrier minus centre over all providers; so it equals
    carrier minus centre when no provider's carrier lies below the centre.
    In particular, with the centre at 1561.098 MHz and no carrier below
    it, a provider whose carrier is 1561.098 MHz (the BeiDou provider) has
    offset 0; and the [generate_chunk] of a CDMA provider whose offset is
    at most 1 Hz in absolute value applies no final NCO mix (the NCO is not
    touched and the accumulated buffer is returned), the mix being applied
    when the absolute offset exceeds 1 Hz. *)
Theorem frequency_offsets_after_initialize (rinex : RinexParser)
    (o : Orchestrator.SignalOrchestrator Providers.AnyProvider)
    (paths : ConstellationType -> option string) :
  snd (@Orchestrator.initialize _ (Providers.any_constellation rinex) o paths)
  = None ->
  let carrier := @get_carrier_frequency _ (Providers.any_constellation rinex) in
  let centre := center_frequency_hz (Orchestrator.config_ o) in
  let cs := Orchestrator.constellations_ o in
  let cs' :=
    Orchestrator.constellations_
      (fst (@Orchestrator.initialize _ (Providers.any_constellation rinex)
              o paths)) in
  let m :=
    @Orchestrator.min_offset _ (Providers.any_constellation rinex) centre cs in
  m <= 0
  /\ Forall2 (fun p p' => Providers.frequency_offset p' = carrier p - centre - m)
             cs cs'
  /\ ((forall p, In p cs -> centre <= carrier p) ->
      Forall2 (fun p p' => Providers.frequency_offset p' = carrier p - centre)
              cs cs')
  /\ (centre = 1561098000 ->
      (forall p, In p cs -> 1561098000 <= carrier p) ->
      Forall2 (fun p p' =>
                 carrier p = 1561098000 -> Providers.frequency_offset p' = 0)
              cs cs')
  /\ (forall (CodeState : Type) (V : Cdma.Variant CodeState)
             (q q' : Cdma.Provider CodeState) (buffer out : list cplx)
             (sample_count : Z) (time_now : R),
        Rabs (Cdma.frequency_offset_hz_ q) <= 1 ->
        Cdma.cdma_generate_chunk V q buffer sample_count time_now
        = inr (q', out) ->
        Cdma.nco_ q' = Cdma.nco_ q
        /\ out = snd (Cdma.for_each_satellite V sample_count time_now
                        (Cdma.config_ q) (Cdma.active_satellites_ q)
                        (Cdma.code_states_ q)
                        (fill_zero (Z.to_nat sample_count) buffer)))
  /\ (forall (offset_hz : R) (nco : NCO.DigitalNCO) (buffer : list cplx)
             (sample_count : Z),
        1 < Rabs offset_hz ->
        Cdma.final_mix offset_hz nco buffer sample_count
        = (copy_into (fst (NCO.mix_signal nco buffer (Z.to_nat sample_count)))
                     buffer,
           snd (NCO.mix_signal nco buffer (Z.to_nat sample_count)))).
Proof.
  intros Hok carrier centre cs cs' m.
  pose proof (initialize_offsets rinex o paths Hok) as Hall.
  fold carrier centre cs cs' m in Hall.
  split; [apply min_offset_not_positive|].
  split; [exact Hall|].
  split; [|split; [|split]].
  - intros Habove. eapply Forall2_impl; [|exact Hall].
    cbn beta. intros p p' ->.
    unfold m. rewrite (min_offset_zero rinex centre cs Habove). lra.
  - intros Hcentre Habove. eapply Forall2_impl; [|exact Hall].
    cbn beta. intros p p' -> Hp.
    unfold m. rewrite min_offset_zero by (rewrite Hcentre; exact Habove). lra.
  - intros CodeState V q q' buffer out sample_count time_now.
    apply cdma_generate_chunk_without_mix.
  - intros offset_hz nco buffer sample_count.
    apply final_mix_threshold.
Qed.

Lemma centred_on_beidou_initialises :
  snd (@Orchestrator.initialize _
         (Providers.any_constellation Scenario.empty_files)
         Scenario.centred_on_beidou Scenario.no_paths) = None.
Proof.
  apply (@initialize_no_paths _
           (Providers.any_constellation Scenario.empty_files)).
  apply validate_configuration_spec. cbn.
  repeat split; try lra. discriminate.
Qed.

Lemma four_providers_not_below_beidou (rinex : RinexParser) (p : Providers.AnyProvider) :
  In p (Scenario.four_providers rinex) ->
  1561098000
  <= @get_carrier_frequency _ (Providers.any_constellation rinex) p.
Proof.
  unfold Scenario.four_providers. cbn [In].
  intros [<- | [<- | [<- | [<- | []]]]]; cbn; lra.
Qed.

(** The sixth scenario of the specification: the four providers of the
    factory with the centre on the BeiDou carrier. *)
Lemma beidou_offset_is_zero_when_centred :
  snd (@Orchestrator.initialize _
         (Providers.any_constellation Scenario.empty_files)
         Scenario.centred_on_beidou Scenario.no_paths) = None
  /\ Forall2
       (fun p p' =>
          @get_carrier_frequency _
            (Providers.any_constellation Scenario.empty_files) p = 1561098000 ->
          Providers.frequency_offset p' = 0)
       (Orchestrator.constellations_ Scenario.centred_on_beidou)
       (Orchestrator.constellations_
          (fst (@Orchestrator.initialize _
                  (Providers.any_constellation Scenario.empty_files)
                  Scenario.centred_on_beidou Scenario.no_paths))).
Proof.
  split; [exact centred_on_beidou_initialises|].
  apply (frequency_offsets_after_initialize Scenario.empty_files
           Scenario.centred_on_beidou Scenario.no_paths
           centred_on_beidou_initialises).
  - reflexivity.
  - apply four_providers_not_below_beidou.
Defined.

End AllocationTheorem.

(** ** The order of the calls of [initialize] *)

Section InitializeOrder.

Local Open Scope R_scope.

(** For a provider with an ephemeris path, the loop of [initialize] calls
    [load_ephemeris] on the provider as it is and [configure] on what
    [load_ephemeris] returned. *)
Lemma load_and_configure_order {P : Type} {I : ISatelliteConstellation P}
    (config : GlobalConfig) (paths : ConstellationType -> option string)
    (c c1 : P) (path : string) :
  paths (get_constellation_type c) = Some path ->
  load_ephemeris c path = inr c1 ->
  Orchestrator.load_and_configure config paths [c]
  = ([configure c1 config], None).
Proof.
  intros Hpath Hload. rewrite load_and_configure_cons, Hpath, Hload.
  reflexivity.
Qed.

Lemma default_configuration_is_valid :
  Orchestrator.validate_configuration GlobalConfig_default = true.
Proof.
  apply validate_configuration_spec. cbn.
  unfold DEFAULT_SAMPLING_RATE, DEFAULT_CENTER_FREQ.
  repeat split; try lra. discriminate.
Qed.

(** C7 (evaluation of the code). [initialize] validates the configuration
    and then, for a provider with a path, calls [load_ephemeris] first and
    [configure] second. With a GPS file that holds a record for PRN 1 the
    orchestrator initialises without error and no satellite of its GPS
    provider holds a valid ephemeris, because [configure] recreated the
    satellites after the load; the same provider configured first and
    loaded second, as the tests of the repository do, holds the record of
    PRN 1. *)
Theorem initialize_loads_ephemeris_before_configuring :
  (forall (P : Type) (I : ISatelliteConstellation P) (config : GlobalConfig)
          (paths : ConstellationType -> option string) (c c1 : P)
          (path : string),
      paths (get_constellation_type c) = Some path ->
      load_ephemeris c path = inr c1 ->
      Orchestrator.load_and_configure config paths [c]
      = ([configure c1 config], None))
  /\ snd (@Orchestrator.initialize _
            (Providers.any_constellation Scenario.one_gps_record)
            Scenario.gps_only Scenario.gps_path) = None
  /\ map Observation.valid_ephemeris_prns
       (Orchestrator.constellations_
          (fst (@Orchestrator.initialize _
                  (Providers.any_constellation Scenario.one_gps_record)
                  Scenario.gps_only Scenario.gps_path)))
     = [[]]
  /\ map (fun p =>
            Observation.valid_ephemeris_prns
              (@Providers.after_calls _
                 (Providers.any_constellation Scenario.one_gps_record) p
                 [Providers.Configure GlobalConfig_default;
                  Providers.LoadEphemeris "gps.nav"]))
       (Orchestrator.constellations_ Scenario.gps_only)
     = [[1%Z]].
Proof.
  split; [intros; eapply load_and_configure_order; eassumption|].
  assert (Hinit :
    @Orchestrator.initialize _
      (Providers.any_constellation Scenario.one_gps_record)
      Scenario.gps_only Scenario.gps_path
    = (Orchestrator.mkSignalOrchestrator
         (fst (@Orchestrator.load_and_configure _
                 (Providers.any_constellation Scenario.one_gps_record)
                 GlobalConfig_default Scenario.gps_path
                 (@Orchestrator.calculate_frequency_offsets _
                    (Providers.any_constellation Scenario.one_gps_record)
                    GlobalConfig_default
                    (Orchestrator.constellations_ Scenario.gps_only))))
         GlobalConfig_default true, None)).
  { unfold Orchestrator.initialize.
    cbn [Orchestrator.config_ Scenario.gps_only].
    rewrite default_configuration_is_valid. reflexivity. }
  rewrite Hinit. cbn [fst snd Orchestrator.constellations_].
  split; [reflexivity|]. split; reflexivity.
Qed.

End InitializeOrder.

(** ** Readiness of the providers *)

Section ReadinessFacts.

Lemma same_flags_same_existsb {A : Type} (f : A -> bool) (l l' : list A) :
  map f l' = map f l ->
  existsb f l' = existsb f l /\ Readiness.is_empty l' = Readiness.is_empty l.
Proof.
  revert l'. induction l as [|a l IH]; intros [|a' l'] Hmap;
    try discriminate; [split; reflexivity|].
  cbn in Hmap. inversion Hmap as [[Ha Hl]].
  destruct (IH l' Hl) as [He _]. cbn. rewrite Ha, He. split; reflexivity.
Qed.

Lemma gps_satellite_keeps_active (config : GlobalConfig) (sample_count : Z)
    (time_now : R) (sat : Cdma.SatelliteConfig)
    (codes : list (Z * Gps.GPSCodeState)) (buffer : list cplx) :
  Cdma.is_active
    (fst (fst (GpsL1Provider.satellite config sample_count time_now sat codes buffer)))
  = Cdma.is_active sat.
Proof.
  unfold GpsL1Provider.satellite.
  now destruct (fold_left _ _ _) as [[chips state1] buffer1].
Qed.

Lemma galileo_satellite_keeps_active (config : GlobalConfig) (sample_count : Z)
    (time_now : R) (sat : Cdma.SatelliteConfig)
    (codes : list (Z * Galileo.GalileoCodeState)) (buffer : list cplx) :
  Cdma.is_active
    (fst (fst (GalileoE1Provider.satellite config sample_count time_now sat codes buffer)))
  = Cdma.is_active sat.
Proof.
  unfold GalileoE1Provider.satellite.
  now destruct (fold_left _ _ _) as [[chips state1] buffer1].
Qed.

Lemma beidou_satellite_keeps_active (config : GlobalConfig) (sample_count : Z)
    (time_now : R) (sat : Cdma.SatelliteConfig)
    (codes : list (Z * Beidou.BeidouCodeState)) (buffer : list cplx) :
  Cdma.is_active
    (fst (fst (BeidouB1Provider.satellite config sample_count time_now sat codes buffer)))
  = Cdma.is_active sat.
Proof.
  unfold BeidouB1Provider.satellite.
  now destruct (fold_left _ _ _) as [[chips state1] buffer1].
Qed.

Context {CodeState : Type}.
Variable V : Cdma.Variant CodeState.

(** What a derived class has to respect: its per-satellite work keeps the
    active flag, and its default satellites include an active one. *)
Hypothesis Hkeeps :
  forall config sample_count time_now sat codes buffer,
    Cdma.is_active
      (fst (fst (Cdma.v_satellite V config sample_count time_now sat codes buffer)))
    = Cdma.is_active sat.

Hypothesis Hdefault :
  existsb Cdma.is_active (Cdma.initialize_default_satellites V) = true.

Lemma for_each_satellite_keeps_active (sample_count : Z) (time_now : R)
    (config : GlobalConfig) (sats : list Cdma.SatelliteConfig) :
  forall (codes : list (Z * CodeState)) (buffer : list cplx),
    map Cdma.is_active
      (fst (fst (Cdma.for_each_satellite V sample_count time_now config
                   sats codes buffer)))
    = map Cdma.is_active sats.
Proof.
  induction sats as [|sat rest IH]; intros codes buffer; [reflexivity|].
  cbn [Cdma.for_each_satellite].
  destruct (Cdma.is_active sat) eqn:Hact.
  - pose proof (Hkeeps config sample_count time_now sat codes buffer) as Hk.
    destruct (Cdma.v_satellite V config sample_count time_now sat codes buffer)
      as [[sat1 codes1] buffer1].
    specialize (IH codes1 buffer1).
    destruct (Cdma.for_each_satellite V sample_count time_now config rest
                codes1 buffer1) as [[rest2 codes2] buffer2].
    cbn [fst map] in *. now rewrite Hk, Hact, IH.
  - specialize (IH codes buffer).
    destruct (Cdma.for_each_satellite V sample_count time_now config rest
                codes buffer) as [[rest2 codes2] buffer2].
    cbn [fst map] in *. now rewrite Hact, IH.
Qed.

Lemma cdma_create_ok : Readiness.cdma_satellites_ok (Cdma.create V).
Proof. reflexivity. Qed.

Lemma cdma_configure_ok (p : Cdma.Provider CodeState) (config : GlobalConfig) :
  Readiness.cdma_satellites_ok (Cdma.cdma_configure V p config).
Proof.
  unfold Readiness.cdma_satellites_ok, Cdma.cdma_configure. cbn [Cdma.active_satellites_].
  rewrite Hdefault.
  destruct (Cdma.initialize_default_satellites V); [discriminate | reflexivity].
Qed.

Lemma cdma_set_frequency_offset_ok (p : Cdma.Provider CodeState) (offset_hz : R) :
  Readiness.cdma_satellites_ok p ->
  Readiness.cdma_satellites_ok (Cdma.cdma_set_frequency_offset p offset_hz).
Proof. intros Hp. exact Hp. Qed.

Lemma cdma_load_ephemeris_ok (p p' : Cdma.Provider CodeState) (file_path : string) :
  Readiness.cdma_satellites_ok p ->
  Cdma.cdma_load_ephemeris V p file_path = inr p' ->
  Readiness.cdma_satellites_ok p'.
Proof.
  unfold Readiness.cdma_satellites_ok, Cdma.cdma_load_ephemeris. intros Hp.
  destruct (Cdma.v_reader V file_path) as [[what]|data]; [discriminate|].
  intros Heq. inversion Heq; subst. cbn [Cdma.active_satellites_].
  destruct (same_flags_same_existsb Cdma.is_active (Cdma.active_satellites_ p)
              (map (Cdma.attach_ephemeris data) (Cdma.active_satellites_ p)))
    as [He Hn].
  { rewrite map_map. apply map_ext. intros sat. unfold Cdma.attach_ephemeris.
    now destruct (find_ephemeris (Cdma.prn sat) data). }
  now rewrite He, Hn.
Qed.

Lemma cdma_generate_chunk_ok (p p' : Cdma.Provider CodeState)
    (buffer out : list cplx) (sample_count : Z) (time_now : R) :
  Readiness.cdma_satellites_ok p ->
  Cdma.cdma_generate_chunk V p buffer sample_count time_now = inr (p', out) ->
  Readiness.cdma_satellites_ok p'
  /\ Cdma.configured_ p' = Cdma.configured_ p
  /\ Cdma.ephemeris_loaded_ p' = Cdma.ephemeris_loaded_ p.
Proof.
  unfold Readiness.cdma_satellites_ok, Cdma.cdma_generate_chunk. intros Hp.
  destruct (negb (Cdma.cdma_is_ready p)); [discriminate|].
  pose proof (for_each_satellite_keeps_active sample_count time_now
                (Cdma.config_ p) (Cdma.active_satellites_ p)
                (Cdma.code_states_ p)
                (fill_zero (Z.to_nat sample_count) buffer)) as Hflags.
  destruct (Cdma.for_each_satellite _ _ _ _ _ _ _) as [[sats codes] buffer1].
  destruct (Cdma.final_mix _ _ _ _) as [buffer2 nco1].
  intros Heq. inversion Heq; subst. cbn [Cdma.active_satellites_
    Cdma.configured_ Cdma.ephemeris_loaded_ fst] in *.
  destruct (same_flags_same_existsb _ _ _ Hflags) as [He Hn].
  rewrite He, Hn. auto.
Qed.

(** For a provider whose satellites are none or include an active one,
    [is_ready] is the conjunction of the three conditions. *)
Lemma cdma_is_ready_spec (p : Cdma.Provider CodeState) :
  Readiness.cdma_satellites_ok p ->
  Cdma.cdma_is_ready p
  = Cdma.configured_ p && Cdma.ephemeris_loaded_ p
    && existsb Cdma.is_active (Cdma.active_satellites_ p).
Proof.
  unfold Readiness.cdma_satellites_ok, Cdma.cdma_is_ready, Readiness.is_empty.
  now intros ->.
Qed.

Lemma cdma_generate_chunk_not_ready (p : Cdma.Provider CodeState)
    (buffer : list cplx) (sample_count : Z) (time_now : R) :
  Cdma.cdma_is_ready p = false ->
  Cdma.cdma_generate_chunk V p buffer sample_count time_now
  = inl (QuadGNSSException (Cdma.v_not_ready V)).
Proof. intros Hnot. unfold Cdma.cdma_generate_chunk. now rewrite Hnot. Qed.

End ReadinessFacts.

Section ReadinessClaim.

Variable rinex : RinexParser.

Local Abbreviation any := (Providers.any_constellation rinex).

Lemma gps_default_satellites_active :
  existsb Cdma.is_active
    (Cdma.initialize_default_satellites (GpsL1Provider.variant rinex)) = true.
Proof. reflexivity. Qed.

Lemma galileo_default_satellites_active :
  existsb Cdma.is_active
    (Cdma.initialize_default_satellites (GalileoE1Provider.variant rinex)) = true.
Proof. reflexivity. Qed.

Lemma beidou_default_satellites_active :
  existsb Cdma.is_active
    (Cdma.initialize_default_satellites (BeidouB1Provider.variant rinex)) = true.
Proof. reflexivity. Qed.

Lemma created_provider_ok (type : ConstellationType) (p : Providers.AnyProvider) :
  Providers.create_constellation rinex type = inr p ->
  Readiness.satellites_ok p.
Proof.
  destruct type; cbn; intros Heq; inversion Heq; subst; cbn;
    try exact I; reflexivity.
Qed.

Lemma after_call_ok (p : Providers.AnyProvider) (c : Providers.call) :
  Readiness.satellites_ok p ->
  Readiness.satellites_ok (@Providers.after_call _ any p c).
Proof.
  intros Hp. destruct c as [config | file_path | offset_hz | buffer n t].
  - destruct p; cbn; try exact I.
    + apply cdma_configure_ok, gps_default_satellites_active.
    + apply cdma_configure_ok, galileo_default_satellites_active.
    + apply cdma_configure_ok, beidou_default_satellites_active.
  - destruct p as [q|q|q|q]; cbn in *; unfold Providers.lift.
    + destruct (Cdma.cdma_load_ephemeris _ q file_path) eqn:Hl; [exact Hp|].
      eapply cdma_load_ephemeris_ok; eassumption.
    + destruct (Cdma.cdma_load_ephemeris _ q file_path) eqn:Hl; [exact Hp|].
      eapply cdma_load_ephemeris_ok; eassumption.
    + destruct (Cdma.cdma_load_ephemeris _ q file_path) eqn:Hl; [exact Hp|].
      eapply cdma_load_ephemeris_ok; eassumption.
    + exact I.
  - destruct p; cbn in *; try exact I; exact Hp.
  - destruct p as [q|q|q|q]; cbn in *; unfold Providers.lift_chunk, Providers.lift.
    + destruct (Cdma.cdma_generate_chunk _ q buffer n t) as [err|[q' out]] eqn:Hg;
        [exact Hp|].
      cbn. exact (proj1 (cdma_generate_chunk_ok (GpsL1Provider.variant rinex)
                           gps_satellite_keeps_active _ _ _ _ _ _ Hp Hg)).
    + destruct (Cdma.cdma_generate_chunk _ q buffer n t) as [err|[q' out]] eqn:Hg;
        [exact Hp|].
      cbn. exact (proj1 (cdma_generate_chunk_ok (GalileoE1Provider.variant rinex)
                           galileo_satellite_keeps_active _ _ _ _ _ _ Hp Hg)).
    + destruct (Cdma.cdma_generate_chunk _ q buffer n t) as [err|[q' out]] eqn:Hg;
        [exact Hp|].
      cbn. exact (proj1 (cdma_generate_chunk_ok (BeidouB1Provider.variant rinex)
                           beidou_satellite_keeps_active _ _ _ _ _ _ Hp Hg)).
    + destruct (Glonass.glonass_generate_chunk q buffer n t) as [err|[q' out]];
        exact I.
Qed.

Lemma after_calls_ok (calls : list Providers.call) :
  forall p : Providers.AnyProvider,
    Readiness.satellites_ok p ->
    Readiness.satellites_ok (@Providers.after_calls _ any p calls).
Proof.
  unfold Providers.after_calls.
  induction calls as [|c calls IH]; intros p Hp; [exact Hp|].
  cbn [fold_left]. apply IH. now apply after_call_ok.
Qed.

Lemma is_ready_spec (p : Providers.AnyProvider) :
  Readiness.satellites_ok p ->
  @is_ready _ any p
  = Providers.configured p && Providers.ephemeris_loaded p
    && Providers.has_active_satellite p.
Proof.
  destruct p as [q|q|q|q]; cbn; intros Hp;
    try (now apply cdma_is_ready_spec); reflexivity.
Qed.

Lemma generate_chunk_not_ready (p : Providers.AnyProvider)
    (buffer : list cplx) (sample_count : Z) (time_now : R) :
  @is_ready _ any p = false ->
  @generate_chunk _ any p buffer sample_count time_now
  = inl (QuadGNSSException (Readiness.not_ready_message p)).
Proof.
  destruct p as [q|q|q|q]; cbn; intros Hnot.
  1-3: now rewrite cdma_generate_chunk_not_ready.
  unfold Glonass.glonass_generate_chunk. now rewrite Hnot.
Qed.

End ReadinessClaim.

(** ** The GLONASS baseband *)

Section GlonassBaseband.

Local Open Scope R_scope.

(** The base signal of the GLONASS channel generator repeats after one
    chip time: it is a square wave of the chip rate, the same for every
    channel, and no 511-chip code. *)
Lemma glonass_bpsk_repeats_every_chip (time : R) :
  Glonass.bpsk_signal (time + 1 / 511000) = Glonass.bpsk_signal time.
Proof.
  unfold Glonass.bpsk_signal, Glonass.chip_rate.
  replace (2 * PI * 511000 * (time + 1 / 511000))
    with (2 * PI * 511000 * time + 2 * INR 1 * PI) by (simpl INR; field).
  now rewrite cos_period.
Qed.

(** The channel frequency is 1602 MHz + k * 0.5625 MHz and the rotation
    applied is by the difference to 1602 MHz. *)
Lemma glonass_channel_frequency (g : Glonass.GlonassChannelGenerator)
    (k : Z) (power_dbm : R) :
  Glonass.frequency_hz_ (Glonass.configure_generator g k 1602000000 power_dbm)
  = 1602000000 + IZR k * 562500
  /\ Glonass.delta_f_hz_ (Glonass.configure_generator g k 1602000000 power_dbm)
     = IZR k * 562500.
Proof. unfold Glonass.configure_generator. cbn. split; [reflexivity | lra]. Qed.

End GlonassBaseband.

(** C6 (evaluation of the code). The GLONASS provider spreads no satellite
    with a 511-chip m-sequence: the base signal of its channel generator is
    the sign of a cosine at the chip rate, which repeats after one chip
    time; the satellites do differ only by the channel frequency
    1602 MHz + k * 0.5625 MHz, applied as a rotation by k * 0.5625 MHz.
    The code generator of glonass.c, the same for every satellite, is not
    an m-sequence generator either: its register does not return to all
    ones after 511 steps and its chips repeat with period 3 after the
    first nine. *)
Theorem glonass_baseband_is_not_a_511_chip_code :
  (forall time : R,
      Glonass.bpsk_signal (time + 1 / 511000)%R = Glonass.bpsk_signal time)
  /\ (forall (g : Glonass.GlonassChannelGenerator) (k : Z) (power_dbm : R),
        Glonass.frequency_hz_
          (Glonass.configure_generator g k 1602000000 power_dbm)
        = (1602000000 + IZR k * 562500)%R
        /\ Glonass.delta_f_hz_
             (Glonass.configure_generator g k 1602000000 power_dbm)
           = (IZR k * 562500)%R)
  /\ run GlonassCode.advance 511 GlonassCode.initial_state
     <> GlonassCode.initial_state
  /\ (forall n : nat,
        GlonassCode.chip_stream (n + 9 + 3) = GlonassCode.chip_stream (n + 9))
  /\ GlonassCode.generate_glonass_code 1 (repeat 0 511) 511
     = repeat (-1) 9 ++ List.concat (repeat [1; -1; -1] 167) ++ [1].
Proof.
  split; [exact glonass_bpsk_repeats_every_chip|].
  split; [exact glonass_channel_frequency|].
  destruct glonass_register_is_not_maximal as [H1 [H2 [H3 _]]].
  repeat split; assumption.
Qed.

(** ** Two chunks against one *)

Section ChunkBoundaryFacts.

Local Open Scope R_scope.

Import ChunkBoundary.

(** While the chip index of a sample equals the one the code state
    records, the sample loop leaves chip and code state alone and adds the
    carrier sample. *)
Lemma gps_sample_step_same_chip (config : GlobalConfig) (time_now : R)
    (prn : Z) (doppler phase : R) (chips : Z) (state : Gps.GPSCodeState)
    (buffer : list cplx) (i : nat) :
  Z.rem (trunc (Cdma.sample_time config time_now i * GpsL1Provider.chip_rate))
        1023 = Gps.chip_count state ->
  GpsL1Provider.sample_step config time_now prn doppler phase
    (chips, state, buffer) i
  = (chips, state,
     update i
       (accumulate (nth i buffer (0%Z, 0%Z))
          (to_int16
             (IZR (Gps.chip_value chips)
              * cos (Cdma.carrier_argument GpsL1Provider.carrier_freq doppler
                       (Cdma.sample_time config time_now i) phase)
              * 1000),
           0%Z))
       buffer).
Proof.
  intros Hsame. unfold GpsL1Provider.sample_step.
  now rewrite Hsame, Z.eqb_refl.
Qed.

Lemma gps_samples_within_first_chip (config : GlobalConfig) (time_now : R)
    (prn : Z) (doppler phase : R) (state : Gps.GPSCodeState) (n : nat) :
  Gps.chip_count state = 0%Z ->
  within_first_chip config time_now n ->
  forall (l : list nat) (buffer : list cplx),
    (forall i, In i l -> (i < n)%nat) ->
    fold_left (GpsL1Provider.sample_step config time_now prn doppler phase)
              l (0%Z, state, buffer)
    = (0%Z, state,
       fold_left
         (fun b i =>
            update i
              (accumulate (nth i b (0%Z, 0%Z))
                 (gps_first_chip_sample config time_now doppler phase i)) b)
         l buffer).
Proof.
  intros Hcount Hchip l. induction l as [|i l IH]; intros buffer Hl;
    [reflexivity|].
  cbn [fold_left].
  rewrite gps_sample_step_same_chip
    by (rewrite Hcount; apply Hchip, Hl; now left).
  apply IH. intros j Hj. apply Hl. now right.
Qed.

Lemma find_code_set_code_same {C : Type} (prn : Z) (st : C)
    (codes : list (Z * C)) :
  Cdma.find_code prn (Cdma.set_code prn st codes) = Some st.
Proof.
  induction codes as [|[k v] rest IH]; cbn.
  - now rewrite Z.eqb_refl.
  - destruct (k =? prn)%Z eqn:Hk; cbn; now rewrite Hk.
Qed.

Lemma find_code_set_code_other {C : Type} (prn prn' : Z) (st : C)
    (codes : list (Z * C)) :
  prn' <> prn ->
  Cdma.find_code prn' (Cdma.set_code prn st codes) = Cdma.find_code prn' codes.
Proof.
  intros Hne. induction codes as [|[k v] rest IH]; cbn.
  - replace (prn =? prn')%Z with false; [reflexivity|].
    symmetry. apply Z.eqb_neq. congruence.
  - destruct (k =? prn)%Z eqn:Hk; cbn.
    + apply Z.eqb_eq in Hk. subst k.
      replace (prn =? prn')%Z with false; [reflexivity|].
      symmetry. apply Z.eqb_neq. congruence.
    + now rewrite IH.
Qed.

Lemma quiet_codes_set_code (prn : Z) (st : Gps.GPSCodeState)
    (codes : list (Z * Gps.GPSCodeState)) :
  Gps.chip_count st = 0%Z -> quiet_codes codes ->
  quiet_codes (Cdma.set_code prn st codes).
Proof.
  intros Hst Hcodes prn' st' Hfind.
  destruct (Z.eq_dec prn' prn) as [-> | Hne].
  - rewrite find_code_set_code_same in Hfind. now inversion Hfind; subst.
  - rewrite find_code_set_code_other in Hfind by exact Hne.
    eapply Hcodes; eassumption.
Qed.

Lemma gps_initial_code_state_chip_count (prn : Z) :
  Gps.chip_count (Gps.initial_code_state prn) = 0%Z.
Proof.
  unfold Gps.initial_code_state.
  now destruct ((1 <=? prn)%Z && (prn <=? 37)%Z).
Qed.

(** One active quiet satellite in a chunk that stays within the first
    chip: its samples are added, its phase is advanced by one chunk, and
    its code state stays at chip index 0. *)
Lemma gps_satellite_within_first_chip (config : GlobalConfig)
    (sample_count : Z) (time_now doppler phase : R)
    (sat : Cdma.SatelliteConfig) (codes : list (Z * Gps.GPSCodeState))
    (buffer : list cplx) :
  Cdma.is_active sat = true ->
  quiet_satellite doppler phase sat ->
  quiet_codes codes ->
  within_first_chip config time_now (Z.to_nat sample_count) ->
  exists codes',
    GpsL1Provider.satellite config sample_count time_now sat codes buffer
    = (Cdma.with_signal_state sat doppler 0
         (Cdma.next_carrier_phase config GpsL1Provider.carrier_freq doppler
            phase sample_count),
       codes',
       add_samples (gps_first_chip_sample config time_now doppler phase)
                   (Z.to_nat sample_count) buffer)
    /\ quiet_codes codes'.
Proof.
  intros Hact Hsat Hcodes Hchip.
  destruct (Hsat Hact) as [Hvalid [Hchips [Hdop Hphase]]].
  unfold GpsL1Provider.satellite. rewrite Hvalid, Hchips, Hdop, Hphase.
  set (codes1 := match Cdma.find_code (Cdma.prn sat) codes with
                 | Some _ => codes
                 | None => Cdma.set_code (Cdma.prn sat)
                             (Gps.initial_code_state (Cdma.prn sat)) codes
                 end).
  assert (Hcodes1 : quiet_codes codes1).
  { subst codes1. destruct (Cdma.find_code (Cdma.prn sat) codes); [exact Hcodes|].
    apply quiet_codes_set_code;
      [apply gps_initial_code_state_chip_count | exact Hcodes]. }
  set (state := match Cdma.find_code (Cdma.prn sat) codes1 with
                | Some st => st
                | None => Gps.GPSCodeState_default
                end).
  assert (Hstate : Gps.chip_count state = 0%Z).
  { subst state. destruct (Cdma.find_code (Cdma.prn sat) codes1) eqn:Hf;
      [eapply Hcodes1; exact Hf | reflexivity]. }
  rewrite (gps_samples_within_first_chip config time_now (Cdma.prn sat)
             doppler phase state (Z.to_nat sample_count) Hstate Hchip)
    by (intros i Hi; apply in_seq in Hi; lia).
  eexists. split; [reflexivity|].
  now apply quiet_codes_set_code.
Qed.

(** The satellite loop over quiet satellites: every active satellite adds
    the same samples, and the satellites leave the loop quiet, with the
    phase advanced by one chunk. *)
Lemma gps_loop_within_first_chip (rinex : RinexParser) (config : GlobalConfig)
    (sample_count : Z) (time_now doppler phase : R)
    (sats : list Cdma.SatelliteConfig) :
  within_first_chip config time_now (Z.to_nat sample_count) ->
  Forall (quiet_satellite doppler phase) sats ->
  forall (codes : list (Z * Gps.GPSCodeState)) (buffer : list cplx),
    quiet_codes codes ->
    exists sats' codes',
      Cdma.for_each_satellite (GpsL1Provider.variant rinex) sample_count
        time_now config sats codes buffer
      = (sats', codes',
         Nat.iter (active_count sats)
           (add_samples (gps_first_chip_sample config time_now doppler phase)
                        (Z.to_nat sample_count))
           buffer)
      /\ Forall (quiet_satellite doppler
                   (Cdma.next_carrier_phase config GpsL1Provider.carrier_freq
                      doppler phase sample_count)) sats'
      /\ active_count sats' = active_count sats
      /\ length sats' = length sats
      /\ quiet_codes codes'.
Proof.
  intros Hchip Hsats.
  induction Hsats as [|sat rest Hsat _ IH]; intros codes buffer Hcodes.
  - exists [], codes. cbn. repeat split; [constructor | exact Hcodes].
  - cbn [Cdma.for_each_satellite]. unfold active_count. cbn [filter].
    destruct (Cdma.is_active sat) eqn:Hact.
    + cbn [Cdma.v_satellite GpsL1Provider.variant].
      destruct (gps_satellite_within_first_chip config sample_count time_now
                  doppler phase sat codes buffer Hact Hsat Hcodes Hchip)
        as [codes1 [-> Hcodes1]].
      destruct (IH codes1
                  (add_samples
                     (gps_first_chip_sample config time_now doppler phase)
                     (Z.to_nat sample_count) buffer) Hcodes1)
        as [sats' [codes' [-> [Hq [Hn [Hlen Hc]]]]]].
      exists (Cdma.with_signal_state sat doppler 0
                (Cdma.next_carrier_phase config GpsL1Provider.carrier_freq
                   doppler phase sample_count) :: sats'), codes'.
      split; [|split; [|split; [|split]]].
      * cbn [length]. rewrite Nat.iter_succ_r. reflexivity.
      * constructor; [|exact Hq]. intros _. cbn.
        destruct (Hsat Hact) as [Hvalid _]. auto.
      * unfold active_count in *. cbn [filter Cdma.with_signal_state
          Cdma.is_active]. rewrite Hact. cbn [length]. now rewrite Hn.
      * cbn [length]. now rewrite Hlen.
      * exact Hc.
    + destruct (IH codes buffer Hcodes)
        as [sats' [codes' [-> [Hq [Hn [Hlen Hc]]]]]].
      exists (sat :: sats'), codes'.
      split; [reflexivity|]. split; [|split; [|split]].
      * constructor; [|exact Hq]. intros Hact'. congruence.
      * unfold active_count in *. cbn [filter]. now rewrite Hact.
      * cbn [length]. now rewrite Hlen.
      * exact Hc.
Qed.


(** A chunk of a quiet provider that stays within the first chip: every
    active satellite adds the same carrier samples to the zeroed buffer, no
    final mix is applied, and the provider is quiet afterwards with the
    phase of its satellites advanced by one chunk. *)
Lemma gps_chunk_within_first_chip (rinex : RinexParser) (config : GlobalConfig)
    (sample_count : Z) (time_now doppler phase : R) (k : nat)
    (q : Cdma.Provider Gps.GPSCodeState) (buffer : list cplx) :
  quiet_provider config doppler phase k q ->
  within_first_chip config time_now (Z.to_nat sample_count) ->
  exists q',
    Cdma.cdma_generate_chunk (GpsL1Provider.variant rinex) q buffer
      sample_count time_now
    = inr (q',
           Nat.iter k
             (add_samples (gps_first_chip_sample config time_now doppler phase)
                          (Z.to_nat sample_count))
             (fill_zero (Z.to_nat sample_count) buffer))
    /\ quiet_provider config doppler
         (Cdma.next_carrier_phase config GpsL1Provider.carrier_freq doppler
            phase sample_count) k q'.
Proof.
  intros [Hready [Hconfig [Hoff [Hsats [Hk Hcodes]]]]] Hchip.
  unfold Cdma.cdma_generate_chunk. rewrite Hready. cbn [negb].
  rewrite Hconfig.
  destruct (gps_loop_within_first_chip rinex config sample_count time_now
              doppler phase (Cdma.active_satellites_ q) Hchip Hsats
              (Cdma.code_states_ q)
              (fill_zero (Z.to_nat sample_count) buffer) Hcodes)
    as [sats' [codes' [-> [Hq [Hn [Hlen Hc]]]]]].
  unfold Cdma.final_mix. rewrite Hoff, Rabs_R0, Rltb_false by lra.
  rewrite Hk. eexists. split; [reflexivity|].
  unfold quiet_provider, Cdma.cdma_is_ready in *.
  cbn [Cdma.configured_ Cdma.ephemeris_loaded_ Cdma.active_satellites_
       Cdma.config_ Cdma.frequency_offset_hz_ Cdma.code_states_].
  repeat split; try assumption; try congruence.
  destruct (Cdma.configured_ q), (Cdma.ephemeris_loaded_ q);
    try discriminate. cbn.
  destruct sats' as [|s l]; [|reflexivity].
  destruct (Cdma.active_satellites_ q); [discriminate | discriminate Hlen].
Qed.

Lemma iter_add_samples_ext (k n : nat) (S S' : nat -> cplx) (buffer : list cplx) :
  (forall i, (i < n)%nat -> S i = S' i) ->
  Nat.iter k (add_samples S n) buffer = Nat.iter k (add_samples S' n) buffer.
Proof.
  intros Hext.
  assert (Hone : forall b, add_samples S n b = add_samples S' n b).
  { intros b. unfold add_samples.
    assert (Hin : forall i, In i (seq 0 n) -> (i < n)%nat)
      by (intros i Hi; apply in_seq in Hi; lia).
    revert b Hin. generalize (seq 0 n) as l.
    induction l as [|i l IH]; intros b Hin; [reflexivity|].
    cbn [fold_left]. rewrite (Hext i) by (apply Hin; now left).
    apply IH. intros j Hj. apply Hin. now right. }
  induction k as [|k IH]; [reflexivity|].
  rewrite !Nat.iter_succ. now rewrite IH, Hone.
Qed.

(** *** The half-turn scenario *)

Lemma half_turn_first_chunk_within_first_chip :
  within_first_chip half_turn_config 0 2.
Proof.
  intros i Hi. unfold Cdma.sample_time, GpsL1Provider.chip_rate, half_turn_config.
  cbn [sampling_rate_hz].
  assert (Hcases : i = 0%nat \/ i = 1%nat) by lia.
  destruct Hcases as [-> | ->]; cbn [INR].
  - rewrite (trunc_nonneg _ 0); [reflexivity | lra | lra].
  - rewrite (trunc_nonneg _ 0); [reflexivity | lra | lra].
Qed.

Lemma half_turn_one_sample_within_first_chip :
  within_first_chip half_turn_config 0 1.
Proof.
  intros i Hi. apply half_turn_first_chunk_within_first_chip. lia.
Qed.

Lemma half_turn_second_chunk_within_first_chip :
  within_first_chip half_turn_config (0 + IZR 1 / 3150840000) 1.
Proof.
  intros i Hi. unfold Cdma.sample_time, GpsL1Provider.chip_rate, half_turn_config.
  cbn [sampling_rate_hz].
  assert (Hzero : i = 0%nat) by lia. subst i. cbn [INR].
  rewrite (trunc_nonneg _ 0); [reflexivity | lra | lra].
Qed.

(** After one sample at this rate the stored carrier phase is pi. *)
Lemma half_turn_phase_after_one_sample :
  Cdma.next_carrier_phase half_turn_config GpsL1Provider.carrier_freq 0 0 1 = PI.
Proof.
  pose proof PI_RGT_0 as Hpi.
  unfold Cdma.next_carrier_phase, GpsL1Provider.carrier_freq, half_turn_config,
    fmod.
  cbn [sampling_rate_hz].
  replace (0 + 2 * PI * (1575420000 + 0) * 1 / 3150840000) with PI by field.
  replace (PI / (2 * PI)) with (1 / 2) by (field; lra).
  rewrite (trunc_nonneg _ 0) by lra. lra.
Qed.

Lemma to_int16_of_product (chip : Z) (carrier : R) (scale value : Z) :
  IZR chip * carrier * IZR scale = IZR value -> in_int16 value ->
  to_int16 (IZR chip * carrier * IZR scale) = value.
Proof. intros -> Hv. now apply to_int16_IZR. Qed.

(** The three carrier samples of the scenario. *)
Lemma half_turn_sample_0 :
  gps_first_chip_sample half_turn_config 0 0 0 0 = ((-1000)%Z, 0%Z).
Proof.
  unfold gps_first_chip_sample, Cdma.carrier_argument, Cdma.sample_time,
    GpsL1Provider.carrier_freq, half_turn_config.
  cbn [sampling_rate_hz INR].
  replace (2 * PI * (1575420000 + 0) * (0 + 0 / 3150840000) + 0) with 0 by field.
  rewrite cos_0. change (Gps.chip_value 0) with (-1)%Z.
  rewrite (to_int16_of_product (-1) 1 1000 (-1000)); [reflexivity | lra |].
  unfold in_int16, INT16_MIN, INT16_MAX. lia.
Qed.

Lemma half_turn_sample_1 :
  gps_first_chip_sample half_turn_config 0 0 0 1 = (1000%Z, 0%Z).
Proof.
  unfold gps_first_chip_sample, Cdma.carrier_argument, Cdma.sample_time,
    GpsL1Provider.carrier_freq, half_turn_config.
  cbn [sampling_rate_hz INR].
  replace (2 * PI * (1575420000 + 0) * (0 + 1 / 3150840000) + 0) with PI by field.
  rewrite cos_PI. change (Gps.chip_value 0) with (-1)%Z.
  rewrite (to_int16_of_product (-1) (-1) 1000 1000); [reflexivity | lra |].
  unfold in_int16, INT16_MIN, INT16_MAX. lia.
Qed.

Lemma half_turn_sample_0_of_second_chunk :
  gps_first_chip_sample half_turn_config (0 + IZR 1 / 3150840000) 0
    (Cdma.next_carrier_phase half_turn_config GpsL1Provider.carrier_freq 0 0 1)
    0
  = ((-1000)%Z, 0%Z).
Proof.
  rewrite half_turn_phase_after_one_sample.
  unfold gps_first_chip_sample, Cdma.carrier_argument, Cdma.sample_time,
    GpsL1Provider.carrier_freq, half_turn_config.
  cbn [sampling_rate_hz INR].
  replace (2 * PI * (1575420000 + 0) * (0 + 1 / 3150840000 + 0 / 3150840000) + PI)
    with (2 * PI) by field.
  rewrite cos_2PI. change (Gps.chip_value 0) with (-1)%Z.
  rewrite (to_int16_of_product (-1) 1 1000 (-1000)); [reflexivity | lra |].
  unfold in_int16, INT16_MIN, INT16_MAX. lia.
Qed.

Lemma ready_gps_is_quiet :
  exists q0,
    ready_gps = Providers.GpsP q0
    /\ quiet_provider half_turn_config 0 0 8 q0.
Proof.
  eexists. split; [reflexivity|].
  unfold quiet_provider. split; [reflexivity|]. split; [reflexivity|].
  split; [reflexivity|]. split; [|split; [reflexivity|]].
  - cbn. repeat constructor; intros _; cbn; auto.
  - intros prn st Hfind. discriminate Hfind.
Qed.

Lemma half_turn_config_is_valid :
  Orchestrator.validate_configuration half_turn_config = true.
Proof.
  apply validate_configuration_spec. cbn. repeat split; try lra. discriminate.
Qed.

Lemma gps_orchestrator_is_quiet :
  exists q0,
    gps_orchestrator
    = Orchestrator.mkSignalOrchestrator [Providers.GpsP q0] half_turn_config true
    /\ quiet_provider half_turn_config 0 0 8 q0.
Proof.
  unfold gps_orchestrator, Orchestrator.initialize.
  cbn [Orchestrator.config_]. rewrite half_turn_config_is_valid.
  eexists. split; [reflexivity|].
  unfold quiet_provider. split; [reflexivity|]. split; [reflexivity|].
  split; [|split; [|split; [reflexivity|]]].
  - cbn. unfold Rmin.
    destruct (Rle_dec 0 (1575420000 - 1582000000)); lra.
  - cbn. repeat constructor; intros _; cbn; auto.
  - intros prn st Hfind. discriminate Hfind.
Qed.

(** One call of [mix_all_signals] on an orchestrator whose only provider
    is a quiet GPS provider. *)
Lemma mix_quiet_gps (config : GlobalConfig) (sample_count : Z)
    (time_now doppler phase : R) (q : Cdma.Provider Gps.GPSCodeState)
    (buffer : list cplx) :
  (0 < sample_count)%Z ->
  quiet_provider config doppler phase 8 q ->
  within_first_chip config time_now (Z.to_nat sample_count) ->
  exists q',
    @Orchestrator.mix_all_signals _
      (Providers.any_constellation Scenario.empty_files)
      (Orchestrator.mkSignalOrchestrator [Providers.GpsP q] config true)
      (Some buffer) sample_count time_now
    = (Orchestrator.mkSignalOrchestrator [Providers.GpsP q'] config true,
       Some
         (Orchestrator.write_output
            (Orchestrator.prevent_overflow
               (Orchestrator.add_to_accumulator (Z.to_nat sample_count)
                  (repeat (0%Z, 0%Z) (Z.to_nat sample_count))
                  (Nat.iter 8
                     (add_samples
                        (gps_first_chip_sample config time_now doppler phase)
                        (Z.to_nat sample_count))
                     (fill_zero (Z.to_nat sample_count)
                        (repeat (0%Z, 0%Z) (Z.to_nat sample_count)))))
               sample_count)
            buffer sample_count),
       None)
    /\ quiet_provider config doppler
         (Cdma.next_carrier_phase config GpsL1Provider.carrier_freq doppler
            phase sample_count) 8 q'.
Proof.
  intros Hpos Hquiet Hchip.
  destruct (gps_chunk_within_first_chip Scenario.empty_files config
              sample_count time_now doppler phase 8 q
              (repeat (0%Z, 0%Z) (Z.to_nat sample_count)) Hquiet Hchip)
    as [q' [Hchunk Hq']].
  exists q'. split; [|exact Hq'].
  unfold Orchestrator.mix_all_signals.
  cbn [Orchestrator.initialized_ Orchestrator.constellations_
       Orchestrator.config_ negb orb].
  replace (sample_count <=? 0)%Z with false by (symmetry; apply Z.leb_gt; lia).
  cbn [Orchestrator.accumulate_constellations is_ready generate_chunk
       Providers.any_constellation].
  destruct Hquiet as [Hready _]. rewrite Hready, Hchunk.
  reflexivity.
Qed.

(** C2 (evaluation of the code). A ready GPS provider sampled at twice its
    carrier frequency, from time 0: two consecutive chunks of one sample
    are (-8000, 0) and (-8000, 0), while one chunk of two samples is
    (-8000, 0), (8000, 0). The carrier phase of the second chunk counts the
    first chunk twice: once in the absolute sample time and once more in
    the phase stored on the satellite. The orchestrator, initialised with
    this provider alone, returns the same chunks from two consecutive
    calls of [mix_all_signals] and from one call of double length. *)
Theorem gps_two_chunks_differ_from_one_chunk :
  @two_chunks _ (Providers.any_constellation Scenario.empty_files)
    ready_gps 1 0 3150840000
  = Some [((-8000)%Z, 0%Z); ((-8000)%Z, 0%Z)]
  /\ @one_chunk _ (Providers.any_constellation Scenario.empty_files)
       ready_gps 1 0
     = Some [((-8000)%Z, 0%Z); (8000%Z, 0%Z)]
  /\ @two_mixes _ (Providers.any_constellation Scenario.empty_files)
       gps_orchestrator 1 0 3150840000
     = Some [((-8000)%Z, 0%Z); ((-8000)%Z, 0%Z)]
  /\ @one_mix _ (Providers.any_constellation Scenario.empty_files)
       gps_orchestrator 1 0
     = Some [((-8000)%Z, 0%Z); (8000%Z, 0%Z)].
Proof.
  destruct ready_gps_is_quiet as [q0 [Hq0 Hquiet]].
  destruct gps_orchestrator_is_quiet as [r0 [Hr0 Hrquiet]].
  split; [|split; [|split]].
  - unfold two_chunks. rewrite Hq0.
    cbn [generate_chunk Providers.any_constellation].
    destruct (gps_chunk_within_first_chip Scenario.empty_files
                half_turn_config 1 0 0 0 8 q0
                (repeat (0%Z, 0%Z) (Z.to_nat 1)) Hquiet
                half_turn_one_sample_within_first_chip)
      as [q1 [-> Hq1]].
    cbn [Providers.lift_chunk Providers.lift fst snd].
    destruct (gps_chunk_within_first_chip Scenario.empty_files
                half_turn_config 1 (0 + IZR 1 / 3150840000) 0 _ 8 q1
                (repeat (0%Z, 0%Z) (Z.to_nat 1)) Hq1
                half_turn_second_chunk_within_first_chip)
      as [q2 [-> _]].
    cbn [Providers.lift_chunk Providers.lift fst snd].
    rewrite (iter_add_samples_ext 8 (Z.to_nat 1) _
               (fun _ => ((-1000)%Z, 0%Z)))
      by (intros i Hi; replace i with 0%nat by (cbn in Hi; lia);
          exact half_turn_sample_0).
    rewrite (iter_add_samples_ext 8 (Z.to_nat 1)
               (gps_first_chip_sample half_turn_config
                  (0 + IZR 1 / 3150840000) 0
                  (Cdma.next_carrier_phase half_turn_config
                     GpsL1Provider.carrier_freq 0 0 1))
               (fun _ => ((-1000)%Z, 0%Z)))
      by (intros i Hi; replace i with 0%nat by (cbn in Hi; lia);
          exact half_turn_sample_0_of_second_chunk).
    vm_compute. reflexivity.
  - unfold one_chunk. rewrite Hq0.
    cbn [generate_chunk Providers.any_constellation].
    change (2 * 1)%Z with 2%Z.
    destruct (gps_chunk_within_first_chip Scenario.empty_files
                half_turn_config 2 0 0 0 8 q0
                (repeat (0%Z, 0%Z) (Z.to_nat 2)) Hquiet
                half_turn_first_chunk_within_first_chip)
      as [q1 [-> _]].
    cbn [Providers.lift_chunk Providers.lift fst snd Observation.chunk_of].
    rewrite (iter_add_samples_ext 8 (Z.to_nat 2) _
               (fun i => nth i [((-1000)%Z, 0%Z); (1000%Z, 0%Z)] (0%Z, 0%Z))).
    + vm_compute. reflexivity.
    + intros i Hi.
      assert (Hcases : i = 0%nat \/ i = 1%nat) by (cbn in Hi; lia).
      destruct Hcases as [-> | ->];
        [exact half_turn_sample_0 | exact half_turn_sample_1].
  - unfold two_mixes. rewrite Hr0. cbv zeta.
    destruct (mix_quiet_gps half_turn_config 1 0 0 0 r0
                (repeat (0%Z, 0%Z) (Z.to_nat 1)) eq_refl Hrquiet
                half_turn_one_sample_within_first_chip)
      as [r1 [-> Hr1]].
    destruct (mix_quiet_gps half_turn_config 1 (0 + IZR 1 / 3150840000) 0 _ r1
                (repeat (0%Z, 0%Z) (Z.to_nat 1)) eq_refl Hr1
                half_turn_second_chunk_within_first_chip)
      as [r2 [-> _]].
    rewrite (iter_add_samples_ext 8 (Z.to_nat 1) _
               (fun _ => ((-1000)%Z, 0%Z)))
      by (intros i Hi; replace i with 0%nat by (cbn in Hi; lia);
          exact half_turn_sample_0).
    rewrite (iter_add_samples_ext 8 (Z.to_nat 1)
               (gps_first_chip_sample half_turn_config
                  (0 + IZR 1 / 3150840000) 0
                  (Cdma.next_carrier_phase half_turn_config
                     GpsL1Provider.carrier_freq 0 0 1))
               (fun _ => ((-1000)%Z, 0%Z)))
      by (intros i Hi; replace i with 0%nat by (cbn in Hi; lia);
          exact half_turn_sample_0_of_second_chunk).
    vm_compute. reflexivity.
  - unfold one_mix. rewrite Hr0. cbv zeta. change (2 * 1)%Z with 2%Z.
    destruct (mix_quiet_gps half_turn_config 2 0 0 0 r0
                (repeat (0%Z, 0%Z) (Z.to_nat 2)) eq_refl Hrquiet
                half_turn_first_chunk_within_first_chip)
      as [r1 [-> _]].
    rewrite (iter_add_samples_ext 8 (Z.to_nat 2) _
               (fun i => nth i [((-1000)%Z, 0%Z); (1000%Z, 0%Z)] (0%Z, 0%Z))).
    + vm_compute. reflexivity.
    + intros i Hi.
      assert (Hcases : i = 0%nat \/ i = 1%nat) by (cbn in Hi; lia).
      destruct Hcases as [-> | ->];
        [exact half_turn_sample_0 | exact half_turn_sample_1].
Qed.

End ChunkBoundaryFacts.

(** ** The claims at concrete inputs *)

(** C10 at a null buffer and 600000 samples on an initialised
    orchestrator. *)
Lemma mix_all_signals_null_buffer_witness :
  (@None (list cplx) = None \/ 600000 <= 0)
  /\ (exists err,
        @Orchestrator.mix_all_signals _
          (Providers.any_constellation Scenario.empty_files)
          Client.initialised None 600000 0%R
        = (Client.initialised, None, Some err))
  /\ (forall o' buffer',
        @Orchestrator.mix_all_signals _
          (Providers.any_constellation Scenario.empty_files)
          Client.initialised None 600000 0%R
        <> (o', buffer', None)).
Proof.
  split; [left; reflexivity|].
  apply (mix_all_signals_rejects_null_buffer_and_non_positive_count
           Providers.AnyProvider
           (Providers.any_constellation Scenario.empty_files)
           Client.initialised None 600000 0%R).
  left; reflexivity.
Defined.

(** ** The amplitude of a GLONASS channel *)

Section GlonassAmplitude.

Local Open Scope R_scope.

Lemma trunc_between (x : R) (a b : Z) :
  IZR a <= x <= IZR b -> (a <= trunc x <= b)%Z.
Proof.
  intros [Ha Hb]. unfold trunc.
  destruct (Rle_dec 0 x) as [Hpos | Hneg].
  - destruct (base_Int_part x) as [Hlo Hhi]. split.
    + apply Z.lt_succ_r. apply lt_IZR. rewrite succ_IZR. lra.
    + apply le_IZR. lra.
  - destruct (base_Int_part (- x)) as [Hlo Hhi]. split.
    + apply Z.opp_le_mono. rewrite Z.opp_involutive.
      apply le_IZR. rewrite opp_IZR. lra.
    + apply Z.opp_le_mono. rewrite Z.opp_involutive.
      apply Z.lt_succ_r. apply lt_IZR. rewrite succ_IZR, opp_IZR. lra.
Qed.

Lemma to_int16_between (x : R) (a b : Z) :
  IZR a <= x <= IZR b -> in_int16 a -> in_int16 b ->
  (a <= to_int16 x <= b)%Z.
Proof.
  intros Hx Ha Hb. pose proof (trunc_between x a b Hx) as Ht.
  unfold to_int16. rewrite int16_cast_id; [exact Ht|].
  unfold in_int16, INT16_MIN, INT16_MAX in *. lia.
Qed.

(** Each component of a sample of [generate_signal] is at most 700 in
    absolute value. *)
Lemma glonass_signal_sample_bounded (g : Glonass.GlonassChannelGenerator)
    (time_start : R) (i : nat) :
  (-700 <= fst (Glonass.signal_sample g time_start i) <= 700)%Z
  /\ (-700 <= snd (Glonass.signal_sample g time_start i) <= 700)%Z.
Proof.
  unfold Glonass.signal_sample, Glonass.phase_table_. cbn [fst snd].
  set (angle := 2 * PI * IZR (Glonass.rotation_index g _)
                / IZR Glonass.PHASE_TABLE_SIZE).
  pose proof (COS_bound angle) as [Hc1 Hc2].
  pose proof (SIN_bound angle) as [Hs1 Hs2].
  assert (Hrange : in_int16 (-700) /\ in_int16 700)
    by (unfold in_int16, INT16_MIN, INT16_MAX; lia).
  destruct Hrange as [Hlo Hhi].
  unfold Glonass.bpsk_signal.
  destruct (Rltb 0 _); split; apply to_int16_between; try assumption; lra.
Qed.

End GlonassAmplitude.

(** ** The other operations of the oscillator *)

Section NcoOperations.

Local Open Scope R_scope.

(** [reset_phase] puts the phase at 0, inside the interval. *)
Lemma nco_reset_phase_in_range (nco : NCO.DigitalNCO) :
  0 <= NCO.phase_ (NCO.reset_phase nco) < 2 * PI.
Proof.
  cbn. pose proof PI_RGT_0. lra.
Qed.

(** [set_frequency] leaves the phase as it is; for a frequency between 0
    and the sample rate the increment it stores is between 0 and 2 pi. *)
Lemma nco_set_frequency_keeps_phase (nco : NCO.DigitalNCO) (frequency_hz : R) :
  NCO.phase_ (NCO.set_frequency nco frequency_hz) = NCO.phase_ nco.
Proof.
  reflexivity.
Qed.

Lemma nco_set_frequency_increment (nco : NCO.DigitalNCO) (frequency_hz : R) :
  0 < NCO.sample_rate_hz_ nco ->
  0 <= frequency_hz <= NCO.sample_rate_hz_ nco ->
  0 <= NCO.phase_increment_ (NCO.set_frequency nco frequency_hz) <= 2 * PI.
Proof.
  intros Hfs [Hlo Hhi]. cbn. pose proof PI_RGT_0 as Hpi.
  set (fs := NCO.sample_rate_hz_ nco) in *.
  assert (Hq : 0 <= frequency_hz / fs <= 1).
  { split.
    - apply Rmult_le_pos; [exact Hlo|]. left. now apply Rinv_0_lt_compat.
    - apply (Rmult_le_reg_r fs); [exact Hfs|]. field_simplify; lra. }
  replace (2 * PI * frequency_hz / fs) with (2 * PI * (frequency_hz / fs))
    by (field; lra).
  split; nra.
Qed.

End NcoOperations.

(** ** Readiness and the calls made on a provider *)

Section ReadinessHistory.

Variable rinex : RinexParser.

Local Abbreviation any := (Providers.any_constellation rinex).

Lemma created_provider_recorded (type : ConstellationType)
    (p : Providers.AnyProvider) :
  Providers.create_constellation rinex type = inr p ->
  History.recorded p
  /\ Providers.configured p = false
  /\ Providers.ephemeris_loaded p = false.
Proof.
  destruct type; cbn; intros Heq; inversion Heq; subst; cbn;
    repeat split; reflexivity.
Qed.

(** A call leaves the provider of the class it was, so that its reader
    stays the same. *)
Lemma after_call_keeps_reader (p : Providers.AnyProvider) (c : Providers.call)
    (file_path : string) :
  History.file_is_read rinex (@Providers.after_call _ any p c) file_path
  = History.file_is_read rinex p file_path.
Proof.
  destruct c as [config | path | offset_hz | buffer n t];
    destruct p as [q|q|q|q];
    cbn [Providers.after_call configure load_ephemeris set_frequency_offset
         generate_chunk any Providers.any_constellation];
    unfold Providers.lift_chunk, Providers.lift;
    try reflexivity;
    match goal with
    | |- context [match match ?r with _ => _ end with _ => _ end] =>
        destruct r as [err|x]; try reflexivity; try (destruct x; reflexivity)
    end.
Qed.

Lemma cdma_generate_chunk_keeps_empty {CodeState : Type}
    (V : Cdma.Variant CodeState)
    (Hkeeps : forall config sample_count time_now sat codes buffer,
        Cdma.is_active
          (fst (fst (Cdma.v_satellite V config sample_count time_now
                       sat codes buffer)))
        = Cdma.is_active sat)
    (p p' : Cdma.Provider CodeState)
    (buffer out : list cplx) (sample_count : Z) (time_now : R) :
  Cdma.cdma_generate_chunk V p buffer sample_count time_now = inr (p', out) ->
  Readiness.is_empty (Cdma.active_satellites_ p')
  = Readiness.is_empty (Cdma.active_satellites_ p)
  /\ Cdma.configured_ p' = Cdma.configured_ p
  /\ Cdma.ephemeris_loaded_ p' = Cdma.ephemeris_loaded_ p.
Proof.
  unfold Cdma.cdma_generate_chunk.
  destruct (negb (Cdma.cdma_is_ready p)); [discriminate|].
  pose proof (for_each_satellite_keeps_active V Hkeeps sample_count time_now
                (Cdma.config_ p) (Cdma.active_satellites_ p)
                (Cdma.code_states_ p)
                (fill_zero (Z.to_nat sample_count) buffer)) as Hflags.
  destruct (Cdma.for_each_satellite _ _ _ _ _ _ _) as [[sats codes] buffer1].
  destruct (Cdma.final_mix _ _ _ _) as [buffer2 nco1].
  intros Heq. inversion Heq; subst.
  cbn [Cdma.active_satellites_ Cdma.configured_ Cdma.ephemeris_loaded_ fst] in *.
  destruct (same_flags_same_existsb _ _ _ Hflags) as [_ Hn].
  rewrite Hn. auto.
Qed.

Lemma map_keeps_empty {A B : Type} (f : A -> B) (l : list A) :
  Readiness.is_empty (map f l) = Readiness.is_empty l.
Proof. now destruct l. Qed.

(** One call: the flags follow the call, and the state keeps recording the
    history. *)
Lemma after_call_recorded (p : Providers.AnyProvider) (c : Providers.call) :
  History.recorded p ->
  History.recorded (@Providers.after_call _ any p c)
  /\ Providers.configured (@Providers.after_call _ any p c)
     = Providers.configured p || History.is_configure c
  /\ Providers.ephemeris_loaded (@Providers.after_call _ any p c)
     = Providers.ephemeris_loaded p || History.is_load rinex p c.
Proof.
  intros Hp. destruct c as [config | file_path | offset_hz | buffer n t].
  - destruct p as [q|q|q|q];
      cbn [Providers.after_call configure any Providers.any_constellation
           History.recorded Providers.configured Providers.ephemeris_loaded
           History.is_configure History.is_load
           Cdma.cdma_configure Cdma.configured_ Cdma.ephemeris_loaded_
           Cdma.active_satellites_ Glonass.glonass_configure
           Glonass.configured_ Glonass.ephemeris_loaded_ Glonass.channels_]
        in *;
      rewrite orb_true_r, orb_false_r;
      (split; [first [reflexivity | exact Hp] | split; reflexivity]).
  - destruct p as [q|q|q|q];
      cbn [Providers.after_call load_ephemeris any Providers.any_constellation
           History.is_configure History.is_load History.file_is_read];
      unfold Providers.lift, Cdma.cdma_load_ephemeris;
      cbn [Cdma.v_reader GpsL1Provider.variant GalileoE1Provider.variant
           BeidouB1Provider.variant].
    + destruct (parse_gps_rinex2 rinex file_path) as [[what]|data];
        cbn [History.recorded Providers.configured Providers.ephemeris_loaded
             Cdma.configured_ Cdma.ephemeris_loaded_ Cdma.active_satellites_]
          in *;
        rewrite ?map_keeps_empty, ?orb_false_r, ?orb_true_r; auto.
    + destruct (parse_rinex3 rinex file_path GALILEO) as [[what]|data];
        cbn [History.recorded Providers.configured Providers.ephemeris_loaded
             Cdma.configured_ Cdma.ephemeris_loaded_ Cdma.active_satellites_]
          in *;
        rewrite ?map_keeps_empty, ?orb_false_r, ?orb_true_r; auto.
    + destruct (parse_rinex3 rinex file_path BEIDOU) as [[what]|data];
        cbn [History.recorded Providers.configured Providers.ephemeris_loaded
             Cdma.configured_ Cdma.ephemeris_loaded_ Cdma.active_satellites_]
          in *;
        rewrite ?map_keeps_empty, ?orb_false_r, ?orb_true_r; auto.
    + cbn [Glonass.glonass_load_ephemeris History.recorded
           Providers.configured Providers.ephemeris_loaded
           Glonass.configured_ Glonass.ephemeris_loaded_ Glonass.channels_]
        in *.
      rewrite orb_false_r, orb_true_r.
      split; [|split; reflexivity].
      rewrite Hp. now destruct (Glonass.ephemeris_loaded_ q).
  - destruct p as [q|q|q|q];
      cbn [Providers.after_call set_frequency_offset any
           Providers.any_constellation History.recorded Providers.configured
           Providers.ephemeris_loaded History.is_configure History.is_load
           Cdma.cdma_set_frequency_offset Cdma.configured_
           Cdma.ephemeris_loaded_ Cdma.active_satellites_
           Glonass.glonass_set_frequency_offset Glonass.configured_
           Glonass.ephemeris_loaded_ Glonass.channels_] in *;
      rewrite !orb_false_r; auto.
  - cbn [History.is_configure History.is_load]. rewrite !orb_false_r.
    destruct p as [q|q|q|q];
      cbn [Providers.after_call generate_chunk any Providers.any_constellation];
      unfold Providers.lift_chunk, Providers.lift.
    + destruct (Cdma.cdma_generate_chunk _ q buffer n t) as [err|[q' out]] eqn:Hg;
        [auto|].
      destruct (cdma_generate_chunk_keeps_empty (GpsL1Provider.variant rinex)
                  gps_satellite_keeps_active _ _ _ _ _ _ Hg) as [He [Hc Hl]].
      cbn [History.recorded Providers.configured Providers.ephemeris_loaded fst]
        in *.
      rewrite He, Hc. auto.
    + destruct (Cdma.cdma_generate_chunk _ q buffer n t) as [err|[q' out]] eqn:Hg;
        [auto|].
      destruct (cdma_generate_chunk_keeps_empty (GalileoE1Provider.variant rinex)
                  galileo_satellite_keeps_active _ _ _ _ _ _ Hg) as [He [Hc Hl]].
      cbn [History.recorded Providers.configured Providers.ephemeris_loaded fst]
        in *.
      rewrite He, Hc. auto.
    + destruct (Cdma.cdma_generate_chunk _ q buffer n t) as [err|[q' out]] eqn:Hg;
        [auto|].
      destruct (cdma_generate_chunk_keeps_empty (BeidouB1Provider.variant rinex)
                  beidou_satellite_keeps_active _ _ _ _ _ _ Hg) as [He [Hc Hl]].
      cbn [History.recorded Providers.configured Providers.ephemeris_loaded fst]
        in *.
      rewrite He, Hc. auto.
    + unfold Glonass.glonass_generate_chunk.
      destruct (negb (Glonass.glonass_is_ready q)); [auto|].
      destruct (Glonass.for_each_channel _ _ _ _ _ _) as [[gs bs] active].
      destruct (active =? 0)%Z;
        cbn [History.recorded Providers.configured Providers.ephemeris_loaded
             Glonass.configured_ Glonass.ephemeris_loaded_ Glonass.channels_]
          in *; auto.
Qed.

Lemma existsb_same {A : Type} (f g : A -> bool) (l : list A) :
  (forall a, f a = g a) -> existsb f l = existsb g l.
Proof.
  intros Hfg. induction l as [|a l IH]; [reflexivity|].
  cbn. now rewrite Hfg, IH.
Qed.

(** Any sequence of calls: the two flags are the history of the calls. *)
Lemma after_calls_recorded (calls : list Providers.call) :
  forall p : Providers.AnyProvider,
    History.recorded p ->
    History.recorded (@Providers.after_calls _ any p calls)
    /\ Providers.configured (@Providers.after_calls _ any p calls)
       = Providers.configured p || History.has_been_configured calls
    /\ Providers.ephemeris_loaded (@Providers.after_calls _ any p calls)
       = Providers.ephemeris_loaded p
         || History.ephemeris_has_been_loaded rinex p calls.
Proof.
  unfold Providers.after_calls, History.has_been_configured,
    History.ephemeris_has_been_loaded.
  induction calls as [|c calls IH]; intros p Hp.
  - cbn. rewrite !orb_false_r. auto.
  - cbn [fold_left existsb].
    destruct (after_call_recorded p c Hp) as [Hrec [Hc Hl]].
    destruct (IH (@Providers.after_call _ any p c) Hrec) as [Hrec' [Hc' Hl']].
    split; [exact Hrec'|]. split.
    + rewrite Hc', Hc. now rewrite orb_assoc.
    + rewrite Hl', Hl.
      rewrite (existsb_same
                 (History.is_load rinex (@Providers.after_call _ any p c))
                 (History.is_load rinex p)).
      * now rewrite orb_assoc.
      * intros [config | path | offset_hz | buffer n t]; try reflexivity.
        apply after_call_keeps_reader.
Qed.

(** A provider that records its history has an active satellite once it
    is configured (the CDMA providers) or loaded (the GLONASS
    provider). *)
Lemma recorded_provider_has_active_satellite (p : Providers.AnyProvider) :
  History.recorded p -> Readiness.satellites_ok p ->
  Providers.configured p && Providers.ephemeris_loaded p = true ->
  Providers.has_active_satellite p = true.
Proof.
  destruct p as [q|q|q|q];
    cbn [History.recorded Readiness.satellites_ok Providers.configured
         Providers.ephemeris_loaded Providers.has_active_satellite];
    unfold Readiness.cdma_satellites_ok.
  1-3: intros Hrec Hok Hflags; apply andb_prop in Hflags;
       destruct Hflags as [Hc _]; rewrite Hok, Hrec, Hc; reflexivity.
  intros Hrec _ Hflags. apply andb_prop in Hflags. destruct Hflags as [_ Hl].
  rewrite Hrec, Hl. reflexivity.
Qed.

(** C4. For each of the four providers of the factory and every sequence
    of calls on it (configure, load_ephemeris, set_frequency_offset,
    generate_chunk, in any order and number), the flag [configured_] is set
    exactly when [configure] is among the calls and the flag
    [ephemeris_loaded_] exactly when a [load_ephemeris] that returned is
    among them; [is_ready] is true exactly when the provider has been
    configured, the ephemeris has been loaded and a satellite with the
    active flag exists, and such a satellite exists whenever the first two
    hold; and [generate_chunk] in a state where [is_ready] is false throws
    the provider's not-ready exception and returns no samples. *)
Theorem is_ready_iff_configured_loaded_and_active
    (type : ConstellationType) (p0 : Providers.AnyProvider)
    (calls : list Providers.call) :
  Providers.create_constellation rinex type = inr p0 ->
  let p := @Providers.after_calls _ any p0 calls in
  let configured := History.has_been_configured calls in
  let loaded := History.ephemeris_has_been_loaded rinex p0 calls in
  Providers.configured p = configured
  /\ Providers.ephemeris_loaded p = loaded
  /\ @is_ready _ any p
     = configured && loaded && Providers.has_active_satellite p
  /\ (configured && loaded = true -> Providers.has_active_satellite p = true)
  /\ forall (buffer : list cplx) (sample_count : Z) (time_now : R),
       @is_ready _ any p = false ->
       @generate_chunk _ any p buffer sample_count time_now
       = inl (QuadGNSSException (Readiness.not_ready_message p))
       /\ Observation.chunk_of
            (@generate_chunk _ any p buffer sample_count time_now) = None.
Proof.
  intros Hcreate p configured loaded.
  destruct (created_provider_recorded type p0 Hcreate) as [Hrec0 [Hc0 Hl0]].
  destruct (after_calls_recorded calls p0 Hrec0) as [Hrec [Hc Hl]].
  rewrite Hc0 in Hc. rewrite Hl0 in Hl. cbn [orb] in Hc, Hl.
  fold p in Hrec, Hc, Hl. fold configured in Hc. fold loaded in Hl.
  assert (Hok : Readiness.satellites_ok p)
    by (apply after_calls_ok; eapply created_provider_ok; exact Hcreate).
  split; [exact Hc|]. split; [exact Hl|]. split; [|split].
  - rewrite (is_ready_spec rinex p Hok). now rewrite Hc, Hl.
  - intros Hboth. apply recorded_provider_has_active_satellite; try assumption.
    now rewrite Hc, Hl.
  - intros buffer sample_count time_now Hnot.
    rewrite (generate_chunk_not_ready rinex p buffer sample_count time_now Hnot).
    split; reflexivity.
Qed.

End ReadinessHistory.

(** C4 at the GPS provider of the factory: after [configure] alone it has
    not been loaded, is not ready and [generate_chunk] throws; after
    configure, load and one chunk it is ready. *)
Lemma is_ready_witness :
  let gps :=
    Providers.GpsP (Cdma.create (GpsL1Provider.variant Scenario.empty_files)) in
  let configured_only :=
    @Providers.after_calls _
      (Providers.any_constellation Scenario.empty_files) gps
      [Providers.Configure GlobalConfig_default] in
  let used :=
    @Providers.after_calls _
      (Providers.any_constellation Scenario.empty_files) gps
      Client.usual_calls in
  Providers.configured configured_only = true
  /\ Providers.ephemeris_loaded configured_only = false
  /\ @is_ready _ (Providers.any_constellation Scenario.empty_files)
       configured_only = false
  /\ @generate_chunk _ (Providers.any_constellation Scenario.empty_files)
       configured_only (repeat (0, 0) 4) 4 0%R
     = inl (QuadGNSSException
              "GPS L1 Provider not ready for signal generation")
  /\ Providers.configured used = true
  /\ Providers.ephemeris_loaded used = true
  /\ @is_ready _ (Providers.any_constellation Scenario.empty_files) used
     = true.
Proof.
  intros gps configured_only used.
  destruct (is_ready_iff_configured_loaded_and_active Scenario.empty_files GPS
              gps [Providers.Configure GlobalConfig_default] eq_refl)
    as [Hc [Hl [Hr [_ Hnot]]]].
  destruct (is_ready_iff_configured_loaded_and_active Scenario.empty_files GPS
              gps Client.usual_calls eq_refl)
    as [Hc' [Hl' [Hr' [Ha' _]]]].
  fold configured_only in Hc, Hl, Hr, Hnot. fold used in Hc', Hl', Hr', Ha'.
  assert (Hready : @is_ready _ (Providers.any_constellation Scenario.empty_files)
                     configured_only = false)
    by (rewrite Hr; reflexivity).
  split; [exact Hc|]. split; [exact Hl|]. split; [exact Hready|].
  split; [exact (proj1 (Hnot (repeat (0, 0) 4) 4 0%R Hready))|].
  split; [exact Hc'|]. split; [exact Hl'|].
  rewrite Hr', (Ha' eq_refl). reflexivity.
Defined.

(** ** The oscillator across calls *)

Section NcoAcrossCalls.

Local Open Scope R_scope.

Lemma nco_generate_samples_app (n m : nat) :
  forall nco : NCO.DigitalNCO,
  NCO.generate_samples nco (n + m) =
  (fst (NCO.generate_samples nco n)
     ++ fst (NCO.generate_samples (snd (NCO.generate_samples nco n)) m),
   snd (NCO.generate_samples (snd (NCO.generate_samples nco n)) m)).
Proof.
  induction n as [|k IH]; intros nco.
  - cbn [Nat.add NCO.generate_samples fst snd app].
    now destruct (NCO.generate_samples nco m).
  - cbn [Nat.add NCO.generate_samples].
    destruct (NCO.generate_sample nco) as [c nco1].
    rewrite IH.
    destruct (NCO.generate_samples nco1 k) as [cs nco2]. cbn [fst snd].
    reflexivity.
Qed.

Lemma nco_generate_samples_length (count : nat) :
  forall nco : NCO.DigitalNCO,
    length (fst (NCO.generate_samples nco count)) = count.
Proof.
  induction count as [|k IH]; intros nco; [reflexivity|].
  cbn [NCO.generate_samples].
  destruct (NCO.generate_sample nco) as [c nco1].
  specialize (IH nco1).
  destruct (NCO.generate_samples nco1 k) as [cs nco2]. cbn [fst] in *.
  cbn [length]. now rewrite IH.
Qed.

Lemma nco_mix_signal_fst (nco : NCO.DigitalNCO) (input : list cplx) (count : nat) :
  NCO.mix_signal nco input count
  = (map (fun i => NCO.mix_sample (nth i input (0%Z, 0%Z))
                     (nth i (fst (NCO.generate_samples nco count)) (0, 0)))
         (seq 0 count),
     snd (NCO.generate_samples nco count)).
Proof.
  unfold NCO.mix_signal. now destruct (NCO.generate_samples nco count).
Qed.

(** X1. The oscillator is continuous across calls: [n + m] carrier samples
    generated in one call of [generate_samples] are the [n] samples of a
    first call followed by the [m] samples of a second call on the
    oscillator the first call left, and the oscillator afterwards is the
    same; likewise [mix_signal] over [n + m] samples is [mix_signal] over
    the first [n] followed by [mix_signal] over the next [m]. *)
Theorem nco_is_continuous_across_calls (nco : NCO.DigitalNCO)
    (input : list cplx) (n m : nat) :
  NCO.generate_samples nco (n + m)
  = (fst (NCO.generate_samples nco n)
       ++ fst (NCO.generate_samples (snd (NCO.generate_samples nco n)) m),
     snd (NCO.generate_samples (snd (NCO.generate_samples nco n)) m))
  /\ NCO.mix_signal nco input (n + m)
     = (fst (NCO.mix_signal nco input n)
          ++ fst (NCO.mix_signal (snd (NCO.mix_signal nco input n))
                                 (skipn n input) m),
        snd (NCO.mix_signal (snd (NCO.mix_signal nco input n))
                            (skipn n input) m)).
Proof.
  split; [apply nco_generate_samples_app|].
  rewrite !nco_mix_signal_fst. cbn [fst snd].
  rewrite nco_generate_samples_app. cbn [fst snd].
  f_equal.
  rewrite seq_app, map_app. cbn [Nat.add]. f_equal.
  - apply map_ext_in. intros i Hi. apply in_seq in Hi.
    rewrite app_nth1; [reflexivity|].
    rewrite nco_generate_samples_length. lia.
  - replace (seq n m) with (map (fun j => (n + j)%nat) (seq 0 m)).
    2: { clear. revert n. induction m as [|k IH]; intros n; [reflexivity|].
         cbn [seq map]. rewrite Nat.add_0_r. f_equal.
         rewrite <- seq_shift, map_map.
         rewrite <- (IH (S n)). apply map_ext. intros j. lia. }
    rewrite !map_map. apply map_ext. intros j.
    rewrite app_nth2 by (rewrite nco_generate_samples_length; lia).
    rewrite nco_generate_samples_length.
    replace (n + j - n)%nat with j by lia.
    f_equal. clear. revert input.
    induction n as [|k IH]; intros input; [reflexivity|].
    destruct input as [|x rest]; cbn [Nat.add nth skipn].
    + now destruct j.
    + apply IH.
Qed.

End NcoAcrossCalls.

(** ** The range of a mixed sample *)

Section MixRange.

Local Open Scope R_scope.

Lemma rotation_component_bounded (re im c s : R) :
  -32768 <= re <= 32767 -> -32768 <= im <= 32767 ->
  c * c + s * s <= 1 ->
  -23171 <= (re * c - im * s) * (1 / 2) <= 23171
  /\ -23171 <= (re * s + im * c) * (1 / 2) <= 23171.
Proof.
  intros Hre Him Hcs.
  assert (Hre2 : re * re <= 32768 * 32768).
  { assert (0 <= (re + 32768) * (32768 - re))
      by (apply Rmult_le_pos; lra).
    lra. }
  assert (Him2 : im * im <= 32768 * 32768).
  { assert (0 <= (im + 32768) * (32768 - im))
      by (apply Rmult_le_pos; lra).
    lra. }
  set (x := re * c - im * s). set (y := re * s + im * c).
  assert (Hsum : x * x + y * y <= 2 * (32768 * 32768)).
  { replace (x * x + y * y)
      with ((re * re + im * im) * (c * c + s * s)) by (unfold x, y; ring).
    assert (Hc0 : 0 <= c * c + s * s)
      by (pose proof (Rle_0_sqr c); pose proof (Rle_0_sqr s);
          unfold Rsqr in *; lra).
    assert (Hr0 : 0 <= re * re + im * im)
      by (pose proof (Rle_0_sqr re); pose proof (Rle_0_sqr im);
          unfold Rsqr in *; lra).
    assert (Hprod : (re * re + im * im) * (c * c + s * s)
                    <= (re * re + im * im) * 1)
      by (apply Rmult_le_compat_l; assumption).
    lra. }
  assert (Hx : (x * (1 / 2)) * (x * (1 / 2)) <= 23171 * 23171)
    by (pose proof (Rle_0_sqr y); unfold Rsqr in *; lra).
  assert (Hy : (y * (1 / 2)) * (y * (1 / 2)) <= 23171 * 23171)
    by (pose proof (Rle_0_sqr x); unfold Rsqr in *; lra).
  assert (Hsq : forall z : R, z * z <= 23171 * 23171 -> -23171 <= z <= 23171).
  { intros z Hz. split.
    - destruct (Rle_dec (-23171) z) as [|Hn]; [assumption|].
      apply Rnot_le_lt in Hn.
      assert (23171 * 23171 < z * z)
        by (replace (z * z) with ((- z) * (- z)) by ring;
            apply Rmult_le_0_lt_compat; lra).
      lra.
    - destruct (Rle_dec z 23171) as [|Hn]; [assumption|].
      apply Rnot_le_lt in Hn.
      assert (23171 * 23171 < z * z)
        by (apply Rmult_le_0_lt_compat; lra).
      lra. }
  destruct (Hsq _ Hx). destruct (Hsq _ Hy). repeat split; lra.
Qed.

Lemma nco_carrier_on_unit_circle (count : nat) :
  forall nco : NCO.DigitalNCO,
    Forall (fun c => fst c * fst c + snd c * snd c <= 1)
           (fst (NCO.generate_samples nco count)).
Proof.
  induction count as [|k IH]; intros nco; [constructor|].
  cbn [NCO.generate_samples].
  destruct (NCO.generate_sample nco) as [c nco1] eqn:Hc.
  specialize (IH nco1).
  destruct (NCO.generate_samples nco1 k) as [cs nco2]. cbn [fst] in *.
  constructor; [|exact IH].
  unfold NCO.generate_sample in Hc. inversion Hc; subst.
  unfold NCO.lookup_table_. cbn [fst snd].
  set (a := 2 * PI * _ / _).
  pose proof (sin2_cos2 a) as Hunit. unfold Rsqr in Hunit. lra.
Qed.

Lemma nth_Forall_default {A : Type} (Q : A -> Prop) (l : list A) (d : A) (i : nat) :
  Forall Q l -> Q d -> Q (nth i l d).
Proof.
  intros Hall Hd. destruct (Nat.lt_ge_cases i (length l)) as [Hlt | Hge].
  - rewrite Forall_forall in Hall. apply Hall. now apply nth_In.
  - now rewrite nth_overflow.
Qed.

(** X2. [mix_signal] cannot leave the range of [int16_t]: for input
    samples that are [int16_t] values and any state of the oscillator,
    every component of every output sample lies between -23171 and 23171,
    so the conversion back to [int16_t] never wraps; the output has
    [count] samples. *)
Theorem nco_mix_signal_stays_in_range (nco : NCO.DigitalNCO)
    (input : list cplx) (count : nat) :
  Forall sample_in_int16 input ->
  length (fst (NCO.mix_signal nco input count)) = count
  /\ Forall (fun s => (-23171 <= fst s <= 23171)%Z /\ (-23171 <= snd s <= 23171)%Z)
            (fst (NCO.mix_signal nco input count)).
Proof.
  intros Hin. rewrite nco_mix_signal_fst. cbn [fst]. split.
  - now rewrite length_map, length_seq.
  - apply Forall_forall. intros s Hs. apply in_map_iff in Hs.
    destruct Hs as [i [<- _]].
    assert (Hsample : sample_in_int16 (nth i input (0%Z, 0%Z))).
    { apply nth_Forall_default; [exact Hin|].
      unfold sample_in_int16, in_int16, INT16_MIN, INT16_MAX. cbn. lia. }
    assert (Hcarrier :
      (fun c => fst c * fst c + snd c * snd c <= 1)
        (nth i (fst (NCO.generate_samples nco count)) (0, 0))).
    { apply nth_Forall_default; [apply nco_carrier_on_unit_circle|].
      cbn. lra. }
    cbn beta in Hcarrier.
    destruct (nth i input (0%Z, 0%Z)) as [re im].
    destruct (nth i (fst (NCO.generate_samples nco count)) (0, 0)) as [c s].
    unfold sample_in_int16, in_int16, INT16_MIN, INT16_MAX in Hsample.
    cbn [fst snd] in *. destruct Hsample as [[Hre1 Hre2] [Him1 Him2]].
    apply IZR_le in Hre1, Hre2, Him1, Him2.
    destruct (rotation_component_bounded (IZR re) (IZR im) c s) as [Hx Hy];
      [lra | lra | exact Hcarrier |].
    unfold NCO.mix_sample. cbn [fst snd].
    assert (Hlo : in_int16 (-23171))
      by (unfold in_int16, INT16_MIN, INT16_MAX; lia).
    assert (Hhi : in_int16 23171)
      by (unfold in_int16, INT16_MIN, INT16_MAX; lia).
    split; apply to_int16_between; assumption.
Qed.

(** X2 at an oscillator of 60 MHz set to 20.902 MHz and the two samples
    (32767, -32768) and (1000, 0). *)
Lemma nco_mix_signal_stays_in_range_witness :
  Forall sample_in_int16 [(32767, -32768); (1000, 0)]%Z
  /\ length (fst (NCO.mix_signal
                    (NCO.set_frequency (NCO.create 60000000) 20902000)
                    [(32767, -32768); (1000, 0)]%Z 2)) = 2%nat
  /\ Forall (fun s => (-23171 <= fst s <= 23171)%Z
                      /\ (-23171 <= snd s <= 23171)%Z)
            (fst (NCO.mix_signal
                    (NCO.set_frequency (NCO.create 60000000) 20902000)
                    [(32767, -32768); (1000, 0)]%Z 2)).
Proof.
  assert (Hin : Forall sample_in_int16 [(32767, -32768); (1000, 0)]%Z).
  { repeat (apply Forall_cons;
              [unfold sample_in_int16, in_int16, INT16_MIN, INT16_MAX; cbn; lia|]).
    apply Forall_nil. }
  split; [exact Hin|].
  exact (nco_mix_signal_stays_in_range
           (NCO.set_frequency (NCO.create 60000000) 20902000)
           [(32767, -32768); (1000, 0)]%Z 2 Hin).
Defined.

End MixRange.

(** ** The offsets the orchestrator allocates *)

Section OffsetOrder.

Local Open Scope R_scope.

Variable rinex : RinexParser.

Local Abbreviation any := (Providers.any_constellation rinex).

Lemma min_offset_below_each (center_freq : R) (cs : list Providers.AnyProvider) :
  forall (m0 : R) (p : Providers.AnyProvider),
    In p cs ->
    fold_left (fun m c => Rmin m (@get_carrier_frequency _ any c - center_freq))
              cs m0
    <= @get_carrier_frequency _ any p - center_freq.
Proof.
  induction cs as [|c rest IH]; intros m0 p Hin; [contradiction|].
  cbn [fold_left]. destruct Hin as [-> | Hin].
  - eapply Rle_trans; [apply (min_offset_from rinex) | apply Rmin_r].
  - now apply IH.
Qed.

Lemma initialize_offsets_and_carriers
    (o : Orchestrator.SignalOrchestrator Providers.AnyProvider)
    (paths : ConstellationType -> option string) :
  snd (@Orchestrator.initialize _ any o paths) = None ->
  Forall2
    (fun p p' =>
       Providers.frequency_offset p'
       = @get_carrier_frequency _ any p
         - center_frequency_hz (Orchestrator.config_ o)
         - @Orchestrator.min_offset _ any
             (center_frequency_hz (Orchestrator.config_ o))
             (Orchestrator.constellations_ o)
       /\ @get_carrier_frequency _ any p' = @get_carrier_frequency _ any p)
    (Orchestrator.constellations_ o)
    (Orchestrator.constellations_ (fst (@Orchestrator.initialize _ any o paths))).
Proof.
  intros Hok. destruct (initialize_success o paths Hok) as [_ ->].
  cbn [Orchestrator.constellations_].
  eapply Forall2_compose;
    [| apply calculate_frequency_offsets_sets
     | apply load_and_configure_keeps_offsets].
  cbn beta. intros x y z [Hxy Hc] [Hyz Hc']. split; congruence.
Qed.

Lemma Forall2_In_r {A B : Type} (Q : A -> B -> Prop) (l : list A) (l' : list B) (y : B) :
  Forall2 Q l l' -> In y l' -> exists x, In x l /\ Q x y.
Proof.
  induction 1 as [|a b l l' Hab _ IH]; intros Hin; [contradiction|].
  destruct Hin as [<- | Hin].
  - exists a. split; [now left | exact Hab].
  - destruct (IH Hin) as [x [Hx Hq]]. exists x. split; [now right | exact Hq].
Qed.

(** X3. After a successful [initialize] no provider holds a negative
    frequency offset, and the offsets of any two providers differ by
    exactly the difference of their carrier frequencies: the subtraction of
    the smallest offset shifts the whole plan without changing the spacing
    of the constellations. *)
Theorem offsets_after_initialize_are_not_negative
    (o : Orchestrator.SignalOrchestrator Providers.AnyProvider)
    (paths : ConstellationType -> option string) :
  snd (@Orchestrator.initialize _ any o paths) = None ->
  (forall p,
      In p (Orchestrator.constellations_
              (fst (@Orchestrator.initialize _ any o paths))) ->
      0 <= Providers.frequency_offset p)
  /\ (forall p q,
        In p (Orchestrator.constellations_
                (fst (@Orchestrator.initialize _ any o paths))) ->
        In q (Orchestrator.constellations_
                (fst (@Orchestrator.initialize _ any o paths))) ->
        Providers.frequency_offset p - Providers.frequency_offset q
        = @get_carrier_frequency _ any p - @get_carrier_frequency _ any q).
Proof.
  intros Hok. pose proof (initialize_offsets_and_carriers o paths Hok) as Hall.
  split.
  - intros p Hp.
    destruct (Forall2_In_r _ _ _ _ Hall Hp) as [p0 [Hp0 [Hoff _]]].
    rewrite Hoff.
    pose proof (min_offset_below_each
                  (center_frequency_hz (Orchestrator.config_ o))
                  (Orchestrator.constellations_ o) 0 p0 Hp0) as Hmin.
    unfold Orchestrator.min_offset. lra.
  - intros p q Hp Hq.
    destruct (Forall2_In_r _ _ _ _ Hall Hp) as [p0 [_ [Hoffp Hcp]]].
    destruct (Forall2_In_r _ _ _ _ Hall Hq) as [q0 [_ [Hoffq Hcq]]].
    rewrite Hoffp, Hoffq, Hcp, Hcq. lra.
Qed.

End OffsetOrder.

(** X3 at the orchestrator with the GPS provider alone and the default
    configuration, initialised without files. *)
Lemma offsets_after_initialize_are_not_negative_witness :
  snd (@Orchestrator.initialize _
         (Providers.any_constellation Scenario.one_gps_record)
         Scenario.gps_only Scenario.no_paths) = None
  /\ (forall p,
        In p (Orchestrator.constellations_
                (fst (@Orchestrator.initialize _
                        (Providers.any_constellation Scenario.one_gps_record)
                        Scenario.gps_only Scenario.no_paths))) ->
        (0 <= Providers.frequency_offset p)%R).
Proof.
  split; [exact gps_only_initialises|].
  exact (proj1 (offsets_after_initialize_are_not_negative
                  Scenario.one_gps_record Scenario.gps_only Scenario.no_paths
                  gps_only_initialises)).
Defined.

(** ** Chunks of the orchestrator *)

Section MixWithoutProviders.

Context {P : Type} `{ISatelliteConstellation P}.

Lemma accumulate_constellations_none_ready (sample_count : Z) (time_now : R)
    (cs : list P) (acc : list cplx) :
  forallb (fun c => negb (is_ready c)) cs = true ->
  Orchestrator.accumulate_constellations sample_count time_now cs acc
  = (cs, inr acc).
Proof.
  induction cs as [|c rest IH]; intros Hnone; [reflexivity|].
  cbn [forallb] in Hnone. apply andb_true_iff in Hnone.
  destruct Hnone as [Hc Hrest]. apply negb_true_iff in Hc.
  cbn [Orchestrator.accumulate_constellations]. rewrite Hc.
  now rewrite (IH Hrest).
Qed.

Lemma clamp_cast_zeros (n : nat) :
  map (fun a : cplx => (int16_cast (fst a), int16_cast (snd a)))
      (map (fun a : cplx => (clamp16 (fst a), clamp16 (snd a)))
           (repeat (0, 0) n))
  = repeat (0, 0) n.
Proof.
  induction n as [|k IH]; [reflexivity|].
  cbn [repeat map]. rewrite IH. reflexivity.
Qed.

(** X4. On an initialised orchestrator none of whose providers is ready,
    [mix_all_signals] with a buffer and a positive sample count throws
    nothing: it writes [sample_count] zero samples, leaves the rest of the
    buffer and the orchestrator as they were. A provider that is not ready
    is skipped in silence. *)
Theorem mix_all_signals_without_ready_provider_is_silence
    (o : Orchestrator.SignalOrchestrator P) (out : list cplx)
    (sample_count : Z) (time_now : R) :
  Orchestrator.initialized_ o = true ->
  0 < sample_count ->
  forallb (fun c => negb (is_ready c)) (Orchestrator.constellations_ o) = true ->
  Orchestrator.mix_all_signals o (Some out) sample_count time_now
  = (o,
     Some (repeat (0, 0) (Z.to_nat sample_count)
           ++ skipn (Z.to_nat sample_count) out),
     None).
Proof.
  intros Hinit Hcount Hnone.
  destruct o as [cs config initialized]. cbn [Orchestrator.constellations_
    Orchestrator.config_ Orchestrator.initialized_] in *. subst initialized.
  unfold Orchestrator.mix_all_signals.
  cbn [negb orb Orchestrator.constellations_ Orchestrator.config_
       Orchestrator.initialized_].
  replace (sample_count <=? 0) with false by (symmetry; apply Z.leb_gt; lia).
  rewrite (accumulate_constellations_none_ready _ _ _ _ Hnone).
  do 3 f_equal. unfold Orchestrator.write_output, Orchestrator.prevent_overflow.
  f_equal. set (n := Z.to_nat sample_count).
  rewrite (@firstn_all2 _ n (repeat _ n)) by (rewrite repeat_length; lia).
  rewrite (@skipn_all2 _ n (repeat _ n)) by (rewrite repeat_length; lia).
  rewrite app_nil_r.
  rewrite firstn_all2 by (rewrite length_map, repeat_length; lia).
  apply clamp_cast_zeros.
Qed.

End MixWithoutProviders.

(** X4 at the orchestrator with the four providers of the factory, marked
    initialised, none of them configured: two samples into a buffer of
    three. *)
Lemma mix_all_signals_without_ready_provider_is_silence_witness :
  Orchestrator.initialized_ Client.initialised = true
  /\ 0 < 2
  /\ @Orchestrator.mix_all_signals _
       (Providers.any_constellation Scenario.empty_files)
       Client.initialised (Some [(5, 5); (6, 6); (7, 7)]) 2 0%R
     = (Client.initialised, Some [(0, 0); (0, 0); (7, 7)], None).
Proof.
  split; [reflexivity|]. split; [lia|].
  exact (@mix_all_signals_without_ready_provider_is_silence _
           (Providers.any_constellation Scenario.empty_files)
           Client.initialised [(5, 5); (6, 6); (7, 7)] 2 0%R
           eq_refl eq_refl eq_refl).
Defined.

(** ** A chunk of the orchestrator over the four providers *)

Section MixNeverThrows.

Variable rinex : RinexParser.

Local Abbreviation any := (Providers.any_constellation rinex).

Lemma cdma_generate_chunk_ready {CodeState : Type}
    (V : Cdma.Variant CodeState) (p : Cdma.Provider CodeState)
    (buffer : list cplx) (sample_count : Z) (time_now : R) :
  Cdma.cdma_is_ready p = true ->
  exists p' out,
    Cdma.cdma_generate_chunk V p buffer sample_count time_now = inr (p', out).
Proof.
  intros Hready. unfold Cdma.cdma_generate_chunk. rewrite Hready. cbn [negb].
  destruct (Cdma.for_each_satellite _ _ _ _ _ _ _) as [[sats codes] buffer1].
  destruct (Cdma.final_mix _ _ _ _) as [buffer2 nco1].
  eexists; eexists; reflexivity.
Qed.

Lemma glonass_generate_chunk_ready (p : Glonass.GlonassL1Provider)
    (buffer : list cplx) (sample_count : Z) (time_now : R) :
  Glonass.glonass_is_ready p = true ->
  exists p' out,
    Glonass.glonass_generate_chunk p buffer sample_count time_now
    = inr (p', out).
Proof.
  intros Hready. unfold Glonass.glonass_generate_chunk. rewrite Hready.
  cbn [negb].
  destruct (Glonass.for_each_channel _ _ _ _ _ _) as [[gs bs] active].
  destruct (active =? 0); eexists; eexists; reflexivity.
Qed.

Lemma any_generate_chunk_ready (p : Providers.AnyProvider)
    (buffer : list cplx) (sample_count : Z) (time_now : R) :
  @is_ready _ any p = true ->
  exists p' out,
    @generate_chunk _ any p buffer sample_count time_now = inr (p', out).
Proof.
  destruct p as [q|q|q|q]; cbn [is_ready generate_chunk any]; intros Hready.
  1: destruct (cdma_generate_chunk_ready (GpsL1Provider.variant rinex) q
                 buffer sample_count time_now Hready) as [q' [out Heq]].
  2: destruct (cdma_generate_chunk_ready (GalileoE1Provider.variant rinex) q
                 buffer sample_count time_now Hready) as [q' [out Heq]].
  3: destruct (cdma_generate_chunk_ready (BeidouB1Provider.variant rinex) q
                 buffer sample_count time_now Hready) as [q' [out Heq]].
  4: destruct (glonass_generate_chunk_ready q
                 buffer sample_count time_now Hready) as [q' [out Heq]].
  all: cbn; rewrite Heq; cbn; eexists; eexists; reflexivity.
Qed.

Lemma accumulate_constellations_succeeds (sample_count : Z) (time_now : R)
    (cs : list Providers.AnyProvider) :
  forall acc : list cplx,
  exists cs' acc',
    @Orchestrator.accumulate_constellations _ any sample_count time_now cs acc
    = (cs', inr acc')
    /\ length cs' = length cs.
Proof.
  induction cs as [|c rest IH]; intros acc.
  - exists [], acc. split; reflexivity.
  - cbn [Orchestrator.accumulate_constellations].
    destruct (@is_ready _ any c) eqn:Hready.
    + destruct (any_generate_chunk_ready c
                  (repeat (0, 0) (Z.to_nat sample_count)) sample_count time_now
                  Hready) as [c1 [sig Hgen]].
      rewrite Hgen.
      destruct (IH (Orchestrator.add_to_accumulator (Z.to_nat sample_count)
                      acc sig)) as [rest' [acc' [Hrest Hlen]]].
      rewrite Hrest. exists (c1 :: rest'), acc'. split; [reflexivity|].
      cbn [length]. now rewrite Hlen.
    + destruct (IH acc) as [rest' [acc' [Hrest Hlen]]].
      rewrite Hrest. exists (c :: rest'), acc'. split; [reflexivity|].
      cbn [length]. now rewrite Hlen.
Qed.

Lemma write_output_shape (acc out : list cplx) (sample_count : Z) :
  length acc = Z.to_nat sample_count ->
  exists written : list cplx,
    Orchestrator.write_output (Orchestrator.prevent_overflow acc sample_count)
                              out sample_count
    = written ++ skipn (Z.to_nat sample_count) out
    /\ length written = Z.to_nat sample_count.
Proof.
  intros Hlen. unfold Orchestrator.write_output. eexists. split; [reflexivity|].
  rewrite length_map, length_firstn.
  unfold Orchestrator.prevent_overflow.
  rewrite length_app, length_map, length_firstn, length_skipn. lia.
Qed.

(** X5. On an initialised orchestrator that holds providers of the four
    classes, [mix_all_signals] with a buffer and a positive sample count
    never throws, whatever the state of the providers: the orchestrator
    stays initialised with the same configuration and number of providers,
    the buffer keeps its length, its first [sample_count] samples are
    [int16_t] values and the samples after them are left as they were. *)
Theorem mix_all_signals_never_throws_when_initialised
    (o : Orchestrator.SignalOrchestrator Providers.AnyProvider)
    (out : list cplx) (sample_count : Z) (time_now : R) :
  Orchestrator.initialized_ o = true ->
  0 < sample_count ->
  (Z.to_nat sample_count <= length out)%nat ->
  exists o' out',
    @Orchestrator.mix_all_signals _ any o (Some out) sample_count time_now
    = (o', Some out', None)
    /\ Orchestrator.initialized_ o' = true
    /\ Orchestrator.config_ o' = Orchestrator.config_ o
    /\ length (Orchestrator.constellations_ o')
       = length (Orchestrator.constellations_ o)
    /\ length out' = length out
    /\ Forall sample_in_int16 (firstn (Z.to_nat sample_count) out')
    /\ skipn (Z.to_nat sample_count) out' = skipn (Z.to_nat sample_count) out.
Proof.
  intros Hinit Hcount Hroom.
  destruct (accumulate_constellations_succeeds sample_count time_now
              (Orchestrator.constellations_ o)
              (repeat (0, 0) (Z.to_nat sample_count)))
    as [cs' [acc' [Hacc Hlen]]].
  assert (Hmix :
    @Orchestrator.mix_all_signals _ any o (Some out) sample_count time_now
    = (Orchestrator.mkSignalOrchestrator cs' (Orchestrator.config_ o)
         (Orchestrator.initialized_ o),
       Some (Orchestrator.write_output
               (Orchestrator.prevent_overflow acc' sample_count)
               out sample_count),
       None)).
  { unfold Orchestrator.mix_all_signals. rewrite Hinit. cbn [negb orb].
    replace (sample_count <=? 0) with false by (symmetry; apply Z.leb_gt; lia).
    now rewrite Hacc. }
  eexists; eexists. split; [exact Hmix|].
  cbn [Orchestrator.initialized_ Orchestrator.config_
       Orchestrator.constellations_].
  assert (Hacc_len : length acc' = Z.to_nat sample_count).
  { eapply (@accumulate_constellations_length _ any); [|exact Hacc].
    apply repeat_length. }
  destruct (write_output_shape acc' out sample_count Hacc_len)
    as [written [Hout Hwritten]].
  repeat split; try assumption.
  - rewrite Hout, length_app, Hwritten, length_skipn. lia.
  - apply (@mix_all_signals_in_int16 _ any _ _ _ _ _ _ Hmix).
  - rewrite Hout, skipn_app, Hwritten, Nat.sub_diag. cbn [skipn].
    rewrite skipn_all2 by (rewrite Hwritten; lia). reflexivity.
Qed.

End MixNeverThrows.

(** X5 at the orchestrator with the four providers of the factory, marked
    initialised: two samples into a buffer of three. *)
Lemma mix_all_signals_never_throws_when_initialised_witness :
  Orchestrator.initialized_ Client.initialised = true
  /\ 0 < 2
  /\ (Z.to_nat 2 <= length [(5, 5); (6, 6); (7, 7)])%nat
  /\ exists o' out',
       @Orchestrator.mix_all_signals _
         (Providers.any_constellation Scenario.empty_files)
         Client.initialised (Some [(5, 5); (6, 6); (7, 7)]) 2 0%R
       = (o', Some out', None)
       /\ Orchestrator.initialized_ o' = true
       /\ Orchestrator.config_ o' = Orchestrator.config_ Client.initialised
       /\ length (Orchestrator.constellations_ o')
          = length (Orchestrator.constellations_ Client.initialised)
       /\ length out' = length [(5, 5); (6, 6); (7, 7)]
       /\ Forall sample_in_int16 (firstn (Z.to_nat 2) out')
       /\ skipn (Z.to_nat 2) out' = skipn (Z.to_nat 2) [(5, 5); (6, 6); (7, 7)].
Proof.
  split; [reflexivity|]. split; [lia|]. split; [cbn; lia|].
  apply (mix_all_signals_never_throws_when_initialised Scenario.empty_files
           Client.initialised [(5, 5); (6, 6); (7, 7)] 2 0%R eq_refl);
    [lia | cbn; lia].
Defined.

(** ** When initialisation throws *)

Section InitializeThrows.

Local Open Scope R_scope.

Variable rinex : RinexParser.

Local Abbreviation any := (Providers.any_constellation rinex).

(** The file of a provider can be loaded. *)
Local Abbreviation loadable paths c :=
  (match paths (@get_constellation_type _ any c) with
   | Some path => exists c', @load_ephemeris _ any c path = inr c'
   | None => True
   end).

Lemma any_set_frequency_offset_loadable (p : Providers.AnyProvider)
    (offset_hz : R) (path : string) :
  @get_constellation_type _ any (@set_frequency_offset _ any p offset_hz)
  = @get_constellation_type _ any p
  /\ ((exists p', @load_ephemeris _ any
                    (@set_frequency_offset _ any p offset_hz) path = inr p')
      <-> (exists p', @load_ephemeris _ any p path = inr p')).
Proof.
  destruct p as [q|q|q|q]; cbn; unfold Providers.lift, Cdma.cdma_load_ephemeris;
    cbn; (split; [reflexivity|]).
  1: destruct (parse_gps_rinex2 rinex path) as [[what]|data].
  3: destruct (parse_rinex3 rinex path GALILEO) as [[what]|data].
  5: destruct (parse_rinex3 rinex path BEIDOU) as [[what]|data].
  all: split; intros [p' Hp']; try discriminate; eexists; reflexivity.
Qed.

Lemma load_and_configure_throws_exactly_when (config : GlobalConfig)
    (paths : ConstellationType -> option string)
    (cs : list Providers.AnyProvider) :
  snd (@Orchestrator.load_and_configure _ any config paths cs) = None
  <-> Forall (fun c => loadable paths c) cs.
Proof.
  induction cs as [|c rest IH]; [split; [constructor | reflexivity]|].
  rewrite load_and_configure_cons.
  destruct (paths (@get_constellation_type _ any c)) as [path|] eqn:Hpath.
  - destruct (@load_ephemeris _ any c path) as [err|c1] eqn:Hload; cbn [snd].
    + split; [discriminate|]. intros Hall. inversion Hall as [|? ? Hc _]; subst.
      rewrite Hpath in Hc. destruct Hc as [c' Hc']. congruence.
    + rewrite IH. split; intros Hall.
      * constructor; [|exact Hall]. rewrite Hpath. now exists c1.
      * now inversion Hall.
  - cbn [snd]. rewrite IH. split; intros Hall.
    + constructor; [|exact Hall]. now rewrite Hpath.
    + now inversion Hall.
Qed.

(** X6. [initialize] throws exactly when the configuration is not valid
    or the file named for one of the providers cannot be loaded; when it
    throws, the orchestrator is as initialised as it was before, and when
    it returns, the orchestrator is initialised. *)
Theorem initialize_throws_exactly_when
    (o : Orchestrator.SignalOrchestrator Providers.AnyProvider)
    (paths : ConstellationType -> option string) :
  (snd (@Orchestrator.initialize _ any o paths) = None
   <-> Orchestrator.validate_configuration (Orchestrator.config_ o) = true
       /\ Forall (fun c => loadable paths c) (Orchestrator.constellations_ o))
  /\ Orchestrator.initialized_ (fst (@Orchestrator.initialize _ any o paths))
     = match snd (@Orchestrator.initialize _ any o paths) with
       | None => true
       | Some _ => Orchestrator.initialized_ o
       end.
Proof.
  unfold Orchestrator.initialize.
  destruct (Orchestrator.validate_configuration (Orchestrator.config_ o));
    cbn [negb fst snd].
  2: { split; [|reflexivity]. split; [discriminate | intros [Hbad _]; discriminate]. }
  pose proof (load_and_configure_throws_exactly_when (Orchestrator.config_ o)
                paths
                (@Orchestrator.calculate_frequency_offsets _ any
                   (Orchestrator.config_ o) (Orchestrator.constellations_ o)))
    as Hloop.
  destruct (Orchestrator.load_and_configure _ _ _) as [cs2 [ex|]];
    cbn [fst snd] in *; (split; [|reflexivity]).
  - split; [discriminate|]. intros [_ Hall].
    assert (Hnone : @None error = None) by reflexivity.
    enough (Hsome : Some ex = None) by discriminate.
    apply Hloop. unfold Orchestrator.calculate_frequency_offsets.
    rewrite Forall_map. eapply Forall_impl; [|exact Hall].
    intros c Hc. cbn beta in Hc |- *.
    destruct (any_set_frequency_offset_loadable c
                (@get_carrier_frequency _ any c
                 - center_frequency_hz (Orchestrator.config_ o)
                 - @Orchestrator.min_offset _ any
                     (center_frequency_hz (Orchestrator.config_ o))
                     (Orchestrator.constellations_ o))
                EmptyString) as [Htype _].
    rewrite Htype. destruct (paths (@get_constellation_type _ any c)) as [path|];
      [|exact I].
    apply (proj2 (any_set_frequency_offset_loadable c _ path)). exact Hc.
  - split; [|reflexivity]. intros _. split; [reflexivity|].
    assert (Hall := proj1 Hloop eq_refl).
    unfold Orchestrator.calculate_frequency_offsets in Hall.
    rewrite Forall_map in Hall. eapply Forall_impl; [|exact Hall].
    intros c Hc. cbn beta in Hc.
    destruct (any_set_frequency_offset_loadable c
                (@get_carrier_frequency _ any c
                 - center_frequency_hz (Orchestrator.config_ o)
                 - @Orchestrator.min_offset _ any
                     (center_frequency_hz (Orchestrator.config_ o))
                     (Orchestrator.constellations_ o))
                EmptyString) as [Htype _].
    rewrite Htype in Hc.
    destruct (paths (@get_constellation_type _ any c)) as [path|]; [|exact I].
    apply (proj2 (any_set_frequency_offset_loadable c _ path)) in Hc. exact Hc.
Qed.

End InitializeThrows.

(** ** Readiness of the orchestrator *)

Section OrchestratorReadiness.

Local Open Scope R_scope.

Variable rinex : RinexParser.

Local Abbreviation any := (Providers.any_constellation rinex).

(** A provider as the factory returns it. *)
Local Abbreviation fresh c :=
  (exists type, Providers.create_constellation rinex type = inr c).

Local Abbreviation has_path paths c :=
  (match paths (@get_constellation_type _ any c) with
   | Some _ => true
   | None => false
   end).

Lemma fresh_provider_after_initialize (c : Providers.AnyProvider)
    (offset_hz : R) (config : GlobalConfig) :
  fresh c ->
  @is_ready _ any
    (@configure _ any (@set_frequency_offset _ any c offset_hz) config) = false
  /\ forall path c1,
       @load_ephemeris _ any (@set_frequency_offset _ any c offset_hz) path
       = inr c1 ->
       @is_ready _ any (@configure _ any c1 config) = true.
Proof.
  intros [type Hfresh]. destruct type; cbn in Hfresh; inversion Hfresh; subst;
    clear Hfresh; (split; [reflexivity|]); intros path c1; cbn;
    unfold Providers.lift, Cdma.cdma_load_ephemeris; cbn.
  1: destruct (parse_gps_rinex2 rinex path) as [[what]|data].
  4: destruct (parse_rinex3 rinex path GALILEO) as [[what]|data].
  6: destruct (parse_rinex3 rinex path BEIDOU) as [[what]|data].
  all: intros Heq; inversion Heq; subst; reflexivity.
Qed.

Lemma load_and_configure_readiness (config : GlobalConfig)
    (paths : ConstellationType -> option string) (offset : Providers.AnyProvider -> R)
    (cs : list Providers.AnyProvider) :
  Forall (fun c => fresh c) cs ->
  snd (@Orchestrator.load_and_configure _ any config paths
         (map (fun c => @set_frequency_offset _ any c (offset c)) cs)) = None ->
  forallb (@is_ready _ any)
    (fst (@Orchestrator.load_and_configure _ any config paths
            (map (fun c => @set_frequency_offset _ any c (offset c)) cs)))
  = forallb (fun c => has_path paths c) cs.
Proof.
  induction cs as [|c rest IH]; intros Hfresh Hok; [reflexivity|].
  inversion Hfresh as [|? ? Hc Hrest]; subst.
  cbn [map] in *. rewrite load_and_configure_cons in *.
  destruct (fresh_provider_after_initialize c (offset c) config Hc)
    as [Hwithout Hwith].
  assert (Htype :
    @get_constellation_type _ any (@set_frequency_offset _ any c (offset c))
    = @get_constellation_type _ any c) by (now destruct c).
  rewrite Htype in *. cbn [forallb]. cbn beta.
  destruct (paths (@get_constellation_type _ any c)) as [path|].
  - destruct (@load_ephemeris _ any _ path) as [err|c1] eqn:Hload;
      cbn [fst snd] in *; [discriminate|].
    cbn [forallb]. rewrite (Hwith path c1 Hload), (IH Hrest Hok). reflexivity.
  - cbn [fst snd] in *. cbn [forallb]. rewrite Hwithout. reflexivity.
Qed.

(** X7. When [initialize] returns on an orchestrator that holds providers
    as the factory made them, the orchestrator is ready exactly when a file
    was named for the constellation of every provider: a provider with a
    file is ready after [initialize] (loading before configuring does not
    harm readiness) and a provider without one is configured but not
    ready. *)
Theorem orchestrator_is_ready_after_initialize
    (config : GlobalConfig) (cs : list Providers.AnyProvider)
    (paths : ConstellationType -> option string) :
  Forall (fun c => fresh c) cs ->
  snd (@Orchestrator.initialize _ any
         (Orchestrator.mkSignalOrchestrator cs config false) paths) = None ->
  @Orchestrator.orchestrator_is_ready _ any
    (fst (@Orchestrator.initialize _ any
            (Orchestrator.mkSignalOrchestrator cs config false) paths))
  = forallb (fun c => has_path paths c) cs.
Proof.
  intros Hfresh Hok.
  destruct (initialize_success _ _ Hok) as [_ Hfst]. rewrite Hfst.
  unfold Orchestrator.orchestrator_is_ready.
  cbn [Orchestrator.initialized_ Orchestrator.constellations_
       Orchestrator.config_ andb].
  unfold Orchestrator.initialize in Hok.
  cbn [Orchestrator.config_ Orchestrator.constellations_] in Hok.
  destruct (Orchestrator.validate_configuration config); cbn [negb] in Hok;
    [|discriminate].
  unfold Orchestrator.calculate_frequency_offsets in *.
  apply load_and_configure_readiness; [exact Hfresh|].
  destruct (Orchestrator.load_and_configure _ _ _) as [cs2 [ex|]];
    [discriminate | reflexivity].
Qed.

End OrchestratorReadiness.

Lemma gps_only_initialises_with_file :
  snd (@Orchestrator.initialize _
         (Providers.any_constellation Scenario.one_gps_record)
         Scenario.gps_only Scenario.gps_path) = None.
Proof.
  unfold Orchestrator.initialize, Scenario.gps_only.
  cbn [Orchestrator.constellations_ Orchestrator.config_
       Orchestrator.initialized_].
  rewrite default_configuration_is_valid. cbn [negb].
  unfold Orchestrator.calculate_frequency_offsets. cbn [map].
  rewrite load_and_configure_cons. reflexivity.
Qed.

(** X7 at the orchestrator with the GPS provider alone and a GPS file. *)
Lemma orchestrator_is_ready_after_initialize_witness :
  Forall (fun c => exists type,
            Providers.create_constellation Scenario.one_gps_record type = inr c)
         (Orchestrator.constellations_ Scenario.gps_only)
  /\ snd (@Orchestrator.initialize _
            (Providers.any_constellation Scenario.one_gps_record)
            Scenario.gps_only Scenario.gps_path) = None
  /\ @Orchestrator.orchestrator_is_ready _
       (Providers.any_constellation Scenario.one_gps_record)
       (fst (@Orchestrator.initialize _
               (Providers.any_constellation Scenario.one_gps_record)
               Scenario.gps_only Scenario.gps_path))
     = true.
Proof.
  assert (Hfresh :
    Forall (fun c => exists type,
              Providers.create_constellation Scenario.one_gps_record type = inr c)
           (Orchestrator.constellations_ Scenario.gps_only)).
  { constructor; [|constructor]. exists GPS. reflexivity. }
  split; [exact Hfresh|]. split; [exact gps_only_initialises_with_file|].
  exact (orchestrator_is_ready_after_initialize Scenario.one_gps_record
           GlobalConfig_default (Orchestrator.constellations_ Scenario.gps_only)
           Scenario.gps_path Hfresh gps_only_initialises_with_file).
Defined.

(** ** The constellation of the interface test *)

Section TestConstellationFacts.

Local Open Scope R_scope.

Local Abbreviation test := TestConstellation.test_constellation.

(** A call of [load_ephemeris] with a path that is not empty. *)
Local Abbreviation loads call :=
  (match call with
   | Providers.LoadEphemeris file_path =>
       negb (String.length file_path =? 0)%nat
   | _ => false
   end).

(** X8. The test constellation is ready exactly when it was ready before
    or one of the calls made on it was a [load_ephemeris] with a path that
    is not empty; [configure] plays no part, and no call changes its type
    or its carrier frequency. *)
Theorem test_constellation_is_ready_once_loaded
    (calls : list Providers.call) (c : TestConstellation.TestConstellation) :
  TestConstellation.ready_ (@Providers.after_calls _ test c calls)
  = TestConstellation.ready_ c || existsb (fun call => loads call) calls
  /\ TestConstellation.type_ (@Providers.after_calls _ test c calls)
     = TestConstellation.type_ c
  /\ TestConstellation.carrier_freq_ (@Providers.after_calls _ test c calls)
     = TestConstellation.carrier_freq_ c.
Proof.
  revert c. induction calls as [|call rest IH]; intros c.
  - cbn. now rewrite orb_false_r.
  - unfold Providers.after_calls in *. cbn [fold_left existsb].
    destruct (IH (@Providers.after_call _ test c call)) as [Hr [Ht Hc]].
    rewrite Hr, Ht, Hc. clear IH Hr Ht Hc.
    destruct call as [config|file_path|offset_hz|buffer sample_count time_now];
      cbn; try (rewrite ?orb_false_r; repeat split; reflexivity).
    unfold TestConstellation.test_load_ephemeris.
    destruct (String.length file_path =? 0)%nat; cbn.
    + repeat split; reflexivity.
    + rewrite orb_true_r. repeat split; reflexivity.
Qed.

Lemma map_const_seq {A : Type} (x : A) (n : nat) :
  forall a : nat, map (fun _ : nat => x) (seq a n) = repeat x n.
Proof.
  induction n as [|k IH]; intros a; [reflexivity|].
  cbn [seq map repeat]. now rewrite IH.
Qed.

(** X9. [generate_chunk] of the test constellation never throws, ready or
    not: into a buffer that holds them it writes the same sample
    [sample_count] times, the point of the
    circle of radius 1000 at the phase [2 pi offset time_now] with both
    components cut to integers, leaves the rest of the buffer as it was and
    does not change the constellation. *)
Theorem test_constellation_chunk_is_one_repeated_sample
    (c : TestConstellation.TestConstellation) (buffer : list cplx)
    (sample_count : Z) (time_now : R) :
  (Z.to_nat sample_count <= length buffer)%nat ->
  exists s : cplx,
    TestConstellation.test_generate_chunk c buffer sample_count time_now
    = inr (c, repeat s (Z.to_nat sample_count)
              ++ skipn (Z.to_nat sample_count) buffer)
    /\ s = (to_int16 (1000 * cos (2 * PI * TestConstellation.frequency_offset_ c
                                  * time_now)),
            to_int16 (1000 * sin (2 * PI * TestConstellation.frequency_offset_ c
                                  * time_now)))
    /\ (-1000 <= fst s <= 1000)%Z /\ (-1000 <= snd s <= 1000)%Z.
Proof.
  intros _.
  exists (to_int16 (1000 * cos (2 * PI * TestConstellation.frequency_offset_ c
                                 * time_now)),
          to_int16 (1000 * sin (2 * PI * TestConstellation.frequency_offset_ c
                                 * time_now))).
  split; [|split; [reflexivity|]].
  - unfold TestConstellation.test_generate_chunk.
    now rewrite map_const_seq.
  - cbn [fst snd].
    set (phase := 2 * PI * TestConstellation.frequency_offset_ c * time_now).
    pose proof (COS_bound phase) as [Hc1 Hc2].
    pose proof (SIN_bound phase) as [Hs1 Hs2].
    assert (Hlo : in_int16 (-1000))
      by (unfold in_int16, INT16_MIN, INT16_MAX; lia).
    assert (Hhi : in_int16 1000)
      by (unfold in_int16, INT16_MIN, INT16_MAX; lia).
    split; apply to_int16_between; try assumption; lra.
Qed.

Lemma test_constellation_chunk_is_one_repeated_sample_witness :
  exists s : cplx,
    TestConstellation.test_generate_chunk
      (TestConstellation.create GPS 1575420000)
      [(5, 5); (6, 6); (7, 7)]%Z 2%Z 0
    = inr (TestConstellation.create GPS 1575420000,
           repeat s (Z.to_nat 2%Z)
           ++ skipn (Z.to_nat 2%Z) [(5, 5); (6, 6); (7, 7)]%Z)
    /\ s = (to_int16
              (1000 * cos (2 * PI
                           * TestConstellation.frequency_offset_
                               (TestConstellation.create GPS 1575420000)
                           * 0)),
            to_int16
              (1000 * sin (2 * PI
                           * TestConstellation.frequency_offset_
                               (TestConstellation.create GPS 1575420000)
                           * 0)))
    /\ (-1000 <= fst s <= 1000)%Z /\ (-1000 <= snd s <= 1000)%Z.
Proof.
  apply (test_constellation_chunk_is_one_repeated_sample
           (TestConstellation.create GPS 1575420000)
           [(5, 5); (6, 6); (7, 7)]%Z 2%Z 0).
  cbn. lia.
Defined.

End TestConstellationFacts.

(** ** The factories *)

(** X10. The three factories and the frequency table agree: a
    constellation or provider a factory returns has the type asked for, the
    carrier frequency [get_constellation_frequency] gives for that type, and
    is not ready; the factory of the CDMA providers and the factory of the
    GLONASS provider split the four constellations between them (each type
    is made by exactly one of the two), and all of them refuse any other
    type, as [get_constellation_frequency] does. *)
Theorem factories_agree (rinex : RinexParser) (type : ConstellationType) :
  (forall c, Factory.test_create_constellation type = inr c ->
     TestConstellation.type_ c = type
     /\ Factory.get_constellation_frequency type
        = inr (TestConstellation.carrier_freq_ c)
     /\ TestConstellation.ready_ c = false)
  /\ (forall p,
        Factory.cdma_create_constellation rinex type = inr p
        \/ Factory.glonass_create_constellation type = inr p ->
        @get_constellation_type _ (Providers.any_constellation rinex) p = type
        /\ Factory.get_constellation_frequency type
           = inr (@get_carrier_frequency _ (Providers.any_constellation rinex) p)
        /\ @is_ready _ (Providers.any_constellation rinex) p = false)
  /\ (type <> NONE ->
      ((exists p, Factory.cdma_create_constellation rinex type = inr p)
       <-> ~ (exists p, Factory.glonass_create_constellation type = inr p))
      /\ (exists c, Factory.test_create_constellation type = inr c))
  /\ (type = NONE ->
      Factory.test_create_constellation type
      = inl (QuadGNSSException "Unsupported constellation type")
      /\ Factory.cdma_create_constellation rinex type
         = inl (QuadGNSSException "Unsupported constellation type")
      /\ Factory.glonass_create_constellation type
         = inl (QuadGNSSException "Unsupported constellation type")
      /\ Factory.get_constellation_frequency type
         = inl (QuadGNSSException "Unsupported constellation type")).
Proof.
  split; [|split; [|split]].
  - intros c Hc. destruct type; cbn in Hc; inversion Hc; subst; cbn;
      repeat split; reflexivity.
  - intros p [Hp | Hp]; destruct type; cbn in Hp; inversion Hp; subst; cbn;
      repeat split; reflexivity.
  - intros Htype. destruct type; try contradiction; cbn; split;
      try (eexists; reflexivity);
      split;
      try (intros _ [p Hp]; discriminate);
      try (intros [p Hp]; discriminate);
      try (intros _; eexists; reflexivity).
    intros Hno. exfalso. apply Hno. eexists; reflexivity.
  - intros ->. repeat split; reflexivity.
Qed.

(** ** One code for all GPS satellites *)

(** X11. The GPS generator gives every satellite the same code: the G2
    register a satellite starts with is all ones whatever its entry of the
    tap-delay table (all ones is a fixed point of the G2 feedback of the
    source), so the state created for any two PRNs is the same and so is
    every chip they emit. *)
Theorem gps_code_is_the_same_for_every_prn (prn prn' : Z) (n : nat) :
  Gps.initial_code_state prn = Gps.initial_code_state prn'
  /\ Gps.registers_after prn n = Gps.registers_after prn' n
  /\ Gps.chip_sequence prn n = Gps.chip_sequence prn' n.
Proof.
  assert (Hstate : forall p, Gps.initial_code_state p = Gps.GPSCodeState_default).
  { intros p. pose proof (gps_initial_code_state_g1 p) as H1.
    pose proof (gps_initial_code_state_g2 p) as H2.
    unfold Gps.initial_code_state in *.
    destruct ((1 <=? p) && (p <=? 37)); [|reflexivity].
    cbn [Gps.g2_register] in H2. rewrite H2. reflexivity. }
  split; [|split].
  - now rewrite !Hstate.
  - unfold Gps.registers_after. now rewrite !Hstate.
  - now rewrite !gps_chip_sequence_is_g1.
Qed.

(** ** Lists of active satellites *)

Section ActiveSatellites.

Local Open Scope R_scope.

Lemma filter_all {A : Type} (f : A -> bool) (l : list A) :
  (forall x, In x l -> f x = true) -> filter f l = l.
Proof.
  induction l as [|x l IH]; intros Hall; [reflexivity|].
  cbn [filter]. rewrite (Hall x (or_introl eq_refl)). f_equal.
  apply IH. intros y Hy. apply Hall. now right.
Qed.

Lemma filter_none {A : Type} (f : A -> bool) (l : list A) :
  (forall x, In x l -> f x = false) -> filter f l = [].
Proof.
  induction l as [|x l IH]; intros Hall; [reflexivity|].
  cbn [filter]. rewrite (Hall x (or_introl eq_refl)).
  apply IH. intros y Hy. apply Hall. now right.
Qed.

Lemma filter_first_active (a : Z) (n : nat) (f : nat -> Cdma.SatelliteConfig) :
  (0 <= a <= Z.of_nat n)%Z ->
  (forall k, Cdma.is_active (f k) = (Z.of_nat k <=? a)%Z) ->
  filter Cdma.is_active (map f (seq 1 n)) = map f (seq 1 (Z.to_nat a)).
Proof.
  intros Ha Hf.
  replace n with (Z.to_nat a + (n - Z.to_nat a))%nat at 1 by lia.
  rewrite seq_app, map_app, filter_app.
  rewrite filter_all, filter_none; [apply app_nil_r | |].
  - intros x Hx. apply in_map_iff in Hx. destruct Hx as [k [<- Hk]].
    apply in_seq in Hk. rewrite Hf. apply Z.leb_gt. lia.
  - intros x Hx. apply in_map_iff in Hx. destruct Hx as [k [<- Hk]].
    apply in_seq in Hk. rewrite Hf. apply Z.leb_le. lia.
Qed.

Context {CodeState : Type}.
Variable V : Cdma.Variant CodeState.

(** X12. After [configure], whatever the provider was before,
    [get_active_satellites] of a CDMA provider lists the first [v_active]
    PRNs in order, each with the provider's type, the carrier frequency
    plus the frequency offset, the default power and no Doppler; loading
    an ephemeris file changes nothing in the list, and the entries never
    carry the ephemeris. *)
Theorem cdma_active_satellites_after_configure
    (p : Cdma.Provider CodeState) (config : GlobalConfig) :
  (0 <= Cdma.v_active V <= Z.of_nat (Cdma.v_satellites V))%Z ->
  Satellites.cdma_get_active_satellites (Cdma.cdma_configure V p config)
  = map (fun k =>
           Satellites.mkSatelliteInfo (Z.of_nat k) (Cdma.constellation_type_ p)
             (Cdma.carrier_frequency_hz_ p + Cdma.frequency_offset_hz_ p)
             (Cdma.v_power_dbm V) 0 true EphemerisData_default)
        (seq 1 (Z.to_nat (Cdma.v_active V)))
  /\ forall (q q' : Cdma.Provider CodeState) (file_path : string),
       Cdma.cdma_load_ephemeris V q file_path = inr q' ->
       Satellites.cdma_get_active_satellites q'
       = Satellites.cdma_get_active_satellites q.
Proof.
  intros Hactive. split.
  - unfold Satellites.cdma_get_active_satellites, Cdma.cdma_configure,
      Cdma.initialize_default_satellites.
    cbn [Cdma.active_satellites_ Cdma.constellation_type_
         Cdma.carrier_frequency_hz_ Cdma.frequency_offset_hz_].
    rewrite (filter_first_active (Cdma.v_active V) (Cdma.v_satellites V));
      [| exact Hactive | reflexivity].
    rewrite map_map. cbn [Cdma.prn Cdma.power_dbm Cdma.doppler_hz
                          Cdma.is_active Satellites.info_ephemeris
                          Satellites.SatelliteInfo_default].
    apply map_ext_in. intros k Hk. apply in_seq in Hk.
    replace (Z.of_nat k <=? Cdma.v_active V)%Z with true
      by (symmetry; apply Z.leb_le; lia).
    reflexivity.
  - intros q q' file_path. unfold Cdma.cdma_load_ephemeris.
    destruct (Cdma.v_reader V file_path) as [[what]|data]; [discriminate|].
    intros Heq. inversion Heq; subst. clear Heq.
    unfold Satellites.cdma_get_active_satellites.
    cbn [Cdma.active_satellites_ Cdma.constellation_type_
         Cdma.carrier_frequency_hz_ Cdma.frequency_offset_hz_].
    assert (Hsame : forall s, Cdma.is_active (Cdma.attach_ephemeris data s)
                              = Cdma.is_active s
                              /\ Cdma.prn (Cdma.attach_ephemeris data s) = Cdma.prn s
                              /\ Cdma.power_dbm (Cdma.attach_ephemeris data s)
                                 = Cdma.power_dbm s
                              /\ Cdma.doppler_hz (Cdma.attach_ephemeris data s)
                                 = Cdma.doppler_hz s).
    { intros s. unfold Cdma.attach_ephemeris.
      destruct (find_ephemeris (Cdma.prn s) data); repeat split; reflexivity. }
    assert (Hfilter : forall l,
              filter Cdma.is_active (map (Cdma.attach_ephemeris data) l)
              = map (Cdma.attach_ephemeris data) (filter Cdma.is_active l)).
    { induction l as [|sat rest IH]; [reflexivity|].
      cbn [map filter]. rewrite (proj1 (Hsame sat)).
      destruct (Cdma.is_active sat); cbn [map]; now rewrite IH. }
    rewrite Hfilter, map_map. apply map_ext. intros sat.
    destruct (Hsame sat) as [Ha [Hp [Hw Hd]]]. now rewrite Ha, Hp, Hw, Hd.
Qed.

End ActiveSatellites.

(** X12 at the GPS provider of the factory, configured with the default
    configuration: PRNs 1 to 8. *)
Lemma cdma_active_satellites_after_configure_witness :
  (0 <= Cdma.v_active (GpsL1Provider.variant Scenario.empty_files)
   <= Z.of_nat (Cdma.v_satellites (GpsL1Provider.variant Scenario.empty_files)))
  /\ map Satellites.info_prn
       (Satellites.cdma_get_active_satellites
          (Cdma.cdma_configure (GpsL1Provider.variant Scenario.empty_files)
             (Cdma.create (GpsL1Provider.variant Scenario.empty_files))
             GlobalConfig_default))
     = [1; 2; 3; 4; 5; 6; 7; 8].
Proof.
  assert (Hactive :
    0 <= Cdma.v_active (GpsL1Provider.variant Scenario.empty_files)
    <= Z.of_nat (Cdma.v_satellites (GpsL1Provider.variant Scenario.empty_files)))
    by (cbn; lia).
  split; [exact Hactive|].
  rewrite (proj1 (cdma_active_satellites_after_configure
                    (GpsL1Provider.variant Scenario.empty_files)
                    (Cdma.create (GpsL1Provider.variant Scenario.empty_files))
                    GlobalConfig_default Hactive)).
  reflexivity.
Defined.

(** ** The satellites of the GLONASS provider *)

Section GlonassSatellites.

Local Open Scope R_scope.

Local Abbreviation glonass := Glonass.glonass_constellation.

Local Abbreviation is_load call :=
  (match call with
   | Providers.LoadEphemeris _ => true
   | _ => false
   end).

Lemma glonass_generate_chunk_keeps_channels (p p' : Glonass.GlonassL1Provider)
    (buffer out : list cplx) (sample_count : Z) (time_now : R) :
  Glonass.glonass_generate_chunk p buffer sample_count time_now = inr (p', out) ->
  Glonass.channels_ p' = Glonass.channels_ p
  /\ Glonass.constellation_type_ p' = Glonass.constellation_type_ p.
Proof.
  unfold Glonass.glonass_generate_chunk.
  destruct (negb (Glonass.glonass_is_ready p)); [discriminate|].
  destruct (Glonass.for_each_channel _ _ _ _ _ _) as [[gs bs] active].
  destruct (active =? 0)%Z; intros Heq; inversion Heq; subst; split; reflexivity.
Qed.

Lemma glonass_channels_after_calls (calls : list Providers.call) :
  forall p : Glonass.GlonassL1Provider,
    Glonass.constellation_type_ p = GLONASS ->
    Glonass.channels_ p = Glonass.initial_channels
    \/ Glonass.channels_ p
       = Glonass.activate_default_channels Glonass.initial_channels ->
    Glonass.constellation_type_ (@Providers.after_calls _ glonass p calls)
    = GLONASS
    /\ Glonass.channels_ (@Providers.after_calls _ glonass p calls)
       = if existsb (fun call => is_load call) calls
         then Glonass.activate_default_channels Glonass.initial_channels
         else Glonass.channels_ p.
Proof.
  induction calls as [|call rest IH]; intros p Htype Hchannels;
    [split; [exact Htype | reflexivity]|].
  unfold Providers.after_calls in *. cbn [fold_left existsb].
  destruct call as [config|file_path|offset_hz|buffer sample_count time_now].
  - cbn [orb]. apply (IH (Glonass.glonass_configure p config)); assumption.
  - cbn [orb Providers.after_call load_ephemeris glonass
         Glonass.glonass_load_ephemeris].
    destruct (IH (Glonass.mkGlonassL1Provider (Glonass.constellation_type_ p)
                    (Glonass.carrier_frequency_hz_ p)
                    (Glonass.center_frequency_hz_ p) (Glonass.configured_ p) true
                    (Glonass.activate_default_channels (Glonass.channels_ p))
                    (Glonass.channel_generators_ p) (Glonass.satellite_buffers_ p)
                    (Glonass.config_ p)))
      as [Ht Hc]; [exact Htype | |].
    + right. cbn [Glonass.channels_].
      destruct Hchannels as [-> | ->]; reflexivity.
    + split; [exact Ht|]. rewrite Hc. cbn [Glonass.channels_].
      destruct (existsb _ rest); [reflexivity|].
      destruct Hchannels as [-> | ->]; reflexivity.
  - cbn [orb]. apply (IH (Glonass.glonass_set_frequency_offset p offset_hz));
      assumption.
  - cbn [orb Providers.after_call generate_chunk glonass].
    destruct (Glonass.glonass_generate_chunk p buffer sample_count time_now)
      as [err|[p' out]] eqn:Hgen; [now apply IH|].
    destruct (glonass_generate_chunk_keeps_channels _ _ _ _ _ _ Hgen)
      as [Hc Ht].
    rewrite <- Hc. apply IH; [congruence | now rewrite Hc].
Qed.

(** X13. On the GLONASS provider of the factory, after any sequence of
    calls, [get_active_satellites] is empty as long as [load_ephemeris] was
    not called and lists PRNs 1 to 8 once it was, each at the frequency of
    its channel, 1602 MHz + (PRN - 8) * 0.5625 MHz, with power -128 dBm;
    the frequency offset of the provider does not enter the list. *)
Theorem glonass_active_satellites_after_calls (calls : list Providers.call) :
  Satellites.glonass_get_active_satellites
    (@Providers.after_calls _ glonass Glonass.create calls)
  = if existsb (fun call => is_load call) calls
    then map (fun k =>
                Satellites.mkSatelliteInfo (Z.of_nat k) GLONASS
                  (1602000000 + IZR (Z.of_nat k - 8) * 562500)
                  (-128) 0 true EphemerisData_default)
             (seq 1 8)
    else [].
Proof.
  destruct (glonass_channels_after_calls calls Glonass.create eq_refl
              (or_introl eq_refl)) as [Ht Hc].
  unfold Satellites.glonass_get_active_satellites. rewrite Ht, Hc.
  destruct (existsb _ calls); reflexivity.
Qed.

End GlonassSatellites.

(** ** The satellites of the orchestrator *)

Section AllSatellites.

Local Open Scope R_scope.

Variable rinex : RinexParser.

Local Abbreviation any := (Providers.any_constellation rinex).

Local Abbreviation fresh c :=
  (exists type, Providers.create_constellation rinex type = inr c).

(** Constellation and PRN of an entry. *)
Local Abbreviation who s :=
  (Satellites.info_constellation s, Satellites.info_prn s).

(** The satellites a provider activates by default. *)
Local Abbreviation default_satellites c :=
  (map (fun k => (@get_constellation_type _ any c, Z.of_nat k))
       (seq 1 match @get_constellation_type _ any c with
              | GPS => 8 | GALILEO => 6 | BEIDOU => 5 | GLONASS => 8
              | NONE => 0
              end)).

Lemma fresh_provider_satellites (c : Providers.AnyProvider)
    (offset_hz : R) (config : GlobalConfig) :
  fresh c ->
  forall path c1,
    @load_ephemeris _ any (@set_frequency_offset _ any c offset_hz) path
    = inr c1 ->
    map (fun s => who s)
        (Satellites.get_active_satellites (@configure _ any c1 config))
    = default_satellites c.
Proof.
  intros [type Hfresh]. destruct type; cbn in Hfresh; inversion Hfresh; subst;
    clear Hfresh; intros path c1; cbn;
    unfold Providers.lift, Cdma.cdma_load_ephemeris; cbn.
  1: destruct (parse_gps_rinex2 rinex path) as [[what]|data].
  4: destruct (parse_rinex3 rinex path GALILEO) as [[what]|data].
  6: destruct (parse_rinex3 rinex path BEIDOU) as [[what]|data].
  all: intros Heq; inversion Heq; subst; reflexivity.
Qed.

Lemma load_and_configure_satellites (config : GlobalConfig)
    (paths : ConstellationType -> option string)
    (offset : Providers.AnyProvider -> R)
    (cs : list Providers.AnyProvider) :
  Forall (fun c => fresh c) cs ->
  snd (@Orchestrator.load_and_configure _ any config paths
         (map (fun c => @set_frequency_offset _ any c (offset c)) cs)) = None ->
  map (fun s => who s)
      (flat_map (fun c => if @is_ready _ any c
                          then Satellites.get_active_satellites c else [])
         (fst (@Orchestrator.load_and_configure _ any config paths
                 (map (fun c => @set_frequency_offset _ any c (offset c)) cs))))
  = flat_map (fun c =>
                match paths (@get_constellation_type _ any c) with
                | Some _ => default_satellites c
                | None => []
                end) cs.
Proof.
  induction cs as [|c rest IH]; intros Hfresh Hok; [reflexivity|].
  inversion Hfresh as [|? ? Hc Hrest]; subst.
  cbn [map] in *. rewrite load_and_configure_cons in *.
  destruct (fresh_provider_after_initialize rinex c (offset c) config Hc)
    as [Hwithout Hwith].
  pose proof (fresh_provider_satellites c (offset c) config Hc) as Hsats.
  assert (Htype :
    @get_constellation_type _ any (@set_frequency_offset _ any c (offset c))
    = @get_constellation_type _ any c) by (now destruct c).
  rewrite Htype in *. cbn [flat_map].
  destruct (paths (@get_constellation_type _ any c)) as [path|].
  - destruct (@load_ephemeris _ any _ path) as [err|c1] eqn:Hload;
      cbn [fst snd] in *; [discriminate|].
    cbn [flat_map]. rewrite (Hwith path c1 Hload), map_app.
    rewrite (Hsats path c1 Hload), (IH Hrest Hok). reflexivity.
  - cbn [fst snd] in *. cbn [flat_map]. rewrite Hwithout.
    cbn [app]. now rewrite (IH Hrest Hok).
Qed.

(** X14. When [initialize] returns on an orchestrator that holds providers
    as the factory made them, [get_all_satellites] lists, provider by
    provider in the order they were added, the satellites the provider
    activates by default (GPS 1..8, Galileo 1..6, BeiDou 1..5, GLONASS
    1..8) if a file was named for its constellation, and nothing for a
    provider without a file. *)
Theorem all_satellites_after_initialize
    (config : GlobalConfig) (cs : list Providers.AnyProvider)
    (paths : ConstellationType -> option string) :
  Forall (fun c => fresh c) cs ->
  snd (@Orchestrator.initialize _ any
         (Orchestrator.mkSignalOrchestrator cs config false) paths) = None ->
  map (fun s => who s)
      (@Satellites.get_all_satellites _ any Satellites.get_active_satellites
         (fst (@Orchestrator.initialize _ any
                 (Orchestrator.mkSignalOrchestrator cs config false) paths)))
  = flat_map (fun c =>
                match paths (@get_constellation_type _ any c) with
                | Some _ => default_satellites c
                | None => []
                end) cs.
Proof.
  intros Hfresh Hok.
  destruct (initialize_success _ _ Hok) as [_ Hfst]. rewrite Hfst.
  unfold Satellites.get_all_satellites.
  cbn [Orchestrator.initialized_ Orchestrator.constellations_
       Orchestrator.config_].
  unfold Orchestrator.initialize in Hok.
  cbn [Orchestrator.config_ Orchestrator.constellations_] in Hok.
  destruct (Orchestrator.validate_configuration config); cbn [negb] in Hok;
    [|discriminate].
  unfold Orchestrator.calculate_frequency_offsets in *.
  apply load_and_configure_satellites; [exact Hfresh|].
  destruct (Orchestrator.load_and_configure _ _ _) as [cs2 [ex|]];
    [discriminate | reflexivity].
Qed.

End AllSatellites.

(** X14 at the orchestrator with the GPS provider alone and a GPS file. *)
Lemma all_satellites_after_initialize_witness :
  Forall (fun c => exists type,
            Providers.create_constellation Scenario.one_gps_record type = inr c)
         (Orchestrator.constellations_ Scenario.gps_only)
  /\ snd (@Orchestrator.initialize _
            (Providers.any_constellation Scenario.one_gps_record)
            Scenario.gps_only Scenario.gps_path) = None
  /\ map (fun s => (Satellites.info_constellation s, Satellites.info_prn s))
       (@Satellites.get_all_satellites _
          (Providers.any_constellation Scenario.one_gps_record)
          Satellites.get_active_satellites
          (fst (@Orchestrator.initialize _
                  (Providers.any_constellation Scenario.one_gps_record)
                  Scenario.gps_only Scenario.gps_path)))
     = [(GPS, 1); (GPS, 2); (GPS, 3); (GPS, 4);
        (GPS, 5); (GPS, 6); (GPS, 7); (GPS, 8)].
Proof.
  assert (Hfresh :
    Forall (fun c => exists type,
              Providers.create_constellation Scenario.one_gps_record type = inr c)
           (Orchestrator.constellations_ Scenario.gps_only)).
  { constructor; [|constructor]. exists GPS. reflexivity. }
  split; [exact Hfresh|]. split; [exact gps_only_initialises_with_file|].
  exact (all_satellites_after_initialize Scenario.one_gps_record
           GlobalConfig_default (Orchestrator.constellations_ Scenario.gps_only)
           Scenario.gps_path Hfresh gps_only_initialises_with_file).
Defined.

(** ** The secondary code of Galileo *)

Section GalileoSecondary.

Local Open Scope R_scope.

Lemma galileo_secondary_index_is_zero (x : Z) :
  Z.rem (Z.quot (Z.rem x 4092) 4092) 25 = 0%Z.
Proof.
  assert (Hsmall : (Z.abs (Z.rem x 4092) < 4092)%Z).
  { pose proof (Z.rem_bound_abs x 4092 ltac:(lia)). lia. }
  assert (Hq : Z.quot (Z.rem x 4092) 4092 = 0%Z).
  { apply Z.quot_small_iff; [lia|]. lia. }
  rewrite Hq. reflexivity.
Qed.

Lemma galileo_sample_step_secondary (config : GlobalConfig) (time_now : R)
    (doppler phase : R) (acc : Z * Galileo.GalileoCodeState * list cplx)
    (i : nat) :
  Galileo.secondary_chip_count (snd (fst acc)) = 0%Z ->
  Galileo.secondary_chip_count
    (snd (fst (GalileoE1Provider.sample_step config time_now doppler phase acc i)))
  = 0%Z.
Proof.
  destruct acc as [[chips state] buffer]. cbn [fst snd]. intros Hzero.
  unfold GalileoE1Provider.sample_step.
  rewrite galileo_secondary_index_is_zero.
  destruct (_ =? Galileo.primary_chip_count state)%Z; cbn [fst snd];
    [exact Hzero | reflexivity].
Qed.

Lemma galileo_samples_secondary (config : GlobalConfig) (time_now : R)
    (doppler phase : R) (indices : list nat) :
  forall acc : Z * Galileo.GalileoCodeState * list cplx,
    Galileo.secondary_chip_count (snd (fst acc)) = 0%Z ->
    Galileo.secondary_chip_count
      (snd (fst (fold_left
                   (GalileoE1Provider.sample_step config time_now doppler phase)
                   indices acc)))
    = 0%Z.
Proof.
  induction indices as [|i rest IH]; intros acc Hzero; [exact Hzero|].
  cbn [fold_left]. apply IH. now apply galileo_sample_step_secondary.
Qed.

Local Abbreviation zero_secondary codes :=
  (Forall (fun entry : Z * Galileo.GalileoCodeState =>
             Galileo.secondary_chip_count (snd entry) = 0%Z) codes).

Lemma find_code_Forall {C : Type} (Q : C -> Prop) (prn : Z)
    (codes : list (Z * C)) (st : C) :
  Forall (fun entry => Q (snd entry)) codes ->
  Cdma.find_code prn codes = Some st -> Q st.
Proof.
  induction codes as [|[k v] rest IH]; intros Hall Hfind; [discriminate|].
  inversion Hall as [|? ? Hv Hrest]; subst. cbn [Cdma.find_code] in Hfind.
  destruct (k =? prn)%Z; [inversion Hfind; subst; exact Hv | now apply IH].
Qed.

Lemma set_code_Forall {C : Type} (Q : C -> Prop) (prn : Z) (st : C)
    (codes : list (Z * C)) :
  Forall (fun entry => Q (snd entry)) codes -> Q st ->
  Forall (fun entry => Q (snd entry)) (Cdma.set_code prn st codes).
Proof.
  induction codes as [|[k v] rest IH]; intros Hall Hst;
    [constructor; [exact Hst | constructor]|].
  inversion Hall as [|? ? Hv Hrest]; subst. cbn [Cdma.set_code].
  destruct (k =? prn)%Z; constructor; auto.
Qed.

Lemma galileo_satellite_secondary (config : GlobalConfig) (sample_count : Z)
    (time_now : R) (sat : Cdma.SatelliteConfig)
    (codes : list (Z * Galileo.GalileoCodeState)) (buffer : list cplx) :
  zero_secondary codes ->
  zero_secondary
    (snd (fst (GalileoE1Provider.satellite config sample_count time_now
                 sat codes buffer))).
Proof.
  intros Hall. unfold GalileoE1Provider.satellite.
  set (codes1 := match Cdma.find_code (Cdma.prn sat) codes with
                 | Some _ => codes
                 | None => Cdma.set_code (Cdma.prn sat)
                             (Galileo.initial_code_state (Cdma.prn sat)) codes
                 end).
  assert (Hall1 : zero_secondary codes1).
  { unfold codes1. destruct (Cdma.find_code (Cdma.prn sat) codes);
      [exact Hall|].
    apply (set_code_Forall
             (fun st => Galileo.secondary_chip_count st = 0%Z));
      [exact Hall | reflexivity]. }
  set (state := match Cdma.find_code (Cdma.prn sat) codes1 with
                | Some st => st
                | None => Galileo.GalileoCodeState_default
                end).
  assert (Hstate : Galileo.secondary_chip_count state = 0%Z).
  { unfold state.
    destruct (Cdma.find_code (Cdma.prn sat) codes1) as [st|] eqn:Hfind;
      [|reflexivity].
    exact (find_code_Forall
             (fun st => Galileo.secondary_chip_count st = 0%Z)
             _ _ _ Hall1 Hfind). }
  pose proof (galileo_samples_secondary config time_now (Cdma.doppler_hz sat)
                (Cdma.carrier_phase_rad sat) (seq 0 (Z.to_nat sample_count))
                (Cdma.code_phase_chips sat, state, buffer) Hstate) as Hrun.
  destruct (fold_left _ _ _) as [[chips state1] buffer1].
  cbn [fst snd] in *.
  apply (set_code_Forall (fun st => Galileo.secondary_chip_count st = 0%Z));
    [exact Hall1 | exact Hrun].
Qed.

Lemma galileo_loop_secondary (rinex : RinexParser) (config : GlobalConfig)
    (sample_count : Z) (time_now : R) (sats : list Cdma.SatelliteConfig) :
  forall (codes : list (Z * Galileo.GalileoCodeState)) (buffer : list cplx),
    zero_secondary codes ->
    zero_secondary
      (snd (fst (Cdma.for_each_satellite (GalileoE1Provider.variant rinex)
                   sample_count time_now config sats codes buffer))).
Proof.
  induction sats as [|sat rest IH]; intros codes buffer Hall; [exact Hall|].
  cbn [Cdma.for_each_satellite].
  destruct (Cdma.is_active sat).
  - pose proof (galileo_satellite_secondary config sample_count time_now
                  sat codes buffer Hall) as Hsat.
    cbn [Cdma.v_satellite GalileoE1Provider.variant].
    destruct (GalileoE1Provider.satellite _ _ _ _ _ _)
      as [[sat1 codes1] buffer1].
    cbn [fst snd] in Hsat. specialize (IH codes1 buffer1 Hsat).
    destruct (Cdma.for_each_satellite _ _ _ _ _ _ _)
      as [[rest2 codes2] buffer2].
    exact IH.
  - specialize (IH codes buffer Hall).
    destruct (Cdma.for_each_satellite _ _ _ _ _ _ _)
      as [[rest2 codes2] buffer2].
    exact IH.
Qed.

(** X15. The Galileo provider never moves in its secondary code: the
    index it computes, [(primary_chip_index / 4092) % 25] with
    [primary_chip_index] a remainder modulo 4092, is 0 at every time, so
    after [generate_chunk] the secondary chip count of every code state is
    0 if it was before (as it is for the states the provider creates). *)
Theorem galileo_secondary_chip_count_stays_zero (rinex : RinexParser)
    (q : Cdma.Provider Galileo.GalileoCodeState) (buffer : list cplx)
    (sample_count : Z) (time_now : R) :
  zero_secondary (Cdma.code_states_ q) ->
  (forall x : Z, Z.rem (Z.quot (Z.rem x 4092) 4092) 25 = 0%Z)
  /\ (forall prn : Z,
        Galileo.secondary_chip_count (Galileo.initial_code_state prn) = 0%Z)
  /\ match Cdma.cdma_generate_chunk (GalileoE1Provider.variant rinex) q
             buffer sample_count time_now with
     | inl _ => True
     | inr (q', _) => zero_secondary (Cdma.code_states_ q')
     end.
Proof.
  intros Hall. split; [exact galileo_secondary_index_is_zero|].
  split; [reflexivity|].
  unfold Cdma.cdma_generate_chunk.
  destruct (negb (Cdma.cdma_is_ready q)); [exact I|].
  pose proof (galileo_loop_secondary rinex (Cdma.config_ q) sample_count time_now
                (Cdma.active_satellites_ q) (Cdma.code_states_ q)
                (fill_zero (Z.to_nat sample_count) buffer) Hall) as Hloop.
  destruct (Cdma.for_each_satellite _ _ _ _ _ _ _) as [[sats codes] buffer1].
  destruct (Cdma.final_mix _ _ _ _) as [buffer2 nco1].
  exact Hloop.
Qed.

End GalileoSecondary.

(** X15 at the Galileo provider of the factory, configured and loaded
    from a file without records, and a chunk of four samples at time 0. *)
Lemma galileo_secondary_chip_count_stays_zero_witness :
  Forall (fun entry : Z * Galileo.GalileoCodeState =>
            Galileo.secondary_chip_count (snd entry) = 0)
         (Cdma.code_states_
            (@Providers.after_calls _
               (Cdma.cdma_constellation
                  (GalileoE1Provider.variant Scenario.empty_files))
               (Cdma.create (GalileoE1Provider.variant Scenario.empty_files))
               [Providers.Configure GlobalConfig_default;
                Providers.LoadEphemeris "galileo.nav"]))
  /\ match Cdma.cdma_generate_chunk
             (GalileoE1Provider.variant Scenario.empty_files)
             (@Providers.after_calls _
                (Cdma.cdma_constellation
                   (GalileoE1Provider.variant Scenario.empty_files))
                (Cdma.create (GalileoE1Provider.variant Scenario.empty_files))
                [Providers.Configure GlobalConfig_default;
                 Providers.LoadEphemeris "galileo.nav"])
             (repeat (0, 0) 4) 4 0%R with
     | inl _ => True
     | inr (q', _) =>
         Forall (fun entry : Z * Galileo.GalileoCodeState =>
                   Galileo.secondary_chip_count (snd entry) = 0)
                (Cdma.code_states_ q')
     end.
Proof.
  assert (Hzero :
    Forall (fun entry : Z * Galileo.GalileoCodeState =>
              Galileo.secondary_chip_count (snd entry) = 0)
           (Cdma.code_states_
              (@Providers.after_calls _
                 (Cdma.cdma_constellation
                    (GalileoE1Provider.variant Scenario.empty_files))
                 (Cdma.create (GalileoE1Provider.variant Scenario.empty_files))
                 [Providers.Configure GlobalConfig_default;
                  Providers.LoadEphemeris "galileo.nav"])))
    by (apply Forall_nil).
  split; [exact Hzero|].
  exact (proj2 (proj2 (galileo_secondary_chip_count_stays_zero
                         Scenario.empty_files _ (repeat (0, 0) 4) 4 0%R Hzero))).
Defined.

(** ** The carrier phase a satellite keeps *)

Section CarrierPhase.

Local Open Scope R_scope.



Local Abbreviation phase_in_range sat :=
  (Cdma.is_active sat = true ->
   - (2 * PI) < Cdma.carrier_phase_rad sat < 2 * PI).




End CarrierPhase.


(** ** The position of a satellite *)

Section SatellitePositionFacts.

Local Open Scope R_scope.




End SatellitePositionFacts.

(** ** Samples written into a buffer *)

Section WrittenSamples.

Lemma update_length {A : Type} (i : nat) (v : A) (l : list A) :
  length (update i v l) = length l.
Proof.
  revert i. induction l as [|x l IH]; intros [|i]; cbn; auto.
Qed.

Lemma update_nth {A : Type} (i j : nat) (v d : A) (l : list A) :
  nth j (update i v l) d
  = if (j =? i)%nat && (i <? length l)%nat then v else nth j l d.
Proof.
  revert i j. induction l as [|x l IH]; intros [|i] [|j]; cbn; auto;
    try (now rewrite andb_false_r).
Qed.

Lemma written_step (S : nat -> cplx) (a n : nat) (b : list cplx) :
  ChunkShape.written S a (Datatypes.S n) b
  = ChunkShape.written S (Datatypes.S a) n
      (update a (accumulate (nth a b (0, 0)) (S a)) b).
Proof. reflexivity. Qed.

Lemma written_length (S : nat -> cplx) (n : nat) :
  forall (a : nat) (b : list cplx),
    length (ChunkShape.written S a n b) = length b.
Proof.
  induction n as [|n IH]; intros a b; [reflexivity|].
  rewrite written_step, IH. apply update_length.
Qed.

Lemma written_nth (S : nat -> cplx) (n : nat) :
  forall (a : nat) (b : list cplx) (i : nat),
    nth i (ChunkShape.written S a n b) (0, 0)
    = if (a <=? i)%nat && (i <? a + n)%nat && (i <? length b)%nat
      then accumulate (nth i b (0, 0)) (S i)
      else nth i b (0, 0).
Proof.
  induction n as [|n IH]; intros a b i.
  - cbn [ChunkShape.written seq fold_left].
    replace ((a <=? i)%nat && (i <? a + 0)%nat) with false; [reflexivity|].
    symmetry. apply andb_false_iff.
    destruct (Nat.le_gt_cases a i);
      [right; apply Nat.ltb_ge; lia | left; apply Nat.leb_gt; lia].
  - rewrite written_step, IH, update_length, !update_nth.
    destruct (Nat.eq_dec i a) as [-> | Hne].
    + replace (Datatypes.S a <=? a)%nat with false
        by (symmetry; apply Nat.leb_gt; lia).
      rewrite Nat.eqb_refl, Nat.leb_refl. cbn [andb].
      replace (a <? a + Datatypes.S n)%nat with true
        by (symmetry; apply Nat.ltb_lt; lia).
      reflexivity.
    + replace (i =? a)%nat with false by (symmetry; apply Nat.eqb_neq; lia).
      cbn [andb].
      replace ((Datatypes.S a <=? i)%nat && (i <? Datatypes.S a + n)%nat)
        with ((a <=? i)%nat && (i <? a + Datatypes.S n)%nat); [reflexivity|].
      destruct (Nat.le_gt_cases a i) as [Hle | Hgt].
      * replace (a <=? i)%nat with true by (symmetry; apply Nat.leb_le; lia).
        replace (Datatypes.S a <=? i)%nat with true
          by (symmetry; apply Nat.leb_le; lia).
        cbn [andb]. f_equal. lia.
      * replace (a <=? i)%nat with false by (symmetry; apply Nat.leb_gt; lia).
        replace (Datatypes.S a <=? i)%nat with false
          by (symmetry; apply Nat.leb_gt; lia).
        reflexivity.
Qed.

Lemma written_ext (S S' : nat -> cplx) (n : nat) :
  forall (a : nat) (b : list cplx),
    (forall i, (a <= i < a + n)%nat -> S i = S' i) ->
    ChunkShape.written S a n b = ChunkShape.written S' a n b.
Proof.
  induction n as [|n IH]; intros a b Hext; [reflexivity|].
  rewrite !written_step, (Hext a) by lia.
  apply IH. intros i Hi. apply Hext. lia.
Qed.

Lemma nth_ext_eq {A : Type} (d : A) (l l' : list A) :
  length l = length l' -> (forall i, nth i l d = nth i l' d) -> l = l'.
Proof.
  intros Hlen Hnth. apply (nth_ext l l' d d); [exact Hlen|].
  intros i _. apply Hnth.
Qed.

Lemma written_skipn (S : nat -> cplx) (n : nat) (b : list cplx) :
  skipn n (ChunkShape.written S 0 n b) = skipn n b.
Proof.
  apply (nth_ext_eq (0, 0)).
  - now rewrite !length_skipn, written_length.
  - intros i. rewrite !nth_skipn, written_nth.
    replace (n + i <? 0 + n)%nat with false
      by (symmetry; apply Nat.ltb_ge; lia).
    now rewrite andb_false_r.
Qed.

Lemma nth_map_seq {A : Type} (f : nat -> A) (n i : nat) (d : A) :
  (i < n)%nat -> nth i (map f (seq 0 n)) d = f i.
Proof.
  intros Hi.
  rewrite (nth_indep _ d (f 0%nat)) by (rewrite length_map, length_seq; lia).
  rewrite (map_nth f (seq 0 n) 0%nat i), seq_nth by lia. reflexivity.
Qed.

End WrittenSamples.

(** ** The sample loop of a CDMA provider *)

Section SampleLoop.

Local Open Scope R_scope.

Section Loop.

Context {St : Type}.
Variable step : St * list cplx -> nat -> St * list cplx.
Variable scale : Z.

(** One iteration changes the state without looking at the buffer and
    adds one small sample at its index. *)
Hypothesis Hstep :
  forall (st : St) (i : nat),
  exists (st' : St) (s : cplx),
    ChunkShape.in_phase scale s
    /\ forall b : list cplx,
         step (st, b) i
         = (st', update i (accumulate (nth i b (0%Z, 0%Z)) s) b).

Lemma sample_loop_shape (n : nat) :
  forall (a : nat) (st : St),
  exists (st' : St) (S : nat -> cplx),
    (forall i, ChunkShape.in_phase scale (S i))
    /\ forall b : list cplx,
         fold_left step (seq a n) (st, b) = (st', ChunkShape.written S a n b).
Proof.
  induction n as [|n IH]; intros a st.
  - exists st, (fun _ => (0%Z, 0%Z)). split; [|reflexivity].
    intros i. assert (Hs : (0 <= scale)%Z).
    { destruct (Hstep st 0) as [_ [s [[Hs _] _]]]. lia. }
    unfold ChunkShape.in_phase. cbn. lia.
  - destruct (Hstep st a) as [st1 [s [Hs Hb]]].
    destruct (IH (Datatypes.S a) st1) as [st' [S' [HS' Hfold]]].
    exists st', (fun i => if (i =? a)%nat then s else S' i). split.
    + intros i. destruct (i =? a)%nat; [exact Hs | apply HS'].
    + intros b. cbn [seq fold_left]. rewrite Hb, Hfold, written_step.
      rewrite Nat.eqb_refl. f_equal. apply written_ext. intros i Hi.
      replace (i =? a)%nat with false by (symmetry; apply Nat.eqb_neq; lia).
      reflexivity.
Qed.

End Loop.

Lemma chip_sample_in_phase (chip : Z) (carrier : R) (scale : Z) :
  (chip = 1 \/ chip = -1)%Z -> (0 <= scale <= 32767)%Z ->
  ChunkShape.in_phase scale
    (to_int16 (IZR chip * cos carrier * IZR scale), 0%Z).
Proof.
  intros Hchip Hscale. split; [|reflexivity]. cbn [fst].
  pose proof (COS_bound carrier) as [Hc1 Hc2].
  assert (Hs : 0 <= IZR scale) by (apply IZR_le; lia).
  apply to_int16_between.
  - rewrite opp_IZR. destruct Hchip as [-> | ->]; split; nra.
  - unfold in_int16, INT16_MIN, INT16_MAX. lia.
  - unfold in_int16, INT16_MIN, INT16_MAX. lia.
Qed.

Lemma chip_value_is_a_sign (chips : Z) :
  (Gps.chip_value chips = 1 \/ Gps.chip_value chips = -1)%Z.
Proof. unfold Gps.chip_value. destruct (chips =? 1)%Z; auto. Qed.

Lemma gps_sample_step_shape (config : GlobalConfig) (time_now : R) (prn : Z)
    (doppler phase : R) (st : Z * Gps.GPSCodeState) (i : nat) :
  exists (st' : Z * Gps.GPSCodeState) (s : cplx),
    ChunkShape.in_phase 1000 s
    /\ forall b : list cplx,
         GpsL1Provider.sample_step config time_now prn doppler phase (st, b) i
         = (st', update i (accumulate (nth i b (0%Z, 0%Z)) s) b).
Proof.
  destruct st as [chips state]. unfold GpsL1Provider.sample_step.
  destruct (if (_ =? Gps.chip_count state)%Z then (chips, state) else _)
    as [chips1 state1].
  eexists (chips1, state1), (_, 0%Z). split; [|intros b; reflexivity].
  apply (chip_sample_in_phase _ _ 1000); [apply chip_value_is_a_sign | lia].
Qed.

Lemma galileo_sample_step_shape (config : GlobalConfig) (time_now : R)
    (doppler phase : R) (st : Z * Galileo.GalileoCodeState) (i : nat) :
  exists (st' : Z * Galileo.GalileoCodeState) (s : cplx),
    ChunkShape.in_phase 800 s
    /\ forall b : list cplx,
         GalileoE1Provider.sample_step config time_now doppler phase (st, b) i
         = (st', update i (accumulate (nth i b (0%Z, 0%Z)) s) b).
Proof.
  destruct st as [chips state]. unfold GalileoE1Provider.sample_step.
  destruct (if (_ =? Galileo.primary_chip_count state)%Z
            then (chips, state) else _) as [chips1 state1].
  eexists (chips1, state1), (_, 0%Z). split; [|intros b; reflexivity].
  apply (chip_sample_in_phase _ _ 800); [|lia].
  destruct (chip_value_is_a_sign chips1) as [-> | ->];
    destruct (Rltb 0 _); cbn; auto.
Qed.

Lemma beidou_sample_step_shape (config : GlobalConfig) (time_now : R) (prn : Z)
    (doppler phase : R) (st : Z * Beidou.BeidouCodeState) (i : nat) :
  exists (st' : Z * Beidou.BeidouCodeState) (s : cplx),
    ChunkShape.in_phase 900 s
    /\ forall b : list cplx,
         BeidouB1Provider.sample_step config time_now prn doppler phase (st, b) i
         = (st', update i (accumulate (nth i b (0%Z, 0%Z)) s) b).
Proof.
  destruct st as [chips state]. unfold BeidouB1Provider.sample_step.
  destruct (if (_ =? Beidou.chip_count state)%Z then (chips, state) else _)
    as [chips1 state1].
  eexists (chips1, state1), (_, 0%Z). split; [|intros b; reflexivity].
  apply (chip_sample_in_phase _ _ 900); [apply chip_value_is_a_sign | lia].
Qed.

(** The work for one satellite: a new satellite record and new code
    states that do not depend on the buffer, and one small sample added at
    each of the first [sample_count] indices. *)
Local Abbreviation satellite_shape V scale :=
  (forall (config : GlobalConfig) (sample_count : Z) (time_now : R)
          (sat : Cdma.SatelliteConfig) codes,
   exists sat' codes' (S : nat -> cplx),
     (forall i, ChunkShape.in_phase scale (S i))
     /\ Cdma.is_active sat' = Cdma.is_active sat
     /\ forall b : list cplx,
          Cdma.v_satellite V config sample_count time_now sat codes b
          = (sat', codes',
             ChunkShape.written S 0 (Z.to_nat sample_count) b)).

Lemma gps_satellite_shape (rinex : RinexParser) :
  satellite_shape (GpsL1Provider.variant rinex) 1000%Z.
Proof.
  intros config sample_count time_now sat codes.
  cbn [Cdma.v_satellite GpsL1Provider.variant].
  unfold GpsL1Provider.satellite.
  set (codes1 := match Cdma.find_code (Cdma.prn sat) codes with
                 | Some _ => codes
                 | None => _
                 end).
  set (state := match Cdma.find_code (Cdma.prn sat) codes1 with
                | Some st => st
                | None => _
                end).
  set (doppler := if is_valid (Cdma.ephemeris sat) then _ else _).
  destruct (sample_loop_shape
              (GpsL1Provider.sample_step config time_now (Cdma.prn sat) doppler
                 (Cdma.carrier_phase_rad sat))
              1000
              (gps_sample_step_shape config time_now (Cdma.prn sat) doppler
                 (Cdma.carrier_phase_rad sat))
              (Z.to_nat sample_count) 0 (Cdma.code_phase_chips sat, state))
    as [[chips state1] [S [HS Hfold]]].
  eexists; eexists; exists S. split; [exact HS|]. split.
  2: { intros b. rewrite Hfold. reflexivity. }
  reflexivity.
Qed.

Lemma galileo_satellite_shape (rinex : RinexParser) :
  satellite_shape (GalileoE1Provider.variant rinex) 800%Z.
Proof.
  intros config sample_count time_now sat codes.
  cbn [Cdma.v_satellite GalileoE1Provider.variant].
  unfold GalileoE1Provider.satellite.
  set (codes1 := match Cdma.find_code (Cdma.prn sat) codes with
                 | Some _ => codes
                 | None => _
                 end).
  set (state := match Cdma.find_code (Cdma.prn sat) codes1 with
                | Some st => st
                | None => _
                end).
  destruct (sample_loop_shape
              (GalileoE1Provider.sample_step config time_now
                 (Cdma.doppler_hz sat) (Cdma.carrier_phase_rad sat))
              800
              (galileo_sample_step_shape config time_now (Cdma.doppler_hz sat)
                 (Cdma.carrier_phase_rad sat))
              (Z.to_nat sample_count) 0 (Cdma.code_phase_chips sat, state))
    as [[chips state1] [S [HS Hfold]]].
  eexists; eexists; exists S. split; [exact HS|]. split.
  2: { intros b. rewrite Hfold. reflexivity. }
  reflexivity.
Qed.

Lemma beidou_satellite_shape (rinex : RinexParser) :
  satellite_shape (BeidouB1Provider.variant rinex) 900%Z.
Proof.
  intros config sample_count time_now sat codes.
  cbn [Cdma.v_satellite BeidouB1Provider.variant].
  unfold BeidouB1Provider.satellite.
  set (codes1 := match Cdma.find_code (Cdma.prn sat) codes with
                 | Some _ => codes
                 | None => _
                 end).
  set (state := match Cdma.find_code (Cdma.prn sat) codes1 with
                | Some st => st
                | None => _
                end).
  destruct (sample_loop_shape
              (BeidouB1Provider.sample_step config time_now (Cdma.prn sat)
                 (Cdma.doppler_hz sat) (Cdma.carrier_phase_rad sat))
              900
              (beidou_sample_step_shape config time_now (Cdma.prn sat)
                 (Cdma.doppler_hz sat) (Cdma.carrier_phase_rad sat))
              (Z.to_nat sample_count) 0 (Cdma.code_phase_chips sat, state))
    as [[chips state1] [S [HS Hfold]]].
  eexists; eexists; exists S. split; [exact HS|]. split.
  2: { intros b. rewrite Hfold. reflexivity. }
  reflexivity.
Qed.

End SampleLoop.

(** ** The chunk of a CDMA provider *)

Section CdmaChunk.

Local Open Scope R_scope.

Context {CodeState : Type}.
Variable V : Cdma.Variant CodeState.
Variable scale : Z.

Hypothesis Hscale : (0 <= scale)%Z.

Hypothesis Hshape :
  forall (config : GlobalConfig) (sample_count : Z) (time_now : R)
         (sat : Cdma.SatelliteConfig) (codes : list (Z * CodeState)),
  exists sat' codes' (S : nat -> cplx),
    (forall i, ChunkShape.in_phase scale (S i))
    /\ Cdma.is_active sat' = Cdma.is_active sat
    /\ forall b : list cplx,
         Cdma.v_satellite V config sample_count time_now sat codes b
         = (sat', codes', ChunkShape.written S 0 (Z.to_nat sample_count) b).

Lemma for_each_satellite_shape (sample_count : Z) (time_now : R)
    (config : GlobalConfig) (sats : list Cdma.SatelliteConfig) :
  forall codes : list (Z * CodeState),
  exists sats' codes' (Ss : list (nat -> cplx)),
    Z.of_nat (length Ss) = ChunkShape.active_satellites sats
    /\ ChunkShape.active_satellites sats' = ChunkShape.active_satellites sats
    /\ Forall (fun S => forall i, ChunkShape.in_phase scale (S i)) Ss
    /\ forall b : list cplx,
         Cdma.for_each_satellite V sample_count time_now config sats codes b
         = (sats', codes',
            fold_left (fun b S =>
                         ChunkShape.written S 0 (Z.to_nat sample_count) b)
                      Ss b).
Proof.
  unfold ChunkShape.active_satellites.
  induction sats as [|sat rest IH]; intros codes.
  - exists [], codes, []. repeat split; constructor.
  - cbn [Cdma.for_each_satellite filter].
    destruct (Cdma.is_active sat) eqn:Hact.
    + destruct (Hshape config sample_count time_now sat codes)
        as [sat1 [codes1 [S [HS [Hact1 Hsat]]]]].
      destruct (IH codes1) as [rest2 [codes2 [Ss [Hlen [Hcount [HSs Hrest]]]]]].
      exists (sat1 :: rest2), codes2, (S :: Ss). repeat split.
      * cbn [length]. lia.
      * cbn [filter]. rewrite Hact1, Hact. cbn [length]. lia.
      * constructor; assumption.
      * intros b. rewrite Hsat, Hrest. reflexivity.
    + destruct (IH codes) as [rest2 [codes2 [Ss [Hlen [Hcount [HSs Hrest]]]]]].
      exists (sat :: rest2), codes2, Ss. repeat split.
      * exact Hlen.
      * cbn [filter]. rewrite Hact. exact Hcount.
      * exact HSs.
      * intros b. rewrite Hrest. reflexivity.
Qed.

Lemma accumulate_in_phase (bound : Z) (x s : cplx) :
  (0 <= bound)%Z -> (bound + scale <= 32767)%Z ->
  ChunkShape.in_phase bound x -> ChunkShape.in_phase scale s ->
  ChunkShape.in_phase (bound + scale) (accumulate x s).
Proof.
  intros Hb Hsum [Hx Hx0] [Hs Hs0]. destruct x as [xi xq], s as [si sq].
  cbn [fst snd] in *. subst xq sq. unfold accumulate. cbn [fst snd].
  rewrite !(int32_id xi), !(int32_id si), !(int32_id 0), !(int32_id (xi + si)),
    !(int32_id (0 + 0)) by lia.
  rewrite !clamp16_id, !int16_cast_id
    by (unfold in_int16, INT16_MIN, INT16_MAX; try rewrite clamp16_id;
        unfold in_int16, INT16_MIN, INT16_MAX; lia).
  split; cbn [fst snd]; lia.
Qed.

Lemma written_in_phase (S : nat -> cplx) (n : nat) (bound : Z) (b : list cplx) :
  (0 <= bound)%Z -> (bound + scale <= 32767)%Z ->
  (forall i, ChunkShape.in_phase scale (S i)) ->
  ChunkShape.first_in_phase n bound b ->
  ChunkShape.first_in_phase n (bound + scale) (ChunkShape.written S 0 n b).
Proof.
  intros Hb Hsum HS Hfirst i Hi Hlen. rewrite written_length in Hlen.
  rewrite written_nth.
  replace ((0 <=? i)%nat && (i <? 0 + n)%nat && (i <? length b)%nat) with true.
  - apply accumulate_in_phase; auto.
  - symmetry. cbn [Nat.leb Nat.add andb].
    apply andb_true_iff. split; apply Nat.ltb_lt; lia.
Qed.

Lemma satellites_in_phase (n : nat) (Ss : list (nat -> cplx)) :
  forall (bound : Z) (b : list cplx),
    (0 <= bound)%Z ->
    (bound + scale * Z.of_nat (length Ss) <= 32767)%Z ->
    Forall (fun S => forall i, ChunkShape.in_phase scale (S i)) Ss ->
    ChunkShape.first_in_phase n bound b ->
    ChunkShape.first_in_phase n (bound + scale * Z.of_nat (length Ss))
      (fold_left (fun b S => ChunkShape.written S 0 n b) Ss b)
    /\ length (fold_left (fun b S => ChunkShape.written S 0 n b) Ss b)
       = length b
    /\ skipn n (fold_left (fun b S => ChunkShape.written S 0 n b) Ss b)
       = skipn n b.
Proof.
  induction Ss as [|S rest IH]; intros bound b Hb Hsum HSs Hfirst.
  - cbn [fold_left length]. replace (bound + scale * Z.of_nat 0)%Z with bound
      by lia. auto.
  - inversion HSs as [|? ? HS Hrest]; subst. cbn [fold_left].
    cbn [length] in *.
    assert (Heq : (bound + scale * Z.of_nat (Datatypes.S (length rest))
                   = bound + scale + scale * Z.of_nat (length rest))%Z) by lia.
    rewrite Heq in *.
    assert (Hlen0 : (0 <= scale * Z.of_nat (length rest))%Z) by nia.
    destruct (IH (bound + scale)%Z (ChunkShape.written S 0 n b))
      as [Hin [Hlen Hskip]]; [lia | lia | exact Hrest | |].
    + apply written_in_phase; auto. lia.
    + split; [exact Hin|]. split.
      * now rewrite Hlen, written_length.
      * now rewrite Hskip, written_skipn.
Qed.

Lemma fill_zero_shape (n : nat) (buffer : list cplx) :
  (n <= length buffer)%nat ->
  ChunkShape.first_in_phase n 0%Z (fill_zero n buffer)
  /\ length (fill_zero n buffer) = length buffer
  /\ skipn n (fill_zero n buffer) = skipn n buffer.
Proof.
  intros Hroom. unfold fill_zero. split; [|split].
  - intros i Hi Hlen. rewrite app_nth1 by (rewrite repeat_length; lia).
    rewrite nth_repeat_lt by lia. split; cbn; lia.
  - rewrite length_app, repeat_length, length_skipn. lia.
  - rewrite skipn_app, repeat_length, Nat.sub_diag.
    rewrite skipn_all2 by (rewrite repeat_length; lia). reflexivity.
Qed.

Lemma mix_sample_of_in_phase (bound : Z) (x : cplx) (carrier : R * R) :
  (0 <= bound <= 32767)%Z ->
  ChunkShape.in_phase bound x ->
  fst carrier * fst carrier + snd carrier * snd carrier <= 1 ->
  ChunkShape.within bound (NCO.mix_sample x carrier).
Proof.
  intros Hb [Hx Hx0] Hunit. destruct x as [re im], carrier as [c s].
  cbn [fst snd] in *. subst im. unfold NCO.mix_sample. cbn [fst snd].
  assert (Hc : -1 <= c <= 1).
  { assert (c * c <= 1) by (pose proof (Rle_0_sqr s); unfold Rsqr in *; lra).
    split; nra. }
  assert (Hs : -1 <= s <= 1).
  { assert (s * s <= 1) by (pose proof (Rle_0_sqr c); unfold Rsqr in *; lra).
    split; nra. }
  assert (Hre : - IZR bound <= IZR re <= IZR bound)
    by (rewrite <- opp_IZR; split; apply IZR_le; lia).
  assert (Hb0 : 0 <= IZR bound) by (apply IZR_le; lia).
  assert (Hrange : in_int16 (- bound) /\ in_int16 bound)
    by (unfold in_int16, INT16_MIN, INT16_MAX; lia).
  destruct Hrange as [Hlo Hhi].
  split; apply to_int16_between; try assumption; rewrite opp_IZR; split; nra.
Qed.

Lemma final_mix_shape (offset_hz : R) (nco : NCO.DigitalNCO)
    (buffer1 : list cplx) (sample_count : Z) (bound : Z) :
  (0 <= bound <= 32767)%Z ->
  (Z.to_nat sample_count <= length buffer1)%nat ->
  ChunkShape.first_in_phase (Z.to_nat sample_count) bound buffer1 ->
  length (fst (Cdma.final_mix offset_hz nco buffer1 sample_count))
  = length buffer1
  /\ skipn (Z.to_nat sample_count)
       (fst (Cdma.final_mix offset_hz nco buffer1 sample_count))
     = skipn (Z.to_nat sample_count) buffer1
  /\ forall i : nat, (i < Z.to_nat sample_count)%nat ->
       ChunkShape.within bound
         (nth i (fst (Cdma.final_mix offset_hz nco buffer1 sample_count))
              (0%Z, 0%Z)).
Proof.
  intros Hb Hroom Hfirst. unfold Cdma.final_mix.
  destruct (Rltb 1 (Rabs offset_hz)).
  - rewrite nco_mix_signal_fst. cbn [fst].
    set (n := Z.to_nat sample_count) in *.
    set (mixed := map _ (seq 0 n)).
    assert (Hmixed : length mixed = n)
      by (unfold mixed; now rewrite length_map, length_seq).
    unfold copy_into. rewrite Hmixed. split; [|split].
    + rewrite length_app, Hmixed, length_skipn. lia.
    + rewrite skipn_app, Hmixed, Nat.sub_diag.
      rewrite skipn_all2 by lia. reflexivity.
    + intros i Hi. rewrite app_nth1 by lia.
      unfold mixed. rewrite nth_map_seq by lia.
      apply mix_sample_of_in_phase; [exact Hb | apply Hfirst; lia |].
      apply (nth_Forall_default
               (fun c => fst c * fst c + snd c * snd c <= 1));
        [apply nco_carrier_on_unit_circle | cbn; lra].
  - cbn [fst]. split; [reflexivity|]. split; [reflexivity|]. intros i Hi.
    destruct (Hfirst i Hi ltac:(lia)) as [Hx Hx0].
    split; [exact Hx | rewrite Hx0; lia].
Qed.

Lemma Forall_firstn_nth {A : Type} (Q : A -> Prop) (d : A) (n : nat)
    (l : list A) :
  (n <= length l)%nat ->
  (forall i, (i < n)%nat -> Q (nth i l d)) ->
  Forall Q (firstn n l).
Proof.
  intros Hroom Hnth. apply Forall_forall. intros x Hx.
  destruct (In_nth _ _ d Hx) as [i [Hi Heq]].
  rewrite length_firstn in Hi. rewrite nth_firstn in Heq.
  replace (i <? n)%nat with true in Heq by (symmetry; apply Nat.ltb_lt; lia).
  rewrite <- Heq. apply Hnth. lia.
Qed.

(** The chunk of a ready CDMA provider whose satellites add samples of at
    most [scale]. *)
Lemma cdma_chunk_shape (p : Cdma.Provider CodeState) (buffer : list cplx)
    (sample_count : Z) (time_now : R) :
  (Z.to_nat sample_count <= length buffer)%nat ->
  (scale * ChunkShape.active_satellites (Cdma.active_satellites_ p) <= 32767)%Z ->
  match Cdma.cdma_generate_chunk V p buffer sample_count time_now with
  | inl _ => True
  | inr (p', out) =>
      length out = length buffer
      /\ skipn (Z.to_nat sample_count) out
         = skipn (Z.to_nat sample_count) buffer
      /\ Forall (ChunkShape.within
                   (scale * ChunkShape.active_satellites
                              (Cdma.active_satellites_ p)))
                (firstn (Z.to_nat sample_count) out)
      /\ ChunkShape.active_satellites (Cdma.active_satellites_ p')
         = ChunkShape.active_satellites (Cdma.active_satellites_ p)
  end.
Proof.
  intros Hroom Hpeak. unfold Cdma.cdma_generate_chunk.
  destruct (negb (Cdma.cdma_is_ready p)); [exact I|].
  destruct (for_each_satellite_shape sample_count time_now (Cdma.config_ p)
              (Cdma.active_satellites_ p) (Cdma.code_states_ p))
    as [sats [codes [Ss [Hlen [Hcount [HSs Hloop]]]]]].
  rewrite Hloop.
  destruct (fill_zero_shape (Z.to_nat sample_count) buffer Hroom)
    as [Hzero [Hzlen Hzskip]].
  destruct (satellites_in_phase (Z.to_nat sample_count) Ss 0
              (fill_zero (Z.to_nat sample_count) buffer))
    as [Hin [Hblen Hbskip]]; [lia | rewrite Hlen; lia | exact HSs | exact Hzero |].
  rewrite Hlen in Hin. cbn [Z.add] in Hin.
  set (buffer1 := fold_left _ Ss _) in *.
  assert (Hpos : (0 <= ChunkShape.active_satellites (Cdma.active_satellites_ p))%Z)
    by (unfold ChunkShape.active_satellites; lia).
  destruct (final_mix_shape (Cdma.frequency_offset_hz_ p) (Cdma.nco_ p) buffer1
              sample_count
              (scale * ChunkShape.active_satellites (Cdma.active_satellites_ p)))
    as [Hflen [Hfskip Hfin]]; [nia | lia | exact Hin |].
  destruct (Cdma.final_mix _ _ _ _) as [buffer2 nco1]. cbn [fst] in *.
  assert (Hl : length buffer2 = length buffer) by congruence.
  cbn [Cdma.active_satellites_]. split; [|split; [|split]].
  - exact Hl.
  - congruence.
  - apply (Forall_firstn_nth _ (0%Z, 0%Z)); [|exact Hfin].
    unfold cplx in *. lia.
  - exact Hcount.
Qed.

End CdmaChunk.

(** ** The quadrature component of a CDMA chunk *)

Section CdmaInPhase.

Local Open Scope R_scope.

Context {CodeState : Type}.
Variable V : Cdma.Variant CodeState.
Variable scale : Z.

Hypothesis Hscale : (0 <= scale)%Z.

Hypothesis Hshape :
  forall (config : GlobalConfig) (sample_count : Z) (time_now : R)
         (sat : Cdma.SatelliteConfig) (codes : list (Z * CodeState)),
  exists sat' codes' (S : nat -> cplx),
    (forall i, ChunkShape.in_phase scale (S i))
    /\ Cdma.is_active sat' = Cdma.is_active sat
    /\ forall b : list cplx,
         Cdma.v_satellite V config sample_count time_now sat codes b
         = (sat', codes', ChunkShape.written S 0 (Z.to_nat sample_count) b).

(** Without the final mix the chunk is what the satellites wrote. *)
Lemma cdma_chunk_in_phase (p : Cdma.Provider CodeState) (buffer : list cplx)
    (sample_count : Z) (time_now : R) :
  Rabs (Cdma.frequency_offset_hz_ p) <= 1 ->
  (Z.to_nat sample_count <= length buffer)%nat ->
  (scale * ChunkShape.active_satellites (Cdma.active_satellites_ p) <= 32767)%Z ->
  match Cdma.cdma_generate_chunk V p buffer sample_count time_now with
  | inl _ => True
  | inr (p', out) =>
      Forall (ChunkShape.in_phase
                (scale * ChunkShape.active_satellites
                           (Cdma.active_satellites_ p)))
             (firstn (Z.to_nat sample_count) out)
  end.
Proof.
  intros Hoffset Hroom Hpeak. unfold Cdma.cdma_generate_chunk.
  destruct (negb (Cdma.cdma_is_ready p)); [exact I|].
  destruct (for_each_satellite_shape V scale Hshape sample_count time_now
              (Cdma.config_ p) (Cdma.active_satellites_ p)
              (Cdma.code_states_ p))
    as [sats [codes [Ss [Hlen [Hcount [HSs Hloop]]]]]].
  rewrite Hloop.
  destruct (fill_zero_shape (Z.to_nat sample_count) buffer Hroom)
    as [Hzero [Hzlen Hzskip]].
  destruct (satellites_in_phase scale Hscale (Z.to_nat sample_count) Ss 0
              (fill_zero (Z.to_nat sample_count) buffer))
    as [Hin [Hblen Hbskip]]; [lia | rewrite Hlen; lia | exact HSs | exact Hzero |].
  rewrite Hlen in Hin. cbn [Z.add] in Hin.
  set (buffer1 := fold_left _ Ss _) in *.
  unfold Cdma.final_mix. rewrite Rltb_false by exact Hoffset.
  apply (Forall_firstn_nth _ (0%Z, 0%Z)).
  - unfold cplx in *. lia.
  - intros i Hi. apply Hin; [exact Hi | unfold cplx in *; lia].
Qed.

End CdmaInPhase.

(** X29. A ready GPS, Galileo or BeiDou provider whose frequency offset is
    at most 1 Hz in absolute value writes a signal without quadrature
    component: in each of the first [sample_count] samples of its chunk
    the imaginary part is 0 and the real part is at most the peak of the
    provider in absolute value. *)
Theorem cdma_chunk_has_no_quadrature_without_offset (rinex : RinexParser)
    (p : Providers.AnyProvider) (buffer : list cplx) (sample_count : Z)
    (time_now : R) :
  ChunkShape.is_cdma p = true ->
  @is_ready _ (Providers.any_constellation rinex) p = true ->
  (Rabs (Providers.frequency_offset p) <= 1)%R ->
  0 <= sample_count ->
  (Z.to_nat sample_count <= length buffer)%nat ->
  ChunkShape.peak p <= 32767 ->
  exists p' out,
    @generate_chunk _ (Providers.any_constellation rinex) p buffer
      sample_count time_now = inr (p', out)
    /\ Forall (ChunkShape.in_phase (ChunkShape.peak p))
              (firstn (Z.to_nat sample_count) out).
Proof.
  intros Hcdma Hready Hoffset _ Hroom Hpeak.
  destruct (any_generate_chunk_ready rinex p buffer sample_count time_now
              Hready) as [p' [out Heq]].
  exists p', out. split; [exact Heq|].
  destruct p as [q|q|q|q]; [| | |discriminate Hcdma];
    cbn [generate_chunk Providers.any_constellation ChunkShape.peak
         Providers.frequency_offset] in *.
  - pose proof (cdma_chunk_in_phase (GpsL1Provider.variant rinex) 1000
                  ltac:(lia) (gps_satellite_shape rinex) q buffer
                  sample_count time_now Hoffset Hroom Hpeak) as Hshape.
    destruct (Cdma.cdma_generate_chunk _ q buffer sample_count time_now)
      as [err | [q' out']]; cbn in Heq; [discriminate|].
    inversion Heq; subst. exact Hshape.
  - pose proof (cdma_chunk_in_phase (GalileoE1Provider.variant rinex) 800
                  ltac:(lia) (galileo_satellite_shape rinex) q buffer
                  sample_count time_now Hoffset Hroom Hpeak) as Hshape.
    destruct (Cdma.cdma_generate_chunk _ q buffer sample_count time_now)
      as [err | [q' out']]; cbn in Heq; [discriminate|].
    inversion Heq; subst. exact Hshape.
  - pose proof (cdma_chunk_in_phase (BeidouB1Provider.variant rinex) 900
                  ltac:(lia) (beidou_satellite_shape rinex) q buffer
                  sample_count time_now Hoffset Hroom Hpeak) as Hshape.
    destruct (Cdma.cdma_generate_chunk _ q buffer sample_count time_now)
      as [err | [q' out']]; cbn in Heq; [discriminate|].
    inversion Heq; subst. exact Hshape.
Qed.

Lemma cdma_chunk_has_no_quadrature_without_offset_witness :
  exists p' out,
    @generate_chunk _ (Providers.any_constellation Scenario.empty_files)
      ChunkBoundary.ready_gps (repeat (0, 0) 6) 4 0%R = inr (p', out)
    /\ Forall (ChunkShape.in_phase (ChunkShape.peak ChunkBoundary.ready_gps))
              (firstn (Z.to_nat 4) out).
Proof.
  apply (cdma_chunk_has_no_quadrature_without_offset Scenario.empty_files
           ChunkBoundary.ready_gps (repeat (0, 0) 6) 4 0%R).
  - reflexivity.
  - reflexivity.
  - cbn. rewrite Rabs_R0. lra.
  - lia.
  - cbn. lia.
  - cbv. discriminate.
Defined.

(** ** The chunk of the GLONASS provider *)

Section GlonassChunk.

Local Open Scope R_scope.

Lemma within_zero (bound : Z) : (0 <= bound)%Z -> ChunkShape.within bound (0%Z, 0%Z).
Proof. intros Hb. split; cbn; lia. Qed.

Lemma within_weaken (a b : Z) (s : cplx) :
  (a <= b)%Z -> ChunkShape.within a s -> ChunkShape.within b s.
Proof. intros Hab [Hi Hq]. split; lia. Qed.

Lemma firstn_incl {A : Type} (n : nat) (l : list A) (x : A) :
  In x (firstn n l) -> In x l.
Proof.
  revert l. induction n as [|n IH]; intros [|y l] Hx; cbn in *;
    try contradiction.
  destruct Hx as [-> | Hx]; auto.
Qed.

Lemma skipn_incl {A : Type} (n : nat) (l : list A) (x : A) :
  In x (skipn n l) -> In x l.
Proof.
  revert l. induction n as [|n IH]; intros [|y l] Hx; cbn in *; auto.
Qed.

Lemma Forall_of_firstn {A : Type} (Q : A -> Prop) (n : nat) (l : list A) :
  Forall Q l -> Forall Q (firstn n l).
Proof.
  rewrite !Forall_forall. intros Hall x Hx. apply Hall.
  now apply (firstn_incl n).
Qed.

Lemma Forall_of_skipn {A : Type} (Q : A -> Prop) (n : nat) (l : list A) :
  Forall Q l -> Forall Q (skipn n l).
Proof.
  rewrite !Forall_forall. intros Hall x Hx. apply Hall.
  now apply (skipn_incl n).
Qed.

Lemma resize_within (bound : Z) (n : nat) (v : list cplx) :
  (0 <= bound)%Z ->
  Forall (ChunkShape.within bound) v ->
  Forall (ChunkShape.within bound) (resize n v).
Proof.
  intros Hb Hv. unfold resize. apply Forall_app. split.
  - now apply Forall_of_firstn.
  - apply Forall_forall. intros x Hx. apply repeat_spec in Hx. subst x.
    now apply within_zero.
Qed.

Lemma resize_buffers_within (sample_count : Z) (buffers : list (list cplx)) :
  Forall (Forall (ChunkShape.within 700)) buffers ->
  Forall (Forall (ChunkShape.within 700))
         (Glonass.resize_buffers sample_count buffers)
  /\ length (Glonass.resize_buffers sample_count buffers) = 14%nat.
Proof.
  intros Hall. unfold Glonass.resize_buffers. split.
  - apply Forall_forall. intros b Hb. apply in_map_iff in Hb.
    destruct Hb as [v [<- Hv]]. apply resize_within; [lia|].
    apply in_app_or in Hv. destruct Hv as [Hv | Hv].
    + rewrite Forall_forall in Hall. apply Hall.
      apply (firstn_incl 14). exact Hv.
    + apply repeat_spec in Hv. subst v. constructor.
  - rewrite length_map, length_app, length_firstn, repeat_length. lia.
Qed.

Lemma generate_signal_within (g : Glonass.GlonassChannelGenerator)
    (output : list cplx) (sample_count : Z) (time_start : R) :
  Forall (ChunkShape.within 700) output ->
  Forall (ChunkShape.within 700)
         (snd (Glonass.generate_signal g output sample_count time_start)).
Proof.
  intros Hout. unfold Glonass.generate_signal. cbn [snd].
  apply Forall_app. split.
  - apply Forall_forall. intros s Hs. apply in_map_iff in Hs.
    destruct Hs as [i [<- _]]. apply glonass_signal_sample_bounded.
  - now apply Forall_of_skipn.
Qed.

Lemma for_each_channel_within (p : Glonass.GlonassL1Provider)
    (sample_count : Z) (time_now : R) (channels : list Glonass.GlonassChannel) :
  Forall (fun ch => Rabs (Glonass.doppler_hz ch) <= 1) channels ->
  forall (generators : list Glonass.GlonassChannelGenerator)
         (buffers : list (list cplx)),
    Forall (Forall (ChunkShape.within 700)) buffers ->
    Forall (Forall (ChunkShape.within 700))
           (snd (fst (Glonass.for_each_channel p sample_count time_now
                        channels generators buffers)))
    /\ length (snd (fst (Glonass.for_each_channel p sample_count time_now
                           channels generators buffers)))
       = length buffers.
Proof.
  intros Hdoppler. induction Hdoppler as [|ch channels Hch _ IH];
    intros generators buffers Hall.
  - cbn. destruct generators; destruct buffers; cbn; auto.
  - destruct generators as [|g generators]; [cbn; auto|].
    destruct buffers as [|b buffers]; [cbn; auto|].
    inversion Hall as [|? ? Hb Hrest]; subst.
    cbn [Glonass.for_each_channel].
    destruct (IH generators buffers Hrest) as [Hin Hlen].
    destruct (Glonass.for_each_channel p sample_count time_now channels
                generators buffers) as [[gs bs] count].
    cbn [fst snd] in *.
    destruct (Glonass.is_active ch).
    + pose proof (generate_signal_within
                    (Glonass.configure_generator g (Glonass.channel_number ch)
                       (Glonass.carrier_frequency_hz_ p) (Glonass.power_dbm ch))
                    b sample_count time_now Hb) as Hsig.
      destruct (Glonass.generate_signal _ b sample_count time_now) as [g1 b1].
      rewrite Rltb_false by exact Hch. cbn [fst snd] in *.
      split; [constructor; assumption | cbn [length]; now rewrite Hlen].
    + cbn [fst snd].
      split; [constructor; assumption | cbn [length]; now rewrite Hlen].
Qed.

Lemma sum_bounded (component : cplx -> Z) (i : nat)
    (buffers : list (list cplx)) :
  (forall b, In b buffers -> (-700 <= component (nth i b (0%Z, 0%Z)) <= 700)%Z) ->
  (length buffers <= 14)%nat ->
  forall s0 : Z,
    (Z.abs s0 + 700 * Z.of_nat (length buffers) <= 9800)%Z ->
    (Z.abs (fold_left (fun s buffer => int32 (s + component (nth i buffer (0%Z, 0%Z))))
                      buffers s0)
     <= Z.abs s0 + 700 * Z.of_nat (length buffers))%Z.
Proof.
  induction buffers as [|b rest IH]; intros Hall Hlen s0 Hs0.
  - cbn. lia.
  - cbn [fold_left length] in *.
    pose proof (Hall b (or_introl eq_refl)) as Hb.
    unfold cplx in *. rewrite int32_id by lia.
    eapply Z.le_trans; [apply IH|]; try lia.
    intros b' Hb'. apply Hall. now right.
Qed.

Lemma sum_sample_within (buffers : list (list cplx)) (i : nat) :
  Forall (Forall (ChunkShape.within 700)) buffers ->
  (length buffers <= 14)%nat ->
  ChunkShape.within 9800 (Glonass.sum_sample buffers i).
Proof.
  intros Hall Hlen.
  assert (Hnth : forall b, In b buffers ->
                   ChunkShape.within 700 (nth i b (0%Z, 0%Z))).
  { intros b Hb. rewrite Forall_forall in Hall.
    apply nth_Forall_default; [now apply Hall | apply within_zero; lia]. }
  pose proof (sum_bounded fst i buffers
                (fun b Hb => proj1 (Hnth b Hb)) Hlen 0%Z ltac:(cbn [Z.abs]; lia))
    as Hre.
  pose proof (sum_bounded snd i buffers
                (fun b Hb => proj2 (Hnth b Hb)) Hlen 0%Z ltac:(cbn [Z.abs]; lia))
    as Him.
  unfold Glonass.sum_sample. cbv zeta.
  cbn [Z.abs] in Hre, Him. unfold cplx in *.
  rewrite !int16_cast_id
    by (unfold in_int16, INT16_MIN, INT16_MAX; lia).
  split; cbn [fst snd]; lia.
Qed.

Lemma avx2_sum_channels_within (buffers : list (list cplx))
    (output : list cplx) (sample_count : Z) :
  Forall (Forall (ChunkShape.within 700)) buffers ->
  (length buffers <= 14)%nat ->
  (Z.to_nat sample_count <= length output)%nat ->
  Forall (ChunkShape.within 9800) (firstn (Z.to_nat sample_count) output) ->
  length (Glonass.avx2_sum_channels buffers output sample_count)
  = length output
  /\ skipn (Z.to_nat sample_count)
       (Glonass.avx2_sum_channels buffers output sample_count)
     = skipn (Z.to_nat sample_count) output
  /\ Forall (ChunkShape.within 9800)
       (firstn (Z.to_nat sample_count)
          (Glonass.avx2_sum_channels buffers output sample_count)).
Proof.
  intros Hall Hlen Hroom Hout. unfold Glonass.avx2_sum_channels.
  destruct buffers as [|b rest]; [auto|].
  set (buffers := b :: rest) in *. set (n := Z.to_nat sample_count) in *.
  assert (Hsummed : length (map (Glonass.sum_sample buffers) (seq 0 n)) = n)
    by now rewrite length_map, length_seq.
  split; [|split].
  - rewrite length_app, Hsummed, length_skipn. lia.
  - rewrite skipn_app, Hsummed, Nat.sub_diag.
    rewrite skipn_all2 by lia. reflexivity.
  - rewrite firstn_app, Hsummed, Nat.sub_diag, firstn_all2 by lia.
    cbn [firstn]. rewrite app_nil_r.
    apply Forall_forall. intros s Hs. apply in_map_iff in Hs.
    destruct Hs as [i [<- _]]. now apply sum_sample_within.
Qed.

Lemma rotation_within (re im : Z) (phase : R) :
  ChunkShape.within 9800 (re, im) ->
  ChunkShape.within 13860
    (to_int16 (IZR re * cos phase - IZR im * sin phase),
     to_int16 (IZR re * sin phase + IZR im * cos phase)).
Proof.
  intros [[Hre1 Hre2] [Him1 Him2]]. cbn [fst snd Z.opp] in *.
  apply IZR_le in Hre1, Hre2, Him1, Him2.
  set (x := IZR re) in *. set (y := IZR im) in *.
  set (c := cos phase). set (s := sin phase).
  assert (Hunit : s * s + c * c = 1) by (apply (sin2_cos2 phase)).
  assert (Hx2 : x * x <= 9800 * 9800).
  { assert (0 <= (x + 9800) * (9800 - x)) by (apply Rmult_le_pos; lra). lra. }
  assert (Hy2 : y * y <= 9800 * 9800).
  { assert (0 <= (y + 9800) * (9800 - y)) by (apply Rmult_le_pos; lra). lra. }
  assert (Hsum : (x * c - y * s) * (x * c - y * s)
                 + (x * s + y * c) * (x * s + y * c)
                 = x * x + y * y).
  { replace ((x * c - y * s) * (x * c - y * s)
             + (x * s + y * c) * (x * s + y * c))
      with ((x * x + y * y) * (s * s + c * c)) by ring.
    rewrite Hunit. ring. }
  assert (Hsq : forall z : R, z * z <= 13860 * 13860 -> -13860 <= z <= 13860).
  { intros z Hz. split.
    - destruct (Rle_dec (-13860) z) as [|Hn]; [assumption|].
      apply Rnot_le_lt in Hn.
      assert (13860 * 13860 < z * z)
        by (replace (z * z) with ((- z) * (- z)) by ring;
            apply Rmult_le_0_lt_compat; lra).
      lra.
    - destruct (Rle_dec z 13860) as [|Hn]; [assumption|].
      apply Rnot_le_lt in Hn.
      assert (13860 * 13860 < z * z)
        by (apply Rmult_le_0_lt_compat; lra).
      lra. }
  assert (Ha : -13860 <= x * c - y * s <= 13860).
  { apply Hsq. pose proof (Rle_0_sqr (x * s + y * c)) as H0.
    unfold Rsqr in H0. lra. }
  assert (Hb : -13860 <= x * s + y * c <= 13860).
  { apply Hsq. pose proof (Rle_0_sqr (x * c - y * s)) as H0.
    unfold Rsqr in H0. lra. }
  assert (Hlo : in_int16 (-13860))
    by (unfold in_int16, INT16_MIN, INT16_MAX; lia).
  assert (Hhi : in_int16 13860)
    by (unfold in_int16, INT16_MIN, INT16_MAX; lia).
  split; cbn [fst snd]; apply to_int16_between; assumption.
Qed.

Lemma apply_master_lo_offset_within (p : Glonass.GlonassL1Provider)
    (buffer : list cplx) (sample_count : Z) :
  (Z.to_nat sample_count <= length buffer)%nat ->
  Forall (ChunkShape.within 9800) (firstn (Z.to_nat sample_count) buffer) ->
  length (Glonass.apply_master_lo_offset p buffer sample_count) = length buffer
  /\ skipn (Z.to_nat sample_count)
       (Glonass.apply_master_lo_offset p buffer sample_count)
     = skipn (Z.to_nat sample_count) buffer
  /\ Forall (ChunkShape.within 13860)
       (firstn (Z.to_nat sample_count)
          (Glonass.apply_master_lo_offset p buffer sample_count)).
Proof.
  intros Hroom Hin. unfold Glonass.apply_master_lo_offset. cbv zeta.
  destruct (Rltb _ 1).
  - split; [reflexivity|]. split; [reflexivity|].
    eapply Forall_impl; [|exact Hin]. intros s. apply within_weaken. lia.
  - set (n := Z.to_nat sample_count) in *.
    set (turned := map _ (seq 0 n)).
    assert (Hturned : length turned = n)
      by (unfold turned; now rewrite length_map, length_seq).
    split; [|split].
    + rewrite length_app, Hturned, length_skipn. lia.
    + rewrite skipn_app, Hturned, Nat.sub_diag.
      rewrite skipn_all2 by lia. reflexivity.
    + rewrite firstn_app, Hturned, Nat.sub_diag, firstn_all2 by lia.
      cbn [firstn]. rewrite app_nil_r.
      apply Forall_forall. intros s Hs. unfold turned in Hs.
      apply in_map_iff in Hs. destruct Hs as [i [<- Hi]]. apply in_seq in Hi.
      apply rotation_within.
      assert (Hnth : ChunkShape.within 9800 (nth i (firstn n buffer) (0%Z, 0%Z))).
      { apply nth_Forall_default; [exact Hin | apply within_zero; lia]. }
      rewrite nth_firstn in Hnth.
      replace (i <? n)%nat with true in Hnth
        by (symmetry; apply Nat.ltb_lt; lia).
      destruct (nth i buffer (0%Z, 0%Z)). exact Hnth.
Qed.

(** The chunk of a GLONASS provider that keeps no Doppler above 1 Hz and
    channel buffers of at most 700. *)
Lemma glonass_chunk_shape (p : Glonass.GlonassL1Provider) (buffer : list cplx)
    (sample_count : Z) (time_now : R) :
  ChunkShape.settled (Providers.GlonassP p) ->
  (Z.to_nat sample_count <= length buffer)%nat ->
  match Glonass.glonass_generate_chunk p buffer sample_count time_now with
  | inl _ => True
  | inr (p', out) =>
      length out = length buffer
      /\ skipn (Z.to_nat sample_count) out
         = skipn (Z.to_nat sample_count) buffer
      /\ Forall (ChunkShape.within 13860) (firstn (Z.to_nat sample_count) out)
      /\ ChunkShape.settled (Providers.GlonassP p')
  end.
Proof.
  intros [Hdoppler Hbuffers] Hroom. unfold Glonass.glonass_generate_chunk.
  destruct (negb (Glonass.glonass_is_ready p)); [exact I|].
  destruct (resize_buffers_within sample_count (Glonass.satellite_buffers_ p)
              Hbuffers) as [Hresized Hfourteen].
  destruct (for_each_channel_within p sample_count time_now
              (Glonass.channels_ p) Hdoppler (Glonass.channel_generators_ p)
              (Glonass.resize_buffers sample_count (Glonass.satellite_buffers_ p))
              Hresized) as [Hin Hlen].
  destruct (Glonass.for_each_channel _ _ _ _ _ _) as [[gs bs] active].
  cbn [fst snd] in *.
  assert (Hzlen : length (fill_zero (Z.to_nat sample_count) buffer)
                  = length buffer).
  { unfold fill_zero. rewrite length_app, repeat_length, length_skipn. lia. }
  assert (Hzskip : skipn (Z.to_nat sample_count)
                     (fill_zero (Z.to_nat sample_count) buffer)
                   = skipn (Z.to_nat sample_count) buffer).
  { unfold fill_zero. rewrite skipn_app, repeat_length, Nat.sub_diag.
    rewrite skipn_all2 by (rewrite repeat_length; lia). reflexivity. }
  assert (Hzero : forall bound, (0 <= bound)%Z ->
            Forall (ChunkShape.within bound)
              (firstn (Z.to_nat sample_count)
                 (fill_zero (Z.to_nat sample_count) buffer))).
  { intros bound Hb. unfold fill_zero.
    rewrite firstn_app, repeat_length, Nat.sub_diag,
      firstn_all2 by (rewrite repeat_length; lia).
    cbn [firstn]. rewrite app_nil_r. apply Forall_forall. intros s Hs.
    apply repeat_spec in Hs. subst s. now apply within_zero. }
  destruct (active =? 0)%Z.
  - split; [exact Hzlen|]. split; [exact Hzskip|].
    split; [apply Hzero; lia|]. split; assumption.
  - destruct (avx2_sum_channels_within bs
                (fill_zero (Z.to_nat sample_count) buffer) sample_count)
      as [Hslen [Hsskip Hsin]];
      [exact Hin | lia | unfold cplx in *; lia | apply Hzero; lia |].
    set (summed := Glonass.avx2_sum_channels bs _ sample_count) in *.
    destruct (apply_master_lo_offset_within
                (Glonass.mkGlonassL1Provider (Glonass.constellation_type_ p)
                   (Glonass.carrier_frequency_hz_ p)
                   (Glonass.center_frequency_hz_ p) (Glonass.configured_ p)
                   (Glonass.ephemeris_loaded_ p) (Glonass.channels_ p) gs bs
                   (Glonass.config_ p))
                summed sample_count)
      as [Hmlen [Hmskip Hmin]]; [unfold cplx in *; lia | exact Hsin |].
    split; [congruence|]. split; [congruence|]. split; [exact Hmin|].
    split; assumption.
Qed.

End GlonassChunk.

(** ** The amplitude of a provider's chunk *)

Section ProviderChunk.

Variable rinex : RinexParser.

Lemma peak_is_not_negative (p : Providers.AnyProvider) :
  0 <= ChunkShape.peak p.
Proof.
  destruct p as [q|q|q|q]; cbn [ChunkShape.peak];
    unfold ChunkShape.active_satellites; lia.
Qed.

(** The chunk of any provider, when it is produced. *)
Lemma any_chunk_shape (p : Providers.AnyProvider) (buffer : list cplx)
    (sample_count : Z) (time_now : R) :
  ChunkShape.settled p ->
  (Z.to_nat sample_count <= length buffer)%nat ->
  ChunkShape.peak p <= 32767 ->
  match @generate_chunk _ (Providers.any_constellation rinex) p buffer
          sample_count time_now with
  | inl _ => True
  | inr (p', out) =>
      length out = length buffer
      /\ skipn (Z.to_nat sample_count) out
         = skipn (Z.to_nat sample_count) buffer
      /\ Forall (ChunkShape.within (ChunkShape.peak p))
                (firstn (Z.to_nat sample_count) out)
      /\ ChunkShape.peak p' = ChunkShape.peak p
      /\ ChunkShape.settled p'
  end.
Proof.
  intros Hsettled Hroom Hpeak.
  destruct p as [q|q|q|q];
    cbn [generate_chunk Providers.any_constellation ChunkShape.peak] in *.
  - pose proof (cdma_chunk_shape (GpsL1Provider.variant rinex) 1000
                  ltac:(lia) (gps_satellite_shape rinex) q buffer
                  sample_count time_now Hroom Hpeak) as Hshape.
    destruct (Cdma.cdma_generate_chunk _ q buffer sample_count time_now)
      as [err | [q' out]]; cbn; [exact I|].
    destruct Hshape as [Hlen [Hskip [Hin Hcount]]].
    rewrite Hcount. repeat split; assumption.
  - pose proof (cdma_chunk_shape (GalileoE1Provider.variant rinex) 800
                  ltac:(lia) (galileo_satellite_shape rinex) q buffer
                  sample_count time_now Hroom Hpeak) as Hshape.
    destruct (Cdma.cdma_generate_chunk _ q buffer sample_count time_now)
      as [err | [q' out]]; cbn; [exact I|].
    destruct Hshape as [Hlen [Hskip [Hin Hcount]]].
    rewrite Hcount. repeat split; assumption.
  - pose proof (cdma_chunk_shape (BeidouB1Provider.variant rinex) 900
                  ltac:(lia) (beidou_satellite_shape rinex) q buffer
                  sample_count time_now Hroom Hpeak) as Hshape.
    destruct (Cdma.cdma_generate_chunk _ q buffer sample_count time_now)
      as [err | [q' out]]; cbn; [exact I|].
    destruct Hshape as [Hlen [Hskip [Hin Hcount]]].
    rewrite Hcount. repeat split; assumption.
  - pose proof (glonass_chunk_shape q buffer sample_count time_now
                  Hsettled Hroom) as Hshape.
    destruct (Glonass.glonass_generate_chunk q buffer sample_count time_now)
      as [err | [q' out]]; cbn; [exact I|].
    destruct Hshape as [Hlen [Hskip [Hin Hset]]].
    split; [exact Hlen|]. split; [exact Hskip|]. split; [exact Hin|].
    split; [reflexivity | exact Hset].
Qed.

(** X18. A ready provider whose peak (scale factor times active satellites
    for GPS, Galileo and BeiDou; 13860 for GLONASS) fits an [int16_t]
    produces a chunk: the buffer keeps its length, the entries after the
    first [sample_count] are untouched, both components of each of the first
    [sample_count] samples are at most the peak in absolute value, and the
    provider keeps its peak for the next chunk. *)
Theorem provider_chunk_stays_below_its_peak (p : Providers.AnyProvider)
    (buffer : list cplx) (sample_count : Z) (time_now : R) :
  @is_ready _ (Providers.any_constellation rinex) p = true ->
  ChunkShape.settled p ->
  0 <= sample_count ->
  (Z.to_nat sample_count <= length buffer)%nat ->
  ChunkShape.peak p <= 32767 ->
  exists p' out,
    @generate_chunk _ (Providers.any_constellation rinex) p buffer
      sample_count time_now = inr (p', out)
    /\ length out = length buffer
    /\ skipn (Z.to_nat sample_count) out = skipn (Z.to_nat sample_count) buffer
    /\ Forall (ChunkShape.within (ChunkShape.peak p))
              (firstn (Z.to_nat sample_count) out)
    /\ ChunkShape.peak p' = ChunkShape.peak p
    /\ ChunkShape.settled p'.
Proof.
  intros Hready Hsettled _ Hroom Hpeak.
  destruct (any_generate_chunk_ready rinex p buffer sample_count time_now
              Hready) as [p' [out Heq]].
  pose proof (any_chunk_shape p buffer sample_count time_now Hsettled Hroom
                Hpeak) as Hshape.
  rewrite Heq in Hshape. exists p', out. split; [exact Heq | exact Hshape].
Qed.

End ProviderChunk.

Lemma provider_chunk_stays_below_its_peak_witness :
  exists p' out,
    @generate_chunk _ (Providers.any_constellation Scenario.empty_files)
      ChunkBoundary.ready_gps (repeat (0, 0) 6) 4 0%R = inr (p', out)
    /\ length out = 6%nat
    /\ skipn 4 out = [(0, 0); (0, 0)]
    /\ Forall (ChunkShape.within 8000) (firstn 4 out)
    /\ ChunkShape.peak p' = 8000
    /\ ChunkShape.settled p'.
Proof.
  apply (provider_chunk_stays_below_its_peak Scenario.empty_files
           ChunkBoundary.ready_gps (repeat (0, 0) 6) 4 0%R).
  - reflexivity.
  - exact I.
  - lia.
  - cbn. lia.
  - cbv. discriminate.
Defined.

(** ** The providers of the factory keep their peak *)

Section FactoryPeak.

Local Open Scope R_scope.

Variable rinex : RinexParser.

Local Abbreviation any := (Providers.any_constellation rinex).

Lemma active_satellites_of_map (f : Cdma.SatelliteConfig -> Cdma.SatelliteConfig)
    (sats : list Cdma.SatelliteConfig) :
  (forall sat, Cdma.is_active (f sat) = Cdma.is_active sat) ->
  ChunkShape.active_satellites (map f sats) = ChunkShape.active_satellites sats.
Proof.
  intros Hf. unfold ChunkShape.active_satellites. f_equal.
  induction sats as [|sat rest IH]; [reflexivity|].
  cbn [map filter]. rewrite Hf.
  destruct (Cdma.is_active sat); cbn [length]; now rewrite IH.
Qed.

Lemma attach_ephemeris_keeps_active (data : ephemeris_map)
    (sat : Cdma.SatelliteConfig) :
  Cdma.is_active (Cdma.attach_ephemeris data sat) = Cdma.is_active sat.
Proof.
  unfold Cdma.attach_ephemeris.
  now destruct (find_ephemeris (Cdma.prn sat) data).
Qed.

Lemma cdma_load_ephemeris_keeps_count {CodeState : Type}
    (V : Cdma.Variant CodeState) (q q' : Cdma.Provider CodeState)
    (file_path : string) :
  Cdma.cdma_load_ephemeris V q file_path = inr q' ->
  ChunkShape.active_satellites (Cdma.active_satellites_ q')
  = ChunkShape.active_satellites (Cdma.active_satellites_ q).
Proof.
  unfold Cdma.cdma_load_ephemeris.
  destruct (Cdma.v_reader V file_path) as [[what]|data]; [discriminate|].
  intros Heq. inversion Heq; subst. cbn [Cdma.active_satellites_].
  apply active_satellites_of_map, attach_ephemeris_keeps_active.
Qed.

Lemma activate_default_channels_keeps_doppler
    (channels : list Glonass.GlonassChannel) :
  Forall (fun ch => Rabs (Glonass.doppler_hz ch) <= 1) channels ->
  Forall (fun ch => Rabs (Glonass.doppler_hz ch) <= 1)
         (Glonass.activate_default_channels channels).
Proof.
  intros Hall. unfold Glonass.activate_default_channels.
  apply Forall_forall. intros ch Hch. apply in_map_iff in Hch.
  destruct Hch as [[i ch0] [<- Hin]]. apply in_combine_r in Hin.
  rewrite Forall_forall in Hall. specialize (Hall ch0 Hin).
  destruct (i <? 8)%nat; exact Hall.
Qed.

(** One call keeps a provider settled, below its full peak and of the same
    kind. *)
Lemma after_call_keeps_peak (p : Providers.AnyProvider) (c : Providers.call) :
  ChunkShape.settled p ->
  (ChunkShape.peak p <= ChunkShape.full_peak p)%Z ->
  ChunkShape.in_bounds c ->
  ChunkShape.settled (@Providers.after_call _ any p c)
  /\ (ChunkShape.peak (@Providers.after_call _ any p c)
      <= ChunkShape.full_peak p)%Z
  /\ ChunkShape.full_peak (@Providers.after_call _ any p c)
     = ChunkShape.full_peak p.
Proof.
  intros Hsettled Hpeak Hbounds.
  destruct c as [config | file_path | offset_hz | buffer n t].
  - destruct p as [q|q|q|q]; cbn [Providers.after_call configure any
                                   Providers.any_constellation].
    1-3: split; [exact I|]; split; [|reflexivity]; vm_compute; discriminate.
    split; [exact Hsettled|]. split; [exact Hpeak | reflexivity].
  - destruct p as [q|q|q|q];
      cbn [Providers.after_call load_ephemeris any Providers.any_constellation];
      unfold Providers.lift.
    1-3: destruct (Cdma.cdma_load_ephemeris _ q file_path) as [err|q'] eqn:Hl;
         [split; [exact I|]; split; [exact Hpeak | reflexivity]|];
         split; [exact I|]; split; [|reflexivity];
         cbn [ChunkShape.peak ChunkShape.full_peak] in *;
         rewrite (cdma_load_ephemeris_keeps_count _ _ _ _ Hl); exact Hpeak.
    cbn [Glonass.glonass_load_ephemeris]. destruct Hsettled as [Hd Hb].
    split; [|split; [exact Hpeak | reflexivity]].
    split; [|exact Hb]. cbn [Glonass.channels_].
    now apply activate_default_channels_keeps_doppler.
  - destruct p as [q|q|q|q];
      cbn [Providers.after_call set_frequency_offset any
           Providers.any_constellation];
      (split; [exact Hsettled|]; split; [exact Hpeak | reflexivity]).
  - destruct Hbounds as [_ Hroom].
    assert (Hfits : (ChunkShape.peak p <= 32767)%Z)
      by (destruct p; cbn [ChunkShape.full_peak] in Hpeak; lia).
    pose proof (any_chunk_shape rinex p buffer n t Hsettled Hroom Hfits)
      as Hshape.
    cbn [Providers.after_call].
    destruct (@generate_chunk _ any p buffer n t) as [err|[p' out]] eqn:Hgen.
    + split; [exact Hsettled|]. split; [exact Hpeak | reflexivity].
    + destruct Hshape as [_ [_ [_ [Hsame Hset]]]].
      split; [exact Hset|]. split; [now rewrite Hsame|].
      destruct p as [q|q|q|q];
        cbn [generate_chunk any Providers.any_constellation] in Hgen;
        unfold Providers.lift_chunk, Providers.lift in Hgen;
        match type of Hgen with
        | match ?g with _ => _ end = _ => destruct g; [discriminate|]
        end;
        inversion Hgen; reflexivity.
Qed.

Lemma after_calls_keep_peak (calls : list Providers.call) :
  forall p : Providers.AnyProvider,
    ChunkShape.settled p ->
    (ChunkShape.peak p <= ChunkShape.full_peak p)%Z ->
    Forall ChunkShape.in_bounds calls ->
    ChunkShape.settled (@Providers.after_calls _ any p calls)
    /\ (ChunkShape.peak (@Providers.after_calls _ any p calls)
        <= ChunkShape.full_peak p)%Z
    /\ ChunkShape.full_peak (@Providers.after_calls _ any p calls)
       = ChunkShape.full_peak p.
Proof.
  unfold Providers.after_calls.
  induction calls as [|c calls IH]; intros p Hsettled Hpeak Hbounds;
    [split; [exact Hsettled|]; split; [exact Hpeak | reflexivity]|].
  inversion Hbounds as [|? ? Hc Hrest]; subst. cbn [fold_left].
  destruct (after_call_keeps_peak p c Hsettled Hpeak Hc) as [Hs [Hp Hf]].
  destruct (IH (@Providers.after_call _ any p c) Hs) as [Hs' [Hp' Hf']];
    [now rewrite Hf | exact Hrest |].
  rewrite Hf in Hp', Hf'. split; [exact Hs'|]. split; assumption.
Qed.

Lemma created_provider_is_settled (type : ConstellationType)
    (p : Providers.AnyProvider) :
  Providers.create_constellation rinex type = inr p ->
  ChunkShape.settled p /\ (ChunkShape.peak p <= ChunkShape.full_peak p)%Z.
Proof.
  destruct type; cbn; intros Heq; inversion Heq; subst; clear Heq.
  1, 3, 4: split; [exact I | vm_compute; discriminate].
  split; [|cbn; lia]. split.
  - cbn [Glonass.create Glonass.channels_]. unfold Glonass.initial_channels.
    apply Forall_forall. intros ch Hch. apply in_map_iff in Hch.
    destruct Hch as [i [<- _]]. cbn [Glonass.doppler_hz].
    rewrite Rabs_R0. lra.
  - constructor.
Qed.

(** X19. A provider the factory creates stays, after any sequence of calls
    whose [generate_chunk] buffers hold the samples asked for, below the
    peak of its default satellites: 8000 for GPS, 4800 for Galileo, 4500
    for BeiDou and 13860 for GLONASS, whose channels keep a Doppler of at
    most 1 Hz and buffers of at most 700. *)
Theorem factory_provider_keeps_its_peak (type : ConstellationType)
    (p : Providers.AnyProvider) (calls : list Providers.call) :
  Providers.create_constellation rinex type = inr p ->
  Forall ChunkShape.in_bounds calls ->
  ChunkShape.settled (@Providers.after_calls _ any p calls)
  /\ (0 <= ChunkShape.peak (@Providers.after_calls _ any p calls)
      <= ChunkShape.full_peak p)%Z
  /\ ChunkShape.full_peak p
     = match type with
       | GPS => 8000%Z
       | GALILEO => 4800%Z
       | BEIDOU => 4500%Z
       | GLONASS => 13860%Z
       | NONE => 0%Z
       end.
Proof.
  intros Hcreate Hbounds.
  destruct (created_provider_is_settled type p Hcreate) as [Hs Hp].
  destruct (after_calls_keep_peak calls p Hs Hp Hbounds) as [Hs' [Hp' _]].
  split; [exact Hs'|]. split.
  - split; [apply peak_is_not_negative | exact Hp'].
  - destruct type; cbn in Hcreate; inversion Hcreate; reflexivity.
Qed.

End FactoryPeak.

Lemma factory_provider_keeps_its_peak_witness :
  ChunkShape.settled
    (@Providers.after_calls _
       (Providers.any_constellation Scenario.empty_files)
       (Providers.GpsP (Cdma.create (GpsL1Provider.variant Scenario.empty_files)))
       Client.usual_calls)
  /\ (0 <= ChunkShape.peak
             (@Providers.after_calls _
                (Providers.any_constellation Scenario.empty_files)
                (Providers.GpsP
                   (Cdma.create (GpsL1Provider.variant Scenario.empty_files)))
                Client.usual_calls)
      <= ChunkShape.full_peak
           (Providers.GpsP
              (Cdma.create (GpsL1Provider.variant Scenario.empty_files))))%Z
  /\ ChunkShape.full_peak
       (Providers.GpsP (Cdma.create (GpsL1Provider.variant Scenario.empty_files)))
     = 8000%Z.
Proof.
  apply (factory_provider_keeps_its_peak Scenario.empty_files GPS
           (Providers.GpsP
              (Cdma.create (GpsL1Provider.variant Scenario.empty_files)))
           Client.usual_calls eq_refl).
  unfold Client.usual_calls.
  repeat (apply Forall_cons; [cbn; try exact I; split; lia|]).
  apply Forall_nil.
Defined.

(** ** The amplitude of the mixed signal *)

Section MixPeak.

Variable rinex : RinexParser.

Local Abbreviation any := (Providers.any_constellation rinex).

Lemma total_peak_is_not_negative (cs : list Providers.AnyProvider) :
  0 <= ChunkShape.total_peak cs.
Proof.
  induction cs as [|c cs IH]; cbn [ChunkShape.total_peak fold_right]; [lia|].
  fold (ChunkShape.total_peak cs). pose proof (peak_is_not_negative c). lia.
Qed.

Lemma add_to_accumulator_within (n : nat) (A B : Z)
    (accumulator signal : list cplx) :
  0 <= A -> 0 <= B -> A + B <= 32767 ->
  Forall (ChunkShape.within A) accumulator ->
  Forall (ChunkShape.within B) signal ->
  length (Orchestrator.add_to_accumulator n accumulator signal) = n
  /\ Forall (ChunkShape.within (A + B))
            (Orchestrator.add_to_accumulator n accumulator signal).
Proof.
  intros HA HB Hfit Hacc Hsig. unfold Orchestrator.add_to_accumulator. split.
  - now rewrite length_map, length_seq.
  - apply Forall_forall. intros s Hs. apply in_map_iff in Hs.
    destruct Hs as [i [<- _]].
    assert (Ha : ChunkShape.within A (nth i accumulator (0, 0)))
      by (apply nth_Forall_default; [exact Hacc | split; cbn; lia]).
    assert (Hb : ChunkShape.within B (nth i signal (0, 0)))
      by (apply nth_Forall_default; [exact Hsig | split; cbn; lia]).
    destruct Ha as [Ha1 Ha2]. destruct Hb as [Hb1 Hb2].
    unfold cplx in *. cbv zeta.
    rewrite !int32_id by lia. split; cbn [fst snd]; lia.
Qed.

(** The loop over the providers adds to each entry of the accumulator at
    most the peaks of the providers. *)
Lemma accumulate_constellations_within (sample_count : Z) (time_now : R)
    (cs : list Providers.AnyProvider) :
  forall (acc : list cplx) (A : Z),
    0 <= A ->
    Forall ChunkShape.settled cs ->
    A + ChunkShape.total_peak cs <= 32767 ->
    length acc = Z.to_nat sample_count ->
    Forall (ChunkShape.within A) acc ->
    exists cs' acc',
      @Orchestrator.accumulate_constellations _ any sample_count time_now cs acc
      = (cs', inr acc')
      /\ length acc' = Z.to_nat sample_count
      /\ Forall (ChunkShape.within (A + ChunkShape.total_peak cs)) acc'
      /\ Forall ChunkShape.settled cs'
      /\ ChunkShape.total_peak cs' = ChunkShape.total_peak cs.
Proof.
  induction cs as [|c cs IH]; intros acc A HA Hsettled Hfit Hlen Hacc.
  - exists [], acc. cbn. rewrite Z.add_0_r. repeat split; auto.
  - inversion Hsettled as [|? ? Hc Hrest]; subst.
    cbn [ChunkShape.total_peak fold_right] in *.
    fold (ChunkShape.total_peak cs) in *.
    pose proof (peak_is_not_negative c) as Hpc.
    pose proof (total_peak_is_not_negative cs) as Hpcs.
    cbn [Orchestrator.accumulate_constellations].
    destruct (@is_ready _ any c) eqn:Hready.
    + destruct (any_generate_chunk_ready rinex c
                  (repeat (0, 0) (Z.to_nat sample_count)) sample_count time_now
                  Hready) as [c1 [signal Hgen]].
      pose proof (any_chunk_shape rinex c
                    (repeat (0, 0) (Z.to_nat sample_count)) sample_count
                    time_now Hc ltac:(rewrite repeat_length; lia) ltac:(lia))
        as Hshape.
      rewrite Hgen in Hshape. rewrite Hgen.
      destruct Hshape as [Hslen [_ [Hsin [Hsame Hset]]]].
      rewrite repeat_length in Hslen.
      rewrite firstn_all2 in Hsin by (unfold cplx in *; lia).
      destruct (add_to_accumulator_within (Z.to_nat sample_count) A
                  (ChunkShape.peak c) acc signal HA Hpc ltac:(lia) Hacc Hsin)
        as [Hnlen Hnin].
      destruct (IH (Orchestrator.add_to_accumulator (Z.to_nat sample_count)
                      acc signal)
                   (A + ChunkShape.peak c) ltac:(lia) Hrest ltac:(lia)
                   Hnlen Hnin)
        as [cs' [acc' [Heq [Hl [Hin [Hs Ht]]]]]].
      rewrite Heq. exists (c1 :: cs'), acc'.
      split; [reflexivity|]. split; [exact Hl|]. split.
      * now rewrite Z.add_assoc.
      * split; [now constructor|].
        cbn [ChunkShape.total_peak fold_right].
        fold (ChunkShape.total_peak cs'). now rewrite Hsame, Ht.
    + destruct (IH acc A HA Hrest ltac:(lia) Hlen Hacc)
        as [cs' [acc' [Heq [Hl [Hin [Hs Ht]]]]]].
      rewrite Heq. exists (c :: cs'), acc'.
      split; [reflexivity|]. split; [exact Hl|]. split.
      * eapply Forall_impl; [|exact Hin]. intros s. apply within_weaken. lia.
      * split; [now constructor|].
        cbn [ChunkShape.total_peak fold_right].
        fold (ChunkShape.total_peak cs'). now rewrite Ht.
Qed.

(** Below the bounds of an [int16_t] the clamp and the conversion change
    nothing. *)
Lemma write_output_within (acc out : list cplx) (sample_count bound : Z) :
  bound <= 32767 ->
  length acc = Z.to_nat sample_count ->
  Forall (ChunkShape.within bound) acc ->
  Orchestrator.write_output (Orchestrator.prevent_overflow acc sample_count)
                            out sample_count
  = acc ++ skipn (Z.to_nat sample_count) out.
Proof.
  intros Hbound Hlen Hacc.
  assert (Hmap : map (fun a : cplx => (int16_cast (fst a), int16_cast (snd a)))
                     (map (fun a : cplx => (clamp16 (fst a), clamp16 (snd a)))
                          acc)
                 = acc).
  { rewrite map_map. clear Hlen.
    induction Hacc as [|[re im] rest [Hre Him] _ IH]; [reflexivity|].
    cbn [map fst snd] in *. rewrite IH. f_equal.
    assert (Hr : in_int16 re) by (unfold in_int16, INT16_MIN, INT16_MAX; lia).
    assert (Hi : in_int16 im) by (unfold in_int16, INT16_MIN, INT16_MAX; lia).
    now rewrite !clamp16_id, !int16_cast_id. }
  unfold Orchestrator.write_output, Orchestrator.prevent_overflow.
  rewrite <- Hlen at 1 2 3. rewrite firstn_all, skipn_all, app_nil_r.
  rewrite firstn_all2 by (rewrite length_map; apply Nat.le_refl).
  exact (f_equal (fun l => l ++ skipn (Z.to_nat sample_count) out) Hmap).
Qed.

(** X20. When the peaks of the providers add up to at most 32767 and the
    GLONASS providers are settled, [mix_all_signals] on an initialised
    orchestrator writes the plain sum of the chunks: the clamp of
    [prevent_overflow] changes no sample, both components of each of the
    first [sample_count] samples are at most the total peak in absolute
    value, the rest of the buffer is untouched, and the same holds for the
    next call. *)
Theorem mix_all_signals_stays_below_total_peak
    (o : Orchestrator.SignalOrchestrator Providers.AnyProvider)
    (out : list cplx) (sample_count : Z) (time_now : R) :
  Orchestrator.initialized_ o = true ->
  0 < sample_count ->
  (Z.to_nat sample_count <= length out)%nat ->
  Forall ChunkShape.settled (Orchestrator.constellations_ o) ->
  ChunkShape.total_peak (Orchestrator.constellations_ o) <= 32767 ->
  exists cs' acc,
    @Orchestrator.accumulate_constellations _ any sample_count time_now
      (Orchestrator.constellations_ o) (repeat (0, 0) (Z.to_nat sample_count))
    = (cs', inr acc)
    /\ @Orchestrator.mix_all_signals _ any o (Some out) sample_count time_now
       = (Orchestrator.mkSignalOrchestrator cs' (Orchestrator.config_ o) true,
          Some (acc ++ skipn (Z.to_nat sample_count) out), None)
    /\ length acc = Z.to_nat sample_count
    /\ Forall (ChunkShape.within
                 (ChunkShape.total_peak (Orchestrator.constellations_ o))) acc
    /\ Forall ChunkShape.settled cs'
    /\ ChunkShape.total_peak cs'
       = ChunkShape.total_peak (Orchestrator.constellations_ o).
Proof.
  intros Hinit Hcount Hroom Hsettled Hfit.
  destruct (accumulate_constellations_within sample_count time_now
              (Orchestrator.constellations_ o)
              (repeat (0, 0) (Z.to_nat sample_count)) 0 ltac:(lia) Hsettled
              ltac:(lia) (repeat_length _ _))
    as [cs' [acc [Heq [Hlen [Hin [Hs Ht]]]]]].
  { apply Forall_forall. intros s Hs. apply repeat_spec in Hs. subst s.
    split; cbn; lia. }
  cbn [Z.add] in Hin.
  exists cs', acc. split; [exact Heq|]. split.
  - unfold Orchestrator.mix_all_signals. rewrite Hinit. cbn [negb orb].
    replace (sample_count <=? 0) with false by (symmetry; apply Z.leb_gt; lia).
    rewrite Heq.
    now rewrite (write_output_within acc out sample_count _ Hfit Hlen Hin).
  - repeat split; assumption.
Qed.

End MixPeak.

Lemma ready_providers_are_settled :
  Forall ChunkShape.settled ChunkShape.ready_providers
  /\ ChunkShape.total_peak ChunkShape.ready_providers = 31160.
Proof.
  split.
  - unfold ChunkShape.ready_providers, Scenario.four_providers. cbn [map].
    repeat (apply Forall_cons;
            [apply after_calls_keep_peak;
             [first [exact I
                    | exact (proj1 (created_provider_is_settled
                                      Scenario.empty_files GLONASS _ eq_refl))]
             | vm_compute; discriminate
             | repeat constructor]|]).
    apply Forall_nil.
  - vm_compute. reflexivity.
Qed.

Lemma mix_all_signals_stays_below_total_peak_witness :
  exists cs' acc,
    @Orchestrator.accumulate_constellations _
      (Providers.any_constellation Scenario.empty_files) 2 0%R
      (Orchestrator.constellations_ ChunkShape.ready_orchestrator)
      (repeat (0, 0) (Z.to_nat 2))
    = (cs', inr acc)
    /\ @Orchestrator.mix_all_signals _
         (Providers.any_constellation Scenario.empty_files)
         ChunkShape.ready_orchestrator (Some [(5, 5); (6, 6); (7, 7)]) 2 0%R
       = (Orchestrator.mkSignalOrchestrator cs'
            (Orchestrator.config_ ChunkShape.ready_orchestrator) true,
          Some (acc ++ skipn (Z.to_nat 2) [(5, 5); (6, 6); (7, 7)]), None)
    /\ length acc = Z.to_nat 2
    /\ Forall (ChunkShape.within
                 (ChunkShape.total_peak
                    (Orchestrator.constellations_ ChunkShape.ready_orchestrator)))
              acc
    /\ Forall ChunkShape.settled cs'
    /\ ChunkShape.total_peak cs'
       = ChunkShape.total_peak
           (Orchestrator.constellations_ ChunkShape.ready_orchestrator).
Proof.
  apply (mix_all_signals_stays_below_total_peak Scenario.empty_files
           ChunkShape.ready_orchestrator [(5, 5); (6, 6); (7, 7)] 2 0%R eq_refl).
  - lia.
  - cbn. lia.
  - exact (proj1 ready_providers_are_settled).
  - cbn [Orchestrator.constellations_ ChunkShape.ready_orchestrator].
    rewrite (proj2 ready_providers_are_settled). lia.
Defined.

(** ** Saturation of every sum of the engine *)

Section EngineSaturation.

Variable rinex : RinexParser.

Local Abbreviation any := (Providers.any_constellation rinex).







End EngineSaturation.


(** ** The registers a satellite starts with *)

Lemma galileo_seeds (prn : Z) :
  1 <= prn <= 37 ->
  Galileo.primary_seed prn = 2048 + 13 * prn.
Proof.
  intros Hprn.
  assert (Hall : forallb (fun k =>
                            Galileo.primary_seed (Z.of_nat k)
                            =? 2048 + 13 * Z.of_nat k)
                         (seq 1 37) = true)
    by (vm_compute; reflexivity).
  rewrite forallb_forall in Hall.
  specialize (Hall (Z.to_nat prn) ltac:(apply in_seq; lia)).
  rewrite Z2Nat.id in Hall by lia.
  now apply Z.eqb_eq in Hall.
Qed.

Lemma beidou_seeds (prn : Z) :
  1 <= prn <= 37 ->
  Beidou.seed1 prn = 1024 + prn /\ Beidou.seed2 prn = 1536 + 7 * prn.
Proof.
  intros Hprn.
  assert (Hall : forallb (fun k =>
                            (Beidou.seed1 (Z.of_nat k) =? 1024 + Z.of_nat k)
                            && (Beidou.seed2 (Z.of_nat k)
                                =? 1536 + 7 * Z.of_nat k))
                         (seq 1 37) = true)
    by (vm_compute; reflexivity).
  rewrite forallb_forall in Hall.
  specialize (Hall (Z.to_nat prn) ltac:(apply in_seq; lia)).
  rewrite Z2Nat.id in Hall by lia.
  apply andb_true_iff in Hall. destruct Hall as [H1 H2].
  apply Z.eqb_eq in H1, H2. split; assumption.
Qed.

(** X30. Unlike the GPS provider, the Galileo and the BeiDou provider
    start two different satellites from different registers: for PRNs from
    1 to 37 the primary register of Galileo is 2048 + 13 PRN and the
    first register of BeiDou is 1024 + PRN, so that the code states created
    for two different PRNs differ. *)
Theorem galileo_and_beidou_seeds_differ (prn prn' : Z) :
  1 <= prn <= 37 -> 1 <= prn' <= 37 -> prn <> prn' ->
  Galileo.primary_lfsr (Galileo.initial_code_state prn) = 2048 + 13 * prn
  /\ Beidou.lfsr1_register (Beidou.initial_code_state prn) = 1024 + prn
  /\ Galileo.initial_code_state prn <> Galileo.initial_code_state prn'
  /\ Beidou.initial_code_state prn <> Beidou.initial_code_state prn'.
Proof.
  intros Hprn Hprn' Hne.
  pose proof (galileo_seeds prn Hprn) as Hg.
  pose proof (galileo_seeds prn' Hprn') as Hg'.
  destruct (beidou_seeds prn Hprn) as [Hb _].
  destruct (beidou_seeds prn' Hprn') as [Hb' _].
  unfold Galileo.initial_code_state, Beidou.initial_code_state.
  cbn [Galileo.primary_lfsr Beidou.lfsr1_register].
  split; [exact Hg|]. split; [exact Hb|]. split.
  - intros Heq. inversion Heq as [[H1 H2]]. rewrite Hg, Hg' in H1. lia.
  - intros Heq. inversion Heq as [[H1 H2]]. rewrite Hb, Hb' in H1. lia.
Qed.

Lemma galileo_and_beidou_seeds_differ_witness :
  Galileo.primary_lfsr (Galileo.initial_code_state 1) = 2048 + 13 * 1
  /\ Beidou.lfsr1_register (Beidou.initial_code_state 1) = 1024 + 1
  /\ Galileo.initial_code_state 1 <> Galileo.initial_code_state 2
  /\ Beidou.initial_code_state 1 <> Beidou.initial_code_state 2.
Proof.
  apply (galileo_and_beidou_seeds_differ 1 2); lia.
Defined.

(** ** The text functions of the RINEX reader *)

Section RinexText.

Import Ascii.

Lemma size_skipn (n : nat) (str : Rinex.text) :
  Rinex.size (skipn n str) = Z.max 0 (Rinex.size str - Z.of_nat n).
Proof. unfold Rinex.size. rewrite length_skipn. lia. Qed.

(** The chunks [split_from] cuts from position [i] on are the rest of the
    line; each holds [chunk_size] characters but the last one, which holds
    at least one. *)
Lemma split_from_spec (line : Rinex.text) (chunk_size : Z) :
  0 < chunk_size ->
  forall (fuel : nat) (i : Z),
    0 <= i ->
    (length (skipn (Z.to_nat i) line) <= fuel)%nat ->
    concat (Rinex.split_from fuel line i chunk_size)
    = skipn (Z.to_nat i) line
    /\ Forall (fun chunk => 0 < Rinex.size chunk <= chunk_size)
              (Rinex.split_from fuel line i chunk_size)
    /\ forall k : nat,
         (S k < length (Rinex.split_from fuel line i chunk_size))%nat ->
         Rinex.size (nth k (Rinex.split_from fuel line i chunk_size) [])
         = chunk_size.
Proof.
  intros Hsize. induction fuel as [|fuel IH]; intros i Hi Hfuel.
  - cbn [Rinex.split_from]. destruct (skipn (Z.to_nat i) line);
      [|cbn in Hfuel; lia].
    split; [reflexivity|]. split; [constructor|]. cbn. lia.
  - cbn [Rinex.split_from].
    destruct (i <? Rinex.size line) eqn:Hin; unfold Rinex.size in Hin.
    + apply Z.ltb_lt in Hin.
      assert (Hnext : skipn (Z.to_nat (i + chunk_size)) line
                      = skipn (Z.to_nat chunk_size) (skipn (Z.to_nat i) line)).
      { rewrite skipn_skipn. f_equal. lia. }
      assert (Hrest : (length (skipn (Z.to_nat (i + chunk_size)) line)
                       <= fuel)%nat).
      { rewrite length_skipn in *. lia. }
      destruct (IH (i + chunk_size) ltac:(lia) Hrest) as [Hcat [Hall Hfull]].
      unfold Rinex.substr_at.
      assert (Hchunk : Rinex.size (firstn (Z.to_nat chunk_size)
                                          (skipn (Z.to_nat i) line))
                       = Z.min chunk_size (Rinex.size line - i)).
      { unfold Rinex.size. rewrite length_firstn, length_skipn. lia. }
      split; [|split].
      * cbn [concat]. rewrite Hcat, Hnext. apply firstn_skipn.
      * constructor; [|exact Hall]. rewrite Hchunk. unfold Rinex.size. lia.
      * intros [|k] Hk; cbn [nth length] in *.
        -- rewrite Hchunk.
           destruct fuel as [|fuel']; [cbn in Hk; lia|].
           cbn [Rinex.split_from] in Hk.
           destruct (i + chunk_size <? Rinex.size line) eqn:Hmore;
             [|cbn in Hk; lia].
           apply Z.ltb_lt in Hmore. lia.
        -- apply Hfull. lia.
    + apply Z.ltb_ge in Hin. rewrite skipn_all2 by lia.
      split; [reflexivity|]. split; [constructor|]. cbn. lia.
Qed.

(** X24. With a positive [chunk_size], [split_line] cuts the line into
    chunks that, put together again, are the line; every chunk holds
    [chunk_size] characters except the last, which holds at least one and
    at most [chunk_size]; an empty line gives no chunk. *)
Theorem split_line_cuts_the_line (line : Rinex.text) (chunk_size : Z) :
  0 < chunk_size ->
  exists chunks : list Rinex.text,
    Rinex.split_line line chunk_size = Some chunks
    /\ concat chunks = line
    /\ Forall (fun chunk => 0 < Rinex.size chunk <= chunk_size) chunks
    /\ (forall k : nat,
          (S k < length chunks)%nat ->
          Rinex.size (nth k chunks []) = chunk_size)
    /\ (line = [] -> chunks = []).
Proof.
  intros Hsize. unfold Rinex.split_line.
  replace (0 <? chunk_size) with true by (symmetry; apply Z.ltb_lt; lia).
  eexists. split; [reflexivity|].
  destruct (split_from_spec line chunk_size Hsize (length line) 0
              ltac:(lia) ltac:(cbn; lia)) as [Hcat [Hall Hfull]].
  split; [exact Hcat|]. split; [exact Hall|]. split; [exact Hfull|].
  intros ->. reflexivity.
Qed.

(** *** [trim] *)

Lemma find_first_not_of_spec (c : ascii) (str : Rinex.text) :
  Rinex.size str < Rinex.npos ->
  (Rinex.find_first_not_of c str = Rinex.npos
   /\ str = repeat c (length str))
  \/ (exists (n : nat) (a : ascii) (rest : Rinex.text),
        str = repeat c n ++ a :: rest /\ a <> c
        /\ Rinex.find_first_not_of c str = Z.of_nat n).
Proof.
  unfold Rinex.size. induction str as [|a str IH]; intros Hsize.
  - left. split; reflexivity.
  - cbn [Rinex.find_first_not_of length] in *.
    destruct (Ascii.eqb a c) eqn:Heq.
    + apply Ascii.eqb_eq in Heq. subst a.
      destruct (IH ltac:(lia)) as [[-> Hall] | [n [a [rest [Hstr [Ha ->]]]]]].
      * left. rewrite Z.eqb_refl. split; [reflexivity|].
        cbn [repeat]. now rewrite <- Hall.
      * right. exists (S n), a, rest.
        assert (Hn : (n <= length str)%nat).
        { rewrite Hstr, length_app, repeat_length. lia. }
        replace (Z.of_nat n =? Rinex.npos) with false
          by (symmetry; apply Z.eqb_neq; lia).
        split; [cbn [repeat app]; now rewrite <- Hstr|].
        split; [exact Ha | lia].
    + apply Ascii.eqb_neq in Heq. right. exists O, a, str.
      repeat split; auto.
Qed.

Lemma find_last_not_of_spec (c : ascii) (str : Rinex.text) :
  Rinex.size str < Rinex.npos ->
  (Rinex.find_last_not_of c str = Rinex.npos
   /\ str = repeat c (length str))
  \/ (exists (front : Rinex.text) (a : ascii) (n : nat),
        str = front ++ a :: repeat c n /\ a <> c
        /\ Rinex.find_last_not_of c str = Z.of_nat (length front)).
Proof.
  unfold Rinex.size. induction str as [|a str IH]; intros Hsize.
  - left. split; reflexivity.
  - cbn [Rinex.find_last_not_of length] in *.
    destruct (IH ltac:(lia))
      as [[-> Hall] | [front [b [n [Hstr [Hb ->]]]]]].
    + rewrite Z.eqb_refl. destruct (Ascii.eqb a c) eqn:Heq.
      * apply Ascii.eqb_eq in Heq. subst a. left.
        split; [reflexivity|]. cbn [repeat]. now rewrite <- Hall.
      * apply Ascii.eqb_neq in Heq. right. exists [], a, (length str).
        split; [cbn [app]; now rewrite <- Hall|]. split; [exact Heq|].
        reflexivity.
    + assert (Hn : (length front < length str)%nat).
      { rewrite Hstr, length_app. cbn [length]. lia. }
      replace (Z.of_nat (length front) =? Rinex.npos) with false
        by (symmetry; apply Z.eqb_neq; lia).
      right. exists (a :: front), b, n.
      split; [cbn [app]; now rewrite <- Hstr|]. split; [exact Hb|].
      cbn [length]. lia.
Qed.

Lemma repeat_is_not (c a : ascii) (n : nat) (front rest : Rinex.text) :
  a <> c -> repeat c n <> front ++ a :: rest.
Proof.
  intros Ha Heq.
  assert (Hin : In a (repeat c n)) by (rewrite Heq; apply in_elt).
  apply repeat_spec in Hin. contradiction.
Qed.

(** What [trim] returns: nothing for a string of spaces; otherwise the
    part from the first to the last character that is not a space. *)
Lemma trim_spec (str : Rinex.text) :
  Rinex.size str < Rinex.npos ->
  (str = repeat " "%char (length str) /\ Rinex.trim str = [])
  \/ (exists (n : nat) (a : ascii) (middle : Rinex.text) (b : ascii)
             (m : nat),
        str = repeat " "%char n ++ Rinex.trim str ++ repeat " "%char m
        /\ Rinex.trim str = a :: middle
        /\ a <> " "%char
        /\ last (Rinex.trim str) a = b
        /\ b <> " "%char).
Proof.
  intros Hsize. unfold Rinex.trim.
  destruct (find_first_not_of_spec " " str Hsize)
    as [[-> Hall] | [n [a [rest [Hstr [Ha ->]]]]]].
  - left. now rewrite Z.eqb_refl.
  - assert (Hn : (n < length str)%nat).
    { rewrite Hstr, length_app, repeat_length. cbn [length]. lia. }
    unfold Rinex.size in Hsize.
    replace (Z.of_nat n =? Rinex.npos) with false
      by (symmetry; apply Z.eqb_neq; lia).
    destruct (find_last_not_of_spec " " str Hsize)
      as [[_ Hall] | [front [b [m [Hback [Hb ->]]]]]].
    { exfalso. rewrite Hstr in Hall at 1.
      symmetry in Hall. now apply repeat_is_not in Hall. }
    right.
    assert (Hlen : (n <= length front)%nat).
    { destruct (Nat.le_gt_cases n (length front)) as [|Hgt]; [assumption|].
      exfalso. apply Hb.
      assert (Hnth : nth (length front) str b = b)
        by (rewrite Hback; apply nth_middle).
      rewrite Hstr, app_nth1 in Hnth by (rewrite repeat_length; lia).
      rewrite nth_repeat_lt in Hnth by lia. now symmetry. }
    assert (Hfront : exists middle', front = repeat " "%char n ++ middle').
    { exists (skipn n front).
      rewrite <- (firstn_skipn n front) at 1. f_equal.
      assert (Heq : firstn n str = repeat " "%char n).
      { rewrite Hstr, firstn_app, repeat_length, Nat.sub_diag.
        rewrite firstn_all2 by (rewrite repeat_length; lia).
        cbn [firstn]. apply app_nil_r. }
      rewrite <- Heq, Hback, firstn_app.
      replace (n - length front)%nat with O by lia.
      cbn [firstn]. now rewrite app_nil_r. }
    destruct Hfront as [middle' Hfront].
    assert (Hcore : a :: rest = (middle' ++ [b]) ++ repeat " "%char m).
    { apply (app_inv_head (repeat " "%char n)).
      rewrite <- Hstr, Hback, Hfront, <- !app_assoc. reflexivity. }
    assert (Htrim : Rinex.substr_at str (Z.of_nat n)
                      (Rinex.to_size_t
                         (Z.of_nat (length front) - Z.of_nat n + 1))
                    = middle' ++ [b]).
    { unfold Rinex.substr_at, Rinex.to_size_t.
      rewrite Z.mod_small
        by (unfold Rinex.npos, Rinex.SIZE_MAX in Hsize;
            assert (length front < length str)%nat
              by (rewrite Hback, length_app; cbn [length]; lia);
            lia).
      rewrite Nat2Z.id.
      replace (skipn n str) with (a :: rest)
        by (rewrite Hstr, skipn_app, repeat_length, Nat.sub_diag;
            rewrite skipn_all2 by (rewrite repeat_length; lia);
            reflexivity).
      rewrite Hcore, firstn_app.
      replace (Z.to_nat (Z.of_nat (length front) - Z.of_nat n + 1))
        with (length (middle' ++ [b]))
        by (rewrite Hfront, !length_app, repeat_length; cbn [length]; lia).
      rewrite firstn_all, Nat.sub_diag. cbn [firstn]. apply app_nil_r. }
    rewrite Htrim.
    destruct middle' as [|a' middle'].
    + cbn [app] in Hcore. inversion Hcore; subst.
      exists n, b, [], b, m. cbn [app last].
      repeat split; auto.
    + cbn [app] in Hcore. inversion Hcore; subst a'.
      exists n, a, (middle' ++ [b]), b, m.
      split; [rewrite Hback, Hfront, <- !app_assoc; reflexivity|].
      split; [reflexivity|]. split; [exact Ha|].
      split; [|exact Hb].
      change (a :: middle' ++ [b]) with ((a :: middle') ++ [b]).
      apply last_last.
Qed.

Lemma trim_of_trimmed (a b : ascii) (middle : Rinex.text) :
  Rinex.size (a :: middle) < Rinex.npos ->
  a <> " "%char -> last (a :: middle) a = b -> b <> " "%char ->
  Rinex.trim (a :: middle) = a :: middle.
Proof.
  intros Hsize Ha Hlast Hb.
  destruct (trim_spec (a :: middle) Hsize)
    as [[Hall _] | [n [a' [middle' [b' [m [Hstr [Htrim [Ha' [Hl Hb']]]]]]]]]].
  - cbn [length repeat] in Hall. inversion Hall. contradiction.
  - destruct n as [|n]; [|cbn [repeat app] in Hstr; inversion Hstr;
                          contradiction].
    cbn [repeat app] in Hstr. destruct m as [|m].
    + cbn [repeat] in Hstr. now rewrite app_nil_r in Hstr.
    + exfalso. apply Hb. rewrite <- Hlast, Hstr.
      change (repeat " "%char (S m)) with (" "%char :: repeat " "%char m).
      rewrite repeat_cons, app_assoc. apply last_last.
Qed.

(** X25. [trim] removes the spaces at both ends and nothing else: the
    string is the result with spaces before and after it, the result
    neither starts nor ends with a space, and trimming it again changes
    nothing. A string of spaces gives the empty string. *)
Theorem trim_removes_the_outer_spaces (str : Rinex.text) :
  Rinex.size str < Rinex.npos ->
  exists n m : nat,
    str = repeat " "%char n ++ Rinex.trim str ++ repeat " "%char m
    /\ hd_error (Rinex.trim str) <> Some " "%char
    /\ hd_error (rev (Rinex.trim str)) <> Some " "%char
    /\ Rinex.trim (Rinex.trim str) = Rinex.trim str.
Proof.
  intros Hsize.
  destruct (trim_spec str Hsize)
    as [[Hall ->] | [n [a [middle [b [m [Hstr [Htrim [Ha [Hl Hb]]]]]]]]]].
  - exists (length str), O. cbn [app repeat hd_error rev].
    rewrite app_nil_r. repeat split; try discriminate. exact Hall.
  - exists n, m. split; [exact Hstr|]. rewrite Htrim in *.
    split; [cbn; congruence|]. split.
    + destruct (exists_last (l := a :: middle) ltac:(discriminate))
        as [front [b' Heq]].
      rewrite Heq, rev_app_distr. cbn [rev app hd_error].
      rewrite Heq, last_last in Hl. congruence.
    + apply (trim_of_trimmed a b); auto.
      assert (Hshort : (length (a :: middle) <= length str)%nat).
      { rewrite Hstr, !length_app. lia. }
      unfold Rinex.size in *. lia.
Qed.

Lemma split_line_cuts_the_line_witness :
  exists chunks : list Rinex.text,
    Rinex.split_line (list_ascii_of_string "G12 2024") 3 = Some chunks
    /\ concat chunks = list_ascii_of_string "G12 2024"
    /\ Forall (fun chunk => 0 < Rinex.size chunk <= 3) chunks
    /\ (forall k : nat,
          (S k < length chunks)%nat -> Rinex.size (nth k chunks []) = 3)
    /\ (list_ascii_of_string "G12 2024" = [] -> chunks = []).
Proof.
  apply (split_line_cuts_the_line (list_ascii_of_string "G12 2024") 3).
  lia.
Defined.

Lemma trim_removes_the_outer_spaces_witness :
  exists n m : nat,
    list_ascii_of_string "  G12 " 
    = repeat " "%char n ++ Rinex.trim (list_ascii_of_string "  G12 ")
      ++ repeat " "%char m
    /\ hd_error (Rinex.trim (list_ascii_of_string "  G12 ")) <> Some " "%char
    /\ hd_error (rev (Rinex.trim (list_ascii_of_string "  G12 ")))
       <> Some " "%char
    /\ Rinex.trim (Rinex.trim (list_ascii_of_string "  G12 "))
       = Rinex.trim (list_ascii_of_string "  G12 ").
Proof.
  apply (trim_removes_the_outer_spaces (list_ascii_of_string "  G12 ")).
  vm_compute. reflexivity.
Defined.

End RinexText.

(** ** The RINEX reader *)

Section RinexReader.

Local Open Scope R_scope.

Variable stod : Rinex.text -> option R.
Variable files : string -> option (list Rinex.text).

Lemma parse_dbl_within (str : Rinex.text) (pos len : Z) :
  (0 <= pos <= Rinex.size str)%Z ->
  exists value, Rinex.parse_dbl stod str pos len = Some value.
Proof.
  intros Hpos. unfold Rinex.parse_dbl, Rinex.substr, Rinex.to_size_t.
  assert (Hmod : (pos mod 2 ^ 64 <= pos)%Z) by (apply Z.mod_le; lia).
  replace (Rinex.size str <? pos mod 2 ^ 64)%Z with false
    by (symmetry; apply Z.ltb_ge; lia).
  destruct (stod _); eexists; reflexivity.
Qed.

Lemma four_numbers_of_long_line (line : Rinex.text) :
  (68 < Rinex.size line)%Z ->
  exists numbers, Rinex.four_numbers stod line = Some numbers.
Proof.
  intros Hlong. unfold Rinex.four_numbers.
  destruct (parse_dbl_within line 0 19 ltac:(lia)) as [a ->].
  destruct (parse_dbl_within line 19 19 ltac:(lia)) as [b ->].
  destruct (parse_dbl_within line 38 19 ltac:(lia)) as [c ->].
  destruct (parse_dbl_within line 57 19 ltac:(lia)) as [d ->].
  eexists; reflexivity.
Qed.

Lemma three_numbers_of_long_line (line : Rinex.text) (p1 p2 p3 : Z) :
  (68 < Rinex.size line)%Z ->
  (0 <= p1 <= 68)%Z -> (0 <= p2 <= 68)%Z -> (0 <= p3 <= 68)%Z ->
  exists numbers, Rinex.three_numbers stod line p1 p2 p3 = Some numbers.
Proof.
  intros Hlong H1 H2 H3. unfold Rinex.three_numbers.
  destruct (parse_dbl_within line p1 19 ltac:(lia)) as [a ->].
  destruct (parse_dbl_within line p2 19 ltac:(lia)) as [b ->].
  destruct (parse_dbl_within line p3 19 ltac:(lia)) as [c ->].
  eexists; reflexivity.
Qed.

(** *** What a line does to the state *)

(** The state after a continuation line: the stage moves on; the record
    keeps its [prn] and its type; the map changes at the fifth line
    only, when that line is long. *)
Lemma read_continuation_spec (st : Rinex.ParserState) (line : Rinex.text) :
  exists st',
    Rinex.read_continuation stod st line = Some st'
    /\ Rinex.in_ephemeris_section st' = Rinex.in_ephemeris_section st
    /\ Rinex.prn st' = Rinex.prn st
    /\ eph_prn (Rinex.orbit (Rinex.current_eph st'))
       = eph_prn (Rinex.orbit (Rinex.current_eph st))
    /\ Rinex.constellation (Rinex.current_eph st')
       = Rinex.constellation (Rinex.current_eph st)
    /\ ((Rinex.continuation st' <> O
         /\ Rinex.ephemeris_data st' = Rinex.ephemeris_data st)
        \/ (Rinex.continuation st' = O
            /\ Rinex.ephemeris_data st' = Rinex.ephemeris_data st)
        \/ (Rinex.continuation st' = O
            /\ is_valid (Rinex.orbit (Rinex.current_eph st')) = true
            /\ Rinex.ephemeris_data st'
               = Rinex.map_assign (Rinex.prn st) (Rinex.current_eph st')
                   (Rinex.ephemeris_data st))).
Proof.
  unfold Rinex.read_continuation.
  destruct (Rinex.continuation st) as [|[|[|[|[|k]]]]];
    destruct (68 <? Rinex.size line)%Z eqn:Hlong;
    try apply Z.ltb_lt in Hlong.
  all: try (eexists; split; [reflexivity|]; cbn;
            repeat split; auto; fail).
  all: try (destruct (four_numbers_of_long_line line Hlong)
              as [[[[a b] c] d] ->];
            eexists; split; [reflexivity|]; cbn; repeat split; auto; fail).
  all: destruct (three_numbers_of_long_line line 0 19 38 Hlong
                   ltac:(lia) ltac:(lia) ltac:(lia)) as [[[a b] c] ->];
    eexists; split; [reflexivity|]; cbn; repeat split; auto.
Qed.

(** A line read at the [while] loop of [parse_gps_rinex2]: the map is
    left alone; a record starts only at a line that passes the test, in
    the ephemeris section. *)
Lemma gps_rinex2_line_spec (st : Rinex.ParserState) (line : Rinex.text) :
  Rinex.continuation st = O ->
  exists st',
    Rinex.gps_rinex2_line stod st line = Some st'
    /\ Rinex.ephemeris_data st' = Rinex.ephemeris_data st
    /\ (Rinex.in_ephemeris_section st' = false ->
        Rinex.in_ephemeris_section st = false
        /\ Rinex.contains Rinex.END_OF_HEADER line = false)
    /\ (Rinex.continuation st' = O
        \/ (Rinex.starts_gps_record line = true
            /\ Rinex.prn st' = Rinex.parse_int line 3 2
            /\ eph_prn (Rinex.orbit (Rinex.current_eph st')) = Rinex.prn st'
            /\ Rinex.constellation (Rinex.current_eph st') = GPS)).
Proof.
  intros Hloop. unfold Rinex.gps_rinex2_line, Rinex.starts_gps_record.
  destruct (Rinex.contains Rinex.END_OF_HEADER line).
  { eexists. split; [reflexivity|]. cbn.
    split; [reflexivity|]. split; [discriminate | now left]. }
  destruct (Rinex.in_ephemeris_section st) eqn:Hsection; cbn [negb].
  2: { eexists. split; [reflexivity|]. split; [reflexivity|].
       split; [auto | now left]. }
  destruct ((22 <? Rinex.size line)%Z && Rinex.is_gps_satellite _) eqn:Htest.
  2: { eexists. split; [reflexivity|]. split; [reflexivity|].
       split; [congruence | now left]. }
  apply andb_true_iff in Htest. destruct Htest as [_ Hgps].
  destruct (68 <? Rinex.size line)%Z eqn:Hlong.
  2: { eexists. split; [reflexivity|]. split; [reflexivity|].
       split; [congruence | now left]. }
  destruct (three_numbers_of_long_line line 22 41 60
              (proj1 (Z.ltb_lt _ _) Hlong)
              ltac:(lia) ltac:(lia) ltac:(lia)) as [[[a b] c] ->].
  eexists. split; [reflexivity|].
  split; [reflexivity|]. split; [discriminate|]. right.
  rewrite Hgps. repeat split; reflexivity.
Qed.

(** The same at the [while] loop of [parse_rinex3]. *)
Lemma rinex3_line_spec (type : ConstellationType) (st : Rinex.ParserState)
    (line : Rinex.text) :
  Rinex.continuation st = O ->
  exists st',
    Rinex.rinex3_line stod type st line = Some st'
    /\ Rinex.ephemeris_data st' = Rinex.ephemeris_data st
    /\ (Rinex.in_ephemeris_section st' = false ->
        Rinex.in_ephemeris_section st = false
        /\ Rinex.contains Rinex.END_OF_HEADER line = false)
    /\ (Rinex.continuation st' = O
        \/ (Rinex.starts_rinex3_record type line = true
            /\ Rinex.prn st' = Rinex.parse_int line 1 2
            /\ eph_prn (Rinex.orbit (Rinex.current_eph st')) = Rinex.prn st'
            /\ Rinex.constellation (Rinex.current_eph st') = type)).
Proof.
  intros Hloop. unfold Rinex.rinex3_line, Rinex.starts_rinex3_record.
  destruct (Rinex.contains Rinex.END_OF_HEADER line).
  { eexists. split; [reflexivity|]. cbn.
    split; [reflexivity|]. split; [discriminate | now left]. }
  destruct (Rinex.in_ephemeris_section st) eqn:Hsection; cbn [negb].
  2: { eexists. split; [reflexivity|]. split; [reflexivity|].
       split; [auto | now left]. }
  destruct (Rinex.is_target_satellite type _ && (22 <? Rinex.size line)%Z)
    eqn:Htest.
  2: { eexists. split; [reflexivity|]. split; [reflexivity|].
       split; [congruence | now left]. }
  apply andb_true_iff in Htest. destruct Htest as [Htarget _].
  destruct (68 <? Rinex.size line)%Z eqn:Hlong.
  2: { eexists. split; [reflexivity|]. split; [reflexivity|].
       split; [congruence | now left]. }
  destruct (three_numbers_of_long_line line 22 41 60
              (proj1 (Z.ltb_lt _ _) Hlong)
              ltac:(lia) ltac:(lia) ltac:(lia)) as [[[a b] c] ->].
  eexists. split; [reflexivity|].
  split; [reflexivity|]. split; [discriminate|]. right.
  rewrite Htarget. repeat split; reflexivity.
Qed.

(** *** The map *)

Lemma map_assign_in (key : Z) (value : Rinex.EphemerisRecord)
    (m : Rinex.record_map) (entry : Z * Rinex.EphemerisRecord) :
  In entry (Rinex.map_assign key value m) ->
  entry = (key, value) \/ In entry m.
Proof.
  induction m as [|[k v] rest IH]; cbn [Rinex.map_assign].
  - intros [<- | []]. now left.
  - destruct (key <? k)%Z; [intros [<- | Hin]; [now left | now right]|].
    destruct (key =? k)%Z eqn:Heq.
    + apply Z.eqb_eq in Heq. subst k.
      intros [<- | Hin]; [now left | right; now right].
    + intros [<- | Hin]; [right; now left|].
      destruct (IH Hin) as [-> | Hrest]; [now left | right; now right].
Qed.

Lemma map_assign_first (key : Z) (value : Rinex.EphemerisRecord)
    (m : Rinex.record_map) (bound : Z) :
  (bound < key)%Z ->
  (forall k v rest, m = (k, v) :: rest -> (bound < k)%Z) ->
  forall k v rest,
    Rinex.map_assign key value m = (k, v) :: rest -> (bound < k)%Z.
Proof.
  intros Hkey Hfirst k v rest. destruct m as [|[k0 v0] m];
    cbn [Rinex.map_assign].
  - intros Heq. inversion Heq; subst. exact Hkey.
  - specialize (Hfirst k0 v0 m eq_refl).
    destruct (key <? k0)%Z; [intros Heq; inversion Heq; subst; exact Hkey|].
    destruct (key =? k0)%Z; intros Heq; inversion Heq; subst; exact Hfirst.
Qed.

Lemma ascending_cons (k : Z) (v : Rinex.EphemerisRecord)
    (m : Rinex.record_map) :
  Rinex.ascending (map fst ((k, v) :: m))
  <-> (forall k' v' rest, m = (k', v') :: rest -> (k < k')%Z)
      /\ Rinex.ascending (map fst m).
Proof.
  destruct m as [|[k1 v1] m]; cbn [map fst Rinex.ascending].
  - split; [intros _; split; [discriminate | exact I] | auto].
  - split.
    + intros [Hlt Hrest]. split; [|exact Hrest].
      intros k' v' rest Heq. inversion Heq; subst. exact Hlt.
    + intros [Hfirst Hrest]. split; [|exact Hrest].
      now apply (Hfirst k1 v1 m).
Qed.

Lemma map_assign_ascending (key : Z) (value : Rinex.EphemerisRecord)
    (m : Rinex.record_map) :
  Rinex.ascending (map fst m) ->
  Rinex.ascending (map fst (Rinex.map_assign key value m)).
Proof.
  induction m as [|[k v] rest IH]; intros Hm; [exact I|].
  apply ascending_cons in Hm. destruct Hm as [Hfirst Hrest].
  cbn [Rinex.map_assign].
  destruct (key <? k)%Z eqn:Hlt.
  - apply Z.ltb_lt in Hlt. apply ascending_cons. split.
    + intros k' v' rest' Heq. inversion Heq; subst. exact Hlt.
    + apply ascending_cons. split; assumption.
  - apply Z.ltb_ge in Hlt. destruct (key =? k)%Z eqn:Heq.
    + apply ascending_cons. split; assumption.
    + apply Z.eqb_neq in Heq. apply ascending_cons. split.
      * apply map_assign_first; [lia | exact Hfirst].
      * now apply IH.
Qed.

(** *** The lines of a file *)

Section Reading.

Variable at_loop : Rinex.ParserState -> Rinex.text -> option Rinex.ParserState.
Variable type : ConstellationType.
Variable starts : Rinex.text -> bool.
Variable column : Z.

Hypothesis Hloop :
  forall (st : Rinex.ParserState) (line : Rinex.text),
    Rinex.continuation st = O ->
    exists st',
      at_loop st line = Some st'
      /\ Rinex.ephemeris_data st' = Rinex.ephemeris_data st
      /\ (Rinex.in_ephemeris_section st' = false ->
          Rinex.in_ephemeris_section st = false
          /\ Rinex.contains Rinex.END_OF_HEADER line = false)
      /\ (Rinex.continuation st' = O
          \/ (starts line = true
              /\ Rinex.prn st' = Rinex.parse_int line column 2
              /\ eph_prn (Rinex.orbit (Rinex.current_eph st')) = Rinex.prn st'
              /\ Rinex.constellation (Rinex.current_eph st') = type)).

Variable lines : list Rinex.text.

Local Abbreviation kept st :=
  (Rinex.ascending (map fst (Rinex.ephemeris_data st))
   /\ Forall (Rinex.stored_entry type starts column lines)
             (Rinex.ephemeris_data st)
   /\ (Rinex.continuation st <> O ->
       eph_prn (Rinex.orbit (Rinex.current_eph st)) = Rinex.prn st
       /\ Rinex.constellation (Rinex.current_eph st) = type
       /\ exists line : Rinex.text,
            In line lines /\ starts line = true
            /\ Rinex.prn st = Rinex.parse_int line column 2)).

Lemma read_line_keeps (st : Rinex.ParserState) (line : Rinex.text) :
  In line lines -> kept st ->
  exists st', Rinex.read_line stod at_loop st line = Some st' /\ kept st'.
Proof.
  intros Hin [Hasc [Hall Hrecord]]. unfold Rinex.read_line.
  destruct (Rinex.continuation st) as [|k] eqn:Hstage.
  - destruct (Hloop st line Hstage) as [st' [Heq [Hdata [_ Hnext]]]].
    exists st'. split; [exact Heq|]. rewrite Hdata.
    split; [exact Hasc|]. split; [exact Hall|]. intros Hstage'.
    destruct Hnext as [Hzero | [Hs [Hp [Hprn Htype]]]]; [contradiction|].
    split; [exact Hprn|]. split; [exact Htype|].
    exists line. repeat split; assumption.
  - destruct (Hrecord ltac:(discriminate)) as [Hprn [Htype Hfrom]].
    destruct (read_continuation_spec st line)
      as [st' [Heq [_ [Hp [Hprn' [Htype' Hcases]]]]]].
    exists st'. split; [exact Heq|].
    destruct Hcases as [[Hnext Hdata] | [[Hzero Hdata] | [Hzero [Hvalid Hdata]]]].
    + rewrite Hdata. split; [exact Hasc|]. split; [exact Hall|]. intros _.
      rewrite Hprn', Htype', Hp. split; [exact Hprn|]. split; [exact Htype|].
      exact Hfrom.
    + rewrite Hdata. split; [exact Hasc|]. split; [exact Hall|].
      intros Hne. contradiction.
    + rewrite Hdata. split; [now apply map_assign_ascending|].
      split; [|intros Hne; contradiction].
      apply Forall_forall. intros entry Hentry.
      apply map_assign_in in Hentry. destruct Hentry as [-> | Hold].
      * unfold Rinex.stored_entry. cbn [fst snd].
        split; [exact Hvalid|]. split; [congruence|].
        split; [congruence | exact Hfrom].
      * rewrite Forall_forall in Hall. now apply Hall.
Qed.

Lemma read_lines_keep (ls : list Rinex.text) :
  forall st : Rinex.ParserState,
    incl ls lines -> kept st ->
    exists st', Rinex.read_lines stod at_loop ls st = Some st' /\ kept st'.
Proof.
  induction ls as [|line rest IH]; intros st Hincl Hkept.
  - exists st. split; [reflexivity | exact Hkept].
  - cbn [Rinex.read_lines].
    destruct (read_line_keeps st line (Hincl line (or_introl eq_refl)) Hkept)
      as [st1 [-> Hkept1]].
    apply IH; [|exact Hkept1].
    intros l Hl. apply Hincl. now right.
Qed.

(** Every file is read to its end, and what the map holds was stored
    as [stored_entry] says. *)
Lemma parse_file_keeps :
  exists m,
    Rinex.parse_file stod at_loop lines = Rinex.Returned m
    /\ Rinex.ascending (map fst m)
    /\ Forall (Rinex.stored_entry type starts column lines) m.
Proof.
  unfold Rinex.parse_file.
  destruct (read_lines_keep lines Rinex.initial_state (incl_refl _))
    as [st [-> [Hasc [Hall _]]]].
  - cbn. split; [exact I|]. split; [constructor|]. intros H; now elim H.
  - exists (Rinex.ephemeris_data st). repeat split; assumption.
Qed.

(** Lines that start no record leave the map alone. *)
Lemma read_lines_without_records (ls : list Rinex.text) :
  Forall (fun line => starts line = false) ls ->
  forall st : Rinex.ParserState,
    Rinex.continuation st = O ->
    exists st',
      Rinex.read_lines stod at_loop ls st = Some st'
      /\ Rinex.continuation st' = O
      /\ Rinex.ephemeris_data st' = Rinex.ephemeris_data st.
Proof.
  induction 1 as [|line rest Hline _ IH]; intros st Hstage.
  - exists st. repeat split; auto.
  - cbn [Rinex.read_lines]. unfold Rinex.read_line. rewrite Hstage.
    destruct (Hloop st line Hstage) as [st1 [-> [Hdata [_ Hnext]]]].
    destruct Hnext as [Hzero | [Hs _]]; [|congruence].
    destruct (IH st1 Hzero) as [st' [Heq [Hz Hd]]].
    exists st'. split; [exact Heq|]. split; [exact Hz | congruence].
Qed.

(** Lines read outside the ephemeris section, none with the marker,
    change nothing. *)
Lemma read_lines_before_header (ls : list Rinex.text) :
  Forall (fun line => Rinex.contains Rinex.END_OF_HEADER line = false) ls ->
  (forall (st : Rinex.ParserState) (line : Rinex.text),
     Rinex.contains Rinex.END_OF_HEADER line = false ->
     Rinex.in_ephemeris_section st = false ->
     at_loop st line = Some st) ->
  forall st : Rinex.ParserState,
    Rinex.continuation st = O ->
    Rinex.in_ephemeris_section st = false ->
    Rinex.read_lines stod at_loop ls st = Some st.
Proof.
  intros Hnone Hquiet. induction Hnone as [|line rest Hline _ IH];
    intros st Hstage Hsection; [reflexivity|].
  cbn [Rinex.read_lines]. unfold Rinex.read_line. rewrite Hstage.
  rewrite (Hquiet st line Hline Hsection). now apply IH.
Qed.

End Reading.

Lemma read_lines_app
    (at_loop : Rinex.ParserState -> Rinex.text -> option Rinex.ParserState)
    (pre rest : list Rinex.text) (st : Rinex.ParserState) :
  Rinex.read_lines stod at_loop (pre ++ rest) st
  = match Rinex.read_lines stod at_loop pre st with
    | None => None
    | Some st' => Rinex.read_lines stod at_loop rest st'
    end.
Proof.
  revert st. induction pre as [|line pre IH]; intros st; [reflexivity|].
  cbn [app Rinex.read_lines].
  destruct (Rinex.read_line stod at_loop st line); [apply IH | reflexivity].
Qed.

(** X21. [parse_gps_rinex2] and [parse_rinex3] throw exactly when the
    file cannot be opened, with the message naming the file; the
    [std::out_of_range] of [substr] never escapes. A file that opens gives
    a map with ascending keys whose entries are valid, have the parser's
    constellation, carry their key as [prn], and were keyed by the two
    characters at column 3 (RINEX 2) or column 1 (RINEX 3) of a line of the
    file that starts a record. *)
Theorem rinex_parsers_return_the_stored_records (filename : string)
    (type : ConstellationType) :
  match files filename with
  | None =>
      Rinex.parse_gps_rinex2 stod files filename
      = Rinex.Thrown
          (QuadGNSSException ("Cannot open RINEX file: " ++ filename))
      /\ Rinex.parse_rinex3 stod files filename type
         = Rinex.Thrown
             (QuadGNSSException ("Cannot open RINEX 3 file: " ++ filename))
  | Some lines =>
      (exists m,
         Rinex.parse_gps_rinex2 stod files filename = Rinex.Returned m
         /\ Rinex.ascending (map fst m)
         /\ Forall (Rinex.stored_entry GPS Rinex.starts_gps_record 3 lines) m)
      /\ (exists m,
            Rinex.parse_rinex3 stod files filename type = Rinex.Returned m
            /\ Rinex.ascending (map fst m)
            /\ Forall (Rinex.stored_entry type
                         (Rinex.starts_rinex3_record type) 1 lines) m)
  end.
Proof.
  unfold Rinex.parse_gps_rinex2, Rinex.parse_rinex3.
  destruct (files filename) as [lines|]; [|split; reflexivity]. split.
  - apply parse_file_keeps. intros st line Hstage.
    destruct (gps_rinex2_line_spec st line Hstage)
      as [st' [Heq [Hdata [Hsection Hnext]]]].
    exists st'. repeat split; try assumption; now apply Hsection.
  - apply parse_file_keeps. intros st line Hstage.
    destruct (rinex3_line_spec type st line Hstage)
      as [st' [Heq [Hdata [Hsection Hnext]]]].
    exists st'. repeat split; try assumption; now apply Hsection.
Qed.

Lemma gps_rinex2_line_before_header (st : Rinex.ParserState)
    (line : Rinex.text) :
  Rinex.contains Rinex.END_OF_HEADER line = false ->
  Rinex.in_ephemeris_section st = false ->
  Rinex.gps_rinex2_line stod st line = Some st.
Proof.
  intros Hline Hsection. unfold Rinex.gps_rinex2_line.
  now rewrite Hline, Hsection.
Qed.

Lemma rinex3_line_before_header (type : ConstellationType)
    (st : Rinex.ParserState) (line : Rinex.text) :
  Rinex.contains Rinex.END_OF_HEADER line = false ->
  Rinex.in_ephemeris_section st = false ->
  Rinex.rinex3_line stod type st line = Some st.
Proof.
  intros Hline Hsection. unfold Rinex.rinex3_line.
  now rewrite Hline, Hsection.
Qed.

(** X22. The lines of a file before the first line that contains
    [END OF HEADER] do not matter: the file parses as the same file
    without them, and a file without the marker parses to the empty map,
    whatever its lines hold. *)
Theorem lines_before_the_header_do_not_matter (whole cut : string)
    (pre rest : list Rinex.text) (type : ConstellationType) :
  files whole = Some (pre ++ rest) ->
  files cut = Some rest ->
  Forall (fun line => Rinex.contains Rinex.END_OF_HEADER line = false) pre ->
  Rinex.parse_gps_rinex2 stod files whole
  = Rinex.parse_gps_rinex2 stod files cut
  /\ Rinex.parse_rinex3 stod files whole type
     = Rinex.parse_rinex3 stod files cut type
  /\ (rest = [] ->
      Rinex.parse_gps_rinex2 stod files whole = Rinex.Returned []
      /\ Rinex.parse_rinex3 stod files whole type = Rinex.Returned []).
Proof.
  intros Hwhole Hcut Hpre.
  unfold Rinex.parse_gps_rinex2, Rinex.parse_rinex3, Rinex.parse_file.
  rewrite Hwhole, Hcut, !read_lines_app.
  rewrite (read_lines_before_header (Rinex.gps_rinex2_line stod) pre Hpre
             gps_rinex2_line_before_header Rinex.initial_state eq_refl eq_refl).
  rewrite (read_lines_before_header (Rinex.rinex3_line stod type) pre Hpre
             (rinex3_line_before_header type) Rinex.initial_state
             eq_refl eq_refl).
  split; [reflexivity|]. split; [reflexivity|].
  intros ->. split; reflexivity.
Qed.

(** X23. [parse_rinex3] keeps no record of a satellite whose number is
    written with a leading zero: for Galileo and BeiDou a line starts a
    record only with a digit from 1 to 9 in column 1, so that a file whose
    lines all have another character there gives the empty map; asked for
    GPS (or for no constellation) it gives the empty map for every
    file. *)
Theorem rinex3_skips_numbers_with_a_leading_zero (filename : string)
    (lines : list Rinex.text) (type : ConstellationType) :
  files filename = Some lines ->
  type = GPS \/ type = NONE
  \/ ((type = GALILEO \/ type = BEIDOU)
      /\ Forall (fun line => Rinex.is_1_to_9 (Rinex.char_at line 1) = false)
                lines) ->
  Rinex.parse_rinex3 stod files filename type = Rinex.Returned [].
Proof.
  intros Hfile Hcases. unfold Rinex.parse_rinex3, Rinex.parse_file.
  rewrite Hfile.
  assert (Hnone : Forall (fun line => Rinex.starts_rinex3_record type line
                                      = false) lines).
  { unfold Rinex.starts_rinex3_record.
    destruct Hcases as [-> | [-> | [Htype Hall]]].
    - apply Forall_forall. intros line _. cbn. apply andb_false_r.
    - apply Forall_forall. intros line _. cbn. apply andb_false_r.
    - eapply Forall_impl; [|exact Hall]. intros line Hline.
      assert (Hsecond : Rinex.char_at (Rinex.substr_at line 0 2) 1
                        = Rinex.char_at line 1
                        \/ (length (Rinex.substr_at line 0 2) < 2)%nat).
      { unfold Rinex.substr_at, Rinex.char_at. cbn.
        destruct line as [|c0 [|c1 line]]; cbn; auto. }
      assert (Htarget : Rinex.is_target_satellite type
                          (Rinex.substr_at line 0 2) = false).
      { destruct Hsecond as [Heq | Hshort].
        - destruct Htype as [-> | ->]; cbn [Rinex.is_target_satellite];
            unfold Rinex.is_galileo_satellite, Rinex.is_beidou_satellite;
            rewrite Heq, Hline; apply andb_false_r.
        - destruct Htype as [-> | ->]; cbn [Rinex.is_target_satellite];
            unfold Rinex.is_galileo_satellite, Rinex.is_beidou_satellite;
            replace (2 <=? length (Rinex.substr_at line 0 2))%nat with false
              by (symmetry; apply Nat.leb_gt; exact Hshort);
            reflexivity. }
      rewrite Htarget. apply andb_false_r. }
  destruct (read_lines_without_records (Rinex.rinex3_line stod type) type
              (Rinex.starts_rinex3_record type) 1) with (ls := lines)
              (st := Rinex.initial_state)
    as [st [-> [_ Hdata]]]; [| exact Hnone | reflexivity |].
  - intros st line Hstage.
    destruct (rinex3_line_spec type st line Hstage)
      as [st' [Heq [Hd [Hsection Hnext]]]].
    exists st'. repeat split; try assumption; now apply Hsection.
  - now rewrite Hdata.
Qed.

End RinexReader.

Lemma lines_before_the_header_do_not_matter_witness :
  Rinex.parse_gps_rinex2 RinexFiles.no_number
    (RinexFiles.two_files
       (firstn 1 RinexFiles.gps_header
        ++ skipn 1 RinexFiles.gps_header ++ RinexFiles.gps_1_and_2)
       (skipn 1 RinexFiles.gps_header ++ RinexFiles.gps_1_and_2))
    "whole"
  = Rinex.parse_gps_rinex2 RinexFiles.no_number
      (RinexFiles.two_files
         (firstn 1 RinexFiles.gps_header
          ++ skipn 1 RinexFiles.gps_header ++ RinexFiles.gps_1_and_2)
         (skipn 1 RinexFiles.gps_header ++ RinexFiles.gps_1_and_2))
      "cut"
  /\ Rinex.parse_rinex3 RinexFiles.no_number
       (RinexFiles.two_files
          (firstn 1 RinexFiles.gps_header
           ++ skipn 1 RinexFiles.gps_header ++ RinexFiles.gps_1_and_2)
          (skipn 1 RinexFiles.gps_header ++ RinexFiles.gps_1_and_2))
       "whole" GALILEO
     = Rinex.parse_rinex3 RinexFiles.no_number
         (RinexFiles.two_files
            (firstn 1 RinexFiles.gps_header
             ++ skipn 1 RinexFiles.gps_header ++ RinexFiles.gps_1_and_2)
            (skipn 1 RinexFiles.gps_header ++ RinexFiles.gps_1_and_2))
         "cut" GALILEO
  /\ (skipn 1 RinexFiles.gps_header ++ RinexFiles.gps_1_and_2 = [] ->
      Rinex.parse_gps_rinex2 RinexFiles.no_number
        (RinexFiles.two_files
           (firstn 1 RinexFiles.gps_header
            ++ skipn 1 RinexFiles.gps_header ++ RinexFiles.gps_1_and_2)
           (skipn 1 RinexFiles.gps_header ++ RinexFiles.gps_1_and_2))
        "whole"
      = Rinex.Returned []
      /\ Rinex.parse_rinex3 RinexFiles.no_number
           (RinexFiles.two_files
              (firstn 1 RinexFiles.gps_header
               ++ skipn 1 RinexFiles.gps_header ++ RinexFiles.gps_1_and_2)
              (skipn 1 RinexFiles.gps_header ++ RinexFiles.gps_1_and_2))
           "whole" GALILEO
         = Rinex.Returned []).
Proof.
  apply (lines_before_the_header_do_not_matter RinexFiles.no_number
           (RinexFiles.two_files
              (firstn 1 RinexFiles.gps_header
               ++ skipn 1 RinexFiles.gps_header ++ RinexFiles.gps_1_and_2)
              (skipn 1 RinexFiles.gps_header ++ RinexFiles.gps_1_and_2))
           "whole" "cut" (firstn 1 RinexFiles.gps_header)
           (skipn 1 RinexFiles.gps_header ++ RinexFiles.gps_1_and_2) GALILEO).
  - reflexivity.
  - reflexivity.
  - repeat (apply Forall_cons; [vm_compute; reflexivity|]). apply Forall_nil.
Defined.

Lemma rinex3_skips_numbers_with_a_leading_zero_witness :
  Rinex.parse_rinex3 RinexFiles.no_number
    (RinexFiles.only RinexFiles.galileo_e01) "galileo.nav" GALILEO
  = Rinex.Returned [].
Proof.
  apply (rinex3_skips_numbers_with_a_leading_zero RinexFiles.no_number
           (RinexFiles.only RinexFiles.galileo_e01) "galileo.nav"
           RinexFiles.galileo_e01 GALILEO eq_refl).
  right. right. split; [now left|].
  repeat (apply Forall_cons; [vm_compute; reflexivity|]). apply Forall_nil.
Defined.

(** ** Satellite numbers and keys in the RINEX reader *)

Section RinexNumbers.

Import Ascii.

Local Open Scope R_scope.

Variable stod : Rinex.text -> option R.
Variable files : string -> option (list Rinex.text).

Lemma eqb_other (c d : ascii) : c <> d -> Ascii.eqb c d = false.
Proof. intros Hne. now apply Ascii.eqb_neq. Qed.

(** What a decimal digit is not. *)
Lemma digit_facts (c : ascii) (a : Z) :
  Rinex.digit_value c = Some a ->
  (0 <= a <= 9)%Z
  /\ Rinex.isspace c = false
  /\ Ascii.eqb c " " = false
  /\ Ascii.eqb c "-" = false
  /\ Ascii.eqb c "+" = false.
Proof.
  unfold Rinex.digit_value, Rinex.isspace.
  destruct ((48 <=? nat_of_ascii c)%nat && (nat_of_ascii c <=? 57)%nat)
    eqn:Hdigit; [|discriminate].
  apply andb_true_iff in Hdigit. destruct Hdigit as [Hlo Hhi].
  apply Nat.leb_le in Hlo, Hhi. intros Heq. inversion Heq; subst a.
  split; [lia|]. split.
  - apply orb_false_iff. split; [apply Nat.eqb_neq; lia|].
    apply andb_false_iff. right. apply Nat.leb_gt. lia.
  - repeat split; apply eqb_other; intros ->; cbn in Hlo, Hhi; lia.
Qed.

Lemma trim_two_characters (c1 c2 : ascii) :
  Ascii.eqb c2 " " = false ->
  Rinex.trim [c1; c2] = if Ascii.eqb c1 " " then [c2] else [c1; c2].
Proof.
  intros H2. unfold Rinex.trim.
  cbn [Rinex.find_first_not_of Rinex.find_last_not_of]. rewrite H2.
  destruct (Ascii.eqb c1 " "); reflexivity.
Qed.

(** X26. [parse_int] reads a number written in two columns: two digits
    give ten times the first plus the second, a space and a digit give the
    digit; [parse_int] does not fail where there is no number or no text:
    it gives 0 for two spaces and for a position behind the end of the
    text. *)
Theorem parse_int_reads_two_columns (front back : Rinex.text)
    (c1 c2 : ascii) (a b : Z) :
  (Rinex.size front < 2 ^ 31)%Z ->
  Rinex.digit_value c1 = Some a ->
  Rinex.digit_value c2 = Some b ->
  Rinex.parse_int (front ++ c1 :: c2 :: back) (Rinex.size front) 2
  = (10 * a + b)%Z
  /\ Rinex.parse_int (front ++ " "%char :: c2 :: back) (Rinex.size front) 2 = b
  /\ Rinex.parse_int (front ++ " "%char :: " "%char :: back)
                     (Rinex.size front) 2 = 0%Z
  /\ Rinex.parse_int front (Rinex.size front + 1) 2 = 0%Z.
Proof.
  intros Hfront H1 H2.
  destruct (digit_facts c1 a H1) as [Ha [Hs1 [Hb1 [Hm1 Hp1]]]].
  destruct (digit_facts c2 b H2) as [Hb [Hs2 [Hb2 [Hm2 Hp2]]]].
  assert (Hpos : Rinex.to_size_t (Rinex.size front) = Rinex.size front).
  { unfold Rinex.to_size_t, Rinex.size in *. apply Z.mod_small. lia. }
  assert (Hsub : forall x y,
            Rinex.substr (front ++ x :: y :: back)
              (Rinex.to_size_t (Rinex.size front)) (Rinex.to_size_t 2)
            = Some [x; y]).
  { intros x y. rewrite Hpos. unfold Rinex.substr, Rinex.substr_at.
    replace (Rinex.size (front ++ x :: y :: back) <? Rinex.size front)%Z
      with false
      by (symmetry; apply Z.ltb_ge; unfold Rinex.size;
          rewrite length_app; lia).
    unfold Rinex.size. rewrite Nat2Z.id, skipn_app, Nat.sub_diag.
    rewrite skipn_all2 by lia. reflexivity. }
  unfold Rinex.parse_int. rewrite !Hsub.
  split; [|split; [|split]].
  - rewrite (trim_two_characters c1 c2 Hb2), Hb1.
    unfold Rinex.stoi. cbn [Rinex.skip_spaces]. rewrite Hs1, Hm1, Hp1.
    cbn [Rinex.read_digits]. rewrite H1, H2. cbn [negb].
    replace ((- 2 ^ 31 <=? 10 * (10 * 0 + a) + b)
             && (10 * (10 * 0 + a) + b <=? 2 ^ 31 - 1))%Z with true
      by (symmetry; apply andb_true_iff; split; apply Z.leb_le; lia).
    lia.
  - rewrite (trim_two_characters " " c2 Hb2). cbn [Ascii.eqb Bool.eqb].
    unfold Rinex.stoi. cbn [Rinex.skip_spaces]. rewrite Hs2, Hm2, Hp2.
    cbn [Rinex.read_digits]. rewrite H2. cbn [negb].
    replace ((- 2 ^ 31 <=? 10 * 0 + b) && (10 * 0 + b <=? 2 ^ 31 - 1))%Z
      with true
      by (symmetry; apply andb_true_iff; split; apply Z.leb_le; lia).
    lia.
  - reflexivity.
  - unfold Rinex.substr.
    replace (Rinex.size front <? Rinex.to_size_t (Rinex.size front + 1))%Z
      with true; [reflexivity|].
    symmetry. apply Z.ltb_lt. unfold Rinex.to_size_t, Rinex.size in *.
    rewrite Z.mod_small; lia.
Qed.

Lemma parse_int_reads_two_columns_witness :
  Rinex.parse_int (list_ascii_of_string "G12 2024") 1 2 = 12%Z
  /\ Rinex.parse_int (list_ascii_of_string "G 2 2024") 1 2 = 2%Z
  /\ Rinex.parse_int (list_ascii_of_string "G   2024") 1 2 = 0%Z
  /\ Rinex.parse_int (list_ascii_of_string "G") 2 2 = 0%Z.
Proof.
  apply (parse_int_reads_two_columns (list_ascii_of_string "G")
           (list_ascii_of_string " 2024") "1" "2" 1 2).
  - vm_compute. reflexivity.
  - reflexivity.
  - reflexivity.
Defined.

(** *** The records of a GPS file *)

Lemma parse_int_of_long_line (line : Rinex.text) :
  Rinex.starts_gps_record line = true ->
  Rinex.parse_int line 3 2
  = match Rinex.stoi (Rinex.trim (Rinex.substr_at line 3 2)) with
    | Some v => v
    | None => 0%Z
    end.
Proof.
  unfold Rinex.starts_gps_record. intros Hstart.
  apply andb_true_iff in Hstart. destruct Hstart as [Hlong _].
  apply Z.ltb_lt in Hlong. unfold Rinex.parse_int, Rinex.substr.
  change (Rinex.to_size_t 3) with 3%Z. change (Rinex.to_size_t 2) with 2%Z.
  replace (Rinex.size line <? 3)%Z with false
    by (symmetry; apply Z.ltb_ge; lia).
  reflexivity.
Qed.

(** X27. The key of a GPS record is the number in columns 3 and 4 of its
    first line, while the test for a record looks at columns 0 to 2: a
    file whose records agree in columns 3 and 4 gives a map of at most one
    entry, however many records it holds. *)
Theorem gps_records_are_keyed_by_columns_3_and_4 (filename : string)
    (lines : list Rinex.text) :
  files filename = Some lines ->
  (forall first other : Rinex.text,
     In first lines -> In other lines ->
     Rinex.starts_gps_record first = true ->
     Rinex.starts_gps_record other = true ->
     Rinex.substr_at first 3 2 = Rinex.substr_at other 3 2) ->
  exists m,
    Rinex.parse_gps_rinex2 stod files filename = Rinex.Returned m
    /\ (length m <= 1)%nat
    /\ forall entry, In entry m ->
         exists line,
           In line lines /\ Rinex.starts_gps_record line = true
           /\ fst entry = Rinex.parse_int line 3 2.
Proof.
  intros Hfile Hsame. unfold Rinex.parse_gps_rinex2. rewrite Hfile.
  destruct (parse_file_keeps stod (Rinex.gps_rinex2_line stod) GPS
              Rinex.starts_gps_record 3
              (gps_rinex2_line_spec stod) lines)
    as [m [Heq [Hasc Hall]]].
  exists m. split; [exact Heq|]. rewrite Forall_forall in Hall. split.
  - destruct m as [|[k1 r1] [|[k2 r2] m]]; cbn [length]; try lia.
    exfalso. destruct Hasc as [Hlt _].
    destruct (Hall (k1, r1) ltac:(now left)) as [_ [_ [_ [l1 [Hin1 [Hs1 Hk1]]]]]].
    destruct (Hall (k2, r2) ltac:(right; now left))
      as [_ [_ [_ [l2 [Hin2 [Hs2 Hk2]]]]]].
    cbn [fst] in *.
    rewrite (parse_int_of_long_line l1 Hs1) in Hk1.
    rewrite (parse_int_of_long_line l2 Hs2) in Hk2.
    rewrite (Hsame l1 l2 Hin1 Hin2 Hs1 Hs2) in Hk1. lia.
  - intros entry Hentry. destruct (Hall entry Hentry) as [_ [_ [_ Hline]]].
    exact Hline.
Qed.

Lemma is_gps_satellite_of_two_characters (c0 c1 : ascii)
    (tail : Rinex.text) :
  c0 <> " "%char -> c1 <> " "%char -> c0 <> "G"%char ->
  Rinex.is_gps_satellite (Rinex.trim (Rinex.substr_at (c0 :: c1 :: tail) 0 3))
  = false.
Proof.
  intros H0 H1 HG.
  apply eqb_other in H0, H1, HG.
  assert (Htrim : exists rest,
            Rinex.trim (Rinex.substr_at (c0 :: c1 :: tail) 0 3)
            = c0 :: c1 :: rest
            /\ Rinex.trim (c0 :: c1 :: rest) = c0 :: c1 :: rest).
  { unfold Rinex.substr_at. cbn [Z.to_nat skipn].
    change (Pos.to_nat 3) with 3%nat. cbn [firstn].
    destruct tail as [|c2 tail]; cbn [firstn].
    - exists []. unfold Rinex.trim.
      cbn [Rinex.find_first_not_of Rinex.find_last_not_of].
      rewrite H0, H1. split; reflexivity.
    - destruct (Ascii.eqb c2 " ") eqn:H2.
      + exists []. unfold Rinex.trim.
        cbn [Rinex.find_first_not_of Rinex.find_last_not_of].
        rewrite H0, H1, H2. split; reflexivity.
      + exists [c2]. unfold Rinex.trim.
        cbn [Rinex.find_first_not_of Rinex.find_last_not_of].
        rewrite H0, H1, H2. split; reflexivity. }
  destruct Htrim as [rest [-> Hagain]].
  unfold Rinex.is_gps_satellite. rewrite Hagain.
  unfold Rinex.char_at. cbn [nth length]. rewrite HG.
  rewrite andb_false_r. reflexivity.
Qed.

(** X28. [parse_gps_rinex2] takes a line for the start of a record only
    when columns 0 to 2 hold a single digit from 1 to 9 (or begin with G
    and such a digit): a file in which every line is short, begins with
    three spaces, or carries two characters that are not spaces in columns
    0 and 1, as the satellite numbers from 10 on do, gives the empty
    map. *)
Theorem gps_rinex2_skips_numbers_of_two_characters (filename : string)
    (lines : list Rinex.text) :
  files filename = Some lines ->
  Forall (fun line =>
            (Rinex.size line <= 68)%Z
            \/ firstn 3 line = [" "%char; " "%char; " "%char]
            \/ exists c0 c1 tail,
                 line = c0 :: c1 :: tail
                 /\ c0 <> " "%char /\ c1 <> " "%char /\ c0 <> "G"%char)
         lines ->
  Rinex.parse_gps_rinex2 stod files filename = Rinex.Returned [].
Proof.
  intros Hfile Hlines. unfold Rinex.parse_gps_rinex2, Rinex.parse_file.
  rewrite Hfile.
  assert (Hnone : Forall (fun line => Rinex.starts_gps_record line = false)
                         lines).
  { eapply Forall_impl; [|exact Hlines]. intros line Hline.
    unfold Rinex.starts_gps_record.
    destruct Hline as [Hshort | [Hspaces | [c0 [c1 [tail [-> [H0 [H1 HG]]]]]]]].
    - replace (68 <? Rinex.size line)%Z with false
        by (symmetry; apply Z.ltb_ge; lia).
      reflexivity.
    - unfold Rinex.substr_at. cbn [Z.to_nat skipn].
      change (Pos.to_nat 3) with 3%nat. rewrite Hspaces.
      apply andb_false_r.
    - rewrite (is_gps_satellite_of_two_characters c0 c1 tail H0 H1 HG).
      apply andb_false_r. }
  destruct (read_lines_without_records stod (Rinex.gps_rinex2_line stod) GPS
              Rinex.starts_gps_record 3
              (gps_rinex2_line_spec stod) lines Hnone
              Rinex.initial_state eq_refl)
    as [st [-> [_ Hdata]]].
  now rewrite Hdata.
Qed.

End RinexNumbers.

Lemma gps_records_are_keyed_by_columns_3_and_4_witness :
  exists m,
    Rinex.parse_gps_rinex2 RinexFiles.no_number
      (RinexFiles.only (RinexFiles.gps_header ++ RinexFiles.gps_1_and_2))
      "gps.nav"
    = Rinex.Returned m
    /\ (length m <= 1)%nat
    /\ forall entry, In entry m ->
         exists line,
           In line (RinexFiles.gps_header ++ RinexFiles.gps_1_and_2)
           /\ Rinex.starts_gps_record line = true
           /\ fst entry = Rinex.parse_int line 3 2.
Proof.
  apply (gps_records_are_keyed_by_columns_3_and_4 RinexFiles.no_number
           (RinexFiles.only (RinexFiles.gps_header ++ RinexFiles.gps_1_and_2))
           "gps.nav" (RinexFiles.gps_header ++ RinexFiles.gps_1_and_2)).
  - unfold RinexFiles.only. exact eq_refl.
  - assert (Hyear : Forall (fun line =>
                              Rinex.starts_gps_record line = true ->
                              Rinex.substr_at line 3 2 = list_ascii_of_string "24")
                           (RinexFiles.gps_header ++ RinexFiles.gps_1_and_2)).
    { repeat (apply Forall_cons;
              [vm_compute; intros Hstart;
               first [reflexivity | discriminate Hstart]|]).
      apply Forall_nil. }
    rewrite Forall_forall in Hyear.
    intros first other Hfirst Hother Hs1 Hs2.
    now rewrite (Hyear first Hfirst Hs1), (Hyear other Hother Hs2).
Defined.

Lemma gps_rinex2_skips_numbers_of_two_characters_witness :
  Rinex.parse_gps_rinex2 RinexFiles.no_number
    (RinexFiles.only (RinexFiles.gps_header ++ RinexFiles.gps_12_and_31))
    "gps.nav"
  = Rinex.Returned [].
Proof.
  apply (gps_rinex2_skips_numbers_of_two_characters RinexFiles.no_number
           (RinexFiles.only (RinexFiles.gps_header ++ RinexFiles.gps_12_and_31))
           "gps.nav" (RinexFiles.gps_header ++ RinexFiles.gps_12_and_31)).
  - unfold RinexFiles.only. exact eq_refl.
  - repeat (apply Forall_cons;
            [first [right; left; reflexivity
                   | right; right; eexists; eexists; eexists;
                     split; [reflexivity|];
                     repeat split; discriminate]|]).
    apply Forall_nil.
Defined.
